(** * pywin32-mcp: Excel and PowerPoint tool servers

    A shallow embedding of the three servers of the repository

    - [mcp_excel_server_win32.py]      (module [Excel]),
    - [mcp_powerpoint_server_win32.py] (module [PowerPoint]),
    - [mcp_powerpoint_server.py]       (module [Pptx]),

    and the properties of their connection guards, identifier resolvers,
    used-range and label/value analysers, document cache, element registry
    and tool wrappers.

    Conventions of the embedding.
    - Python [int] is [Z]; [float] is an IEEE 754 value, [spec_float]; [str]
      is [string], a character standing for its code point: the texts
      covered are those of characters below 256 (Latin-1), on which
      [lower], [isdigit], [strip] and [int] act as Python does.
    - A method of an editor object is a computation [M St A]: a function from
      the object's state to an outcome (a returned value or a raised
      exception) and the new state.  [print] calls have no effect on either
      and are left out.
    - A COM collection is a list, indexed from 1 as COM does.  COM objects
      that the code only reads are held by value.  Reading or setting a
      property of an application, workbook or shape succeeds; the calls that
      can fail are the ones the source provides for: reading [Version] (the
      probe of the connection guards), asking a collection for an item, and
      asking a sheet for a cell. *)

From Stdlib Require Import ZArith List String Ascii Bool Lia SpecFloat.
From stdpp Require Import base gmap strings list pretty.

Open Scope string_scope.
Open Scope list_scope.
Open Scope Z_scope.

(* ================================================================== *)
(** * Python prelude *)
(* ================================================================== *)

Module Py.

(** ** Exceptions and outcomes *)

Inductive exn : Type :=
| ConnectionError (msg : string)
| ValueError (msg : string)
| TypeError (msg : string)
| AttributeError (msg : string)
| IndexError (msg : string)
| NameError (name : string)
| KeyError (key : string)
| OSError (errno : Z) (strerror filename : string)
| com_error (hresult : Z) (msg : string).

Inductive outcome (A : Type) : Type :=
| Return (a : A)
| Raise (e : exn).
Arguments Return {A} a.
Arguments Raise {A} e.

(** ** Computations over an object's state *)

Definition M (St A : Type) : Type := St -> outcome A * St.

Definition ret {St A} (a : A) : M St A := fun s => (Return a, s).
Definition raise {St A} (e : exn) : M St A := fun s => (Raise e, s).
Definition bind {St A B} (c : M St A) (k : A -> M St B) : M St B :=
  fun s => match c s with
           | (Return a, s') => k a s'
           | (Raise e, s') => (Raise e, s')
           end.
Definition get {St} : M St St := fun s => (Return s, s).
Definition put {St} (s : St) : M St unit := fun _ => (Return tt, s).
Definition lift {St A} (o : outcome A) : M St A := fun s => (o, s).

(** [try: c  except Exception as e: h e] *)
Definition try_except {St A} (c : M St A) (h : exn -> M St A) : M St A :=
  fun s => match c s with
           | (Return a, s') => (Return a, s')
           | (Raise e, s') => h e s'
           end.

(** [try: c  finally: f].  When [f] raises, its exception replaces the
    outcome of [c]. *)
Definition try_finally {St A} (c : M St A) (f : M St unit) : M St A :=
  fun s => match c s with
           | (r, s') => match f s' with
                        | (Return _, s'') => (r, s'')
                        | (Raise e, s'') => (Raise e, s'')
                        end
           end.

Declare Scope py_scope.
Delimit Scope py_scope with py.
Notation "x <- c ;; k" := (bind c (fun x => k))
  (at level 100, c at next level, right associativity) : py_scope.
Notation "c ;; k" := (bind c (fun _ => k))
  (at level 100, right associativity) : py_scope.

Open Scope py_scope.

(** A [for] loop whose body may [return]: the body yields [Some b] to return
    [b] from the enclosing function and [None] to go on. *)
Fixpoint for_return {St A B} (l : list A) (body : A -> M St (option B))
  : M St (option B) :=
  match l with
  | [] => ret None
  | x :: l' =>
      r <- body x ;;
      match r with
      | Some b => ret (Some b)
      | None => for_return l' body
      end
  end.

(** Loops that accumulate a result; the body says whether the loop goes on
    ([continue], or the end of the body) or stops ([break]). *)
Inductive flow (B : Type) : Type :=
| Continue (b : B)
| Break (b : B).
Arguments Continue {B} b.
Arguments Break {B} b.

Fixpoint for_loop {St A B} (l : list A) (acc : B)
  (body : B -> A -> M St (flow B)) : M St B :=
  match l with
  | [] => ret acc
  | x :: l' =>
      r <- body acc x ;;
      match r with
      | Continue b => for_loop l' b body
      | Break b => ret b
      end
  end.

(** [range(lo, hi)] *)
Definition range (lo hi : Z) : list Z :=
  map (fun k => lo + Z.of_nat k) (seq 0 (Z.to_nat (hi - lo))).

(** [enumerate(l)] *)
Definition enumerate {A} (l : list A) : list (Z * A) :=
  combine (map Z.of_nat (seq 0 (length l))) l.

(** ** Strings *)

Fixpoint string_map (f : ascii -> ascii) (s : string) : string :=
  match s with
  | EmptyString => EmptyString
  | String c s' => String (f c) (string_map f s')
  end.

Fixpoint string_forallb (p : ascii -> bool) (s : string) : bool :=
  match s with
  | EmptyString => true
  | String c s' => p c && string_forallb p s'
  end.

Fixpoint string_existsb (p : ascii -> bool) (s : string) : bool :=
  match s with
  | EmptyString => false
  | String c s' => p c || string_existsb p s'
  end.

Fixpoint string_concat_map (f : ascii -> string) (s : string) : string :=
  match s with
  | EmptyString => EmptyString
  | String c s' => f c +:+ string_concat_map f s'
  end.

(** [repr(s)]: the text in quotes, double ones when it holds a single quote
    and no double one; the quote in use and the backslash are escaped, and
    so are the characters that do not print (the controls, 127 to 160 and
    173), tab, newline and return by their letters and the others by their
    code in hexadecimal. *)
Definition double_quote : ascii := ascii_of_nat 34.

Definition hex_digit (n : nat) : ascii :=
  ascii_of_nat (if Nat.ltb n 10 then 48 + n else 87 + n).

Definition repr_char (quote c : ascii) : string :=
  let n := nat_of_ascii c in
  if Ascii.eqb c quote || Nat.eqb n 92 then String (ascii_of_nat 92) (String c "")
  else if Nat.eqb n 9 then "\t"
  else if Nat.eqb n 10 then "\n"
  else if Nat.eqb n 13 then "\r"
  else if Nat.ltb n 32 || (Nat.leb 127 n && Nat.leb n 160) || Nat.eqb n 173
  then "\x" +:+ String (hex_digit (n / 16)) (String (hex_digit (n mod 16)) "")
  else String c "".

Definition repr (s : string) : string :=
  let quote :=
    if string_existsb (Ascii.eqb "'") s
       && negb (string_existsb (Ascii.eqb double_quote) s)
    then double_quote else "'"%char in
  String quote (string_concat_map (repr_char quote) s) +:+ String quote "".

(** [str(e)]; the text of a [KeyError] is the [repr] of its key. *)
Definition str_exn (e : exn) : string :=
  match e with
  | ConnectionError m | ValueError m | TypeError m
  | AttributeError m | IndexError m => m
  | NameError n => "name '" +:+ n +:+ "' is not defined"
  | KeyError k => repr k
  | OSError errno strerror filename =>
      "[Errno " +:+ pretty errno +:+ "] " +:+ strerror +:+ ": " +:+ repr filename
  | com_error _ m => m
  end.

(** The capital letters below 256 are [A] to [Z] and the codes 192 to 222
    but for 215, the multiplication sign; each has its small letter 32
    further on. *)
Definition lower_char (c : ascii) : ascii :=
  let n := nat_of_ascii c in
  if (Nat.leb 65 n && Nat.leb n 90)
     || (Nat.leb 192 n && Nat.leb n 222 && negb (Nat.eqb n 215))
  then ascii_of_nat (n + 32) else c.

(** [s.lower()] *)
Definition lower (s : string) : string := string_map lower_char s.

(** Truth value of a string: [if s:] *)
Definition truthy (s : string) : bool :=
  match s with EmptyString => false | _ => true end.

(** A decimal digit, [0] to [9]. *)
Definition is_decimal (c : ascii) : bool :=
  let n := nat_of_ascii c in Nat.leb 48 n && Nat.leb n 57.

(** A character that [str.isdigit] accepts: a decimal digit, or one of the
    superscript digits two, three and one (codes 178, 179 and 185). *)
Definition is_digit (c : ascii) : bool :=
  let n := nat_of_ascii c in
  is_decimal c || Nat.eqb n 178 || Nat.eqb n 179 || Nat.eqb n 185.

(** [s.isdigit()]: non-empty and made of digits only *)
Definition isdigit (s : string) : bool :=
  match s with
  | EmptyString => false
  | _ => string_forallb is_digit s
  end.

Fixpoint int_from (acc : Z) (s : string) : Z :=
  match s with
  | EmptyString => acc
  | String c s' => int_from (10 * acc + (Z.of_nat (nat_of_ascii c) - 48)) s'
  end.

(** [sys.get_int_max_str_digits()], as the interpreter starts *)
Definition max_str_digits : Z := 4300.

(** The blanks [int] passes over at both ends of a text: the ASCII blanks
    and, of the others, those that [str.isspace] accepts. *)
Definition is_int_space (c : ascii) : bool :=
  let n := nat_of_ascii c in
  (Nat.leb 9 n && Nat.leb n 13) || Nat.eqb n 32 || Nat.eqb n 133
  || Nat.eqb n 160.

Fixpoint skip_spaces (s : string) : string :=
  match s with
  | String c s' => if is_int_space c then skip_spaces s' else s
  | EmptyString => s
  end.

(** The run of digits and underscores a text begins with: the number of
    its digits, their value after [value], and what follows the run;
    nothing when two underscores meet or the run ends in one. *)
Fixpoint scan_digits (s : string) (after_underscore : bool) (digits : nat)
  (value : Z) : option (nat * Z * string) :=
  match s with
  | String c s' =>
      if is_decimal c
      then scan_digits s' false (S digits)
             (10 * value + (Z.of_nat (nat_of_ascii c) - 48))
      else if Ascii.eqb c "_"
      then if after_underscore then None else scan_digits s' true digits value
      else if after_underscore then None else Some (digits, value, s)
  | EmptyString => if after_underscore then None else Some (digits, value, s)
  end.

(** A sign at the front, and what follows it. *)
Definition signed (s : string) : bool * string :=
  match s with
  | String c s' =>
      if Ascii.eqb c "+" then (false, s')
      else if Ascii.eqb c "-" then (true, s')
      else (false, s)
  | EmptyString => (false, s)
  end.

Definition starts_with_underscore (s : string) : bool :=
  match s with
  | String c _ => Ascii.eqb c "_"
  | EmptyString => false
  end.

(** [int(s)], in base 10: blanks, a sign, digits that single underscores
    may separate, blanks.  A superscript digit is no decimal digit, and a
    conversion of more than [max_str_digits] digits is refused (CPython
    3.11, which counts the digits before it looks at what follows them);
    the text is shown in the message as [repr] shows it, cut after 200
    characters. *)
Definition int (s : string) : outcome Z :=
  let invalid :=
    Raise (ValueError ("invalid literal for int() with base 10: "
                       +:+ substring 0 200 (repr s))) in
  let '(negative, body) := signed (skip_spaces s) in
  if starts_with_underscore body then invalid
  else
    match scan_digits body false 0 0 with
    | None => invalid
    | Some (digits, value, rest) =>
        if max_str_digits <? Z.of_nat digits then
          Raise (ValueError
            ("Exceeds the limit (4300 digits) for integer string conversion: "
             +:+ "value has " +:+ pretty (Z.of_nat digits)
             +:+ " digits; use sys.set_int_max_str_digits() to increase the limit"))
        else if Nat.eqb digits 0 then invalid
        else if truthy (skip_spaces rest) then invalid
        else Return (if negative then - value else value)
    end.

(** Whitespace as [str.strip] sees it: the control characters 9 to 13 and
    28 to 31, the space, the next-line control (133) and the no-break
    space (160). *)
Definition is_space (c : ascii) : bool :=
  let n := nat_of_ascii c in
  (Nat.leb 9 n && Nat.leb n 13) || (Nat.leb 28 n && Nat.leb n 32)
  || Nat.eqb n 133 || Nat.eqb n 160.

Fixpoint lstrip (s : string) : string :=
  match s with
  | EmptyString => EmptyString
  | String c s' => if is_space c then lstrip s' else s
  end.

Fixpoint string_rev_onto (acc s : string) : string :=
  match s with
  | EmptyString => acc
  | String c s' => string_rev_onto (String c acc) s'
  end.

Definition string_rev (s : string) : string := string_rev_onto EmptyString s.

Definition rstrip (s : string) : string := string_rev (lstrip (string_rev s)).

(** [s.strip()] *)
Definition strip (s : string) : string := rstrip (lstrip s).

(** [needle in haystack] *)
Definition contains (needle haystack : string) : bool :=
  match String.index 0 needle haystack with Some _ => true | None => false end.

(** [s.endswith(suffix)] *)
Definition endswith (suffix s : string) : bool :=
  String.prefix (string_rev suffix) (string_rev s).

(** [l[i]] with Python's negative indices *)
Definition getitem {A} (l : list A) (i : Z) : outcome A :=
  let n := Z.of_nat (length l) in
  let j := if 0 <=? i then i else n + i in
  if (0 <=? j) && (j <? n)
  then match nth_error l (Z.to_nat j) with
       | Some x => Return x
       | None => Raise (IndexError "list index out of range")
       end
  else Raise (IndexError "list index out of range").

(** An argument that a caller may pass as [int] or as [str]. *)
Inductive int_or_str : Type :=
| Int (n : Z)
| Str (s : string).

(** An identifier as an f-string shows it. *)
Definition show (v : int_or_str) : string :=
  match v with
  | Int n => pretty n
  | Str s => s
  end.

(** ** Floats and dynamically typed values *)

(** A [float] is a binary64 number in canonical form; [float_of m e] is the
    one nearest to [m * 2^e]. *)
Definition float_of (m e : Z) : spec_float := binary_normalize 53 1024 m e false.

(** [float(n)] for an integer below [2^1024] in size: the float nearest to
    it. *)
Definition float_of_int (n : Z) : spec_float := float_of n 0.

(** [int(x)] for a finite float: the fraction is cut off. *)
Definition int_of_float (x : spec_float) : Z :=
  match x with
  | S754_finite s m e =>
      let n := if 0 <=? e then Z.pos m * 2 ^ e else Z.pos m / 2 ^ (- e) in
      if s then - n else n
  | _ => 0
  end.

(** [s.startswith(prefix)] *)
Definition startswith (prefix s : string) : bool := String.prefix prefix s.

(** A value whose type is known only when the program runs: what a cell or
    a range hands out, or what a caller passes for [Any].  A currency
    amount arrives as a [Decimal] (held with what [float] makes of it), a
    date as a time object. *)
#[warnings="-register-all"]
Inductive PyValue : Type :=
| PNone
| PStr (s : string)
| PInt (n : Z)
| PFloat (x : spec_float)
| PBool (b : bool)
| PDecimal (as_float : spec_float)
| PTime (t : Z)
| PTuple (items : list PyValue).

(** The name of the type of [v], as error messages show it *)
Definition type_name (v : PyValue) : string :=
  match v with
  | PNone => "NoneType"
  | PStr _ => "str"
  | PInt _ => "int"
  | PFloat _ => "float"
  | PBool _ => "bool"
  | PDecimal _ => "decimal.Decimal"
  | PTime _ => "pywintypes.datetime"
  | PTuple _ => "tuple"
  end.

(** Truth value: [if v:] *)
Definition py_truthy (v : PyValue) : bool :=
  match v with
  | PNone => false
  | PStr s => truthy s
  | PInt n => negb (n =? 0)
  | PFloat x | PDecimal x => negb (SFeqb x (S754_zero false))
  | PBool b => b
  | PTime _ => true
  | PTuple items => match items with [] => false | _ => true end
  end.

(** [list(v)], and what a loop over [v] goes through: the items of a tuple,
    the characters of a text *)
Definition list_of (v : PyValue) : outcome (list PyValue) :=
  match v with
  | PTuple items => Return items
  | PStr s => Return (map (fun c => PStr (String c "")) (list_ascii_of_string s))
  | _ => Raise (TypeError ("'" +:+ type_name v +:+ "' object is not iterable"))
  end.

(** A list comprehension whose expression may raise. *)
Fixpoint outcome_map {A B} (f : A -> outcome B) (l : list A)
  : outcome (list B) :=
  match l with
  | [] => Return []
  | x :: l' =>
      match f x with
      | Return y =>
          match outcome_map f l' with
          | Return ys => Return (y :: ys)
          | Raise e => Raise e
          end
      | Raise e => Raise e
      end
  end.

(** [v[i]] *)
Definition subscript (v : PyValue) (i : Z) : outcome PyValue :=
  match v with
  | PTuple items =>
      match getitem items i with
      | Return x => Return x
      | Raise _ => Raise (IndexError "tuple index out of range")
      end
  | PStr s =>
      let n := Z.of_nat (String.length s) in
      let j := if 0 <=? i then i else n + i in
      if (0 <=? j) && (j <? n)
      then Return (PStr (substring (Z.to_nat j) 1 s))
      else Raise (IndexError "string index out of range")
  | _ => Raise (TypeError ("'" +:+ type_name v +:+ "' object is not subscriptable"))
  end.

End Py.

Import Py.
Open Scope py_scope.

(* ================================================================== *)
(** * COM automation *)
(* ================================================================== *)

Module Com.

(** Number of items of a collection: [c.Count] *)
Definition Count {A} (c : list A) : Z := Z.of_nat (length c).

(** [c(i)]: the item at 1-based position [i]; COM fails on a bad index. *)
Definition Item {A} (c : list A) (i : Z) : outcome A :=
  if 1 <=? i
  then match nth_error c (Z.to_nat (i - 1)) with
       | Some x => Return x
       | None => Raise (com_error (-2147352565) "Invalid index.")
       end
  else Raise (com_error (-2147352565) "Invalid index.").

(** [c(name)]: the first item of that name; COM compares names without
    regard to case and fails when there is none. *)
Definition ItemByName {A} (name_of : A -> string) (c : list A) (name : string)
  : outcome A :=
  match find (fun x => String.eqb (lower (name_of x)) (lower name)) c with
  | Some x => Return x
  | None => Raise (com_error (-2147352565) "Invalid index.")
  end.

(** What the desktop offers when the server asks for an application:
    [win32com.client.GetActiveObject] finds a running instance, fails with
    [pywintypes.com_error] when none runs, or fails otherwise;
    [win32com.client.Dispatch] launches one or fails. *)
Inductive GetActiveObject_result (App : Type) : Type :=
| Running (a : App)
| NotRunning
| Failed.
Arguments Running {App} a.
Arguments NotRunning {App}.
Arguments Failed {App}.

Inductive Dispatch_result (App : Type) : Type :=
| Launched (a : App)
| LaunchFailed.
Arguments Launched {App} a.
Arguments LaunchFailed {App}.

Record Desktop (App : Type) : Type := {
  GetActiveObject : GetActiveObject_result App;
  Dispatch : Dispatch_result App
}.
Arguments GetActiveObject {App} d.
Arguments Dispatch {App} d.

(** The state of an editor object: the cached application handle
    ([self.app], [None] when absent), what the desktop will answer to the
    n-th connection attempt, and how many attempts were made so far. *)
Record Editor (App : Type) : Type := {
  app : option App;
  desktop : nat -> Desktop App;
  connects : nat
}.
Arguments app {App} e.
Arguments desktop {App} e.
Arguments connects {App} e.

Definition set_app {App} (o : option App) (s : Editor App) : Editor App :=
  {| app := o; desktop := desktop s; connects := connects s |}.

(** The next answer of the desktop; the attempt is counted. *)
Definition next_desktop {App} : M (Editor App) (Desktop App) :=
  fun s => (Return (desktop s (connects s)),
            {| app := app s; desktop := desktop s; connects := S (connects s) |}).

(** [self.app.<attr>]: fails on [None]. *)
Definition self_app {App} : M (Editor App) App :=
  fun s => match app s with
           | Some a => (Return a, s)
           | None => (Raise (AttributeError "'NoneType' object has no attribute"), s)
           end.

End Com.

Import Com.

(** What a tool hands back to the protocol layer: a dictionary with an
    ["error"] string, a dictionary carrying a result under some key, or one
    carrying a ["message"] and a result under some key. *)
Inductive payload (A : Type) : Type :=
| Error (error : string)
| Result (key : string) (a : A)
| Message_and_result (message key : string) (a : A).
Arguments Error {A} error.
Arguments Result {A} key a.
Arguments Message_and_result {A} message key a.

(* ================================================================== *)
(** * mcp_excel_server_win32.py *)
(* ================================================================== *)

Module Excel.

(** ** The Excel object model, as far as the server reads it *)

(** A cell's [Value] as pywin32 delivers it. *)
Inductive CellValue : Type :=
| VNone
| VStr (s : string)
| VInt (n : Z)
| VFloat (x : spec_float)
| VBool (b : bool)
| VDecimal (amount : spec_float)   (* a currency amount, a [decimal.Decimal] *)
| VOther.                          (* dates and the like *)

(** An [Address]: COM renders it as text ([$B$3], [$A$1:$C$5]); the model
    keeps the coordinates. *)
Inductive address : Type :=
| CellAt (row col : Z)
| Span (first last : address).

(** A rectangular range: its first row and column and its cells, row by
    row. *)
Record Range : Type := {
  Row : Z;
  Column : Z;
  values : list (list CellValue)
}.

Definition Rows_Count (r : Range) : Z := Z.of_nat (length (values r)).
Definition Columns_Count (r : Range) : Z :=
  Z.of_nat (length (hd [] (values r))).

Definition Range_Address (r : Range) : address :=
  match values r with
  | [[_]] => CellAt (Row r) (Column r)
  | _ => Span (CellAt (Row r) (Column r))
              (CellAt (Row r + Rows_Count r - 1) (Column r + Columns_Count r - 1))
  end.

(** [Range.Value]: the bare value for a single cell, a tuple of row tuples
    otherwise.  The server also provides for a row that is not a tuple. *)
Inductive RowValue : Type :=
| RowTuple (cells : list CellValue)
| RowScalar (v : CellValue).

Inductive RangeValue : Type :=
| Scalar (v : CellValue)
| Tuple (rows : list RowValue).

Definition Range_Value (r : Range) : RangeValue :=
  match values r with
  | [[v]] => Scalar v
  | rows => Tuple (map RowTuple rows)
  end.

(** A worksheet.  [UsedRange] is [None] when the object the sheet hands out
    is falsy; cells outside the used range are empty. *)
Record Worksheet : Type := {
  ws_Name : string;
  ws_Index : Z;
  UsedRange : option Range
}.

Definition max_row : Z := 1048576.
Definition max_col : Z := 16384.

Definition value_at (ws : Worksheet) (r c : Z) : CellValue :=
  match UsedRange ws with
  | None => VNone
  | Some ur =>
      let i := r - Row ur in
      let j := c - Column ur in
      if (0 <=? i) && (0 <=? j)
      then match nth_error (values ur) (Z.to_nat i) with
           | Some row => nth (Z.to_nat j) row VNone
           | None => VNone
           end
      else VNone
  end.

Record Cell : Type := {
  Value : CellValue;
  Address : address
}.

(** [ws.Cells(r, c)]: COM fails outside the sheet. *)
Definition Cells (ws : Worksheet) (r c : Z) : outcome Cell :=
  if (1 <=? r) && (r <=? max_row) && (1 <=? c) && (c <=? max_col)
  then Return {| Value := value_at ws r c; Address := CellAt r c |}
  else Raise (com_error (-2146827284) "Application-defined or object-defined error").

Record Workbook : Type := {
  wb_Name : string;
  wb_Path : string;
  wb_FullName : string;
  Worksheets : list Worksheet
}.

(** The application.  [Version] is [None] when reading it fails, which is
    how the server tells an unresponsive instance. *)
Record Application : Type := {
  Version : option string;
  Visible : bool;
  ScreenUpdating : bool;
  DisplayAlerts : bool;
  Workbooks : list Workbook
}.

Definition with_Visible (v : bool) (a : Application) : Application :=
  {| Version := Version a; Visible := v; ScreenUpdating := ScreenUpdating a;
     DisplayAlerts := DisplayAlerts a; Workbooks := Workbooks a |}.
Definition with_ScreenUpdating (v : bool) (a : Application) : Application :=
  {| Version := Version a; Visible := Visible a; ScreenUpdating := v;
     DisplayAlerts := DisplayAlerts a; Workbooks := Workbooks a |}.
Definition with_DisplayAlerts (v : bool) (a : Application) : Application :=
  {| Version := Version a; Visible := Visible a; ScreenUpdating := ScreenUpdating a;
     DisplayAlerts := v; Workbooks := Workbooks a |}.

(** ** class ExcelEditorWin32 *)

Abbreviation St := (Editor Application).

(** [self.app.<property> = v] *)
Definition set_property (f : Application -> Application) : M St unit :=
  a <- self_app ;;
  s <- get ;;
  put (set_app (Some (f a)) s).

Definition _connect_or_launch_excel : M St unit :=
  d <- next_desktop ;;
  s <- get ;;
  match GetActiveObject d with
  | Running a => put (set_app (Some a) s)
  | NotRunning =>
      match Dispatch d with
      | Launched a => put (set_app (Some (with_Visible true a)) s)
      | LaunchFailed => put (set_app None s)
      end
  | Failed => put (set_app None s)
  end ;;
  s <- get ;;
  match app s with
  | Some _ => set_property (with_DisplayAlerts true)
  | None => ret tt
  end.

(** [with self._performance_mode(): body] *)
Definition _performance_mode {A} (body : M St A) : M St A :=
  s <- get ;;
  match app s with
  | None => body
  | Some a =>
      let original_screen_updating := ScreenUpdating a in
      let original_display_alerts := DisplayAlerts a in
      try_finally
        (set_property (with_ScreenUpdating false) ;;
         set_property (with_DisplayAlerts false) ;;
         body)
        (set_property (with_ScreenUpdating original_screen_updating) ;;
         set_property (with_DisplayAlerts original_display_alerts))
  end.

Definition _ensure_connection : M St unit :=
  s <- get ;;
  match app s with
  | None => _connect_or_launch_excel
  | Some _ => ret tt
  end ;;
  s <- get ;;
  match app s with
  | None => raise (ConnectionError "Could not connect to or launch Excel.")
  | Some a =>
      match Version a with
      | Some _ => ret tt
      | None =>
          _connect_or_launch_excel ;;
          s <- get ;;
          match app s with
          | None => raise (ConnectionError "Could not reconnect to Excel.")
          | Some _ => ret tt
          end
      end
  end.

(** The test of the name loop of [get_workbook]. *)
Definition workbook_matches (identifier : string) (wb : Workbook) : bool :=
  String.eqb (lower (wb_Name wb)) (lower identifier)
  || (truthy (wb_Path wb) && String.eqb (lower (wb_FullName wb)) (lower identifier)).

Definition workbook_at (idx : Z) : M St (option Workbook) :=
  a <- self_app ;;
  if (1 <=? idx) && (idx <=? Count (Workbooks a))
  then a <- self_app ;;
       wb <- lift (Item (Workbooks a) idx) ;;
       ret (Some wb)
  else ret None.

Definition get_workbook (identifier : int_or_str) : M St (option Workbook) :=
  _ensure_connection ;;
  try_except
    (match identifier with
     | Int idx => workbook_at idx
     | Str s =>
         if isdigit s then idx <- lift (int s) ;; workbook_at idx
         else
           a <- self_app ;;
           for_return (range 1 (Count (Workbooks a) + 1)) (fun i =>
             a <- self_app ;;
             wb <- lift (Item (Workbooks a) i) ;;
             if workbook_matches s wb then ret (Some wb) else ret None)
     end)
    (fun e => raise e).

Definition get_worksheet (identifier sheet_identifier : int_or_str)
  : M St (option Worksheet) :=
  _ensure_connection ;;
  wb <- get_workbook identifier ;;
  match wb with
  | None => ret None
  | Some wb =>
      try_except
        (match sheet_identifier with
         | Int idx =>
             if (1 <=? idx) && (idx <=? Count (Worksheets wb))
             then ws <- lift (Item (Worksheets wb) idx) ;; ret (Some ws)
             else ret None
         | Str name =>
             ws <- lift (ItemByName ws_Name (Worksheets wb) name) ;;
             ret (Some ws)
         end)
        (fun _ => ret None)
  end.

Definition sheet_not_found (sheet_identifier : int_or_str) : exn :=
  ValueError ("Worksheet '" +:+ show sheet_identifier +:+ "' not found.").

(** One entry of [find_used_ranges]. *)
Record UsedRangeInfo : Type := {
  range_ : address;
  rows : Z;
  cols : Z;
  first_row : Z;
  last_row : Z;
  first_col : Z;
  last_col : Z
}.

Definition find_used_ranges (identifier sheet_identifier : int_or_str)
  : M St (list UsedRangeInfo) :=
  _ensure_connection ;;
  ws <- get_worksheet identifier sheet_identifier ;;
  match ws with
  | None => raise (sheet_not_found sheet_identifier)
  | Some ws =>
      try_except
        (match UsedRange ws with
         | None => ret []
         | Some used_range =>
             let main_range :=
               {| range_ := Range_Address used_range;
                  rows := Rows_Count used_range;
                  cols := Columns_Count used_range;
                  first_row := Row used_range;
                  last_row := Row used_range + Rows_Count used_range - 1;
                  first_col := Column used_range;
                  last_col := Column used_range + Columns_Count used_range - 1 |} in
             ret [main_range]
         end)
        (fun e => raise e)
  end.

(** One entry of [extract_string_cells]. *)
Record StringCell : Type := {
  sc_value : string;
  sc_address : address;
  sc_sheet : string;
  sc_row : Z;
  sc_col : Z
}.

Definition extract_string_cells (identifier sheet_identifier : int_or_str)
  : M St (list StringCell) :=
  _ensure_connection ;;
  ws <- get_worksheet identifier sheet_identifier ;;
  match ws with
  | None => raise (sheet_not_found sheet_identifier)
  | Some ws =>
      try_except
        (match UsedRange ws with
         | None => ret []
         | Some used_range =>
             match Range_Value used_range with
             | Scalar (VStr s) =>
                 ret [ {| sc_value := s; sc_address := Range_Address used_range;
                          sc_sheet := ws_Name ws;
                          sc_row := Row used_range; sc_col := Column used_range |} ]
             | Scalar _ => ret []
             | Tuple rows =>
                 for_loop (enumerate rows) [] (fun string_cells '(row_idx, row) =>
                   match row with
                   | RowTuple cells =>
                       cs <- for_loop (enumerate cells) string_cells
                         (fun string_cells '(col_idx, cell_value) =>
                            match cell_value with
                            | VStr s =>
                                if truthy (strip s) then
                                  let actual_row := Row used_range + row_idx in
                                  let actual_col := Column used_range + col_idx in
                                  cell <- lift (Cells ws actual_row actual_col) ;;
                                  ret (Continue (string_cells ++
                                    [ {| sc_value := strip s;
                                         sc_address := Address cell;
                                         sc_sheet := ws_Name ws;
                                         sc_row := actual_row;
                                         sc_col := actual_col |} ]))
                                else ret (Continue string_cells)
                            | _ => ret (Continue string_cells)
                            end) ;;
                       ret (Continue cs)
                   | RowScalar (VStr s) =>
                       if truthy (strip s) then
                         let actual_row := Row used_range + row_idx in
                         let actual_col := Column used_range in
                         cell <- lift (Cells ws actual_row actual_col) ;;
                         ret (Continue (string_cells ++
                           [ {| sc_value := strip s;
                                sc_address := Address cell;
                                sc_sheet := ws_Name ws;
                                sc_row := actual_row;
                                sc_col := actual_col |} ]))
                       else ret (Continue string_cells)
                   | RowScalar _ => ret (Continue string_cells)
                   end)
             end
         end)
        (fun e => raise e)
  end.

(** [isinstance(v, (int, float)) and v != 0]; a Python [bool] is an [int]. *)
Definition is_nonzero_number (v : CellValue) : bool :=
  match v with
  | VInt n => negb (n =? 0)
  | VFloat x => negb (SFeqb x (S754_zero false))
  | VBool b => b
  | _ => false
  end.

Record HorizontalPair : Type := {
  hp_label : string;
  hp_label_address : address;
  hp_value : CellValue;
  hp_value_address : address;
  hp_row : Z
}.

Record NumberBelow : Type := {
  nb_value : CellValue;
  nb_address : address;
  nb_row : Z
}.

Record TableHeader : Type := {
  th_header : string;
  th_header_address : address;
  th_data_count : Z;
  th_data_range : address
}.

Record Patterns : Type := {
  horizontal_pairs : list HorizontalPair;
  vertical_lists : list unit;
  table_headers : list TableHeader;
  total_string_cells : Z;
  used_ranges : Z
}.

(** [ws.UsedRange], read as an object whose attributes are needed. *)
Definition UsedRange_of (ws : Worksheet) : M St Range :=
  match UsedRange ws with
  | Some ur => ret ur
  | None => raise (AttributeError "'NoneType' object has no attribute 'Rows'")
  end.

Definition analyze_label_value_patterns (identifier sheet_identifier : int_or_str)
  : M St Patterns :=
  _ensure_connection ;;
  ws <- get_worksheet identifier sheet_identifier ;;
  match ws with
  | None => raise (sheet_not_found sheet_identifier)
  | Some ws =>
      try_except
        (scanned <- _performance_mode
            (string_cells <- extract_string_cells identifier sheet_identifier ;;
             used_ranges <- find_used_ranges identifier sheet_identifier ;;
             ret (string_cells, used_ranges)) ;;
         let string_cells := fst scanned in
         let used_ranges := snd scanned in
         (* horizontal pairs: a label with a value to its right *)
         pairs <- for_loop string_cells [] (fun pairs string_cell =>
           let adjacent_col := sc_col string_cell + 1 in
           try_except
             (adjacent_cell <- lift (Cells ws (sc_row string_cell) adjacent_col) ;;
              let adjacent_value := Value adjacent_cell in
              if is_nonzero_number adjacent_value then
                ret (Continue (pairs ++
                  [ {| hp_label := sc_value string_cell;
                       hp_label_address := sc_address string_cell;
                       hp_value := adjacent_value;
                       hp_value_address := Address adjacent_cell;
                       hp_row := sc_row string_cell |} ]))
              else ret (Continue pairs))
             (fun _ => ret (Continue pairs))) ;;
         (* table headers: a text with numbers below it *)
         headers <- for_loop string_cells [] (fun headers string_cell =>
           ur <- UsedRange_of ws ;;
           numbers_below <- for_loop
             (range (sc_row string_cell + 1)
                    (Z.min (sc_row string_cell + 20) (Rows_Count ur + Row ur)))
             [] (fun numbers_below check_row =>
               try_except
                 (check_cell <- lift (Cells ws check_row (sc_col string_cell)) ;;
                  let check_value := Value check_cell in
                  if is_nonzero_number check_value then
                    ret (Continue (numbers_below ++
                      [ {| nb_value := check_value;
                           nb_address := Address check_cell;
                           nb_row := check_row |} ]))
                  else ret (Continue numbers_below))
                 (fun _ => ret (Break numbers_below))) ;;
           if 2 <=? Z.of_nat (length numbers_below) then
             last_number <- lift (getitem numbers_below (-1)) ;;
             last_cell <- lift (Cells ws (nb_row last_number) (sc_col string_cell)) ;;
             ret (Continue (headers ++
               [ {| th_header := sc_value string_cell;
                    th_header_address := sc_address string_cell;
                    th_data_count := Z.of_nat (length numbers_below);
                    th_data_range := Span (sc_address string_cell) (Address last_cell) |} ]))
           else ret (Continue headers)) ;;
         ret {| horizontal_pairs := pairs;
                vertical_lists := [];
                table_headers := headers;
                total_string_cells := Z.of_nat (length string_cells);
                used_ranges := Z.of_nat (length used_ranges) |})
        (fun e => raise e)
  end.

(** ** The methods that change a workbook

    Their calls into Excel and the operating system leave the server: what
    such a call returns, and what it does to the application, is taken as
    given. *)

Definition xlOpenXMLWorkbook : Z := 51.

Record Calls : Type := {
  abspath : string -> string;
  dirname : string -> string;
  makedirs : string -> outcome unit;
  (* wb.SaveAs(path, FileFormat=format) *)
  SaveAs : Workbook -> string -> option Z -> Application
           -> outcome unit * Application;
  (* wb.Save() *)
  Save : Workbook -> Application -> outcome unit * Application;
  (* wb.Worksheets.Add(After=sheet), the new sheet *)
  Worksheets_Add : Workbook -> Worksheet -> Application
                   -> outcome Worksheet * Application;
  (* sheet.Name = name, the sheet as renamed *)
  set_Name : Worksheet -> string -> Application
             -> outcome Worksheet * Application;
  (* ws.Range(start_cell).Resize(rows, cols).Value = values *)
  set_Value : Worksheet -> string -> Z -> Z -> list (list CellValue)
              -> Application -> outcome unit * Application
}.

(** A call on an object of the application the editor is connected to. *)
Definition call {A} (f : Application -> outcome A * Application) : M St A :=
  a <- self_app ;;
  s <- get ;;
  put (set_app (Some (snd (f a))) s) ;;
  lift (fst (f a)).

Definition workbook_not_found (identifier : int_or_str) : exn :=
  ValueError ("Workbook '" +:+ show identifier +:+ "' not found.").

Definition file_format_of (abs_path : string) : option Z :=
  let p := lower abs_path in
  if endswith ".xlsx" p then Some xlOpenXMLWorkbook
  else if endswith ".xlsm" p then Some 52
  else if endswith ".xlsb" p then Some 50
  else if endswith ".xls" p then Some 56
  else None.

Definition save_workbook (ext : Calls) (identifier : int_or_str)
  (save_path : option string) : M St unit :=
  _ensure_connection ;;
  wb <- get_workbook identifier ;;
  match wb with
  | None => raise (workbook_not_found identifier)
  | Some wb =>
      try_except
        (_performance_mode
           (if truthy (default "" save_path) then
              let abs_path := abspath ext (default "" save_path) in
              lift (makedirs ext (dirname ext abs_path)) ;;
              call (SaveAs ext wb abs_path (file_format_of abs_path))
            else if truthy (wb_Path wb) then call (Save ext wb)
            else raise (ValueError
              "save_path is required for a new workbook that hasn't been saved before.")))
        (fun e => raise e)
  end.

(** The dictionary [add_worksheet] returns. *)
Record SheetInfo : Type := {
  si_name : string;
  si_index : Z
}.

Definition add_worksheet (ext : Calls) (identifier : int_or_str)
  (sheet_name : option string) : M St SheetInfo :=
  _ensure_connection ;;
  wb <- get_workbook identifier ;;
  match wb with
  | None => raise (workbook_not_found identifier)
  | Some wb =>
      try_except
        (_performance_mode
           (last_sheet <- lift (Item (Worksheets wb) (Count (Worksheets wb))) ;;
            new_sheet <- call (Worksheets_Add ext wb last_sheet) ;;
            new_sheet <-
              (if truthy (default "" sheet_name) then
                 try_except
                   (call (set_Name ext new_sheet (default "" sheet_name)))
                   (fun _ => ret new_sheet)
               else ret new_sheet) ;;
            ret {| si_name := ws_Name new_sheet;
                   si_index := ws_Index new_sheet |}))
        (fun e => raise e)
  end.

Definition set_range_values (ext : Calls)
  (identifier sheet_identifier : int_or_str) (start_cell : string)
  (values : list (list CellValue)) : M St unit :=
  _ensure_connection ;;
  ws <- get_worksheet identifier sheet_identifier ;;
  match ws with
  | None => raise (sheet_not_found sheet_identifier)
  | Some ws =>
      match values with
      | [] => raise (ValueError
                "Input 'values' must be a non-empty list of lists.")
      | first_row :: _ =>
          try_except
            (_performance_mode
               (let num_rows := Z.of_nat (length values) in
                let num_cols := Z.of_nat (length first_row) in
                call (set_Value ext ws start_cell num_rows num_cols values)))
            (fun e => raise e)
      end
  end.

(** ** The tools *)

(** The module-level [editor]: [None] when its construction failed. *)
Abbreviation Server := (option St).

Definition _handle_excel_tool_error {A} (tool_name : string) (error : exn)
  : payload A :=
  let err_msg := "Error in tool '" +:+ tool_name +:+ "': " +:+ str_exn error in
  if match error with ConnectionError _ => true | _ => false end
     || contains "RPC server is unavailable" (str_exn error)
  then Error "Could not connect to Excel. Please ensure it is running."
  else match error with
       | ValueError _ => Error (str_exn error)
       | com_error _ _ =>
           Error ("Excel Communication Error in " +:+ tool_name +:+ ": "
                  +:+ str_exn error)
       | _ => Error err_msg
       end.

(** The shape every tool of this file has: refuse when there is no editor,
    else call the editor's method and wrap its result, handing any exception
    to [_handle_excel_tool_error]. *)
Definition tool {A} (tool_name key : string) (method : M St A)
  : M Server (payload A) :=
  fun editor =>
    match editor with
    | None => (Return (Error "Excel editor not initialized."), None)
    | Some ed =>
        let r := try_except
                   (v <- method ;; ret (Result key v))
                   (fun e => ret (_handle_excel_tool_error tool_name e)) ed in
        (fst r, Some (snd r))
    end.

Definition find_used_ranges_tool (identifier sheet_identifier : int_or_str) :=
  tool "find_used_ranges" "used_ranges"
       (find_used_ranges identifier sheet_identifier).

Definition extract_string_cells_tool (identifier sheet_identifier : int_or_str) :=
  tool "extract_string_cells" "string_cells"
       (extract_string_cells identifier sheet_identifier).

Definition analyze_label_value_patterns_tool
  (identifier sheet_identifier : int_or_str) :=
  tool "analyze_label_value_patterns" "patterns"
       (analyze_label_value_patterns identifier sheet_identifier).

(** ** The methods that list and read

    What the records of the object model do not carry is read through
    [Reads]: two properties of a workbook, one of a worksheet, the range a
    sheet hands out for an address (the address language is Excel's own),
    and [pywintypes.Time].  [Range_set] is the assignment to the [Value] of
    such a range. *)

(** A range as [get_cell_value] and its neighbours read it. *)
Record RangeObj : Type := {
  ro_Value : PyValue;
  ro_Formula : PyValue
}.

Record Reads : Type := {
  ReadOnly : Workbook -> bool;
  Saved : Workbook -> bool;
  ws_Visible : Worksheet -> Z;
  (* ws.Range(address) *)
  Range_ : Worksheet -> string -> outcome RangeObj;
  (* pywintypes.Time(n) *)
  Time : Z -> outcome PyValue;
  (* ws.Range(address).Value = value *)
  Range_set : Worksheet -> string -> PyValue -> Application
              -> outcome unit * Application
}.

(** One entry of [list_open_workbooks]. *)
Record WorkbookInfo : Type := {
  wi_name : string;
  wi_path : string;
  wi_sheets_count : Z;
  wi_saved : bool;
  wi_index : Z
}.

Definition list_open_workbooks (ext : Reads) : M St (list WorkbookInfo) :=
  _ensure_connection ;;
  try_except
    (a <- self_app ;;
     if Count (Workbooks a) =? 0 then ret []
     else
       a <- self_app ;;
       for_loop (range 1 (Count (Workbooks a) + 1)) []
         (fun workbooks_info i =>
            a <- self_app ;;
            wb <- lift (Item (Workbooks a) i) ;;
            ret (Continue (workbooks_info ++
              [ {| wi_name := wb_Name wb;
                   wi_path := if negb (ReadOnly ext wb) then wb_FullName wb
                              else wb_FullName wb +:+ " (ReadOnly)";
                   wi_sheets_count := Count (Worksheets wb);
                   wi_saved := Saved ext wb;
                   wi_index := i |} ]))))
    (fun e =>
       (if contains "RPC server is unavailable" (str_exn e)
        then _connect_or_launch_excel else ret tt) ;;
       raise e).

(** One entry of [list_worksheets]. *)
Record WorksheetInfo : Type := {
  wsi_name : string;
  wsi_index : Z;
  wsi_visible : bool
}.

Definition list_worksheets (ext : Reads) (identifier : int_or_str)
  : M St (list WorksheetInfo) :=
  _ensure_connection ;;
  wb <- get_workbook identifier ;;
  match wb with
  | None => ret []
  | Some wb =>
      try_except
        (for_loop (range 1 (Count (Worksheets wb) + 1)) [] (fun sheets_info i =>
           ws <- lift (Item (Worksheets wb) i) ;;
           ret (Continue (sheets_info ++
             [ {| wsi_name := ws_Name ws;
                  wsi_index := ws_Index ws;
                  wsi_visible := ws_Visible ext ws =? -1 |} ]))))
        (fun e => raise e)
  end.

Definition get_cell_value (ext : Reads)
  (identifier sheet_identifier : int_or_str) (cell_address : string)
  : M St PyValue :=
  _ensure_connection ;;
  ws <- get_worksheet identifier sheet_identifier ;;
  match ws with
  | None => raise (sheet_not_found sheet_identifier)
  | Some ws =>
      try_except
        (cell <- lift (Range_ ext ws cell_address) ;;
         let value := ro_Value cell in
         (* a float that may be a date serial *)
         dt_val <-
           match value with
           | PFloat x =>
               if SFltb (float_of 1 0) x && SFltb x (float_of 300000 0) then
                 try_except
                   (dt_val <- lift (Time ext (int_of_float x)) ;;
                    ret (Some dt_val))
                   (fun e => match e with
                             | ValueError _ => ret None
                             | _ => raise e
                             end)
               else ret None
           | _ => ret None
           end ;;
         match dt_val with
         | Some dt_val => ret dt_val
         | None =>
             match value with
             | PDecimal x => ret (PFloat x)
             | _ => ret value
             end
         end)
        (fun e => raise e)
  end.

Definition set_cell_value (ext : Reads)
  (identifier sheet_identifier : int_or_str) (cell_address : string)
  (value : PyValue) : M St unit :=
  _ensure_connection ;;
  ws <- get_worksheet identifier sheet_identifier ;;
  match ws with
  | None => raise (sheet_not_found sheet_identifier)
  | Some ws =>
      try_except
        (call (Range_set ext ws cell_address value))
        (fun e => raise e)
  end.

Definition invalid_range_address (range_address : string) : exn :=
  ValueError ("Invalid range address '" +:+ range_address +:+ "'.").

Definition get_range_values (ext : Reads)
  (identifier sheet_identifier : int_or_str) (range_address : string)
  : M St PyValue :=
  _ensure_connection ;;
  ws <- get_worksheet identifier sheet_identifier ;;
  match ws with
  | None => raise (sheet_not_found sheet_identifier)
  | Some ws =>
      try_except
        (data_range <- lift (Range_ ext ws range_address) ;;
         let values := ro_Value data_range in
         match values with
         | PTuple _ => ret values
         | _ => ret (PTuple [PTuple [values]])
         end)
        (fun e =>
           match e with
           | com_error hresult _ =>
               if hresult =? -2146827284
               then raise (invalid_range_address range_address)
               else raise e
           | _ => raise e
           end)
  end.

Definition _determine_cell_type (value formula : PyValue) : string :=
  if py_truthy formula
     && match formula with PStr f => startswith "=" f | _ => false end
  then "formula"
  else match value with
       | PNone => "empty"
       | PStr s => if String.eqb s "" then "empty" else "text"
       | PInt _ | PFloat _ | PBool _ => "number"
       | _ => "other"
       end.

Definition get_cell_types_in_range (ext : Reads)
  (identifier sheet_identifier : int_or_str) (range_address : string)
  : M St (list (list string)) :=
  _ensure_connection ;;
  ws <- get_worksheet identifier sheet_identifier ;;
  match ws with
  | None => raise (sheet_not_found sheet_identifier)
  | Some ws =>
      try_except
        (data_range <- lift (Range_ ext ws range_address) ;;
         let values := ro_Value data_range in
         let formulas := ro_Formula data_range in
         match values with
         | PTuple rows =>
             for_loop (enumerate rows) [] (fun cell_types '(row_idx, row) =>
               row_types <-
                 match row with
                 | PTuple cells =>
                     for_loop (enumerate cells) []
                       (fun row_types '(col_idx, cell_value) =>
                          first <- lift (subscript formulas 0) ;;
                          formula_value <-
                            match first with
                            | PTuple _ =>
                                formula_row <- lift (subscript formulas row_idx) ;;
                                lift (subscript formula_row col_idx)
                            | _ => ret formulas
                            end ;;
                          let cell_type :=
                            _determine_cell_type cell_value formula_value in
                          ret (Continue (row_types ++ [cell_type])))
                 | _ =>
                     formula_value <-
                       match formulas with
                       | PTuple _ => lift (subscript formulas row_idx)
                       | _ => ret formulas
                       end ;;
                     let cell_type := _determine_cell_type row formula_value in
                     ret [cell_type]
                 end ;;
               ret (Continue (cell_types ++ [row_types])))
         | _ =>
             let cell_type := _determine_cell_type values formulas in
             ret [[cell_type]]
         end)
        (fun e => raise e)
  end.

(** ** More tools *)

Definition list_open_workbooks_tool (ext : Reads) :=
  tool "list_open_workbooks" "workbooks" (list_open_workbooks ext).

Definition save_workbook_tool (calls : Calls) (identifier : int_or_str)
  (save_path : option string) :=
  tool "save_workbook" "message"
       (save_workbook calls identifier save_path ;;
        ret ("Save command issued for workbook '" +:+ show identifier
             +:+ "' successfully.")).

Definition list_worksheets_tool (ext : Reads) (identifier : int_or_str) :=
  tool "list_worksheets" "worksheets" (list_worksheets ext identifier).

Definition get_cell_types_in_range_tool (ext : Reads)
  (identifier sheet_identifier : int_or_str) (range_address : string) :=
  tool "get_cell_types_in_range" "cell_types"
       (get_cell_types_in_range ext identifier sheet_identifier range_address).

(** The answer of [add_worksheet] carries a message beside the sheet. *)
Definition add_worksheet_tool (calls : Calls) (identifier : int_or_str)
  (sheet_name : option string) : M Server (payload SheetInfo) :=
  fun editor =>
    match editor with
    | None => (Return (Error "Excel editor not initialized."), None)
    | Some ed =>
        let r := try_except
                   (new_sheet_info <- add_worksheet calls identifier sheet_name ;;
                    ret (Message_and_result "Worksheet added successfully."
                           "sheet_info" new_sheet_info))
                   (fun e => ret (_handle_excel_tool_error "add_worksheet" e))
                   ed in
        (fst r, Some (snd r))
    end.

(** [str_of] is what [str] and an f-string make of a value; how Python
    writes a float or a time is taken as given.  A time object, whose type
    is named [datetime], is handed on as that text. *)
Definition get_cell_value_tool (ext : Reads) (str_of : PyValue -> string)
  (identifier sheet_identifier : int_or_str) (cell_address : string) :=
  tool "get_cell_value" "value"
       (value <- get_cell_value ext identifier sheet_identifier cell_address ;;
        match value with
        | PTime _ => ret (PStr (str_of value))
        | _ => ret value
        end).

Definition set_cell_value_tool (ext : Reads) (str_of : PyValue -> string)
  (identifier sheet_identifier : int_or_str) (cell_address : string)
  (value : PyValue) :=
  tool "set_cell_value" "message"
       (set_cell_value ext identifier sheet_identifier cell_address value ;;
        ret ("Successfully set cell '" +:+ cell_address +:+ "' to "
             +:+ str_of value +:+ ".")).

(** The rows are handed on as lists. *)
Definition get_range_values_tool (ext : Reads)
  (identifier sheet_identifier : int_or_str) (range_address : string) :=
  tool "get_range_values" "values"
       (values_tuple <- get_range_values ext identifier sheet_identifier
                          range_address ;;
        if py_truthy values_tuple then
          rows <- lift (list_of values_tuple) ;;
          lift (outcome_map list_of rows)
        else ret []).

Definition set_range_values_tool (calls : Calls)
  (identifier sheet_identifier : int_or_str) (start_cell : string)
  (values : list (list CellValue)) :=
  tool "set_range_values" "message"
       (set_range_values calls identifier sheet_identifier start_cell values ;;
        let num_rows := Z.of_nat (length values) in
        let num_cols := match values with
                        | first_row :: _ => Z.of_nat (length first_row)
                        | [] => 0
                        end in
        ret ("Successfully set " +:+ pretty num_rows +:+ "x" +:+ pretty num_cols
             +:+ " range starting at '" +:+ start_cell +:+ "'.")).

End Excel.

(* ================================================================== *)
(** * mcp_powerpoint_server_win32.py *)
(* ================================================================== *)

Module PowerPoint.

Definition msoPlaceholder : Z := 14.

Definition PLACEHOLDER_NAME_MAP : list (string * Z) :=
  [ ("title", 1); ("body", 2); ("centertitle", 13); ("subtitle", 14);
    ("date", 16); ("slidenumber", 15); ("footer", 17); ("header", 18);
    ("object", 7); ("content", 7) ].

(** ** The PowerPoint object model, as far as the server reads it *)

(** A shape.  [sh_Text] is the text of its text frame; [PlaceholderType] is
    [None] when the shape has no placeholder format to read. *)
Record Shape : Type := {
  sh_Id : Z;
  sh_Name : string;
  sh_Type : Z;
  sh_Left : spec_float;
  sh_Top : spec_float;
  sh_Width : spec_float;
  sh_Height : spec_float;
  HasTextFrame : bool;
  HasText : bool;
  sh_Text : string;
  PlaceholderType : option Z
}.

Record Slide : Type := {
  Shapes : list Shape
}.

Record Presentation : Type := {
  pr_Name : string;
  pr_Path : string;
  pr_FullName : string;
  Slides : list Slide
}.

Record Application : Type := {
  Version : option string;
  Visible : bool;
  Presentations : list Presentation
}.

Definition with_Visible (v : bool) (a : Application) : Application :=
  {| Version := Version a; Visible := v; Presentations := Presentations a |}.

(** ** class PowerPointEditorWin32 *)

Abbreviation St := (Editor Application).

Definition _connect_or_launch_powerpoint : M St unit :=
  d <- next_desktop ;;
  s <- get ;;
  match GetActiveObject d with
  | Running a => put (set_app (Some a) s)
  | NotRunning =>
      match Dispatch d with
      | Launched a => put (set_app (Some (with_Visible true a)) s)
      | LaunchFailed => put (set_app None s)
      end
  | Failed => put (set_app None s)
  end.

Definition _ensure_connection : M St unit :=
  s <- get ;;
  match app s with
  | None => _connect_or_launch_powerpoint
  | Some _ => ret tt
  end ;;
  s <- get ;;
  match app s with
  | None => raise (ConnectionError "Could not connect to or launch PowerPoint.")
  | Some a =>
      match Version a with
      | Some _ => ret tt
      | None =>
          _connect_or_launch_powerpoint ;;
          s <- get ;;
          match app s with
          | None => raise (ConnectionError "Could not reconnect to PowerPoint.")
          | Some _ => ret tt
          end
      end
  end.

(** The test of the name loop of [get_presentation]. *)
Definition presentation_matches (identifier : string) (pres : Presentation)
  : bool :=
  String.eqb (pr_Name pres) identifier || String.eqb (pr_FullName pres) identifier.

Definition presentation_at (idx : Z) : M St (option Presentation) :=
  a <- self_app ;;
  if (1 <=? idx) && (idx <=? Count (Presentations a))
  then a <- self_app ;;
       pres <- lift (Item (Presentations a) idx) ;;
       ret (Some pres)
  else ret None.

Definition get_presentation (identifier : int_or_str)
  : M St (option Presentation) :=
  _ensure_connection ;;
  try_except
    (match identifier with
     | Int idx => presentation_at idx
     | Str s =>
         if isdigit s then idx <- lift (int s) ;; presentation_at idx
         else
           a <- self_app ;;
           for_return (range 1 (Count (Presentations a) + 1)) (fun i =>
             a <- self_app ;;
             pres <- lift (Item (Presentations a) i) ;;
             if presentation_matches s pres then ret (Some pres) else ret None)
     end)
    (fun e => raise e).

(** [slide_index] is annotated [int]; Python does not enforce it, and the
    comparison [1 <= slide_index] fails on a [str]. *)
Definition get_slide (identifier slide_index : int_or_str)
  : M St (option Slide) :=
  _ensure_connection ;;
  pres <- get_presentation identifier ;;
  match pres with
  | None => ret None
  | Some pres =>
      try_except
        (match slide_index with
         | Int i =>
             if (1 <=? i) && (i <=? Count (Slides pres))
             then slide <- lift (Item (Slides pres) i) ;; ret (Some slide)
             else ret None
         | Str _ =>
             raise (TypeError
               "'<=' not supported between instances of 'int' and 'str'")
         end)
        (fun e => raise e)
  end.

(** The dictionary [_get_shape_basic_info] builds; the two placeholder keys
    and [text_preview] are present only when set. *)
Record ShapeInfo : Type := {
  id : Z;
  name : string;
  type_id : Z;
  type_name : string;
  left : spec_float;
  top : spec_float;
  width : spec_float;
  height : spec_float;
  has_text : bool;
  is_placeholder : bool;
  placeholder_type_id : option Z;
  placeholder_type_name : option string;
  text_preview : option string
}.

Definition with_text_preview (t : string) (i : ShapeInfo) : ShapeInfo :=
  {| id := id i; name := name i; type_id := type_id i; type_name := type_name i;
     left := left i; top := top i; width := width i; height := height i;
     has_text := has_text i; is_placeholder := is_placeholder i;
     placeholder_type_id := placeholder_type_id i;
     placeholder_type_name := placeholder_type_name i;
     text_preview := Some t |}.

Definition shape_type_names : list (Z * string) :=
  [ (1, "Rectangle/AutoShape"); (17, "TextBox"); (9, "Oval"); (19, "Table");
    (3, "Chart"); (13, "Picture"); (20, "Line"); (10, "Connector");
    (msoPlaceholder, "Placeholder"); (6, "Group"); (7, "EmbeddedObject");
    (8, "FormControl"); (11, "Freeform"); (12, "Media");
    (15, "OLEControlObject"); (16, "ScriptAnchor"); (18, "Canvas");
    (21, "Ink"); (22, "InkComment"); (23, "Diagram"); (24, "WebVideo");
    (25, "ContentApp"); (26, "GraphicFrame"); (27, "LinkedOLEObject");
    (28, "LinkedPicture"); (29, "Model3D"); (30, "LinkedContentApp") ].

Definition _get_shape_type_name (type_id : Z) : string :=
  match find (fun kv => fst kv =? type_id) shape_type_names with
  | Some kv => snd kv
  | None => "Unknown (" +:+ pretty type_id +:+ ")"
  end.

Definition _get_shape_basic_info (shape : Shape) : ShapeInfo :=
  let placeholder := sh_Type shape =? msoPlaceholder in
  let ph_id := if placeholder then PlaceholderType shape else None in
  {| id := sh_Id shape;
     name := sh_Name shape;
     type_id := sh_Type shape;
     type_name := _get_shape_type_name (sh_Type shape);
     left := sh_Left shape; top := sh_Top shape;
     width := sh_Width shape; height := sh_Height shape;
     has_text := HasTextFrame shape && HasText shape;
     is_placeholder := placeholder;
     placeholder_type_id := ph_id;
     placeholder_type_name :=
       match ph_id with
       | Some t => option_map fst
                     (find (fun kv => snd kv =? t) PLACEHOLDER_NAME_MAP)
       | None => None
       end;
     text_preview := None |}.

Definition slide_in (slide_index identifier : int_or_str) : string :=
  "slide " +:+ show slide_index +:+ " in '" +:+ show identifier +:+ "'".

Definition find_shape_by_text (identifier slide_index : int_or_str)
  (search_text : string) (partial_match : bool) : M St (list ShapeInfo) :=
  _ensure_connection ;;
  slide <- get_slide identifier slide_index ;;
  match slide with
  | None => ret []
  | Some slide =>
      let search_lower := lower search_text in
      for_loop (range 1 (Count (Shapes slide) + 1)) [] (fun matches i =>
        try_except
          (shape <- lift (Item (Shapes slide) i) ;;
           if HasTextFrame shape && HasText shape then
             let shape_text := sh_Text shape in
             let shape_text_lower := lower shape_text in
             let found := if partial_match
                          then contains search_lower shape_text_lower
                          else String.eqb search_lower shape_text_lower in
             if found then
               let preview :=
                 if 100 <? Z.of_nat (String.length shape_text)
                 then substring 0 100 shape_text +:+ "..."
                 else shape_text in
               ret (Continue (matches ++
                      [with_text_preview preview (_get_shape_basic_info shape)]))
             else ret (Continue matches)
           else ret (Continue matches))
          (* a failing [slide.Shapes(i)] lands in the outer handler, which
             logs it; the matches so far are returned.  The inner handler
             guards reads of the text frame, which do not fail here. *)
          (fun _ => ret (Break matches)))
  end.

Definition list_shapes (identifier slide_index : int_or_str)
  : M St (list ShapeInfo) :=
  _ensure_connection ;;
  slide <- get_slide identifier slide_index ;;
  match slide with
  | None => ret []
  | Some slide =>
      for_loop (range 1 (Count (Shapes slide) + 1)) [] (fun shapes_info i =>
        try_except
          (shape <- lift (Item (Shapes slide) i) ;;
           ret (Continue (shapes_info ++ [_get_shape_basic_info shape])))
          (fun _ => ret (Break shapes_info)))
  end.

(** ** The tools *)

(** A tool that formats the error itself, like the first seven of the file. *)
Definition list_shapes_tool (identifier slide_index : int_or_str)
  : M St (payload (list ShapeInfo)) :=
  try_except
    (shapes <- list_shapes identifier slide_index ;;
     ret (Result "shapes" shapes))
    (fun e => ret (Error ("Failed to list shapes on "
                          +:+ slide_in slide_index identifier
                          +:+ ": " +:+ str_exn e))).

(** The last three tools hand the exception to [_handle_tool_error].  No
    function of that name is defined in, or imported into, the module
    (the Excel server calls its own [_handle_excel_tool_error]): evaluating
    the name in the handler raises [NameError].  Their test [if not editor]
    never fires: the module-level [editor] is always an object. *)
Definition _handle_tool_error {A} (tool_name : string) (error : exn)
  : M St (payload A) :=
  raise (NameError "_handle_tool_error").

Definition find_shape_by_text_tool (identifier slide_index : int_or_str)
  (search_text : string) (partial_match : bool)
  : M St (payload (list ShapeInfo)) :=
  try_except
    (matches <- find_shape_by_text identifier slide_index search_text
                                   partial_match ;;
     ret (Result "matches" matches))
    (fun e => _handle_tool_error "find_shape_by_text" e).

(** ** The methods that list, look up and change

    What the records of the object model do not carry, and every call that
    changes a presentation, goes through [Calls]: what such a call returns,
    and what it does to the application, is taken as given. *)

Definition ppSaveAsOpenXMLPresentation : Z := 24.
Definition msoShapeRectangle : Z := 1.
Definition msoTextOrientationHorizontal : Z := 1.

Definition SHAPE_TYPE_NAME_MAP : list (string * Z) :=
  [ ("rectangle", 1); ("textbox", 17); ("oval", 9); ("table", 19);
    ("chart", 3); ("picture", 13); ("line", 20); ("connector", 10);
    ("placeholder", msoPlaceholder) ].

(** [d.get(k)], [d[k]] and [list(d.keys())] for a dictionary written out in
    the source. *)
Definition dict_get {V} (d : list (string * V)) (k : string) : option V :=
  option_map snd (find (fun kv => String.eqb (fst kv) k) d).

Definition dict_item {V} (d : list (string * V)) (k : string) : outcome V :=
  match dict_get d k with
  | Some v => Return v
  | None => Raise (KeyError k)
  end.

Definition keys {V} (d : list (string * V)) : list string := map fst d.

(** [str(l)] for a list of strings without quotes in them *)
Fixpoint join_comma (l : list string) : string :=
  match l with
  | [] => ""
  | [x] => "'" +:+ x +:+ "'"
  | x :: l' => "'" +:+ x +:+ "', " +:+ join_comma l'
  end.

Definition str_list (l : list string) : string := "[" +:+ join_comma l +:+ "]".

(** A slide layout of the slide master. *)
Record CustomLayout : Type := {
  lay_Name : string
}.

Record Calls : Type := {
  Saved : Presentation -> bool;
  abspath : string -> string;
  dirname : string -> string;
  makedirs : string -> outcome unit;
  (* pres.SaveAs(path, format) *)
  SaveAs : Presentation -> string -> Z -> Application
           -> outcome unit * Application;
  (* pres.Save() *)
  Save : Presentation -> Application -> outcome unit * Application;
  (* pres.SlideMaster.CustomLayouts.Count *)
  CustomLayouts_Count : Presentation -> Z;
  (* pres.SlideMaster.CustomLayouts(i) *)
  CustomLayouts : Presentation -> Z -> outcome CustomLayout;
  (* pres.Slides.AddSlide(index, layout), the SlideIndex of the new slide *)
  AddSlide : Presentation -> Z -> CustomLayout -> Application
             -> outcome Z * Application;
  (* slide.Shapes.AddTextbox(orientation, left, top, width, height) *)
  AddTextbox : Slide -> Z -> spec_float -> spec_float -> spec_float
               -> spec_float -> Application -> outcome Shape * Application;
  (* slide.Shapes.AddShape(type, left, top, width, height) *)
  AddShape : Slide -> Z -> spec_float -> spec_float -> spec_float
             -> spec_float -> Application -> outcome Shape * Application;
  (* shape.TextFrame.TextRange.Text = text *)
  set_Text : Shape -> string -> Application -> outcome unit * Application;
  (* shape.Name = name *)
  set_Name : Shape -> string -> Application -> outcome unit * Application;
  (* shape.Left = x, and so on *)
  set_Left : Shape -> spec_float -> Application -> outcome unit * Application;
  set_Top : Shape -> spec_float -> Application -> outcome unit * Application;
  set_Width : Shape -> spec_float -> Application -> outcome unit * Application;
  set_Height : Shape -> spec_float -> Application -> outcome unit * Application
}.

(** A call on an object of the application the editor is connected to. *)
Definition call {A} (f : Application -> outcome A * Application) : M St A :=
  a <- self_app ;;
  s <- get ;;
  put (set_app (Some (snd (f a))) s) ;;
  lift (fst (f a)).

(** One entry of [list_open_presentations]; [pi_path] is [None] for a
    presentation that was never saved. *)
Record PresentationInfo : Type := {
  pi_name : string;
  pi_path : option string;
  pi_slides : Z;
  pi_saved : bool;
  pi_index : Z
}.

Definition list_open_presentations (ext : Calls)
  : M St (list PresentationInfo) :=
  _ensure_connection ;;
  try_except
    (a <- self_app ;;
     for_loop (range 1 (Count (Presentations a) + 1)) []
       (fun presentations_info i =>
          a <- self_app ;;
          pres <- lift (Item (Presentations a) i) ;;
          ret (Continue (presentations_info ++
            [ {| pi_name := pr_Name pres;
                 pi_path := if truthy (pr_Path pres)
                            then Some (pr_FullName pres) else None;
                 pi_slides := Count (Slides pres);
                 pi_saved := Saved ext pres;
                 pi_index := i |} ]))))
    (fun e =>
       (if contains "RPC server is unavailable" (str_exn e)
        then _connect_or_launch_powerpoint else ret tt) ;;
       raise e).

Definition presentation_not_found (identifier : int_or_str) : exn :=
  ValueError ("Presentation '" +:+ show identifier +:+ "' not found.").

Definition save_presentation (ext : Calls) (identifier : int_or_str)
  (save_path : option string) : M St unit :=
  _ensure_connection ;;
  pres <- get_presentation identifier ;;
  match pres with
  | None => raise (presentation_not_found identifier)
  | Some pres =>
      try_except
        (if truthy (default "" save_path) then
           let abs_path := abspath ext (default "" save_path) in
           lift (makedirs ext (dirname ext abs_path)) ;;
           call (SaveAs ext pres abs_path ppSaveAsOpenXMLPresentation)
         else if truthy (pr_Path pres) then call (Save ext pres)
         else raise (ValueError "save_path is required for a new presentation."))
        (fun e => raise e)
  end.

Definition add_slide (ext : Calls) (identifier : int_or_str) (layout_index : Z)
  : M St Z :=
  _ensure_connection ;;
  pres <- get_presentation identifier ;;
  match pres with
  | None => raise (presentation_not_found identifier)
  | Some pres =>
      try_except
        (let layout_index :=
           if negb ((1 <=? layout_index)
                    && (layout_index <=? CustomLayouts_Count ext pres))
           then 1 else layout_index in
         layout <- lift (CustomLayouts ext pres layout_index) ;;
         call (AddSlide ext pres (Count (Slides pres) + 1) layout))
        (fun e => raise e)
  end.

Definition slide_not_found (slide_index identifier : int_or_str) : exn :=
  ValueError ("Slide " +:+ show slide_index +:+ " not found in presentation '"
              +:+ show identifier +:+ "'.").

Definition add_text_box (ext : Calls) (identifier slide_index : int_or_str)
  (text : string) (left top width height : spec_float) : M St Z :=
  _ensure_connection ;;
  slide <- get_slide identifier slide_index ;;
  match slide with
  | None => raise (slide_not_found slide_index identifier)
  | Some slide =>
      try_except
        (shape <- call (AddTextbox ext slide msoTextOrientationHorizontal
                          left top width height) ;;
         call (set_Text ext shape text) ;;
         call (set_Name ext shape ("TextBox_" +:+ pretty (sh_Id shape))) ;;
         ret (sh_Id shape))
        (fun e => raise e)
  end.

Definition add_shape (ext : Calls) (identifier slide_index : int_or_str)
  (shape_type : Z) (left top width height : spec_float) : M St Z :=
  _ensure_connection ;;
  slide <- get_slide identifier slide_index ;;
  match slide with
  | None => raise (slide_not_found slide_index identifier)
  | Some slide =>
      try_except
        (shape <- call (AddShape ext slide shape_type left top width height) ;;
         call (set_Name ext shape ("Shape_" +:+ pretty (sh_Id shape))) ;;
         ret (sh_Id shape))
        (fun e => raise e)
  end.

Definition get_shape_by_id (identifier slide_index : int_or_str) (shape_id : Z)
  : M St (option Shape) :=
  _ensure_connection ;;
  slide <- get_slide identifier slide_index ;;
  match slide with
  | None => ret None
  | Some slide =>
      try_except
        (for_return (range 1 (Count (Shapes slide) + 1)) (fun i =>
           shape <- lift (Item (Shapes slide) i) ;;
           if sh_Id shape =? shape_id then ret (Some shape) else ret None))
        (fun _ => ret None)
  end.

Definition get_shape_by_name (identifier slide_index : int_or_str)
  (shape_name : string) : M St (option Shape) :=
  _ensure_connection ;;
  slide <- get_slide identifier slide_index ;;
  match slide with
  | None => ret None
  | Some slide =>
      try_except
        (shape <- lift (ItemByName sh_Name (Shapes slide) shape_name) ;;
         ret (Some shape))
        (fun _ => ret None)
  end.

Definition find_shapes_by_type (identifier slide_index : int_or_str)
  (shape_type_name : string) : M St (list ShapeInfo) :=
  _ensure_connection ;;
  slide <- get_slide identifier slide_index ;;
  match slide with
  | None => ret []
  | Some slide =>
      let type_name_lower := lower shape_type_name in
      match dict_get SHAPE_TYPE_NAME_MAP type_name_lower with
      | None => ret []
      | Some target_type_id =>
          for_loop (range 1 (Count (Shapes slide) + 1)) [] (fun matches i =>
            try_except
              (shape <- lift (Item (Shapes slide) i) ;;
               textbox <- lift (dict_item SHAPE_TYPE_NAME_MAP "textbox") ;;
               let is_match :=
                 if target_type_id =? textbox then
                   if sh_Type shape =? textbox then true
                   else if sh_Type shape =? 1
                        then HasTextFrame shape && HasText shape
                        else false
                 else sh_Type shape =? target_type_id in
               if is_match
               then ret (Continue (matches ++ [_get_shape_basic_info shape]))
               else ret (Continue matches))
              (* as in [list_shapes]: the handler around the loop ends it *)
              (fun _ => ret (Break matches)))
      end
  end.

Definition get_placeholder_shape (identifier slide_index : int_or_str)
  (placeholder_name : string) : M St (option ShapeInfo) :=
  _ensure_connection ;;
  slide <- get_slide identifier slide_index ;;
  match slide with
  | None => ret None
  | Some slide =>
      let name_lower := lower placeholder_name in
      match dict_get PLACEHOLDER_NAME_MAP name_lower with
      | None => ret None
      | Some target_ph_type =>
          try_except
            (for_return (range 1 (Count (Shapes slide) + 1)) (fun i =>
               shape <- lift (Item (Shapes slide) i) ;;
               try_except
                 (if sh_Type shape =? msoPlaceholder then
                    (* shape.PlaceholderFormat.Type *)
                    match PlaceholderType shape with
                    | Some t =>
                        if t =? target_ph_type
                        then ret (Some (_get_shape_basic_info shape))
                        else ret None
                    | None => raise (com_error (-2147467259) "Unspecified error")
                    end
                  else ret None)
                 (fun _ => ret None)))
            (fun _ => ret None)
      end
  end.

(** The [properties] of [edit_element], for a caller that passes the text
    and the name as [str] and the coordinates as [float], which [str()] and
    [float()] leave as they are; a key that is absent is [None]. *)
Record Properties : Type := {
  p_text : option string;
  p_left : option spec_float;
  p_top : option spec_float;
  p_width : option spec_float;
  p_height : option spec_float;
  p_name : option string
}.

(** [if key in properties: set(...)] *)
Definition when_given {V} (v : option V) (set : V -> M St unit) : M St unit :=
  match v with
  | Some x => set x
  | None => ret tt
  end.

Definition edit_element (ext : Calls) (identifier slide_index : int_or_str)
  (shape_identifier : int_or_str) (properties : Properties) : M St bool :=
  _ensure_connection ;;
  shape <-
    match shape_identifier with
    | Int shape_id => get_shape_by_id identifier slide_index shape_id
    | Str shape_name => get_shape_by_name identifier slide_index shape_name
    end ;;
  match shape with
  | None => ret false
  | Some shape =>
      try_except
        (when_given (p_text properties) (fun text =>
           if HasTextFrame shape && HasText shape
           then call (set_Text ext shape text) else ret tt) ;;
         when_given (p_left properties) (fun x => call (set_Left ext shape x)) ;;
         when_given (p_top properties) (fun x => call (set_Top ext shape x)) ;;
         when_given (p_width properties) (fun x => call (set_Width ext shape x)) ;;
         when_given (p_height properties) (fun x => call (set_Height ext shape x)) ;;
         when_given (p_name properties) (fun n => call (set_Name ext shape n)) ;;
         ret true)
        (fun _ => ret false)
  end.

(** ** More tools *)

Definition list_open_presentations_tool (ext : Calls)
  : M St (payload (list PresentationInfo)) :=
  try_except
    (presentations <- list_open_presentations ext ;;
     ret (Result "presentations" presentations))
    (fun e => ret (Error ("Failed to list presentations: " +:+ str_exn e))).

Definition save_presentation_tool (ext : Calls) (identifier : int_or_str)
  (save_path : option string) : M St (payload string) :=
  try_except
    (save_presentation ext identifier save_path ;;
     ret (Result "message" ("Save command issued for presentation '"
                            +:+ show identifier +:+ "'.")))
    (fun e => ret (Error ("Failed to save presentation '" +:+ show identifier
                          +:+ "': " +:+ str_exn e))).

Definition edit_element_tool (ext : Calls) (identifier slide_index : int_or_str)
  (shape_identifier : int_or_str) (properties : Properties)
  : M St (payload string) :=
  try_except
    (success <- edit_element ext identifier slide_index shape_identifier
                  properties ;;
     if success
     then ret (Result "message" ("Element '" +:+ show shape_identifier
                                 +:+ "' updated successfully."))
     else ret (Error ("Failed to update element '" +:+ show shape_identifier
                      +:+ "'. See server logs for details.")))
    (fun e => ret (Error ("Failed to edit element '" +:+ show shape_identifier
                          +:+ "' on slide " +:+ show slide_index
                          +:+ ": " +:+ str_exn e))).

Definition find_shapes_by_type_tool (identifier slide_index : int_or_str)
  (shape_type_name : string) : M St (payload (list ShapeInfo)) :=
  let supported_types := keys SHAPE_TYPE_NAME_MAP in
  if negb (existsb (String.eqb (lower shape_type_name)) supported_types)
  then ret (Error ("Unsupported shape type name '" +:+ shape_type_name
                   +:+ "'. Try one of: " +:+ str_list supported_types))
  else
    try_except
      (matches <- find_shapes_by_type identifier slide_index shape_type_name ;;
       ret (Result "matches" matches))
      (fun e => _handle_tool_error "find_shapes_by_type" e).

(** What the tool [get_placeholder_shape] answers. *)
Inductive PlaceholderAnswer : Type :=
| placeholder_found (shape_info : ShapeInfo)
| placeholder_not_found (message : string)
| placeholder_error (error : string).

Definition get_placeholder_shape_tool (identifier slide_index : int_or_str)
  (placeholder_name : string) : M St PlaceholderAnswer :=
  let supported_placeholders := keys PLACEHOLDER_NAME_MAP in
  if negb (existsb (String.eqb (lower placeholder_name)) supported_placeholders)
  then ret (placeholder_error
              ("Unsupported placeholder name '" +:+ placeholder_name
               +:+ "'. Try one of: " +:+ str_list supported_placeholders))
  else
    try_except
      (shape <- get_placeholder_shape identifier slide_index placeholder_name ;;
       match shape with
       | Some info => ret (placeholder_found info)
       | None =>
           ret (placeholder_not_found
                  ("Placeholder '" +:+ placeholder_name
                   +:+ "' not found on slide " +:+ show slide_index +:+ "."))
       end)
      (fun e => raise (NameError "_handle_tool_error")).

End PowerPoint.

(* ================================================================== *)
(** * mcp_powerpoint_server.py *)
(* ================================================================== *)

Module Pptx.

(** ** pathlib, POSIX flavour

    A path is its root and its components.  [Path(s)] drops empty and [.]
    components, as [pathlib] does, and keeps [..]; the root is [/] for a
    text that begins with a slash, but [//] for one that begins with just
    two. *)

Record PurePath : Type := {
  root : string;
  parts : list string
}.

Fixpoint split_on (sep : ascii) (s cur : string) : list string :=
  match s with
  | EmptyString => [string_rev cur]
  | String c s' =>
      if Ascii.eqb c sep then string_rev cur :: split_on sep s' EmptyString
      else split_on sep s' (String c cur)
  end.

Definition root_of (s : string) : string :=
  match s with
  | String "/" (String "/" (String "/" _)) => "/"
  | String "/" (String "/" _) => "//"
  | String "/" _ => "/"
  | _ => ""
  end.

Definition Path (s : string) : PurePath :=
  {| root := root_of s;
     parts := List.filter (fun p => negb (String.eqb p "" || String.eqb p "."))
                          (split_on "/" s EmptyString) |}.

Definition is_absolute (p : PurePath) : bool := truthy (root p).

(** [a / b] *)
Definition joinpath (a b : PurePath) : PurePath :=
  if truthy (root b) then b
  else {| root := root a; parts := parts a ++ parts b |}.

Fixpoint join_slash (l : list string) : string :=
  match l with
  | [] => ""
  | [x] => x
  | x :: l' => x +:+ "/" +:+ join_slash l'
  end.

(** [str(p)] *)
Definition str (p : PurePath) : string :=
  match parts p with
  | [] => if truthy (root p) then root p else "."
  | l => root p +:+ join_slash l
  end.

(** ** The document tree of python-pptx, as far as the server uses it *)

Record Shape : Type := {
  shape_id : Z;
  text : string
}.

(** A slide with the identity of its entry in the presentation's slide-id
    list ([_sldIdLst]); [remove] finds an entry by that identity. *)
Record Slide : Type := {
  sld_id : Z;
  shapes : list Shape
}.

Record Presentation : Type := {
  slides : list Slide
}.

(** [Presentation()]: the default template has no slide. *)
Definition new_presentation : Presentation := {| slides := [] |}.

(** What there is at a path: a deck, or something else (a directory, a file
    that is no deck) on which [Presentation(path)] raises. *)
Inductive Entry : Type :=
| Deck (file : Presentation)
| NoDeck (e : exn).

(** [prs.save(path)], taken to succeed: the deck is at the path
    afterwards.  What the other paths lead to is left as it was; a second
    spelling of the same file (through [..] or a link) is not followed. *)
Definition save (p : Presentation) (path : string)
  (d : string -> outcome (option Entry)) : string -> outcome (option Entry) :=
  fun k => if String.eqb k path then Return (Some (Deck p)) else d k.

(** [Presentation(path)] for a path at which there is [entry]. *)
Definition load (entry : Entry) : outcome Presentation :=
  match entry with
  | Deck file => Return file
  | NoDeck e => Raise e
  end.

(** ** class PowerPointContext

    The state holds the fields of the context object and what they refer
    to: the presentation objects in memory ([objects], an object is its
    position there), what there is on disk, the paths read so far, and the
    identifiers [uuid.uuid4] hands out.  The disk is what [exists] and
    [Presentation(path)] find at each path: [exists] raises (as for a
    name that is too long), or there is nothing, or there is an entry. *)

Record Context : Type := {
  workspace_dir : PurePath;
  presentations : gmap string nat;
  current_presentation : option string;
  element_ids : gmap string (gmap Z (gmap Z string));
  objects : list Presentation;
  disk : string -> outcome (option Entry);
  disk_reads : list string;
  uuid4 : nat -> string;
  uuids_drawn : nat
}.

Definition set_presentations (m : gmap string nat) (c : Context) : Context :=
  {| workspace_dir := workspace_dir c; presentations := m;
     current_presentation := current_presentation c;
     element_ids := element_ids c; objects := objects c; disk := disk c;
     disk_reads := disk_reads c; uuid4 := uuid4 c; uuids_drawn := uuids_drawn c |}.
Definition set_current_presentation (o : option string) (c : Context) : Context :=
  {| workspace_dir := workspace_dir c; presentations := presentations c;
     current_presentation := o;
     element_ids := element_ids c; objects := objects c; disk := disk c;
     disk_reads := disk_reads c; uuid4 := uuid4 c; uuids_drawn := uuids_drawn c |}.
Definition set_element_ids (m : gmap string (gmap Z (gmap Z string)))
  (c : Context) : Context :=
  {| workspace_dir := workspace_dir c; presentations := presentations c;
     current_presentation := current_presentation c;
     element_ids := m; objects := objects c; disk := disk c;
     disk_reads := disk_reads c; uuid4 := uuid4 c; uuids_drawn := uuids_drawn c |}.
Definition set_objects (l : list Presentation) (c : Context) : Context :=
  {| workspace_dir := workspace_dir c; presentations := presentations c;
     current_presentation := current_presentation c;
     element_ids := element_ids c; objects := l; disk := disk c;
     disk_reads := disk_reads c; uuid4 := uuid4 c; uuids_drawn := uuids_drawn c |}.
Definition set_disk (d : string -> outcome (option Entry)) (c : Context)
  : Context :=
  {| workspace_dir := workspace_dir c; presentations := presentations c;
     current_presentation := current_presentation c;
     element_ids := element_ids c; objects := objects c; disk := d;
     disk_reads := disk_reads c; uuid4 := uuid4 c; uuids_drawn := uuids_drawn c |}.
Definition set_disk_reads (l : list string) (c : Context) : Context :=
  {| workspace_dir := workspace_dir c; presentations := presentations c;
     current_presentation := current_presentation c;
     element_ids := element_ids c; objects := objects c; disk := disk c;
     disk_reads := l; uuid4 := uuid4 c; uuids_drawn := uuids_drawn c |}.
Definition set_uuids_drawn (n : nat) (c : Context) : Context :=
  {| workspace_dir := workspace_dir c; presentations := presentations c;
     current_presentation := current_presentation c;
     element_ids := element_ids c; objects := objects c; disk := disk c;
     disk_reads := disk_reads c; uuid4 := uuid4 c; uuids_drawn := n |}.

Definition modify (f : Context -> Context) : M Context unit :=
  fun c => (Return tt, f c).

(** A new object in memory. *)
Definition new_object (p : Presentation) : M Context nat :=
  c <- get ;;
  modify (set_objects (objects c ++ [p])) ;;
  ret (length (objects c)).

(** The object behind a reference. *)
Definition deref (r : nat) : M Context Presentation :=
  c <- get ;;
  match objects c !! r with
  | Some p => ret p
  | None => raise (AttributeError "no such object")
  end.

(** [path_obj]/[path_str] of [get_presentation] and [save_presentation]. *)
Definition path_str_of (workspace_dir : PurePath) (path : string) : string :=
  let path_obj := Path path in
  let path_obj := if is_absolute path_obj then path_obj
                  else joinpath workspace_dir path_obj in
  str path_obj.

Definition get_presentation (path : string) : M Context nat :=
  c <- get ;;
  let path_str := path_str_of (workspace_dir c) path in
  match presentations c !! path_str with
  | Some _ => ret tt
  | None =>
      found <- lift (disk c path_str) ;;
      match found with
      | Some entry =>
          (* path_obj.exists(): Presentation(path_str) *)
          modify (set_disk_reads (disk_reads c ++ [path_str])) ;;
          file <- lift (load entry) ;;
          r <- new_object file ;;
          c <- get ;;
          modify (set_presentations (<[path_str := r]> (presentations c)))
      | None =>
          (* Presentation() *)
          r <- new_object new_presentation ;;
          c <- get ;;
          modify (set_presentations (<[path_str := r]> (presentations c)))
      end
  end ;;
  modify (set_current_presentation (Some path_str)) ;;
  c <- get ;;
  match presentations c !! path_str with
  | Some r => ret r
  | None => raise (KeyError path_str)
  end.

Definition save_presentation (path : option string) : M Context unit :=
  c <- get ;;
  let save_path :=
    match path with
    | Some p => if truthy p then Some (path_str_of (workspace_dir c) p)
                else current_presentation c
    | None => current_presentation c
    end in
  match save_path with
  | Some save_path =>
      if truthy save_path then
        match presentations c !! save_path with
        | Some r =>
            p <- deref r ;;
            modify (set_disk (save p save_path (disk c)))
        | None => ret tt
        end
      else ret tt
  | None => ret tt
  end.

Definition generate_element_id : M Context string :=
  c <- get ;;
  modify (set_uuids_drawn (S (uuids_drawn c))) ;;
  ret (uuid4 c (uuids_drawn c)).

Definition register_element (presentation_path : string) (slide_index : Z)
  (shape : Shape) : M Context string :=
  c <- get ;;
  match element_ids c !! presentation_path with
  | None => modify (set_element_ids (<[presentation_path := ∅]> (element_ids c)))
  | Some _ => ret tt
  end ;;
  c <- get ;;
  let by_slide := default ∅ (element_ids c !! presentation_path) in
  match by_slide !! slide_index with
  | None => modify (set_element_ids
              (<[presentation_path := <[slide_index := ∅]> by_slide]> (element_ids c)))
  | Some _ => ret tt
  end ;;
  let shape_id := shape_id shape in
  c <- get ;;
  let by_slide := default ∅ (element_ids c !! presentation_path) in
  let by_shape := default ∅ (by_slide !! slide_index) in
  match by_shape !! shape_id with
  | None =>
      element_id <- generate_element_id ;;
      c <- get ;;
      modify (set_element_ids
        (<[presentation_path :=
             <[slide_index := <[shape_id := element_id]> by_shape]> by_slide]>
           (element_ids c)))
  | Some _ => ret tt
  end ;;
  c <- get ;;
  match element_ids c !! presentation_path with
  | Some by_slide =>
      match by_slide !! slide_index with
      | Some by_shape =>
          match by_shape !! shape_id with
          | Some element_id => ret element_id
          | None => raise (KeyError "shape_id")
          end
      | None => raise (KeyError "slide_index")
      end
  | None => raise (KeyError presentation_path)
  end.

Definition get_shape_by_id (presentation : nat) (slide_index : Z)
  (element_id : string) : M Context (option Shape) :=
  try_except
    (presentation <- deref presentation ;;
     if Z.of_nat (length (slides presentation)) <=? slide_index then ret None
     else
       slide <- lift (getitem (slides presentation) slide_index) ;;
       c <- get ;;
       match current_presentation c with
       | None => ret None
       | Some presentation_path =>
           if negb (truthy presentation_path) then ret None
           else
             match element_ids c !! presentation_path with
             | None => ret None
             | Some by_slide =>
                 match by_slide !! slide_index with
                 | None => ret None
                 | Some by_shape =>
                     for_return (shapes slide) (fun shape =>
                       match by_shape !! shape_id shape with
                       | Some e => if String.eqb e element_id
                                   then ret (Some shape) else ret None
                       | None => ret None
                       end)
                 end
             end
       end)
    (fun _ => ret None).

Definition get_slide_count (presentation_path : string) : M Context Z :=
  presentation <- get_presentation presentation_path ;;
  p <- deref presentation ;;
  ret (Z.of_nat (length (slides p))).

(** [xml_slides.remove(x)]: the entry that is [x] goes. *)
Fixpoint remove (x : Slide) (l : list Slide) : list Slide :=
  match l with
  | [] => []
  | y :: l' => if sld_id y =? sld_id x then l' else y :: remove x l'
  end.

Definition delete_slide (presentation_path : string) (slide_index : Z)
  : M Context bool :=
  presentation <- get_presentation presentation_path ;;
  p <- deref presentation ;;
  let xml_slides := slides p in
  let slides_ := xml_slides in
  if (0 <=? slide_index) && (slide_index <? Z.of_nat (length slides_)) then
    x <- lift (getitem slides_ slide_index) ;;
    c <- get ;;
    modify (set_objects
      (<[presentation := {| slides := remove x xml_slides |}]> (objects c))) ;;
    ret true
  else ret false.

(** [find_slide_by_content]; [hasattr_text] says which shapes have a [text]
    attribute (pictures, for one, have none). *)
Definition find_slide_by_content (hasattr_text : Shape -> bool)
  (presentation_path search_text : string) : M Context (option Z) :=
  presentation <- get_presentation presentation_path ;;
  p <- deref presentation ;;
  for_return (enumerate (slides p)) (fun '(idx, slide) =>
    for_return (shapes slide) (fun shape =>
      if hasattr_text shape
         && contains (lower search_text) (lower (text shape))
      then ret (Some idx) else ret None)).

(** ** The tools *)

(** What the tool [delete_slide] answers. *)
Inductive DeleteAnswer : Type :=
| delete_answer (success : bool) (message : string)
| delete_error (error : string).

Definition delete_slide_tool (presentation_path : string) (slide_index : Z)
  : M Context DeleteAnswer :=
  try_except
    (success <- delete_slide presentation_path slide_index ;;
     ret (delete_answer success
            (if success then "Slide deleted successfully"
             else "Failed to delete slide")))
    (fun e => ret (delete_error (str_exn e))).

Definition get_slide_count_tool (presentation_path : string)
  : M Context (payload Z) :=
  try_except
    (count <- get_slide_count presentation_path ;;
     ret (Result "count" count))
    (fun e => ret (Error (str_exn e))).

Definition save_presentation_tool (presentation_path : option string)
  : M Context (payload string) :=
  try_except
    (save_presentation presentation_path ;;
     ret (Result "message" "Presentation saved successfully"))
    (fun e => ret (Error (str_exn e))).

(** What the tool [debug_element_mappings] answers. *)
Inductive MappingsAnswer : Type :=
| mappings_answer (presentation : string) (slide : Z) (mappings : gmap Z string)
| mappings_error (error : string).

Definition debug_element_mappings (presentation_path : string)
  (slide_index : Z) : M Context MappingsAnswer :=
  try_except
    (context <- get ;;
     match element_ids context !! presentation_path with
     | None =>
         ret (mappings_error ("No elements registered for presentation: "
                              +:+ presentation_path))
     | Some by_slide =>
         match by_slide !! slide_index with
         | None =>
             ret (mappings_error ("No elements registered for slide "
                                  +:+ pretty slide_index))
         | Some mappings =>
             ret (mappings_answer presentation_path slide_index mappings)
         end
     end)
    (fun e => ret (mappings_error (str_exn e))).

End Pptx.

(* ================================================================== *)
(** * Specifications and example states *)
(* ================================================================== *)

(** ** Connection guards *)

(** What a connection guard does, case by case, for the state [s] it finds.
    [connect] is the guard's connection routine and [version] reads the
    handle's version ([None]: the handle does not answer). *)
Definition guard_contract {App} (version : App -> option string)
  (connect guard : M (Editor App) unit) : Prop :=
  forall s : Editor App,
    let r := fst (guard s) in
    let s' := snd (guard s) in
    (* handle present and responsive: nothing happens *)
    (forall a v, app s = Some a -> version a = Some v ->
       r = Return tt /\ s' = s)
    (* handle present, not responsive: one attempt *)
    /\ (forall a, app s = Some a -> version a = None ->
          s' = snd (connect s)
          /\ connects s' = S (connects s)
          /\ (app s' = None -> exists m, r = Raise (ConnectionError m))
          /\ (app s' <> None -> r = Return tt))
    (* handle absent: one attempt, and one more when the handle it yields
       is not responsive *)
    /\ (app s = None ->
          let s1 := snd (connect s) in
          match app s1 with
          | None =>
              s' = s1 /\ connects s' = S (connects s)
              /\ exists m, r = Raise (ConnectionError m)
          | Some a1 =>
              match version a1 with
              | Some _ =>
                  s' = s1 /\ connects s' = S (connects s) /\ r = Return tt
              | None =>
                  s' = snd (connect s1)
                  /\ connects s' = S (S (connects s))
                  /\ (app s' = None -> exists m, r = Raise (ConnectionError m))
                  /\ (app s' <> None -> r = Return tt)
              end
          end)
    (* never more than two attempts, and no exception but ConnectionError *)
    /\ (connects s' <= connects s + 2)%nat
    /\ (forall e, r = Raise e -> exists m, e = ConnectionError m).


(** The guard, written out on the state. *)
Definition guard_direct {App} (version : App -> option string)
  (connect : M (Editor App) unit) (m1 m2 : string) (s : Editor App)
  : outcome unit * Editor App :=
  let s1 := match app s with
            | None => snd (connect s)
            | Some _ => s
            end in
  match app s1 with
  | None => (Raise (ConnectionError m1), s1)
  | Some a =>
      match version a with
      | Some _ => (Return tt, s1)
      | None =>
          let s2 := snd (connect s1) in
          match app s2 with
          | None => (Raise (ConnectionError m2), s2)
          | Some _ => (Return tt, s2)
          end
      end
  end.


(** A desktop on which PowerPoint runs but does not answer. *)
Definition hung_powerpoint : PowerPoint.Application :=
  {| PowerPoint.Version := None; PowerPoint.Visible := true;
     PowerPoint.Presentations := [] |}.

Definition hung_desktop : nat -> Desktop PowerPoint.Application :=
  fun _ => {| GetActiveObject := Running hung_powerpoint;
              Dispatch := LaunchFailed |}.

Definition editor_without_handle : PowerPoint.St :=
  {| app := None; desktop := hung_desktop; connects := 0 |}.

(** ** Identifier resolution *)

(** Looking a document or a subsection up by position. *)
Definition by_position {A} (c : list A) (n : Z) (r : option A) : Prop :=
  (1 <= n <= Count c -> r = nth_error c (Z.to_nat (n - 1)) /\ r <> None)
  /\ (~ (1 <= n <= Count c) -> r = None).

(** [r] is the first item of [c] that is [P], and [None] when no item
    is. *)
Definition first_such {A} (P : A -> Prop) (c : list A) (r : option A) : Prop :=
  match r with
  | Some x =>
      exists i, nth_error c i = Some x /\ P x
                /\ forall j y, (j < i)%nat -> nth_error c j = Some y -> ~ P y
  | None => forall x, In x c -> ~ P x
  end.

(** A workbook that a text names: the text is its name or, when the
    workbook has a path, its full name, in both cases without regard to
    case. *)
Definition names_workbook (identifier : string) (wb : Excel.Workbook) : Prop :=
  lower (Excel.wb_Name wb) = lower identifier
  \/ (Excel.wb_Path wb <> ""
      /\ lower (Excel.wb_FullName wb) = lower identifier).

(** A presentation that a text names: the text is its name or its full
    name, letter for letter. *)
Definition names_presentation (identifier : string)
  (pres : PowerPoint.Presentation) : Prop :=
  PowerPoint.pr_Name pres = identifier
  \/ PowerPoint.pr_FullName pres = identifier.

(** [o] is what looking [identifier] up among the open documents [c] comes
    to.  An integer, and a text that [isdigit] accepts and [int] converts,
    is a 1-based position: the document there, and [None] outside
    [1..Count].  A text that [isdigit] accepts and [int] refuses gives the
    exception of [int].  Any other text is a name: the first document it
    [names], and [None] when it names none. *)
Definition resolves_to {A} (names : string -> A -> Prop) (c : list A)
  (identifier : int_or_str) (o : outcome (option A)) : Prop :=
  match identifier with
  | Int n => exists r, o = Return r /\ by_position c n r
  | Str s =>
      if isdigit s then
        match int s with
        | Return n => exists r, o = Return r /\ by_position c n r
        | Raise e => o = Raise e
        end
      else exists r, o = Return r /\ first_such (names s) c r
  end.

(** The lookups as functions of the open documents. *)
Definition at_position {A} (c : list A) (n : Z) : option A :=
  if (1 <=? n) && (n <=? Count c) then nth_error c (Z.to_nat (n - 1)) else None.

Definition resolve {A} (matches : string -> A -> bool) (c : list A)
  (identifier : int_or_str) : outcome (option A) :=
  match identifier with
  | Int n => Return (at_position c n)
  | Str s =>
      if isdigit s then
        match int s with
        | Return n => Return (at_position c n)
        | Raise e => Raise e
        end
      else Return (find (matches s) c)
  end.

Definition subsection {A} (name_of : A -> string) (c : list A)
  (identifier : int_or_str) : option A :=
  match identifier with
  | Int n => at_position c n
  | Str name => find (fun x => String.eqb (lower (name_of x)) (lower name)) c
  end.

Definition worksheet_of (a : Excel.Application)
  (identifier sheet_identifier : int_or_str)
  : outcome (option Excel.Worksheet) :=
  match resolve Excel.workbook_matches (Excel.Workbooks a) identifier with
  | Return (Some wb) =>
      Return (subsection Excel.ws_Name (Excel.Worksheets wb) sheet_identifier)
  | Return None => Return None
  | Raise e => Raise e
  end.

(** Looking a subsection up by identifier, where a string is a name. *)
Definition subsection_as {A} (name_of : A -> string) (c : list A)
  (identifier : int_or_str) (r : option A) : Prop :=
  match identifier with
  | Int n => by_position c n r
  | Str name =>
      r = find (fun x => String.eqb (lower (name_of x)) (lower name)) c
  end.

(** An Excel with two workbooks open, and a PowerPoint with one
    presentation of two slides. *)
Definition sheet_costs : Excel.Worksheet :=
  {| Excel.ws_Name := "Costs"; Excel.ws_Index := 1;
     Excel.UsedRange := Some {| Excel.Row := 1; Excel.Column := 1;
       Excel.values := [ [Excel.VStr "Item"; Excel.VStr "Amount"];
                         [Excel.VStr "Rent"; Excel.VInt 1200];
                         [Excel.VStr "Power"; Excel.VInt 90] ] |} |}.

Definition sheet_blank : Excel.Worksheet :=
  {| Excel.ws_Name := "Sheet2"; Excel.ws_Index := 2; Excel.UsedRange := None |}.

Definition book_budget : Excel.Workbook :=
  {| Excel.wb_Name := "Budget.xlsx"; Excel.wb_Path := "C:\Docs";
     Excel.wb_FullName := "C:\Docs\Budget.xlsx";
     Excel.Worksheets := [sheet_costs; sheet_blank] |}.

Definition book_new : Excel.Workbook :=
  {| Excel.wb_Name := "Book1"; Excel.wb_Path := "";
     Excel.wb_FullName := "Book1"; Excel.Worksheets := [sheet_blank] |}.

Definition excel_running : Excel.Application :=
  {| Excel.Version := Some "16.0"; Excel.Visible := true;
     Excel.ScreenUpdating := true; Excel.DisplayAlerts := true;
     Excel.Workbooks := [book_budget; book_new] |}.

Definition excel_editor : Excel.St :=
  {| app := Some excel_running;
     desktop := fun _ => {| GetActiveObject := Running excel_running;
                            Dispatch := LaunchFailed |};
     connects := 1 |}.

(** A sheet of fees: a currency amount of 1200.50 beside [Fee], and [True]
    beside [Paid]. *)
Definition sheet_fees : Excel.Worksheet :=
  {| Excel.ws_Name := "Fees"; Excel.ws_Index := 1;
     Excel.UsedRange := Some {| Excel.Row := 1; Excel.Column := 1;
       Excel.values := [ [Excel.VStr "Fee"; Excel.VDecimal (float_of 2401 (-1))];
                         [Excel.VStr "Paid"; Excel.VBool true] ] |} |}.

Definition fees_running : Excel.Application :=
  {| Excel.Version := Some "16.0"; Excel.Visible := true;
     Excel.ScreenUpdating := true; Excel.DisplayAlerts := true;
     Excel.Workbooks :=
       [ {| Excel.wb_Name := "Fees.xlsx"; Excel.wb_Path := "C:\Docs";
            Excel.wb_FullName := "C:\Docs\Fees.xlsx";
            Excel.Worksheets := [sheet_fees] |} ] |}.

Definition fees_editor : Excel.St :=
  {| app := Some fees_running;
     desktop := fun _ => {| GetActiveObject := Running fees_running;
                            Dispatch := LaunchFailed |};
     connects := 1 |}.

(** Two texts that [isdigit] accepts and [int] refuses: a run of 4301
    digits, and the superscript two. *)
Definition long_digits : string :=
  string_of_list_ascii (repeat "1"%char 4301).

Definition superscript_two : string := String (ascii_of_nat 178) "".

Definition title_shape : PowerPoint.Shape :=
  {| PowerPoint.sh_Id := 2; PowerPoint.sh_Name := "Title 1";
     PowerPoint.sh_Type := 14;
     PowerPoint.sh_Left := float_of_int 36; PowerPoint.sh_Top := float_of_int 24;
     PowerPoint.sh_Width := float_of_int 648;
     PowerPoint.sh_Height := float_of_int 90;
     PowerPoint.HasTextFrame := true; PowerPoint.HasText := true;
     PowerPoint.sh_Text := "Quarterly results";
     PowerPoint.PlaceholderType := Some 1 |}.

Definition deck : PowerPoint.Presentation :=
  {| PowerPoint.pr_Name := "Results.pptx"; PowerPoint.pr_Path := "C:\Docs";
     PowerPoint.pr_FullName := "C:\Docs\Results.pptx";
     PowerPoint.Slides := [ {| PowerPoint.Shapes := [title_shape] |};
                            {| PowerPoint.Shapes := [] |} ] |}.

Definition powerpoint_running : PowerPoint.Application :=
  {| PowerPoint.Version := Some "16.0"; PowerPoint.Visible := true;
     PowerPoint.Presentations := [deck] |}.

Definition powerpoint_editor : PowerPoint.St :=
  {| app := Some powerpoint_running;
     desktop := fun _ => {| GetActiveObject := Running powerpoint_running;
                            Dispatch := LaunchFailed |};
     connects := 1 |}.

(** ** Worksheet analysis *)

(** The state in which [_performance_mode] runs its body. *)
Definition performance_mode_entered (s : Excel.St) (a : Excel.Application)
  : Excel.St :=
  set_app (Some (Excel.with_DisplayAlerts false
                   (Excel.with_ScreenUpdating false a))) s.

(** The application of [s'] has the two settings of the application [a]. *)
Definition settings_as (a : Excel.Application) (s' : Excel.St) : Prop :=
  exists a', app s' = Some a'
             /\ Excel.ScreenUpdating a' = Excel.ScreenUpdating a
             /\ Excel.DisplayAlerts a' = Excel.DisplayAlerts a.

(** A computation that leaves the editor with a handle when it found one. *)
Definition keeps_handle {A} (c : M Excel.St A) : Prop :=
  forall s a, app s = Some a -> exists a', app (snd (c s)) = Some a'.

(** A computation that leaves the state [s] as it is. *)
Definition pure_at {St A} (s : St) (c : M St A) : Prop := snd (c s) = s.

(** Calls that succeed and change nothing. *)
Definition quiet_calls : Excel.Calls :=
  {| Excel.abspath := fun p => p;
     Excel.dirname := fun p => p;
     Excel.makedirs := fun _ => Return tt;
     Excel.SaveAs := fun _ _ _ a => (Return tt, a);
     Excel.Save := fun _ a => (Return tt, a);
     Excel.Worksheets_Add := fun _ after a => (Return after, a);
     Excel.set_Name := fun sheet _ a => (Return sheet, a);
     Excel.set_Value := fun _ _ _ _ _ a => (Return tt, a) |}.

(** A non-blank text cell. *)
Definition is_text (v : Excel.CellValue) : bool :=
  match v with
  | Excel.VStr s => truthy (strip s)
  | _ => false
  end.

(** A float that is zero, of either sign. *)
Definition is_zero (x : spec_float) : bool :=
  match x with S754_zero _ => true | _ => false end.

(** What counts as a nonzero number: an [int] other than 0 and a [float]
    other than zero; [True], being the [int] 1, counts; a [Decimal] amount,
    a date, a text and an empty cell do not. *)
Definition counts_as_number (v : Excel.CellValue) : bool :=
  match v with
  | Excel.VInt n => negb (n =? 0)
  | Excel.VFloat x => negb (is_zero x)
  | Excel.VBool b => b
  | Excel.VNone | Excel.VStr _ | Excel.VDecimal _ | Excel.VOther => false
  end.

(** A nonzero numeric value, as one reads the words: a number other than
    zero, a currency amount included; a truth value is no number. *)
Definition nonzero_numeric_value (v : Excel.CellValue) : bool :=
  match v with
  | Excel.VInt n => negb (n =? 0)
  | Excel.VFloat x | Excel.VDecimal x => negb (is_zero x)
  | Excel.VNone | Excel.VStr _ | Excel.VBool _ | Excel.VOther => false
  end.

(** The rows, among the 19 beneath row [r], that hold a [number] in column
    [c]. *)
Definition numbers_beneath_by (number : Excel.CellValue -> bool)
  (ws : Excel.Worksheet) (r c : Z) : list Z :=
  List.filter (fun k => number (Excel.value_at ws k c))
              (range (r + 1) (r + 20)).

Definition numbers_beneath : Excel.Worksheet -> Z -> Z -> list Z :=
  numbers_beneath_by counts_as_number.

(** The used range lies on the sheet. *)
Definition on_sheet (ws : Excel.Worksheet) : Prop :=
  match Excel.UsedRange ws with
  | None => True
  | Some ur =>
      1 <= Excel.Row ur /\ 1 <= Excel.Column ur
      /\ Excel.Row ur + Excel.Rows_Count ur - 1 <= Excel.max_row
      /\ Forall (fun row => Excel.Column ur + Z.of_nat (length row) - 1
                             <= Excel.max_col) (Excel.values ur)
  end.

(** The string cells of a sheet, as [extract_string_cells] lists them. *)
Definition cell_entry (ws : Excel.Worksheet) (r c : Z) (s : string)
  : Excel.StringCell :=
  {| Excel.sc_value := s; Excel.sc_address := Excel.CellAt r c;
     Excel.sc_sheet := Excel.ws_Name ws; Excel.sc_row := r; Excel.sc_col := c |}.

Definition cell_entries (ws : Excel.Worksheet) (r c : Z) (v : Excel.CellValue)
  : list Excel.StringCell :=
  match v with
  | Excel.VStr s => if truthy (strip s) then [cell_entry ws r c (strip s)] else []
  | _ => []
  end.

Definition row_cells (ws : Excel.Worksheet) (ur : Excel.Range) (i : Z)
  (row : list Excel.CellValue) : list Excel.StringCell :=
  flat_map (fun jv => cell_entries ws (Excel.Row ur + i)
                        (Excel.Column ur + fst jv) (snd jv))
           (enumerate row).

Definition grid_cells (ws : Excel.Worksheet) (ur : Excel.Range)
  : list Excel.StringCell :=
  flat_map (fun irow => row_cells ws ur (fst irow) (snd irow))
           (enumerate (Excel.values ur)).

Definition string_cells_of (ws : Excel.Worksheet) : list Excel.StringCell :=
  match Excel.UsedRange ws with
  | None => []
  | Some ur =>
      match Excel.values ur with
      | [[Excel.VStr s]] => [cell_entry ws (Excel.Row ur) (Excel.Column ur) s]
      | [[_]] => []
      | _ => grid_cells ws ur
      end
  end.

(** What the loops of [analyze_label_value_patterns] collect. *)
Definition used_ranges_of (ws : Excel.Worksheet) : list Excel.UsedRangeInfo :=
  match Excel.UsedRange ws with
  | None => []
  | Some ur =>
      [ {| Excel.range_ := Excel.Range_Address ur;
           Excel.rows := Excel.Rows_Count ur;
           Excel.cols := Excel.Columns_Count ur;
           Excel.first_row := Excel.Row ur;
           Excel.last_row := Excel.Row ur + Excel.Rows_Count ur - 1;
           Excel.first_col := Excel.Column ur;
           Excel.last_col := Excel.Column ur + Excel.Columns_Count ur - 1 |} ]
  end.

Definition has_pair (ws : Excel.Worksheet) (sc : Excel.StringCell) : bool :=
  match Excel.Cells ws (Excel.sc_row sc) (Excel.sc_col sc + 1) with
  | Return cell => Excel.is_nonzero_number (Excel.Value cell)
  | Raise _ => false
  end.

Definition pair_of (ws : Excel.Worksheet) (sc : Excel.StringCell)
  : Excel.HorizontalPair :=
  {| Excel.hp_label := Excel.sc_value sc;
     Excel.hp_label_address := Excel.sc_address sc;
     Excel.hp_value := Excel.value_at ws (Excel.sc_row sc) (Excel.sc_col sc + 1);
     Excel.hp_value_address :=
       Excel.CellAt (Excel.sc_row sc) (Excel.sc_col sc + 1);
     Excel.hp_row := Excel.sc_row sc |}.

Definition window (ur : Excel.Range) (sc : Excel.StringCell) : list Z :=
  range (Excel.sc_row sc + 1)
        (Z.min (Excel.sc_row sc + 20) (Excel.Rows_Count ur + Excel.Row ur)).

Definition number_at (ws : Excel.Worksheet) (c k : Z) : Excel.NumberBelow :=
  {| Excel.nb_value := Excel.value_at ws k c;
     Excel.nb_address := Excel.CellAt k c;
     Excel.nb_row := k |}.

Definition numbers_in (ws : Excel.Worksheet) (c : Z) (rows : list Z)
  : list Excel.NumberBelow :=
  map (number_at ws c)
      (List.filter (fun k => Excel.is_nonzero_number (Excel.value_at ws k c)) rows).

Definition has_header (ws : Excel.Worksheet) (ur : Excel.Range)
  (sc : Excel.StringCell) : bool :=
  2 <=? Z.of_nat (length (numbers_in ws (Excel.sc_col sc) (window ur sc))).

Definition header_of (ws : Excel.Worksheet) (ur : Excel.Range)
  (sc : Excel.StringCell) : Excel.TableHeader :=
  let nb := numbers_in ws (Excel.sc_col sc) (window ur sc) in
  {| Excel.th_header := Excel.sc_value sc;
     Excel.th_header_address := Excel.sc_address sc;
     Excel.th_data_count := Z.of_nat (length nb);
     Excel.th_data_range :=
       Excel.Span (Excel.sc_address sc)
         (Excel.CellAt (Excel.nb_row (List.last nb (number_at ws 0 0)))
                       (Excel.sc_col sc)) |}.

(** A string cell whose window of rows lies on the sheet. *)
Definition cell_on_sheet (ur : Excel.Range) (sc : Excel.StringCell) : Prop :=
  Excel.Row ur <= Excel.sc_row sc /\ 1 <= Excel.sc_col sc <= Excel.max_col.

Definition headers_of (ws : Excel.Worksheet) : list Excel.TableHeader :=
  match Excel.UsedRange ws with
  | Some ur => map (header_of ws ur)
                   (List.filter (has_header ws ur) (string_cells_of ws))
  | None => []
  end.

(** The report of [analyze_label_value_patterns] on a sheet. *)
Definition patterns_of (ws : Excel.Worksheet) : Excel.Patterns :=
  {| Excel.horizontal_pairs :=
       map (pair_of ws) (List.filter (has_pair ws) (string_cells_of ws));
     Excel.vertical_lists := [];
     Excel.table_headers := headers_of ws;
     Excel.total_string_cells := Z.of_nat (length (string_cells_of ws));
     Excel.used_ranges := Z.of_nat (length (used_ranges_of ws)) |}.

(** What a report says about a sheet, for a reading of [number]: which
    cells it names as labels of a horizontal pair and as table headers, each
    once, and what it records for them. *)
Definition reports_by (number : Excel.CellValue -> bool)
  (ws : Excel.Worksheet) (p : Excel.Patterns) : Prop :=
  (forall r c,
     In (Excel.CellAt r c) (map Excel.hp_label_address (Excel.horizontal_pairs p))
     <-> is_text (Excel.value_at ws r c) = true
         /\ number (Excel.value_at ws r (c + 1)) = true)
  /\ NoDup (map Excel.hp_label_address (Excel.horizontal_pairs p))
  /\ (forall r c,
        In (Excel.CellAt r c) (map Excel.th_header_address (Excel.table_headers p))
        <-> is_text (Excel.value_at ws r c) = true
            /\ (2 <= length (numbers_beneath_by number ws r c))%nat)
  /\ NoDup (map Excel.th_header_address (Excel.table_headers p))
  /\ (forall hp, In hp (Excel.horizontal_pairs p) ->
        exists r c,
          Excel.hp_label_address hp = Excel.CellAt r c
          /\ Excel.hp_row hp = r
          /\ Excel.hp_value hp = Excel.value_at ws r (c + 1)
          /\ Excel.hp_value_address hp = Excel.CellAt r (c + 1))
  /\ (forall th, In th (Excel.table_headers p) ->
        exists r c,
          Excel.th_header_address th = Excel.CellAt r c
          /\ Excel.th_data_count th
             = Z.of_nat (length (numbers_beneath_by number ws r c))).

(** The report is exact for the numbers that count. *)
Definition reports_exactly : Excel.Worksheet -> Excel.Patterns -> Prop :=
  reports_by counts_as_number.

(** ** Tools *)

(** An editor that has no handle, on a desktop where PowerPoint neither runs
    nor starts. *)
Definition powerpoint_unreachable : PowerPoint.St :=
  {| app := None;
     desktop := fun _ => {| GetActiveObject := NotRunning;
                            Dispatch := LaunchFailed |};
     connects := 1 |}.

(** ** The document cache and the element registry *)

(** A deck of two slides, the first with a title and a picture, and the
    context a fresh server starts with in a directory where that deck is
    saved in the default workspace. *)
Definition title_box : Pptx.Shape :=
  {| Pptx.shape_id := 2; Pptx.text := "Quarterly results" |}.

Definition logo : Pptx.Shape :=
  {| Pptx.shape_id := 3; Pptx.text := "" |}.

Definition deck_file : Pptx.Presentation :=
  {| Pptx.slides := [ {| Pptx.sld_id := 256; Pptx.shapes := [title_box; logo] |};
                      {| Pptx.sld_id := 257; Pptx.shapes := [] |} ] |}.

(** What [Presentation] raises on a directory that holds no package, as
    python-pptx 1.0 words it; the statements below hold for whatever is
    raised. *)
Definition not_a_package : exn :=
  KeyError "no member '/[Content_Types].xml' in package".

(** A directory tree: a file or a directory, by its name; the members of
    a directory are files and directories. *)
#[warnings="-register-all"] Inductive Node : Type :=
| File (name : string) (entry : Pptx.Entry)
| Dir (name : string) (members : list Node).

Definition name_of (n : Node) : string :=
  match n with
  | File name _ | Dir name _ => name
  end.

Definition member (name : string) (n : Node) : option Node :=
  match n with
  | Dir _ members => find (fun m => String.eqb (name_of m) name) members
  | File _ _ => None
  end.

(** The bytes of a text in the encoding of file names (UTF-8): two for a
    character from 128 on. *)
Fixpoint byte_length (s : string) : Z :=
  match s with
  | EmptyString => 0
  | String c s' => (if Nat.ltb (nat_of_ascii c) 128 then 1 else 2) + byte_length s'
  end.

(** Where walking a path ends. *)
Inductive Walked : Type :=
| Reached (n : Node)
| Missing
| Name_too_long.

(** Walking a path from [here], component by component, as the operating
    system does: only a directory is walked through, [..] leads to the
    parent, the root is its own parent, and a name of more than 255 bytes
    is refused where it is looked up. *)
Fixpoint walk (components : list string) (above : list Node) (here : Node)
  : Walked :=
  match components with
  | [] => Reached here
  | name :: rest =>
      match here with
      | File _ _ => Missing
      | Dir _ _ =>
          if String.eqb name ".." then
            match above with
            | parent :: above' => walk rest above' parent
            | [] => walk rest [] here
            end
          else if String.eqb name "." || String.eqb name ""
          then walk rest above here
          else if 255 <? byte_length name then Name_too_long
          else
            match member name here with
            | Some child => walk rest (here :: above) child
            | None => Missing
            end
      end
  end.

Definition entry_of (n : Node) : Pptx.Entry :=
  match n with
  | File _ entry => entry
  | Dir _ _ => Pptx.NoDeck not_a_package
  end.

(** What [exists] and [Presentation(path)] find at a path of the tree
    [root], for a process that works in the directory [cwd]: nothing at a
    path that has a null character or leads nowhere, and an [OSError] for a
    path of more than 4095 bytes or with a name that is too long. *)
Definition at_path (root : Node) (cwd : list string) (path : string)
  : outcome (option Pptx.Entry) :=
  let too_long := Raise (OSError 36 "File name too long" path) in
  if negb (truthy path) || string_existsb (Ascii.eqb (ascii_of_nat 0)) path
  then Return None
  else if 4095 <? byte_length path then too_long
  else
    match walk ((if truthy (Pptx.root_of path) then [] else cwd)
                ++ Pptx.split_on "/" path EmptyString) [] root with
    | Reached n => Return (Some (entry_of n))
    | Missing => Return None
    | Name_too_long => too_long
    end.

(** The tree of the examples: the server works in [/work], where the
    constructor has made the workspace directory and its [templates]
    directory, and a deck lies in the workspace and in [/srv/decks]. *)
Definition example_tree : Node :=
  Dir "" [ Dir "srv" [ Dir "decks" [ File "deck.pptx" (Pptx.Deck deck_file) ] ];
           Dir "work"
             [ Dir "presentations"
                 [ Dir "templates" [];
                   File "deck.pptx" (Pptx.Deck deck_file) ] ] ].

(** A file name of 256 letters, one more than a directory takes. *)
Definition long_name : string := string_of_list_ascii (repeat "a"%char 256).

Definition fresh_context : Pptx.Context :=
  {| Pptx.workspace_dir := Pptx.Path "presentations";
     Pptx.presentations := ∅;
     Pptx.current_presentation := None;
     Pptx.element_ids := ∅;
     Pptx.objects := [];
     Pptx.disk := at_path example_tree ["work"];
     Pptx.disk_reads := [];
     Pptx.uuid4 := fun n => "uuid-" +:+ pretty n;
     Pptx.uuids_drawn := 0 |}.

(** The operations of the context that the model covers.  No other method
    of the class mentions [self.presentations]: they reach the mapping
    through [get_presentation] and [save_presentation]. *)
Inductive operation : Type :=
| Get_presentation (path : string)
| Save_presentation (path : option string)
| Register_element (presentation_path : string) (slide_index : Z)
                   (shape : Pptx.Shape)
| Get_shape_by_id (presentation : nat) (slide_index : Z) (element_id : string)
| Get_slide_count (presentation_path : string)
| Delete_slide (presentation_path : string) (slide_index : Z).

Definition perform (op : operation) (c : Pptx.Context) : Pptx.Context :=
  match op with
  | Get_presentation path => snd (Pptx.get_presentation path c)
  | Save_presentation path => snd (Pptx.save_presentation path c)
  | Register_element p i sh => snd (Pptx.register_element p i sh c)
  | Get_shape_by_id p i e => snd (Pptx.get_shape_by_id p i e c)
  | Get_slide_count p => snd (Pptx.get_slide_count p c)
  | Delete_slide p i => snd (Pptx.delete_slide p i c)
  end.

Definition perform_all (ops : list operation) (c : Pptx.Context)
  : Pptx.Context :=
  fold_left (fun c op => perform op c) ops c.

(** The tree that opening a path for the first time puts in memory: the
    deck at the path, and a new presentation when there is nothing at the
    path; none when what is there is no deck, or when [exists] raises. *)
Definition tree_at (found : outcome (option Pptx.Entry))
  : option Pptx.Presentation :=
  match found with
  | Return (Some (Pptx.Deck file)) => Some file
  | Return None => Some Pptx.new_presentation
  | Return (Some (Pptx.NoDeck _)) | Raise _ => None
  end.

(** The read that opening a path for the first time adds: of the path,
    when there is something at it. *)
Definition read_of (key : string) (found : outcome (option Pptx.Entry))
  : list string :=
  match found with Return (Some _) => [key] | _ => [] end.

(** [c'] has every entry of the mapping of [c], for the same workspace. *)
Definition keeps_entries (c c' : Pptx.Context) : Prop :=
  Pptx.workspace_dir c' = Pptx.workspace_dir c
  /\ forall k r, Pptx.presentations c !! k = Some r ->
                 Pptx.presentations c' !! k = Some r.

(** What a tool that adds an element and a tool that edits it do between
    them: the first resolves the presentation and registers the shape, the
    second resolves the presentation again and looks the shape up by the
    identifier the first returned. *)
Definition register_then_look_up (presentation_path : string) (slide_index : Z)
  (shape : Pptx.Shape) : M Pptx.Context (string * option Pptx.Shape) :=
  _ <- Pptx.get_presentation presentation_path ;;
  element_id <- Pptx.register_element presentation_path slide_index shape ;;
  presentation <- Pptx.get_presentation presentation_path ;;
  found <- Pptx.get_shape_by_id presentation slide_index element_id ;;
  ret (element_id, found).

(** ** Listing, reading and saving *)

(** Reads that find nothing and writes that change nothing. *)
Definition quiet_reads : Excel.Reads :=
  {| Excel.ReadOnly := fun _ => false;
     Excel.Saved := fun _ => true;
     Excel.ws_Visible := fun _ => -1;
     Excel.Range_ := fun _ _ =>
       Return {| Excel.ro_Value := PNone; Excel.ro_Formula := PStr "" |};
     Excel.Time := fun n => Return (PTime n);
     Excel.Range_set := fun _ _ _ a => (Return tt, a) |}.

(** Reads of a sheet on which every address denotes a range with the value
    [v], and reads that reject every address. *)
Definition reads_value (v : PyValue) : Excel.Reads :=
  {| Excel.ReadOnly := fun _ => false;
     Excel.Saved := fun _ => true;
     Excel.ws_Visible := fun _ => -1;
     Excel.Range_ := fun _ _ =>
       Return {| Excel.ro_Value := v; Excel.ro_Formula := PStr "" |};
     Excel.Time := fun n => Return (PTime n);
     Excel.Range_set := fun _ _ _ a => (Return tt, a) |}.

Definition reads_nothing : Excel.Reads :=
  {| Excel.ReadOnly := fun _ => false;
     Excel.Saved := fun _ => true;
     Excel.ws_Visible := fun _ => -1;
     Excel.Range_ := fun _ _ =>
       Raise (com_error (-2146827284) "Exception occurred.");
     Excel.Time := fun n => Return (PTime n);
     Excel.Range_set := fun _ _ _ a => (Return tt, a) |}.

(** [isinstance(v, tuple)] *)
Definition is_tuple (v : PyValue) : bool :=
  match v with PTuple _ => true | _ => false end.

(** The [Value] of a range over the cells [grid]: the bare value for a
    single cell, a tuple of row tuples otherwise. *)
Definition Value_of_grid (grid : list (list PyValue)) : PyValue :=
  match grid with
  | [[v]] => v
  | _ => PTuple (map PTuple grid)
  end.

(** The types of the cells [values] with the formulas [formulas], row by
    row. *)
Definition cell_types_of (values formulas : list (list PyValue))
  : list (list string) :=
  zip_with (zip_with Excel._determine_cell_type) values formulas.

(** Reads of a sheet on which every address denotes the range with these
    values and formulas. *)
Definition reads_range (value formula : PyValue) : Excel.Reads :=
  {| Excel.ReadOnly := fun _ => false;
     Excel.Saved := fun _ => true;
     Excel.ws_Visible := fun _ => -1;
     Excel.Range_ := fun _ _ =>
       Return {| Excel.ro_Value := value; Excel.ro_Formula := formula |};
     Excel.Time := fun n => Return (PTime n);
     Excel.Range_set := fun _ _ _ a => (Return tt, a) |}.

(** The used range of the sheet is a single cell. *)
Definition single_cell (ws : Excel.Worksheet) : bool :=
  match Excel.UsedRange ws with
  | Some ur => match Excel.values ur with [[_]] => true | _ => false end
  | None => false
  end.

(** The settings of [a] put back on the application [ab]. *)
Definition settings_restored (a ab : Excel.Application) : Excel.Application :=
  Excel.with_DisplayAlerts (Excel.DisplayAlerts a)
    (Excel.with_ScreenUpdating (Excel.ScreenUpdating a) ab).

(** The application as [_performance_mode] hands it to its body. *)
Definition settings_off (a : Excel.Application) : Excel.Application :=
  Excel.with_DisplayAlerts false (Excel.with_ScreenUpdating false a).

(** An editor without a handle on a desktop where Excel neither runs nor
    starts. *)
Definition excel_unreachable : Excel.St :=
  {| app := None;
     desktop := fun _ => {| GetActiveObject := NotRunning;
                            Dispatch := LaunchFailed |};
     connects := 1 |}.

(** The next connection attempt of the editor yields no application. *)
Definition cannot_connect {App} (s : Editor App) : Prop :=
  match GetActiveObject (desktop s (connects s)) with
  | Running _ => False
  | NotRunning => Dispatch (desktop s (connects s)) = LaunchFailed
  | Failed => True
  end.

(** The editor after one more attempt that yielded nothing. *)
Definition after_failed_attempt {App} (s : Editor App) : Editor App :=
  {| app := None; desktop := desktop s; connects := S (connects s) |}.

(** ** Shapes and slides of the live PowerPoint *)

(** The slide [get_slide] finds for a presentation identifier and a slide
    position. *)
Definition slide_of (a : PowerPoint.Application) (identifier : int_or_str)
  (n : Z) : outcome (option PowerPoint.Slide) :=
  match resolve PowerPoint.presentation_matches (PowerPoint.Presentations a)
          identifier with
  | Return (Some pres) => Return (at_position (PowerPoint.Slides pres) n)
  | Return None => Return None
  | Raise e => Raise e
  end.

(** A new text and nothing else. *)
Definition text_only : PowerPoint.Properties :=
  {| PowerPoint.p_text := Some "Outlook"; PowerPoint.p_left := None;
     PowerPoint.p_top := None; PowerPoint.p_width := None;
     PowerPoint.p_height := None; PowerPoint.p_name := None |}.

(** Calls into PowerPoint that succeed and change nothing. *)
Definition quiet_powerpoint : PowerPoint.Calls :=
  {| PowerPoint.Saved := fun _ => true;
     PowerPoint.abspath := fun p => p;
     PowerPoint.dirname := fun p => p;
     PowerPoint.makedirs := fun _ => Return tt;
     PowerPoint.SaveAs := fun _ _ _ a => (Return tt, a);
     PowerPoint.Save := fun _ a => (Return tt, a);
     PowerPoint.CustomLayouts_Count := fun _ => 11;
     PowerPoint.CustomLayouts := fun _ _ =>
       Return {| PowerPoint.lay_Name := "Title Slide" |};
     PowerPoint.AddSlide := fun pres index _ a => (Return index, a);
     PowerPoint.AddTextbox := fun _ _ l t w h a =>
       (Return {| PowerPoint.sh_Id := 5; PowerPoint.sh_Name := "TextBox 4";
                  PowerPoint.sh_Type := 17;
                  PowerPoint.sh_Left := l; PowerPoint.sh_Top := t;
                  PowerPoint.sh_Width := w; PowerPoint.sh_Height := h;
                  PowerPoint.HasTextFrame := true; PowerPoint.HasText := false;
                  PowerPoint.sh_Text := ""; PowerPoint.PlaceholderType := None |},
        a);
     PowerPoint.AddShape := fun _ ty l t w h a =>
       (Return {| PowerPoint.sh_Id := 6; PowerPoint.sh_Name := "Rectangle 5";
                  PowerPoint.sh_Type := 1;
                  PowerPoint.sh_Left := l; PowerPoint.sh_Top := t;
                  PowerPoint.sh_Width := w; PowerPoint.sh_Height := h;
                  PowerPoint.HasTextFrame := true; PowerPoint.HasText := false;
                  PowerPoint.sh_Text := ""; PowerPoint.PlaceholderType := None |},
        a);
     PowerPoint.set_Text := fun _ _ a => (Return tt, a);
     PowerPoint.set_Name := fun _ _ a => (Return tt, a);
     PowerPoint.set_Left := fun _ _ a => (Return tt, a);
     PowerPoint.set_Top := fun _ _ a => (Return tt, a);
     PowerPoint.set_Width := fun _ _ a => (Return tt, a);
     PowerPoint.set_Height := fun _ _ a => (Return tt, a) |}.

(** The shape with a given [Id], the first on the slide. *)
Definition shape_with_id (slide : PowerPoint.Slide) (shape_id : Z)
  : option PowerPoint.Shape :=
  find (fun shape => PowerPoint.sh_Id shape =? shape_id) (PowerPoint.Shapes slide).

(** The test [find_shapes_by_type] applies to a shape for the type id of
    the asked name: for the text box id, a text box or an auto shape that
    has text; for any other id, a shape of that type. *)
Definition shape_of_type (target : Z) (shape : PowerPoint.Shape) : bool :=
  if target =? 17
  then (PowerPoint.sh_Type shape =? 17)
       || ((PowerPoint.sh_Type shape =? 1)
           && (PowerPoint.HasTextFrame shape && PowerPoint.HasText shape))
  else PowerPoint.sh_Type shape =? target.

(** A placeholder of the given placeholder type. *)
Definition placeholder_of (target : Z) (shape : PowerPoint.Shape) : bool :=
  (PowerPoint.sh_Type shape =? PowerPoint.msoPlaceholder)
  && match PowerPoint.PlaceholderType shape with
     | Some t => t =? target
     | None => false
     end.

(** A shape whose text matches the search text, case ignored. *)
Definition text_matches (search_text : string) (partial_match : bool)
  (shape : PowerPoint.Shape) : bool :=
  (PowerPoint.HasTextFrame shape && PowerPoint.HasText shape)
  && (if partial_match
      then contains (lower search_text) (lower (PowerPoint.sh_Text shape))
      else String.eqb (lower search_text) (lower (PowerPoint.sh_Text shape))).

(** The entry [find_shape_by_text] makes for a shape. *)
Definition preview_of (shape : PowerPoint.Shape) : string :=
  if 100 <? Z.of_nat (String.length (PowerPoint.sh_Text shape))
  then substring 0 100 (PowerPoint.sh_Text shape) +:+ "..."
  else PowerPoint.sh_Text shape.

Definition match_info (shape : PowerPoint.Shape) : PowerPoint.ShapeInfo :=
  PowerPoint.with_text_preview (preview_of shape)
    (PowerPoint._get_shape_basic_info shape).

(** The shape [edit_element] looks for: by [Id] for an [int], by name (as
    the collection compares names) for a [str]. *)
Definition shape_for (slide : PowerPoint.Slide) (shape_identifier : int_or_str)
  : option PowerPoint.Shape :=
  match shape_identifier with
  | Int shape_id => shape_with_id slide shape_id
  | Str shape_name =>
      find (fun shape => String.eqb (lower (PowerPoint.sh_Name shape))
                                    (lower shape_name))
           (PowerPoint.Shapes slide)
  end.

(** The properties without the text. *)
Definition without_text (p : PowerPoint.Properties) : PowerPoint.Properties :=
  {| PowerPoint.p_text := None;
     PowerPoint.p_left := PowerPoint.p_left p;
     PowerPoint.p_top := PowerPoint.p_top p;
     PowerPoint.p_width := PowerPoint.p_width p;
     PowerPoint.p_height := PowerPoint.p_height p;
     PowerPoint.p_name := PowerPoint.p_name p |}.

(** What a call leaves behind: its outcome, and the application it
    returns as the editor's. *)
Definition called {App A} (s : Editor App) (r : outcome A * App)
  : outcome A * Editor App :=
  (fst r, set_app (Some (snd r)) s).

(** ** Documents on disk and in memory *)

(** The key of a path in the mapping of a context. *)
Definition key_of (c : Pptx.Context) (path : string) : string :=
  Pptx.path_str_of (Pptx.workspace_dir c) path.

(** A slide with a shape that has text containing the search text, case
    ignored. *)
Definition slide_mentions (hasattr_text : Pptx.Shape -> bool)
  (search_text : string) (slide : Pptx.Slide) : bool :=
  existsb (fun shape => hasattr_text shape
                        && contains (lower search_text) (lower (Pptx.text shape)))
          (Pptx.shapes slide).

(** The identifier the registry holds for a shape id on a slide of a
    presentation path. *)
Definition registered (c : Pptx.Context) (presentation_path : string)
  (slide_index : Z) (shape_id : Z) : option string :=
  match Pptx.element_ids c !! presentation_path with
  | Some by_slide =>
      match by_slide !! slide_index with
      | Some by_shape => by_shape !! shape_id
      | None => None
      end
  | None => None
  end.

(** Every identifier in the registry is one that [uuid4] has handed out. *)
Definition registry_drawn (c : Pptx.Context) : Prop :=
  forall p i sid e, registered c p i sid = Some e ->
    exists k, (k < Pptx.uuids_drawn c)%nat /\ e = Pptx.uuid4 c k.

(** No two entries of the registry hold the same identifier. *)
Definition registry_unique (c : Pptx.Context) : Prop :=
  forall p1 i1 sid1 p2 i2 sid2 e,
    registered c p1 i1 sid1 = Some e -> registered c p2 i2 sid2 = Some e ->
    (p1, i1, sid1) = (p2, i2, sid2).

(** [c'] has the registry and the identifier source of [c]. *)
Definition same_registry (c c' : Pptx.Context) : Prop :=
  Pptx.element_ids c' = Pptx.element_ids c
  /\ Pptx.uuid4 c' = Pptx.uuid4 c
  /\ Pptx.uuids_drawn c' = Pptx.uuids_drawn c.

(** Calls of an Excel that adds a sheet [Sheet3] and refuses to rename
    it. *)
Definition refusing_calls : Excel.Calls :=
  {| Excel.abspath := fun p => p;
     Excel.dirname := fun p => p;
     Excel.makedirs := fun _ => Return tt;
     Excel.SaveAs := fun _ _ _ a => (Return tt, a);
     Excel.Save := fun _ a => (Return tt, a);
     Excel.Worksheets_Add := fun _ after a =>
       (Return {| Excel.ws_Name := "Sheet3";
                  Excel.ws_Index := Excel.ws_Index after + 1;
                  Excel.UsedRange := None |}, a);
     Excel.set_Name := fun _ _ a =>
       (Raise (com_error (-2146827284) "That name is already taken."), a);
     Excel.set_Value := fun _ _ _ _ _ a => (Return tt, a) |}.

(* ================================================================== *)
(** * Properties *)
(* ================================================================== *)

(** Unfolding the plumbing of computations. *)
Ltac run :=
  cbv beta delta [bind ret raise get put lift try_except try_finally
                  self_app next_desktop Pptx.modify] in *;
  cbn [fst snd app desktop connects set_app] in *.

(** ** The connection guards *)

Section Guards.

(** A guard that finds its handle present and responsive does nothing. *)
Lemma excel_guard_live (s : Excel.St) a v :
  app s = Some a -> Excel.Version a = Some v ->
  Excel._ensure_connection s = (Return tt, s).
Proof.
  intros Ha Hv. destruct s as [o d n]; cbn in Ha; subst o.
  unfold Excel._ensure_connection. run. rewrite Hv. reflexivity.
Qed.

Lemma powerpoint_guard_live (s : PowerPoint.St) a v :
  app s = Some a -> PowerPoint.Version a = Some v ->
  PowerPoint._ensure_connection s = (Return tt, s).
Proof.
  intros Ha Hv. destruct s as [o d n]; cbn in Ha; subst o.
  unfold PowerPoint._ensure_connection. run. rewrite Hv. reflexivity.
Qed.

(** One connection attempt counts once, whatever it meets. *)
Lemma excel_connect_counts (s : Excel.St) :
  connects (snd (Excel._connect_or_launch_excel s)) = S (connects s)
  /\ fst (Excel._connect_or_launch_excel s) = Return tt.
Proof.
  unfold Excel._connect_or_launch_excel, Excel.set_property. run.
  destruct (GetActiveObject (desktop s (connects s))); cbn; auto.
  destruct (Dispatch (desktop s (connects s))); cbn; auto.
Qed.

Lemma powerpoint_connect_counts (s : PowerPoint.St) :
  connects (snd (PowerPoint._connect_or_launch_powerpoint s)) = S (connects s)
  /\ fst (PowerPoint._connect_or_launch_powerpoint s) = Return tt.
Proof.
  unfold PowerPoint._connect_or_launch_powerpoint. run.
  destruct (GetActiveObject (desktop s (connects s))); cbn; auto.
  destruct (Dispatch (desktop s (connects s))); cbn; auto.
Qed.

Section Direct.
Context {App : Type} (version : App -> option string)
        (connect : M (Editor App) unit) (m1 m2 : string).
Hypothesis connect_counts :
  forall s, connects (snd (connect s)) = S (connects s).

Lemma guard_direct_contract :
  guard_contract version connect (guard_direct version connect m1 m2).
Proof.
  intros s. unfold guard_direct. cbv zeta.
  split; [|split; [|split; [|split]]].
  - intros a v Ha Hv. rewrite Ha. cbn. rewrite Ha, Hv. auto.
  - intros a Ha Hv. rewrite Ha. cbn. rewrite Ha, Hv.
    destruct (app (snd (connect s))) eqn:E; cbn; rewrite ?E, ?connect_counts;
      repeat split; intros; eauto; congruence.
  - intros Ha. rewrite Ha.
    destruct (app (snd (connect s))) as [a1|] eqn:E1.
    + destruct (version a1) eqn:Hv1.
      * cbn. rewrite connect_counts. auto.
      * destruct (app (snd (connect (snd (connect s))))) eqn:E2;
          cbn; rewrite ?E2, !connect_counts; repeat split; intros; eauto;
          congruence.
    + cbn. rewrite connect_counts. eauto.
  - destruct (app s) as [a|] eqn:Ha; cbn.
    + rewrite ?Ha. destruct (version a); cbn; [lia|].
      destruct (app (snd (connect s))); cbn; rewrite connect_counts; lia.
    + destruct (app (snd (connect s))) as [a1|]; cbn.
      * destruct (version a1); cbn.
        -- rewrite connect_counts. lia.
        -- destruct (app (snd (connect (snd (connect s))))); cbn;
             rewrite !connect_counts; lia.
      * rewrite connect_counts. lia.
  - intros e.
    destruct (app s) as [a|] eqn:Ha; cbn.
    + rewrite ?Ha. destruct (version a); cbn; [discriminate|].
      destruct (app (snd (connect s))); cbn; [discriminate|].
      intros [= <-]. eauto.
    + destruct (app (snd (connect s))) as [a1|]; cbn.
      * destruct (version a1); cbn; [discriminate|].
        destruct (app (snd (connect (snd (connect s))))); cbn; [discriminate|].
        intros [= <-]. eauto.
      * intros [= <-]. eauto.
Qed.

End Direct.

Lemma excel_guard_unfold (s : Excel.St) :
  Excel._ensure_connection s =
  guard_direct Excel.Version Excel._connect_or_launch_excel
    "Could not connect to or launch Excel." "Could not reconnect to Excel." s.
Proof.
  unfold guard_direct, Excel._ensure_connection, bind, get, ret, raise. cbn zeta.
  destruct (app s) eqn:Ha.
  - rewrite Ha. destruct (Excel.Version a); [reflexivity|].
    destruct (excel_connect_counts s) as [_ Hr].
    destruct (Excel._connect_or_launch_excel s) as [r1 s1];
      cbn [fst snd] in *; subst r1.
    destruct (app s1); reflexivity.
  - destruct (excel_connect_counts s) as [_ Hr].
    destruct (Excel._connect_or_launch_excel s) as [r1 s1];
      cbn [fst snd] in *; subst r1.
    destruct (app s1) eqn:Ha1; [|reflexivity].
    destruct (Excel.Version a); [reflexivity|].
    destruct (excel_connect_counts s1) as [_ Hr2].
    destruct (Excel._connect_or_launch_excel s1) as [r2 s2];
      cbn [fst snd] in *; subst r2.
    destruct (app s2); reflexivity.
Qed.

Lemma powerpoint_guard_unfold (s : PowerPoint.St) :
  PowerPoint._ensure_connection s =
  guard_direct PowerPoint.Version PowerPoint._connect_or_launch_powerpoint
    "Could not connect to or launch PowerPoint."
    "Could not reconnect to PowerPoint." s.
Proof.
  unfold guard_direct, PowerPoint._ensure_connection, bind, get, ret, raise.
  cbn zeta.
  destruct (app s) eqn:Ha.
  - rewrite Ha. destruct (PowerPoint.Version a); [reflexivity|].
    destruct (powerpoint_connect_counts s) as [_ Hr].
    destruct (PowerPoint._connect_or_launch_powerpoint s) as [r1 s1];
      cbn [fst snd] in *; subst r1.
    destruct (app s1); reflexivity.
  - destruct (powerpoint_connect_counts s) as [_ Hr].
    destruct (PowerPoint._connect_or_launch_powerpoint s) as [r1 s1];
      cbn [fst snd] in *; subst r1.
    destruct (app s1) eqn:Ha1; [|reflexivity].
    destruct (PowerPoint.Version a); [reflexivity|].
    destruct (powerpoint_connect_counts s1) as [_ Hr2].
    destruct (PowerPoint._connect_or_launch_powerpoint s1) as [r2 s2];
      cbn [fst snd] in *; subst r2.
    destruct (app s2); reflexivity.
Qed.

(** C4 (as amended).  Both connection guards keep to [guard_contract]:
    a handle that is present and answers is left as it is and no connection
    is attempted; for a handle that is present and does not answer one
    reconnection is attempted; for an absent handle one connection is
    attempted, and a second one when the handle it yields does not answer.
    [ConnectionError] is raised exactly when the last attempt leaves no
    handle, no other exception is raised, and a call never makes more than
    two attempts. *)
Theorem connection_guard_attempts :
  guard_contract Excel.Version Excel._connect_or_launch_excel
                 Excel._ensure_connection
  /\ guard_contract PowerPoint.Version PowerPoint._connect_or_launch_powerpoint
                    PowerPoint._ensure_connection.
Proof.
  split; intros s.
  - rewrite excel_guard_unfold.
    apply guard_direct_contract. intros. apply excel_connect_counts.
  - rewrite powerpoint_guard_unfold.
    apply guard_direct_contract. intros. apply powerpoint_connect_counts.
Qed.

(** A call that finds no handle, on a desktop whose PowerPoint runs but does
    not answer, makes two connection attempts. *)
Lemma guard_connects_twice :
  app editor_without_handle = None
  /\ connects editor_without_handle = 0%nat
  /\ connects (snd (PowerPoint._ensure_connection editor_without_handle)) = 2%nat.
Proof. repeat split. Qed.

End Guards.

(** ** Resolvers *)

Section Resolvers.

Lemma self_app_live {App} (s : Editor App) a :
  app s = Some a -> self_app s = (Return a, s).
Proof. intros H. unfold self_app. rewrite H. reflexivity. Qed.

Lemma Item_in_range {A} (c : list A) (i : Z) :
  1 <= i <= Count c ->
  exists x, nth_error c (Z.to_nat (i - 1)) = Some x /\ Item c i = Return x.
Proof.
  intros [H1 H2]. unfold Item, Count in *.
  destruct (Z.leb_spec 1 i); [|lia].
  destruct (nth_error c (Z.to_nat (i - 1))) as [x|] eqn:E; [eauto|].
  apply nth_error_None in E. lia.
Qed.

Lemma range_seq (lo : Z) (n : nat) :
  range lo (lo + Z.of_nat n) = map (fun k => lo + Z.of_nat k) (seq 0 n).
Proof. unfold range. replace (lo + Z.of_nat n - lo) with (Z.of_nat n) by lia.
  rewrite Nat2Z.id. reflexivity. Qed.

(** A loop over the positions of a collection that returns the first item
    passing a test is [find]. *)
Lemma for_return_scan {St A} (c : list A) (p : A -> bool) (lo : Z)
  (body : Z -> M St (option A)) (s : St) :
  (forall i x, nth_error c i = Some x ->
     body (lo + Z.of_nat i) s = (Return (if p x then Some x else None), s)) ->
  for_return (range lo (lo + Count c)) body s = (Return (find p c), s).
Proof.
  unfold Count. rewrite range_seq.
  enough (forall start,
    (forall i x, nth_error c i = Some x ->
       body (lo + Z.of_nat (start + i)) s
       = (Return (if p x then Some x else None), s)) ->
    for_return (map (fun k => lo + Z.of_nat k) (seq start (length c))) body s
    = (Return (find p c), s)) as G.
  { intros H. apply (G 0%nat). exact H. }
  induction c as [|x c IH]; intros start H; cbn [length seq map for_return find].
  - reflexivity.
  - unfold bind. specialize (H 0%nat x eq_refl) as H0.
    rewrite Nat.add_0_r in H0. rewrite H0.
    destruct (p x); [reflexivity|].
    apply IH. intros i y Hy. replace (S start + i)%nat with (start + S i)%nat by lia.
    apply H. exact Hy.
Qed.

Lemma at_position_by_position {A} (c : list A) n :
  by_position c n (at_position c n).
Proof.
  unfold by_position, at_position.
  destruct (Z.leb_spec 1 n); destruct (Z.leb_spec n (Count c)); cbn [andb];
    split; intros; try lia; try reflexivity.
  split; [reflexivity|].
  destruct (Item_in_range c n) as (x & Hx & _); [lia|]. congruence.
Qed.

Lemma item_at_position {St A} (c : list A) idx (s : St) :
  (if (1 <=? idx) && (idx <=? Count c)
   then x <- lift (Item c idx) ;; ret (Some x)
   else ret None) s
  = (Return (at_position c idx), s).
Proof.
  unfold at_position, bind, lift, ret.
  destruct (Z.leb_spec 1 idx); destruct (Z.leb_spec idx (Count c));
    cbn [andb]; try reflexivity.
  destruct (Item_in_range c idx) as (x & Hx & HI); [lia|].
  now rewrite HI, Hx.
Qed.

Lemma excel_workbook_at (s : Excel.St) a idx :
  app s = Some a ->
  Excel.workbook_at idx s = (Return (at_position (Excel.Workbooks a) idx), s).
Proof.
  intros Ha. unfold Excel.workbook_at, bind at 1.
  rewrite (self_app_live s a Ha).
  rewrite <- (item_at_position (Excel.Workbooks a) idx s).
  destruct ((1 <=? idx) && (idx <=? Count (Excel.Workbooks a))); [|reflexivity].
  unfold bind at 1. now rewrite (self_app_live s a Ha).
Qed.

Lemma excel_get_workbook_run (s : Excel.St) a v identifier :
  app s = Some a -> Excel.Version a = Some v ->
  Excel.get_workbook identifier s
  = (resolve Excel.workbook_matches (Excel.Workbooks a) identifier, s).
Proof.
  intros Ha Hv. unfold Excel.get_workbook, bind at 1.
  rewrite (excel_guard_live s a v Ha Hv). unfold try_except.
  destruct identifier as [idx|name]; cbn [resolve].
  - now rewrite (excel_workbook_at s a idx Ha).
  - destruct (isdigit name) eqn:Hd.
    + unfold bind at 1, lift. destruct (int name) as [idx|e]; [|reflexivity].
      now rewrite (excel_workbook_at s a idx Ha).
    + unfold bind at 1. rewrite (self_app_live s a Ha).
      replace (Count (Excel.Workbooks a) + 1)
        with (1 + Count (Excel.Workbooks a)) by lia.
      rewrite (for_return_scan (Excel.Workbooks a) (Excel.workbook_matches name));
        [reflexivity|].
      intros i x Hx. unfold bind. rewrite (self_app_live s a Ha).
      unfold lift, Item. destruct (Z.leb_spec 1 (1 + Z.of_nat i)); [|lia].
      replace (Z.to_nat (1 + Z.of_nat i - 1)) with i by lia. rewrite Hx.
      destruct (Excel.workbook_matches name x); reflexivity.
Qed.

Lemma powerpoint_presentation_at (s : PowerPoint.St) a idx :
  app s = Some a ->
  PowerPoint.presentation_at idx s
  = (Return (at_position (PowerPoint.Presentations a) idx), s).
Proof.
  intros Ha. unfold PowerPoint.presentation_at, bind at 1.
  rewrite (self_app_live s a Ha).
  rewrite <- (item_at_position (PowerPoint.Presentations a) idx s).
  destruct ((1 <=? idx) && (idx <=? Count (PowerPoint.Presentations a)));
    [|reflexivity].
  unfold bind at 1. now rewrite (self_app_live s a Ha).
Qed.

Lemma powerpoint_get_presentation_run (s : PowerPoint.St) a v identifier :
  app s = Some a -> PowerPoint.Version a = Some v ->
  PowerPoint.get_presentation identifier s
  = (resolve PowerPoint.presentation_matches
       (PowerPoint.Presentations a) identifier, s).
Proof.
  intros Ha Hv. unfold PowerPoint.get_presentation, bind at 1.
  rewrite (powerpoint_guard_live s a v Ha Hv). unfold try_except.
  destruct identifier as [idx|name]; cbn [resolve].
  - now rewrite (powerpoint_presentation_at s a idx Ha).
  - destruct (isdigit name) eqn:Hd.
    + unfold bind at 1, lift. destruct (int name) as [idx|e]; [|reflexivity].
      now rewrite (powerpoint_presentation_at s a idx Ha).
    + unfold bind at 1. rewrite (self_app_live s a Ha).
      replace (Count (PowerPoint.Presentations a) + 1)
        with (1 + Count (PowerPoint.Presentations a)) by lia.
      rewrite (for_return_scan (PowerPoint.Presentations a)
                 (PowerPoint.presentation_matches name)); [reflexivity|].
      intros i x Hx. unfold bind. rewrite (self_app_live s a Ha).
      unfold lift, Item. destruct (Z.leb_spec 1 (1 + Z.of_nat i)); [|lia].
      replace (Z.to_nat (1 + Z.of_nat i - 1)) with i by lia. rewrite Hx.
      destruct (PowerPoint.presentation_matches name x); reflexivity.
Qed.

(** [find] gives the first item that passes the test. *)
Lemma find_first_such {A} (p : A -> bool) (P : A -> Prop) (c : list A) :
  (forall x, p x = true <-> P x) -> first_such P c (find p c).
Proof.
  intros Hp. induction c as [|x c IH]; cbn [find].
  - intros x [].
  - destruct (p x) eqn:Hx.
    + exists 0%nat. split; [reflexivity|]. split; [now apply Hp|].
      intros j y Hj. lia.
    + assert (Hnx : ~ P x) by (rewrite <- Hp; congruence).
      destruct (find p c) as [y|]; cbn [first_such] in *.
      * destruct IH as (i & Hi & Hy & Hmin). exists (S i).
        split; [exact Hi|]. split; [exact Hy|].
        intros [|j] z Hj Hz; cbn in Hz; [congruence|].
        apply (Hmin j); [lia|exact Hz].
      * intros y [<-|Hy]; auto.
Qed.

Lemma workbook_matches_names identifier wb :
  Excel.workbook_matches identifier wb = true <-> names_workbook identifier wb.
Proof.
  unfold Excel.workbook_matches, names_workbook.
  rewrite orb_true_iff, andb_true_iff, !String.eqb_eq.
  destruct (Excel.wb_Path wb); cbn [truthy]; intuition congruence.
Qed.

Lemma presentation_matches_names identifier pres :
  PowerPoint.presentation_matches identifier pres = true
  <-> names_presentation identifier pres.
Proof.
  unfold PowerPoint.presentation_matches, names_presentation.
  now rewrite orb_true_iff, !String.eqb_eq.
Qed.

Lemma resolve_resolves_to {A} (m : string -> A -> bool)
  (names : string -> A -> Prop) c identifier :
  (forall name x, m name x = true <-> names name x) ->
  resolves_to names c identifier (resolve m c identifier).
Proof.
  intros Hm. destruct identifier as [n|name]; cbn [resolve resolves_to].
  - eexists. split; [reflexivity|]. apply at_position_by_position.
  - destruct (isdigit name).
    + destruct (int name) as [n|e]; [|reflexivity].
      eexists. split; [reflexivity|]. apply at_position_by_position.
    + eexists. split; [reflexivity|]. apply find_first_such. apply Hm.
Qed.

(** [int] refuses with a [ValueError], and converts a run of at most 4300
    decimal digits. *)
Lemma int_raises_value_error (s : string) e :
  int s = Raise e -> exists msg, e = ValueError msg.
Proof.
  unfold int. destruct (signed _) as [negative body].
  destruct (starts_with_underscore body); [intros [= <-]; eauto|].
  destruct (scan_digits _ _ _ _) as [[[digits value] rest]|];
    [|intros [= <-]; eauto].
  destruct (_ <? _); [intros [= <-]; eauto|].
  destruct (Nat.eqb _ _); [intros [= <-]; eauto|].
  destruct (truthy _); [intros [= <-]; eauto|discriminate].
Qed.

Lemma decimal_is_plain (c : ascii) :
  is_decimal c = true ->
  is_int_space c = false /\ Ascii.eqb c "+" = false
  /\ Ascii.eqb c "-" = false /\ Ascii.eqb c "_" = false.
Proof.
  destruct c as [[] [] [] [] [] [] [] []]; cbv; intuition congruence.
Qed.

Lemma scan_digits_all (s : string) digits value :
  string_forallb is_decimal s = true ->
  scan_digits s false digits value
  = Some ((digits + String.length s)%nat, int_from value s, "").
Proof.
  revert digits value. induction s as [|c s IH]; intros digits value H.
  - cbn. now rewrite Nat.add_0_r.
  - cbn in H. cbn [scan_digits int_from String.length].
    destruct (is_decimal c); [|discriminate]. cbn in H.
    rewrite (IH _ _ H). f_equal. f_equal. f_equal. lia.
Qed.

Lemma int_of_decimals (s : string) :
  s <> "" -> string_forallb is_decimal s = true ->
  (String.length s <= 4300)%nat ->
  int s = Return (int_from 0 s).
Proof.
  intros Hne Hall Hlen. destruct s as [|c s]; [contradiction|].
  assert (Hc : is_decimal c = true).
  { cbn in Hall. now destruct (is_decimal c). }
  destruct (decimal_is_plain c Hc) as (Hspace & Hplus & Hminus & Hunder).
  unfold int. cbn [skip_spaces]. rewrite Hspace.
  cbn [signed]. rewrite Hplus, Hminus.
  cbn [starts_with_underscore]. rewrite Hunder.
  rewrite (scan_digits_all _ 0%nat 0 Hall). cbn [Nat.add].
  destruct (Z.ltb_spec max_str_digits (Z.of_nat (String.length (String c s))))
    as [H|_]; [unfold max_str_digits in H; lia|].
  reflexivity.
Qed.

(** For a workbook whose full name is its name while it has no path, as
    Excel has it, the path test of [workbook_matches] changes nothing. *)
Lemma workbook_matches_name_or_full_name name wb :
  (Excel.wb_Path wb = "" -> Excel.wb_FullName wb = Excel.wb_Name wb) ->
  Excel.workbook_matches name wb
  = String.eqb (lower (Excel.wb_Name wb)) (lower name)
    || String.eqb (lower (Excel.wb_FullName wb)) (lower name).
Proof.
  intros H. unfold Excel.workbook_matches.
  destruct (Excel.wb_Path wb) eqn:E; cbn [truthy andb]; [|reflexivity].
  rewrite H by reflexivity. now rewrite orb_false_r, orb_diag.
Qed.

(** C2 (as amended).  With the application connected and responsive,
    [get_workbook] and [get_presentation] leave the editor as it was and
    - for an integer, and for a text that [isdigit] accepts and [int]
      converts, return the document at that 1-based position, and [None]
      when the position is outside [1..Count];
    - for a text that [isdigit] accepts and [int] refuses (a text with a
      superscript digit, or of more than 4300 digits) raise the
      [ValueError] of [int];
    - for any other text return the first open document that the text
      names, and [None] when it names none: Excel compares the name, and
      the full name of a workbook that has a path, without regard to case;
      PowerPoint compares name and full name letter for letter.
    [int] raises nothing but a [ValueError] and converts every run of at
    most 4300 decimal digits. *)
Theorem document_resolved_by_position_or_name
  (se : Excel.St) (ae : Excel.Application) (ve : string)
  (sp : PowerPoint.St) (ap : PowerPoint.Application) (vp : string) :
  app se = Some ae -> Excel.Version ae = Some ve ->
  app sp = Some ap -> PowerPoint.Version ap = Some vp ->
  (forall identifier,
     exists o, Excel.get_workbook identifier se = (o, se)
               /\ resolves_to names_workbook (Excel.Workbooks ae) identifier o)
  /\ (forall identifier,
        exists o, PowerPoint.get_presentation identifier sp = (o, sp)
                  /\ resolves_to names_presentation
                                 (PowerPoint.Presentations ap) identifier o)
  /\ (forall s e, int s = Raise e -> exists msg, e = ValueError msg)
  /\ (forall s, s <> "" -> string_forallb is_decimal s = true ->
                (String.length s <= 4300)%nat ->
                isdigit s = true /\ int s = Return (int_from 0 s)).
Proof.
  intros Hae Hve Hap Hvp. split; [|split; [|split]].
  - intros identifier. eexists. split.
    + exact (excel_get_workbook_run se ae ve identifier Hae Hve).
    + apply resolve_resolves_to. exact workbook_matches_names.
  - intros identifier. eexists. split.
    + exact (powerpoint_get_presentation_run sp ap vp identifier Hap Hvp).
    + apply resolve_resolves_to. exact presentation_matches_names.
  - exact int_raises_value_error.
  - intros s Hne Hall Hlen. split; [|now apply int_of_decimals].
    destruct s as [|c s]; [contradiction|]. unfold isdigit.
    clear Hne Hlen. revert Hall. generalize (String c s). intros t.
    induction t as [|d t IH]; [reflexivity|]. cbn.
    unfold is_digit. destruct (is_decimal d); [|discriminate]. cbn. exact IH.
Qed.

Lemma document_resolved_witness :
  (exists o, Excel.get_workbook (Str "budget.xlsx") excel_editor
             = (o, excel_editor)
             /\ resolves_to names_workbook (Excel.Workbooks excel_running)
                            (Str "budget.xlsx") o)
  /\ (exists o, PowerPoint.get_presentation (Str "Results.pptx")
                  powerpoint_editor = (o, powerpoint_editor)
                /\ resolves_to names_presentation
                               (PowerPoint.Presentations powerpoint_running)
                               (Str "Results.pptx") o)
  /\ (exists o, PowerPoint.get_presentation (Str "1")
                  powerpoint_editor = (o, powerpoint_editor)
                /\ resolves_to names_presentation
                               (PowerPoint.Presentations powerpoint_running)
                               (Str "1") o)
  /\ isdigit "012" = true /\ int "012" = Return 12.
Proof.
  pose proof (document_resolved_by_position_or_name
                excel_editor excel_running "16.0"
                powerpoint_editor powerpoint_running "16.0"
                eq_refl eq_refl eq_refl eq_refl) as (He & Hp & _ & Hd).
  split; [exact (He (Str "budget.xlsx"))|].
  split; [exact (Hp (Str "Results.pptx"))|].
  split; [exact (Hp (Str "1"))|].
  apply (Hd "012"); [discriminate|reflexivity|cbn; lia].
Defined.

(** A digit string that is out of range is not answered with [None]: a run
    of 4301 digits makes both resolvers raise a [ValueError], and so does
    the superscript two, which [isdigit] accepts. *)
Lemma digit_string_identifier_raises :
  isdigit long_digits = true
  /\ isdigit superscript_two = true
  /\ (exists msg, Excel.get_workbook (Str long_digits) excel_editor
                  = (Raise (ValueError msg), excel_editor))
  /\ (exists msg, PowerPoint.get_presentation (Str long_digits)
                    powerpoint_editor
                  = (Raise (ValueError msg), powerpoint_editor))
  /\ (exists msg, Excel.get_workbook (Str superscript_two) excel_editor
                  = (Raise (ValueError msg), excel_editor))
  /\ (exists msg, PowerPoint.get_presentation (Str superscript_two)
                    powerpoint_editor
                  = (Raise (ValueError msg), powerpoint_editor)).
Proof.
  split; [vm_compute; reflexivity|]. split; [vm_compute; reflexivity|].
  repeat split; eexists; vm_compute; reflexivity.
Qed.

Example get_workbook_by_name :
  Excel.get_workbook (Str "budget.xlsx") excel_editor
  = (Return (Some book_budget), excel_editor).
Proof. reflexivity. Qed.

Example get_workbook_by_digits :
  Excel.get_workbook (Str "2") excel_editor = (Return (Some book_new), excel_editor)
  /\ Excel.get_workbook (Int 3) excel_editor = (Return None, excel_editor).
Proof. split; reflexivity. Qed.

Lemma subsection_subsection_as {A} (name_of : A -> string) c identifier :
  subsection_as name_of c identifier (subsection name_of c identifier).
Proof.
  destruct identifier; cbn; [apply at_position_by_position|reflexivity].
Qed.

Lemma excel_get_worksheet_of_workbook (s : Excel.St) a v identifier
  sheet_identifier wb :
  app s = Some a -> Excel.Version a = Some v ->
  Excel.get_workbook identifier s = (Return wb, s) ->
  Excel.get_worksheet identifier sheet_identifier s
  = (Return match wb with
            | Some wb => subsection Excel.ws_Name (Excel.Worksheets wb)
                                    sheet_identifier
            | None => None
            end, s).
Proof.
  intros Ha Hv Hwb. unfold Excel.get_worksheet, bind at 1 2.
  rewrite (excel_guard_live s a v Ha Hv), Hwb.
  destruct wb as [wb|]; [|reflexivity]. unfold try_except.
  destruct sheet_identifier as [idx|name]; cbn [subsection].
  - now rewrite item_at_position.
  - unfold bind, lift, ret, ItemByName.
    destruct (find _ (Excel.Worksheets wb)); reflexivity.
Qed.

Lemma excel_get_worksheet_run (s : Excel.St) a v identifier sheet_identifier :
  app s = Some a -> Excel.Version a = Some v ->
  Excel.get_worksheet identifier sheet_identifier s
  = (worksheet_of a identifier sheet_identifier, s).
Proof.
  intros Ha Hv. pose proof (excel_get_workbook_run s a v identifier Ha Hv) as Hwb.
  unfold worksheet_of.
  destruct (resolve Excel.workbook_matches (Excel.Workbooks a) identifier)
    as [wb|e].
  - rewrite (excel_get_worksheet_of_workbook s a v identifier sheet_identifier
               wb Ha Hv Hwb).
    now destruct wb.
  - unfold Excel.get_worksheet, bind at 1 2.
    now rewrite (excel_guard_live s a v Ha Hv), Hwb.
Qed.

Lemma excel_get_worksheet_resolved (s : Excel.St) a v identifier sheet_identifier wb :
  app s = Some a -> Excel.Version a = Some v ->
  Excel.get_workbook identifier s = (Return (Some wb), s) ->
  exists r, Excel.get_worksheet identifier sheet_identifier s = (Return r, s)
            /\ subsection_as Excel.ws_Name (Excel.Worksheets wb)
                             sheet_identifier r.
Proof.
  intros Ha Hv Hwb. eexists. split.
  - exact (excel_get_worksheet_of_workbook s a v _ _ _ Ha Hv Hwb).
  - apply subsection_subsection_as.
Qed.

Lemma powerpoint_get_slide_resolved (s : PowerPoint.St) a v identifier pres :
  app s = Some a -> PowerPoint.Version a = Some v ->
  PowerPoint.get_presentation identifier s = (Return (Some pres), s) ->
  (forall n, exists r,
      PowerPoint.get_slide identifier (Int n) s = (Return r, s)
      /\ by_position (PowerPoint.Slides pres) n r)
  /\ (forall name, exists m,
        PowerPoint.get_slide identifier (Str name) s = (Raise (TypeError m), s)).
Proof.
  intros Ha Hv Hp. split.
  - intros idx. unfold PowerPoint.get_slide, bind.
    rewrite (powerpoint_guard_live s a v Ha Hv), Hp.
    unfold try_except, bind, lift, ret, by_position.
    destruct (Z.leb_spec 1 idx);
      destruct (Z.leb_spec idx (Count (PowerPoint.Slides pres)));
      cbn [andb]; try (exists None; repeat split; intros; lia).
    destruct (Item_in_range (PowerPoint.Slides pres) idx) as (x & Hx & HI); [lia|].
    rewrite HI. exists (Some x). repeat split; intros; try congruence; lia.
  - intros name. unfold PowerPoint.get_slide, bind.
    rewrite (powerpoint_guard_live s a v Ha Hv), Hp.
    unfold try_except, raise. eexists. reflexivity.
Qed.

(** C3 (as amended).  With the application connected and the document
    resolved, [get_worksheet] returns the worksheet at an integer's 1-based
    position, the worksheet with that name for a string, and [None] outside
    [1..Count] or when no worksheet has the name; [get_slide] returns the
    slide at an integer's 1-based position and [None] outside [1..Count],
    and takes no name: on a string it raises [TypeError]. *)
Theorem worksheet_by_position_or_name_slide_by_position
  (identifier sheet_identifier : int_or_str)
  (se : Excel.St) (ae : Excel.Application) (ve : string) (wb : Excel.Workbook)
  (sp : PowerPoint.St) (ap : PowerPoint.Application) (vp : string)
  (pres : PowerPoint.Presentation) :
  app se = Some ae -> Excel.Version ae = Some ve ->
  Excel.get_workbook identifier se = (Return (Some wb), se) ->
  app sp = Some ap -> PowerPoint.Version ap = Some vp ->
  PowerPoint.get_presentation identifier sp = (Return (Some pres), sp) ->
  (exists r, Excel.get_worksheet identifier sheet_identifier se = (Return r, se)
             /\ subsection_as Excel.ws_Name (Excel.Worksheets wb)
                              sheet_identifier r)
  /\ (forall n, exists r,
        PowerPoint.get_slide identifier (Int n) sp = (Return r, sp)
        /\ by_position (PowerPoint.Slides pres) n r)
  /\ (forall name, exists m,
        PowerPoint.get_slide identifier (Str name) sp
        = (Raise (TypeError m), sp)).
Proof.
  intros Hae Hve Hwb Hap Hvp Hpres. split.
  - exact (excel_get_worksheet_resolved se ae ve _ _ wb Hae Hve Hwb).
  - exact (powerpoint_get_slide_resolved sp ap vp _ pres Hap Hvp Hpres).
Qed.

Lemma worksheet_slide_witness :
  (exists r, Excel.get_worksheet (Int 1) (Str "costs") excel_editor
             = (Return r, excel_editor)
             /\ subsection_as Excel.ws_Name (Excel.Worksheets book_budget)
                              (Str "costs") r)
  /\ (forall n, exists r,
        PowerPoint.get_slide (Int 1) (Int n) powerpoint_editor
        = (Return r, powerpoint_editor)
        /\ by_position (PowerPoint.Slides deck) n r)
  /\ (forall name, exists m,
        PowerPoint.get_slide (Int 1) (Str name) powerpoint_editor
        = (Raise (TypeError m), powerpoint_editor)).
Proof.
  apply (worksheet_by_position_or_name_slide_by_position
           (Int 1) (Str "costs")
           excel_editor excel_running "16.0" book_budget
           powerpoint_editor powerpoint_running "16.0" deck); reflexivity.
Defined.

(** A slide asked for by a string: neither a slide nor [None] comes back,
    the lookup raises. *)
Lemma get_slide_by_name_raises :
  exists m,
    PowerPoint.get_slide (Int 1) (Str "Agenda") powerpoint_editor
    = (Raise (TypeError m), powerpoint_editor)
    /\ PowerPoint.get_slide (Int 1) (Str "Agenda") powerpoint_editor
       <> (Return None, powerpoint_editor).
Proof. eexists. split; [reflexivity|discriminate]. Qed.

End Resolvers.

(** ** Loops *)

Section Loops.

(** A loop that appends to its accumulator and never stops early collects
    what each round appends. *)
Lemma for_loop_flat_map {St A B} (l : list A) (f : A -> list B)
  (body : list B -> A -> M St (flow (list B))) (s : St) :
  (forall acc x, In x l -> body acc x s = (Return (Continue (acc ++ f x)), s)) ->
  forall acc, for_loop l acc body s = (Return (acc ++ flat_map f l), s).
Proof.
  induction l as [|x l IH]; intros H acc; cbn [for_loop flat_map].
  - now rewrite app_nil_r.
  - unfold bind. rewrite (H acc x) by (now left).
    rewrite IH by (intros; apply H; now right).
    now rewrite app_assoc.
Qed.

Lemma enumerate_In {A} (l : list A) (i : Z) (x : A) :
  In (i, x) (enumerate l) <->
  exists k, i = Z.of_nat k /\ nth_error l k = Some x.
Proof.
  unfold enumerate.
  enough (forall start,
    In (i, x) (combine (map Z.of_nat (seq start (length l))) l) <->
    exists k, i = Z.of_nat (start + k) /\ nth_error l k = Some x) as G.
  { rewrite (G 0%nat). reflexivity. }
  induction l as [|y l IH]; intros start; cbn [length seq map combine In].
  - split; [tauto|]. intros ([|k] & _ & Hk); discriminate.
  - rewrite IH. split.
    + intros [[= <- <-]|(k & -> & Hk)].
      * exists 0%nat. split; [f_equal; lia|reflexivity].
      * exists (S k). split; [f_equal; lia|exact Hk].
    + intros ([|k] & -> & Hk).
      * left. injection Hk as <-. f_equal. f_equal. lia.
      * right. exists k. split; [f_equal; lia|exact Hk].
Qed.

Lemma for_loop_filter_map {St A B} (l : list A) (p : A -> bool) (g : A -> B)
  (body : list B -> A -> M St (flow (list B))) (s : St) :
  (forall acc x, In x l ->
     body acc x s = (Return (Continue (if p x then acc ++ [g x] else acc)), s)) ->
  forall acc,
    for_loop l acc body s = (Return (acc ++ map g (List.filter p l)), s).
Proof.
  induction l as [|x l IH]; intros H acc; cbn [for_loop List.filter].
  - now rewrite app_nil_r.
  - unfold bind. rewrite (H acc x) by (now left).
    rewrite IH by (intros; apply H; now right).
    destruct (p x); [|reflexivity].
    cbn [map]. now rewrite <- app_assoc.
Qed.

Lemma range_In (lo hi k : Z) : In k (range lo hi) <-> lo <= k < hi.
Proof.
  unfold range. rewrite in_map_iff. split.
  - intros (n & <- & Hn). apply in_seq in Hn. lia.
  - intros H. exists (Z.to_nat (k - lo)). split; [lia|]. apply in_seq. lia.
Qed.

Lemma getitem_last {A} (l : list A) (d : A) :
  l <> [] -> getitem l (-1) = Return (List.last l d).
Proof.
  intros Hl. unfold getitem.
  assert (0 < length l)%nat by (destruct l; [congruence|cbn; lia]).
  destruct (Z.leb_spec 0 (-1)); [lia|].
  destruct (Z.leb_spec 0 (Z.of_nat (length l) + -1)); [|lia].
  destruct (Z.ltb_spec (Z.of_nat (length l) + -1) (Z.of_nat (length l))); [|lia].
  cbn [andb].
  replace (Z.to_nat (Z.of_nat (length l) + -1)) with (length l - 1)%nat by lia.
  destruct (@exists_last _ l Hl) as (l' & x & ->).
  rewrite last_last, length_app. cbn [length].
  replace (length l' + 1 - 1)%nat with (length l' + 0)%nat by lia.
  rewrite nth_error_app2 by lia.
  replace (length l' + 0 - length l')%nat with 0%nat by lia. reflexivity.
Qed.

Lemma NoDup_app_In {A} (l k : list A) :
  NoDup l -> NoDup k -> (forall x, In x l -> ~ In x k) -> NoDup (l ++ k).
Proof.
  intros Hl Hk H. apply NoDup_app. repeat split; auto.
  intros x Hx Hx'. apply list_elem_of_In in Hx, Hx'. exact (H x Hx Hx').
Qed.

Lemma NoDup_map_filter {A B} (f : A -> B) (p : A -> bool) (l : list A) :
  NoDup (map f l) -> NoDup (map f (List.filter p l)).
Proof.
  induction l as [|x l IH]; cbn [map List.filter]; intros H; [constructor|].
  inversion H as [|? ? Hx Hl]; subst.
  destruct (p x); [|auto]. cbn [map]. constructor; [|auto].
  intros Hin. apply Hx. apply list_elem_of_In. apply list_elem_of_In in Hin.
  apply in_map_iff in Hin.
  destruct Hin as (y & Hy & Hin). apply filter_In in Hin.
  apply in_map_iff. exists y. tauto.
Qed.

(** The pieces [f x] have distinct [h]-images, within a piece and across
    pieces: so has the whole. *)
Lemma NoDup_map_flat_map {A B C} (h : B -> C) (f : A -> list B) (l : list A) :
  (forall x, In x l -> NoDup (map h (f x))) ->
  (forall l1 x1 l2 x2 l3 y1 y2,
     l = l1 ++ x1 :: l2 ++ x2 :: l3 ->
     In y1 (f x1) -> In y2 (f x2) -> h y1 <> h y2) ->
  NoDup (map h (flat_map f l)).
Proof.
  induction l as [|x l IH]; intros Hin Hacross; cbn [flat_map map]; [constructor|].
  rewrite map_app. apply NoDup_app_In.
  - apply Hin. now left.
  - apply IH.
    + intros y Hy. apply Hin. now right.
    + intros l1 x1 l2 x2 l3 y1 y2 -> H1 H2.
      apply (Hacross (x :: l1) x1 l2 x2 l3); auto.
  - intros c Hc Hc'. apply in_map_iff in Hc, Hc'.
    destruct Hc as (y1 & <- & Hy1). destruct Hc' as (y2 & Heq & Hy2).
    apply in_flat_map in Hy2. destruct Hy2 as (x2 & Hx2 & Hy2).
    apply in_split in Hx2. destruct Hx2 as (l2 & l3 & ->).
    apply (Hacross [] x l2 x2 l3 y1 y2 eq_refl Hy1 Hy2). congruence.
Qed.

(** Two entries of [enumerate l], one before the other, have different
    indices. *)
Lemma enumerate_split {A} (l : list A) l1 i1 x1 l2 i2 x2 l3 :
  enumerate l = l1 ++ (i1, x1) :: l2 ++ (i2, x2) :: l3 -> i1 <> i2.
Proof.
  intros H E. subst i2.
  assert (Hnd : NoDup (map fst (enumerate l))).
  { unfold enumerate.
    assert (forall (ks : list Z) (xs : list A), length ks = length xs ->
              map fst (combine ks xs) = ks) as Hfst.
    { induction ks as [|k ks IHk]; intros [|y ys] Hlen; cbn in *;
        try reflexivity; try discriminate.
      f_equal. apply IHk. lia. }
    rewrite Hfst by (now rewrite length_map, length_seq).
    apply NoDup_fmap_2; [intros ? ? ?; lia|]. apply NoDup_seq. }
  rewrite H in Hnd. rewrite map_app in Hnd. cbn [map] in Hnd.
  apply NoDup_app in Hnd. destruct Hnd as (_ & _ & Hnd).
  inversion Hnd as [|? ? Hnot _]; subst. apply Hnot.
  rewrite map_app. cbn [map fst]. apply list_elem_of_In.
  apply in_or_app. right. now left.
Qed.

End Loops.

(** ** Worksheet analysis *)

Section Analysis.

Lemma cells_on_sheet ws r c :
  1 <= r <= Excel.max_row -> 1 <= c <= Excel.max_col ->
  Excel.Cells ws r c
  = Return {| Excel.Value := Excel.value_at ws r c;
              Excel.Address := Excel.CellAt r c |}.
Proof.
  intros [] []. unfold Excel.Cells.
  destruct (Z.leb_spec 1 r); [|lia]. destruct (Z.leb_spec r Excel.max_row); [|lia].
  destruct (Z.leb_spec 1 c); [|lia]. destruct (Z.leb_spec c Excel.max_col); [|lia].
  reflexivity.
Qed.

Lemma enumerate_map {A B} (g : A -> B) (l : list A) :
  enumerate (map g l) = map (fun ix => (fst ix, g (snd ix))) (enumerate l).
Proof.
  unfold enumerate. rewrite length_map.
  generalize (map Z.of_nat (seq 0 (length l))) as ks.
  induction l as [|x l IH]; intros [|k ks]; cbn; try reflexivity.
  now rewrite IH.
Qed.

(** Coordinates of the cells of a used range that lies on the sheet. *)
Lemma used_cell_on_sheet ws ur k row j :
  Excel.UsedRange ws = Some ur -> on_sheet ws ->
  nth_error (Excel.values ur) k = Some row -> (j < length row)%nat ->
  1 <= Excel.Row ur + Z.of_nat k <= Excel.max_row
  /\ 1 <= Excel.Column ur + Z.of_nat j <= Excel.max_col.
Proof.
  intros Hur Hon Hk Hj. unfold on_sheet in Hon. rewrite Hur in Hon.
  destruct Hon as (H1 & H2 & H3 & H4).
  assert (k < length (Excel.values ur))%nat by (apply nth_error_Some; congruence).
  unfold Excel.Rows_Count in H3.
  rewrite List.Forall_forall in H4. apply nth_error_In in Hk. specialize (H4 _ Hk).
  cbn in H4. lia.
Qed.

Lemma grid_loop (s : Excel.St) ws ur body :
  Excel.UsedRange ws = Some ur -> on_sheet ws ->
  body = (fun (string_cells : list Excel.StringCell)
              (pat : Z * Excel.RowValue) =>
            let '(row_idx, row) := pat in
            match row with
            | Excel.RowTuple cells =>
                cs <- for_loop (enumerate cells) string_cells
                  (fun string_cells pat =>
                     let '(col_idx, cell_value) := pat in
                     match cell_value with
                     | Excel.VStr s =>
                         if truthy (strip s) then
                           let actual_row := Excel.Row ur + row_idx in
                           let actual_col := Excel.Column ur + col_idx in
                           cell <- lift (Excel.Cells ws actual_row actual_col) ;;
                           ret (Continue (string_cells ++
                             [ {| Excel.sc_value := strip s;
                                  Excel.sc_address := Excel.Address cell;
                                  Excel.sc_sheet := Excel.ws_Name ws;
                                  Excel.sc_row := actual_row;
                                  Excel.sc_col := actual_col |} ]))
                         else ret (Continue string_cells)
                     | _ => ret (Continue string_cells)
                     end) ;;
                ret (Continue cs)
            | Excel.RowScalar (Excel.VStr s) =>
                if truthy (strip s) then
                  let actual_row := Excel.Row ur + row_idx in
                  let actual_col := Excel.Column ur in
                  cell <- lift (Excel.Cells ws actual_row actual_col) ;;
                  ret (Continue (string_cells ++
                    [ {| Excel.sc_value := strip s;
                         Excel.sc_address := Excel.Address cell;
                         Excel.sc_sheet := Excel.ws_Name ws;
                         Excel.sc_row := actual_row;
                         Excel.sc_col := actual_col |} ]))
                else ret (Continue string_cells)
            | Excel.RowScalar _ => ret (Continue string_cells)
            end) ->
  for_loop (enumerate (map Excel.RowTuple (Excel.values ur))) [] body s
  = (Return (grid_cells ws ur), s).
Proof.
  intros Hur Hon ->.
  rewrite (for_loop_flat_map _
             (fun irow => match snd irow with
                          | Excel.RowTuple cells => row_cells ws ur (fst irow) cells
                          | Excel.RowScalar _ => []
                          end)).
  - cbn [app]. f_equal. f_equal. unfold grid_cells.
    rewrite enumerate_map, flat_map_concat_map, map_map, <- flat_map_concat_map.
    reflexivity.
  - intros acc [i row] Hin. rewrite enumerate_map in Hin.
    apply in_map_iff in Hin. destruct Hin as ([i' cells] & [= <- <-] & Hin).
    apply enumerate_In in Hin. destruct Hin as (k & -> & Hk).
    cbn [fst snd]. unfold bind at 1.
    rewrite (for_loop_flat_map _
               (fun jv => cell_entries ws (Excel.Row ur + Z.of_nat k)
                            (Excel.Column ur + fst jv) (snd jv))).
    + reflexivity.
    + intros acc' [j v] Hjv. apply enumerate_In in Hjv.
      destruct Hjv as (m & -> & Hm). cbn [fst snd]. unfold cell_entries.
      destruct v as [|str| | | | |]; try (now rewrite app_nil_r).
      destruct (truthy (strip str)); [|now rewrite app_nil_r].
      assert (m < length cells)%nat by (apply nth_error_Some; congruence).
      destruct (used_cell_on_sheet ws ur k cells m Hur Hon Hk) as [Hr Hc]; [lia|].
      unfold bind, lift. rewrite (cells_on_sheet ws _ _ Hr Hc). reflexivity.
Qed.

Lemma extract_string_cells_run (s : Excel.St) a v identifier sheet_identifier ws :
  app s = Some a -> Excel.Version a = Some v ->
  Excel.get_worksheet identifier sheet_identifier s = (Return (Some ws), s) ->
  on_sheet ws ->
  Excel.extract_string_cells identifier sheet_identifier s
  = (Return (string_cells_of ws), s).
Proof.
  intros Ha Hv Hws Hon. unfold Excel.extract_string_cells, bind.
  rewrite (excel_guard_live s a v Ha Hv), Hws. unfold try_except, string_cells_of.
  destruct (Excel.UsedRange ws) as [ur|] eqn:Hur; [|reflexivity].
  pose proof (fun body => grid_loop s ws ur body Hur Hon) as Hgrid.
  unfold Excel.Range_Value, Excel.Range_Address.
  destruct (Excel.values ur) as [|[|x [|y row]] [|row' rows]] eqn:Hvals;
    try (match goal with
         | |- context [for_loop _ [] ?b s] => rewrite (Hgrid b eq_refl)
         end; reflexivity).
  all: destruct x;
    try (match goal with
         | |- context [for_loop _ [] ?b _] => rewrite (Hgrid b eq_refl)
         end); reflexivity.
Qed.

(** C5.  With the application connected and the worksheet resolved,
    [find_used_ranges] returns exactly one entry when the worksheet has a
    used range: that range's address, its numbers of rows and columns, its
    first row and column, and for the last row and column
    [first_row + rows - 1] and [first_col + cols - 1]; it never returns
    more than this one bounding range.  When the worksheet has no used
    range it returns the empty list. *)
Theorem find_used_ranges_single_bounding_range
  (s : Excel.St) (a : Excel.Application) (v : string)
  (identifier sheet_identifier : int_or_str) (ws : Excel.Worksheet) :
  app s = Some a -> Excel.Version a = Some v ->
  Excel.get_worksheet identifier sheet_identifier s = (Return (Some ws), s) ->
  match Excel.UsedRange ws with
  | Some ur =>
      exists e,
        Excel.find_used_ranges identifier sheet_identifier s = (Return [e], s)
        /\ Excel.range_ e = Excel.Range_Address ur
        /\ Excel.rows e = Excel.Rows_Count ur
        /\ Excel.cols e = Excel.Columns_Count ur
        /\ Excel.first_row e = Excel.Row ur
        /\ Excel.first_col e = Excel.Column ur
        /\ Excel.last_row e = Excel.first_row e + Excel.rows e - 1
        /\ Excel.last_col e = Excel.first_col e + Excel.cols e - 1
  | None =>
      Excel.find_used_ranges identifier sheet_identifier s = (Return [], s)
  end.
Proof.
  intros Ha Hv Hws. unfold Excel.find_used_ranges, bind.
  rewrite (excel_guard_live s a v Ha Hv), Hws. unfold try_except, ret.
  destruct (Excel.UsedRange ws) as [ur|]; [|reflexivity].
  eexists. split; [reflexivity|]. cbn. repeat split.
Qed.

Lemma find_used_ranges_witness :
  exists e,
    Excel.find_used_ranges (Str "Budget.xlsx") (Int 1) excel_editor
    = (Return [e], excel_editor)
    /\ Excel.range_ e = Excel.Span (Excel.CellAt 1 1) (Excel.CellAt 3 2)
    /\ Excel.rows e = 3
    /\ Excel.cols e = 2
    /\ Excel.first_row e = 1
    /\ Excel.first_col e = 1
    /\ Excel.last_row e = Excel.first_row e + Excel.rows e - 1
    /\ Excel.last_col e = Excel.first_col e + Excel.cols e - 1.
Proof.
  exact (find_used_ranges_single_bounding_range excel_editor excel_running "16.0"
           (Str "Budget.xlsx") (Int 1) sheet_costs eq_refl eq_refl eq_refl).
Defined.

Lemma performance_mode_run {A} (body : M Excel.St A)
  (s sb : Excel.St) (a ab : Excel.Application) (rb : outcome A) :
  app s = Some a ->
  body (performance_mode_entered s a) = (rb, sb) ->
  app sb = Some ab ->
  Excel._performance_mode body s
  = (rb, set_app (Some (Excel.with_DisplayAlerts (Excel.DisplayAlerts a)
                          (Excel.with_ScreenUpdating (Excel.ScreenUpdating a) ab)))
                 sb).
Proof.
  intros Ha Hb Hab. destruct s as [o d n]. cbn in Ha. subst o.
  unfold performance_mode_entered in Hb.
  unfold Excel._performance_mode, try_finally, Excel.set_property,
    bind, self_app, get, put.
  unfold set_app in *. cbn [app desktop connects] in *.
  rewrite Hb, Hab. destruct sb as [ob db nb]. cbn [app desktop connects] in *.
  reflexivity.
Qed.

Lemma find_used_ranges_run (s : Excel.St) a v identifier sheet_identifier ws :
  app s = Some a -> Excel.Version a = Some v ->
  Excel.get_worksheet identifier sheet_identifier s = (Return (Some ws), s) ->
  Excel.find_used_ranges identifier sheet_identifier s
  = (Return (used_ranges_of ws), s).
Proof.
  intros Ha Hv Hws. unfold Excel.find_used_ranges, bind.
  rewrite (excel_guard_live s a v Ha Hv), Hws. unfold try_except, used_ranges_of.
  destruct (Excel.UsedRange ws); reflexivity.
Qed.

(** The scan inside the performance block: the cells and ranges are read
    with the settings switched off, and the editor ends as it began. *)
Lemma scan_run (s : Excel.St) a v identifier sheet_identifier ws :
  app s = Some a -> Excel.Version a = Some v ->
  worksheet_of a identifier sheet_identifier = Return (Some ws) ->
  on_sheet ws ->
  Excel._performance_mode
    (string_cells <- Excel.extract_string_cells identifier sheet_identifier ;;
     used_ranges <- Excel.find_used_ranges identifier sheet_identifier ;;
     ret (string_cells, used_ranges)) s
  = (Return (string_cells_of ws, used_ranges_of ws), s).
Proof.
  intros Ha Hv Hws Hon.
  set (a_off := Excel.with_DisplayAlerts false (Excel.with_ScreenUpdating false a)).
  assert (Hin : app (performance_mode_entered s a) = Some a_off) by reflexivity.
  assert (Hws' : Excel.get_worksheet identifier sheet_identifier
                   (performance_mode_entered s a)
                 = (Return (Some ws), performance_mode_entered s a)).
  { rewrite (excel_get_worksheet_run _ a_off v _ _ Hin Hv). now rewrite <- Hws. }
  rewrite (performance_mode_run _ s (performance_mode_entered s a) a a_off
             (Return (string_cells_of ws, used_ranges_of ws)) Ha).
  - f_equal. destruct s as [o d n], a. cbn in Ha. subst o. reflexivity.
  - unfold bind.
    rewrite (extract_string_cells_run _ a_off v _ _ ws Hin Hv Hws' Hon).
    rewrite (find_used_ranges_run _ a_off v _ _ ws Hin Hv Hws').
    reflexivity.
  - reflexivity.
Qed.

Lemma pairs_loop_run (s : Excel.St) ws cells body :
  body = (fun (pairs : list Excel.HorizontalPair) (string_cell : Excel.StringCell) =>
            let adjacent_col := Excel.sc_col string_cell + 1 in
            try_except
              (adjacent_cell <- lift (Excel.Cells ws (Excel.sc_row string_cell)
                                                  adjacent_col) ;;
               let adjacent_value := Excel.Value adjacent_cell in
               if Excel.is_nonzero_number adjacent_value then
                 ret (Continue (pairs ++
                   [ {| Excel.hp_label := Excel.sc_value string_cell;
                        Excel.hp_label_address := Excel.sc_address string_cell;
                        Excel.hp_value := adjacent_value;
                        Excel.hp_value_address := Excel.Address adjacent_cell;
                        Excel.hp_row := Excel.sc_row string_cell |} ]))
               else ret (Continue pairs))
              (fun _ => ret (Continue pairs))) ->
  for_loop cells [] body s
  = (Return (map (pair_of ws) (List.filter (has_pair ws) cells)), s).
Proof.
  intros ->. rewrite (for_loop_filter_map _ (has_pair ws) (pair_of ws));
    [reflexivity|].
  intros acc sc _. unfold try_except, bind, lift, ret, has_pair, pair_of.
  cbv zeta. unfold Excel.Cells.
  destruct (_ && _); [|reflexivity]. cbn [Excel.Value Excel.Address].
  destruct (Excel.is_nonzero_number _); reflexivity.
Qed.

Lemma numbers_loop_run (s : Excel.St) ws ur sc body :
  Excel.UsedRange ws = Some ur -> on_sheet ws -> cell_on_sheet ur sc ->
  body = (fun (numbers_below : list Excel.NumberBelow) (check_row : Z) =>
            try_except
              (check_cell <- lift (Excel.Cells ws check_row (Excel.sc_col sc)) ;;
               let check_value := Excel.Value check_cell in
               if Excel.is_nonzero_number check_value then
                 ret (Continue (numbers_below ++
                   [ {| Excel.nb_value := check_value;
                        Excel.nb_address := Excel.Address check_cell;
                        Excel.nb_row := check_row |} ]))
               else ret (Continue numbers_below))
              (fun _ => ret (Break numbers_below))) ->
  for_loop (window ur sc) [] body s
  = (Return (numbers_in ws (Excel.sc_col sc) (window ur sc)), s).
Proof.
  intros Hur Hon [Hr Hc] ->. unfold numbers_in.
  rewrite (for_loop_filter_map _
             (fun k => Excel.is_nonzero_number (Excel.value_at ws k (Excel.sc_col sc)))
             (number_at ws (Excel.sc_col sc))); [reflexivity|].
  intros acc k Hk. unfold window in Hk. apply range_In in Hk.
  unfold on_sheet in Hon. rewrite Hur in Hon. destruct Hon as (H1 & H2 & H3 & _).
  unfold try_except, bind, lift, ret.
  rewrite (cells_on_sheet ws k (Excel.sc_col sc)) by lia.
  cbn [Excel.Value Excel.Address]. destruct (Excel.is_nonzero_number _); reflexivity.
Qed.

Lemma value_at_used ws ur k j row v :
  Excel.UsedRange ws = Some ur ->
  nth_error (Excel.values ur) k = Some row -> nth_error row j = Some v ->
  Excel.value_at ws (Excel.Row ur + Z.of_nat k) (Excel.Column ur + Z.of_nat j) = v.
Proof.
  intros Hur Hk Hj. unfold Excel.value_at. rewrite Hur.
  destruct (Z.leb_spec 0 (Excel.Row ur + Z.of_nat k - Excel.Row ur)); [|lia].
  destruct (Z.leb_spec 0 (Excel.Column ur + Z.of_nat j - Excel.Column ur)); [|lia].
  cbn [andb].
  replace (Z.to_nat (Excel.Row ur + Z.of_nat k - Excel.Row ur)) with k by lia.
  replace (Z.to_nat (Excel.Column ur + Z.of_nat j - Excel.Column ur)) with j by lia.
  rewrite Hk. now apply nth_error_nth.
Qed.

Lemma value_at_inv ws r c :
  Excel.value_at ws r c <> Excel.VNone ->
  exists ur k j row,
    Excel.UsedRange ws = Some ur
    /\ r = Excel.Row ur + Z.of_nat k /\ c = Excel.Column ur + Z.of_nat j
    /\ nth_error (Excel.values ur) k = Some row
    /\ nth_error row j = Some (Excel.value_at ws r c).
Proof.
  unfold Excel.value_at. destruct (Excel.UsedRange ws) as [ur|]; [|congruence].
  destruct (Z.leb_spec 0 (r - Excel.Row ur)); [|cbn; congruence].
  destruct (Z.leb_spec 0 (c - Excel.Column ur)); [|cbn; congruence].
  cbn [andb].
  destruct (nth_error (Excel.values ur) (Z.to_nat (r - Excel.Row ur)))
    as [row|] eqn:Hrow; [|congruence].
  intros Hv. exists ur, (Z.to_nat (r - Excel.Row ur)),
    (Z.to_nat (c - Excel.Column ur)), row.
  repeat split; try lia; try assumption.
  destruct (nth_error row (Z.to_nat (c - Excel.Column ur))) as [x|] eqn:Hx.
  - f_equal. symmetry. now apply nth_error_nth.
  - apply nth_error_None in Hx. rewrite nth_overflow in Hv by lia. congruence.
Qed.

(** Where the listed string cells lie. *)
Lemma grid_cells_coords ws ur sc :
  In sc (grid_cells ws ur) ->
  exists k j row str,
    nth_error (Excel.values ur) k = Some row
    /\ nth_error row j = Some (Excel.VStr str)
    /\ truthy (strip str) = true
    /\ sc = cell_entry ws (Excel.Row ur + Z.of_nat k)
                       (Excel.Column ur + Z.of_nat j) (strip str).
Proof.
  unfold grid_cells, row_cells. intros H.
  apply in_flat_map in H. destruct H as ([i row] & Hrow & H).
  apply enumerate_In in Hrow. destruct Hrow as (k & -> & Hk).
  apply in_flat_map in H. destruct H as ([j' v] & Hv & H).
  apply enumerate_In in Hv. destruct Hv as (j & -> & Hj).
  cbn [fst snd] in H. unfold cell_entries in H.
  destruct v as [|str| | | | |]; try contradiction.
  destruct (truthy (strip str)) eqn:Ht; [|contradiction].
  destruct H as [<-|[]]. exists k, j, row, str. auto.
Qed.

Lemma grid_cells_complete ws ur k j row str :
  nth_error (Excel.values ur) k = Some row ->
  nth_error row j = Some (Excel.VStr str) ->
  truthy (strip str) = true ->
  In (cell_entry ws (Excel.Row ur + Z.of_nat k)
                 (Excel.Column ur + Z.of_nat j) (strip str))
     (grid_cells ws ur).
Proof.
  intros Hk Hj Ht. unfold grid_cells, row_cells.
  apply in_flat_map. exists (Z.of_nat k, row). split.
  - apply enumerate_In. eauto.
  - apply in_flat_map. exists (Z.of_nat j, Excel.VStr str). split.
    + apply enumerate_In. eauto.
    + cbn [fst snd cell_entries]. rewrite Ht. now left.
Qed.

(** The list is the grid's, but for a used range of a single cell, whose
    text is listed as it stands. *)
Lemma string_cells_cases ws ur :
  Excel.UsedRange ws = Some ur ->
  (exists v, Excel.values ur = [[v]]
             /\ string_cells_of ws
                = match v with
                  | Excel.VStr str =>
                      [cell_entry ws (Excel.Row ur) (Excel.Column ur) str]
                  | _ => []
                  end)
  \/ ((forall v, Excel.values ur <> [[v]])
      /\ string_cells_of ws = grid_cells ws ur).
Proof.
  intros Hur. unfold string_cells_of. rewrite Hur.
  destruct (Excel.values ur) as [|[|x [|y row]] [|row' rows]] eqn:Hvals;
    try (right; split; [intros v; congruence|]; try destruct x; reflexivity).
  left. exists x. split; [reflexivity|]. destruct x; reflexivity.
Qed.

Lemma string_cells_coords ws ur sc :
  Excel.UsedRange ws = Some ur -> In sc (string_cells_of ws) ->
  exists k j row str,
    nth_error (Excel.values ur) k = Some row
    /\ nth_error row j = Some (Excel.VStr str)
    /\ Excel.sc_row sc = Excel.Row ur + Z.of_nat k
    /\ Excel.sc_col sc = Excel.Column ur + Z.of_nat j
    /\ Excel.sc_address sc = Excel.CellAt (Excel.sc_row sc) (Excel.sc_col sc)
    /\ (truthy (strip str) = true \/ Excel.values ur = [[Excel.VStr str]]).
Proof.
  intros Hur Hin.
  destruct (string_cells_cases ws ur Hur) as [(v & Hv & Heq)|[_ Heq]];
    rewrite Heq in Hin.
  - destruct v as [|str| | | | |]; try contradiction.
    destruct Hin as [<-|[]]. exists 0%nat, 0%nat, [Excel.VStr str], str.
    rewrite Hv. cbn. repeat split; try (f_equal; lia). now right.
  - apply grid_cells_coords in Hin.
    destruct Hin as (k & j & row & str & Hk & Hj & Ht & ->).
    exists k, j, row, str. cbn. repeat split; auto.
Qed.

Lemma string_cells_on_sheet ws ur sc :
  Excel.UsedRange ws = Some ur -> on_sheet ws -> In sc (string_cells_of ws) ->
  cell_on_sheet ur sc.
Proof.
  intros Hur Hon Hin.
  destruct (string_cells_coords ws ur sc Hur Hin)
    as (k & j & row & str & Hk & Hj & Hr & Hc & _).
  assert (j < length row)%nat by (apply nth_error_Some; congruence).
  destruct (used_cell_on_sheet ws ur k row j Hur Hon Hk) as [? ?]; [lia|].
  unfold cell_on_sheet. lia.
Qed.

Lemma headers_loop_run (s : Excel.St) ws ur cells body :
  Excel.UsedRange ws = Some ur -> on_sheet ws ->
  (forall sc, In sc cells -> cell_on_sheet ur sc) ->
  body = (fun (headers : list Excel.TableHeader) (string_cell : Excel.StringCell) =>
    ur <- Excel.UsedRange_of ws ;;
    numbers_below <- for_loop
      (range (Excel.sc_row string_cell + 1)
             (Z.min (Excel.sc_row string_cell + 20)
                    (Excel.Rows_Count ur + Excel.Row ur)))
      [] (fun numbers_below check_row =>
        try_except
          (check_cell <- lift (Excel.Cells ws check_row (Excel.sc_col string_cell)) ;;
           let check_value := Excel.Value check_cell in
           if Excel.is_nonzero_number check_value then
             ret (Continue (numbers_below ++
               [ {| Excel.nb_value := check_value;
                    Excel.nb_address := Excel.Address check_cell;
                    Excel.nb_row := check_row |} ]))
           else ret (Continue numbers_below))
          (fun _ => ret (Break numbers_below))) ;;
    if 2 <=? Z.of_nat (length numbers_below) then
      last_number <- lift (getitem numbers_below (-1)) ;;
      last_cell <- lift (Excel.Cells ws (Excel.nb_row last_number)
                                     (Excel.sc_col string_cell)) ;;
      ret (Continue (headers ++
        [ {| Excel.th_header := Excel.sc_value string_cell;
             Excel.th_header_address := Excel.sc_address string_cell;
             Excel.th_data_count := Z.of_nat (length numbers_below);
             Excel.th_data_range :=
               Excel.Span (Excel.sc_address string_cell)
                          (Excel.Address last_cell) |} ]))
    else ret (Continue headers)) ->
  for_loop cells [] body s
  = (Return (map (header_of ws ur) (List.filter (has_header ws ur) cells)), s).
Proof.
  intros Hur Hon Hcells ->.
  rewrite (for_loop_filter_map _ (has_header ws ur) (header_of ws ur));
    [reflexivity|].
  intros acc sc Hin. specialize (Hcells sc Hin).
  unfold bind at 1. unfold Excel.UsedRange_of. rewrite Hur. unfold ret at 1.
  unfold bind at 1.
  match goal with
  | |- context [for_loop ?l [] ?b s] =>
      change l with (window ur sc);
      rewrite (numbers_loop_run s ws ur sc b Hur Hon Hcells eq_refl)
  end.
  unfold has_header.
  destruct (2 <=? Z.of_nat (length (numbers_in ws (Excel.sc_col sc) (window ur sc))))
    eqn:Hlen; [|reflexivity].
  apply Z.leb_le in Hlen.
  set (nb := numbers_in ws (Excel.sc_col sc) (window ur sc)) in *.
  assert (Hne : nb <> []) by (intros E; rewrite E in Hlen; cbn in Hlen; lia).
  unfold bind, lift. rewrite (getitem_last nb (number_at ws 0 0) Hne).
  assert (Hlast : exists k, In k (window ur sc)
                            /\ List.last nb (number_at ws 0 0)
                               = number_at ws (Excel.sc_col sc) k).
  { assert (Hl : In (List.last nb (number_at ws 0 0)) nb).
    { destruct (@exists_last _ nb Hne) as (l' & x & ->).
      rewrite last_last. apply in_or_app. right. now left. }
    revert Hl. generalize (List.last nb (number_at ws 0 0)). intros x Hx.
    unfold nb, numbers_in in Hx. apply in_map_iff in Hx.
    destruct Hx as (k & Hk & Hkin). apply filter_In in Hkin.
    exists k. split; [tauto|congruence]. }
  destruct Hlast as (k & Hkin & Hk). rewrite Hk.
  unfold window in Hkin. apply range_In in Hkin.
  cbn [number_at Excel.nb_row].
  destruct Hcells as [? ?].
  unfold on_sheet in Hon. rewrite Hur in Hon. destruct Hon as (H1 & H2 & H3 & _).
  rewrite (cells_on_sheet ws k (Excel.sc_col sc)) by lia.
  unfold ret, header_of. fold nb. rewrite Hk. reflexivity.
Qed.

Lemma analyze_run (s : Excel.St) a v identifier sheet_identifier ws :
  app s = Some a -> Excel.Version a = Some v ->
  worksheet_of a identifier sheet_identifier = Return (Some ws) ->
  on_sheet ws ->
  Excel.analyze_label_value_patterns identifier sheet_identifier s
  = (Return (patterns_of ws), s).
Proof.
  intros Ha Hv Hws Hon. unfold Excel.analyze_label_value_patterns.
  unfold bind at 1. rewrite (excel_guard_live s a v Ha Hv).
  unfold bind at 1. rewrite (excel_get_worksheet_run s a v _ _ Ha Hv), Hws.
  unfold try_except. unfold bind at 1.
  rewrite (scan_run s a v identifier sheet_identifier ws Ha Hv Hws Hon).
  cbn [fst snd]. unfold bind at 1.
  match goal with
  | |- context [for_loop (string_cells_of ws) [] ?b s] =>
      rewrite (pairs_loop_run s ws (string_cells_of ws) b eq_refl)
  end.
  unfold bind at 1. unfold patterns_of, headers_of.
  destruct (Excel.UsedRange ws) as [ur|] eqn:Hur.
  - match goal with
    | |- context [for_loop (string_cells_of ws) [] ?b s] =>
        rewrite (headers_loop_run s ws ur (string_cells_of ws) b Hur Hon)
    end.
    + reflexivity.
    + intros sc Hin. now apply string_cells_on_sheet with ws.
    + reflexivity.
  - assert (E : string_cells_of ws = [])
      by (unfold string_cells_of; now rewrite Hur).
    rewrite E. reflexivity.
Qed.

Lemma string_cells_NoDup ws :
  NoDup (map Excel.sc_address (string_cells_of ws)).
Proof.
  destruct (Excel.UsedRange ws) as [ur|] eqn:Hur.
  2:{ unfold string_cells_of. rewrite Hur. constructor. }
  destruct (string_cells_cases ws ur Hur) as [(v & _ & ->)|[_ ->]].
  { destruct v; cbn; try apply NoDup_nil_2. apply NoDup_singleton. }
  unfold grid_cells. apply NoDup_map_flat_map.
  - intros [i row] _. cbn [fst snd]. unfold row_cells.
    apply NoDup_map_flat_map.
    + intros [j v] _. cbn [fst snd]. unfold cell_entries.
      destruct v as [|str| | | | |]; try apply NoDup_nil_2.
      destruct (truthy (strip str)); cbn; [apply NoDup_singleton|apply NoDup_nil_2].
    + intros l1 [j1 v1] l2 [j2 v2] l3 y1 y2 Hsplit H1 H2.
      apply enumerate_split in Hsplit. cbn [fst snd] in H1, H2.
      unfold cell_entries in H1, H2.
      destruct v1 as [|s1| | | | |]; try contradiction.
      destruct v2 as [|s2| | | | |]; try contradiction.
      destruct (truthy (strip s1)); [|contradiction].
      destruct (truthy (strip s2)); [|contradiction].
      destruct H1 as [<-|[]]. destruct H2 as [<-|[]]. cbn. intros [= E]. lia.
  - intros l1 [i1 r1] l2 [i2 r2] l3 y1 y2 Hsplit H1 H2.
    apply enumerate_split in Hsplit. cbn [fst snd] in H1, H2.
    unfold row_cells in H1, H2.
    apply in_flat_map in H1, H2.
    destruct H1 as ([j1 v1] & _ & H1). destruct H2 as ([j2 v2] & _ & H2).
    cbn [fst snd] in H1, H2. unfold cell_entries in H1, H2.
    destruct v1 as [|s1| | | | |]; try contradiction.
    destruct v2 as [|s2| | | | |]; try contradiction.
    destruct (truthy (strip s1)); [|contradiction].
    destruct (truthy (strip s2)); [|contradiction].
    destruct H1 as [<-|[]]. destruct H2 as [<-|[]]. cbn. intros [= E _]. lia.
Qed.

(** Around a used range of one cell every other cell is empty. *)
Lemma single_cell_elsewhere ws ur x r c :
  Excel.UsedRange ws = Some ur -> Excel.values ur = [[x]] ->
  r <> Excel.Row ur \/ c <> Excel.Column ur ->
  Excel.value_at ws r c = Excel.VNone.
Proof.
  intros Hur Hv Hne. unfold Excel.value_at. rewrite Hur, Hv.
  destruct (Z.leb_spec 0 (r - Excel.Row ur)); [|reflexivity].
  destruct (Z.leb_spec 0 (c - Excel.Column ur)); [|reflexivity].
  cbn [andb].
  destruct (Z.to_nat (r - Excel.Row ur)) as [|k] eqn:Ek; cbn.
  - destruct (Z.to_nat (c - Excel.Column ur)) as [|j] eqn:Ej; cbn.
    + lia.
    + now destruct j.
  - now destruct k.
Qed.

(** Below the used range every cell is empty. *)
Lemma value_at_below ws ur k c :
  Excel.UsedRange ws = Some ur ->
  Excel.Rows_Count ur + Excel.Row ur <= k ->
  Excel.value_at ws k c = Excel.VNone.
Proof.
  intros Hur Hk. unfold Excel.value_at, Excel.Rows_Count in *. rewrite Hur.
  destruct (_ && _); [|reflexivity].
  destruct (nth_error (Excel.values ur) (Z.to_nat (k - Excel.Row ur))) eqn:E;
    [|reflexivity].
  assert (Z.to_nat (k - Excel.Row ur) < length (Excel.values ur))%nat
    by (apply nth_error_Some; congruence).
  lia.
Qed.

(** A listed cell holds non-blank text, or is the only cell in use. *)
Lemma listed_cell_text ws sc :
  In sc (string_cells_of ws) ->
  Excel.sc_address sc = Excel.CellAt (Excel.sc_row sc) (Excel.sc_col sc)
  /\ (is_text (Excel.value_at ws (Excel.sc_row sc) (Excel.sc_col sc)) = true
      \/ forall r c, r <> Excel.sc_row sc \/ c <> Excel.sc_col sc ->
                     Excel.value_at ws r c = Excel.VNone).
Proof.
  intros Hin.
  destruct (Excel.UsedRange ws) as [ur|] eqn:Hur.
  2:{ unfold string_cells_of in Hin. rewrite Hur in Hin. contradiction. }
  destruct (string_cells_coords ws ur sc Hur Hin)
    as (k & j & row & str & Hk & Hj & Hr & Hc & Ha & Ht).
  split; [exact Ha|].
  destruct Ht as [Ht|Hsingle].
  - left. rewrite Hr, Hc, (value_at_used ws ur k j row _ Hur Hk Hj). exact Ht.
  - right. intros r c Hne. apply (single_cell_elsewhere ws ur _ r c Hur Hsingle).
    rewrite Hsingle in Hk.
    destruct k as [|k]; [|destruct k; discriminate]. injection Hk as <-.
    destruct j as [|j]; [|destruct j; discriminate]. lia.
Qed.

(** Every non-blank text cell is listed. *)
Lemma text_cell_listed ws r c :
  is_text (Excel.value_at ws r c) = true ->
  exists sc, In sc (string_cells_of ws)
             /\ Excel.sc_row sc = r /\ Excel.sc_col sc = c
             /\ Excel.sc_address sc = Excel.CellAt r c.
Proof.
  intros Ht.
  destruct (value_at_inv ws r c) as (ur & k & j & row & Hur & -> & -> & Hk & Hj).
  { intros E. rewrite E in Ht. discriminate. }
  destruct (Excel.value_at ws _ _) as [|str| | | | |] eqn:Hv; try discriminate.
  cbn in Ht.
  destruct (string_cells_cases ws ur Hur) as [(v & Hvals & ->)|[_ ->]].
  - rewrite Hvals in Hk.
    destruct k as [|k]; [|destruct k; discriminate]. injection Hk as <-.
    destruct j as [|j]; [|destruct j; discriminate]. injection Hj as ->.
    eexists. split; [now left|]. cbn. repeat split; f_equal; lia.
  - eexists. split; [exact (grid_cells_complete ws ur k j row str Hk Hj Ht)|].
    now cbn.
Qed.

Lemma has_pair_value ws sc :
  on_sheet ws -> In sc (string_cells_of ws) ->
  has_pair ws sc
  = Excel.is_nonzero_number
      (Excel.value_at ws (Excel.sc_row sc) (Excel.sc_col sc + 1)).
Proof.
  intros Hon Hin. unfold has_pair, Excel.Cells.
  destruct (_ && _) eqn:Hb; [reflexivity|].
  destruct (Excel.value_at ws (Excel.sc_row sc) (Excel.sc_col sc + 1)) eqn:Hv;
    try reflexivity;
    (destruct (value_at_inv ws (Excel.sc_row sc) (Excel.sc_col sc + 1))
       as (ur & k & j & row & Hur & Hr & Hc & Hk & Hj); [congruence|];
     assert (j < length row)%nat by (apply nth_error_Some; congruence);
     destruct (used_cell_on_sheet ws ur k row j Hur Hon Hk) as [? ?]; [lia|];
     rewrite Hr, Hc in Hb;
     destruct (Z.leb_spec 1 (Excel.Row ur + Z.of_nat k)); [|lia];
     destruct (Z.leb_spec (Excel.Row ur + Z.of_nat k) Excel.max_row); [|lia];
     destruct (Z.leb_spec 1 (Excel.Column ur + Z.of_nat j)); [|lia];
     destruct (Z.leb_spec (Excel.Column ur + Z.of_nat j) Excel.max_col); [|lia];
     discriminate).
Qed.

Lemma filter_none {A} (p : A -> bool) (l : list A) :
  (forall x, In x l -> p x = false) -> List.filter p l = [].
Proof.
  induction l as [|x l IH]; intros H; [reflexivity|]. cbn.
  rewrite (H x) by (now left). apply IH. intros; apply H. now right.
Qed.

Lemma seq_from (a n : nat) : seq a n = map (Nat.add a) (seq 0 n).
Proof.
  revert a. induction n as [|n IH]; intros a; [reflexivity|].
  cbn [seq map]. rewrite Nat.add_0_r. f_equal.
  rewrite (IH (S a)), (IH 1%nat), map_map. apply map_ext. intros k. lia.
Qed.

Lemma filter_range_min (p : Z -> bool) (lo hi b : Z) :
  (forall k, b <= k -> p k = false) ->
  List.filter p (range lo (Z.min hi b)) = List.filter p (range lo hi).
Proof.
  intros Hp.
  destruct (Z.le_gt_cases hi b) as [Hle|Hgt]; [now rewrite Z.min_l by lia|].
  rewrite Z.min_r by lia.
  set (mid := Z.max lo b).
  assert (Hsplit : range lo hi = range lo mid ++ range mid hi).
  { unfold range.
    replace (Z.to_nat (hi - lo))
      with (Z.to_nat (mid - lo) + Z.to_nat (hi - mid))%nat by lia.
    rewrite seq_app, map_app. f_equal.
    rewrite seq_from, map_map. apply map_ext. intros n. lia. }
  rewrite Hsplit, List.filter_app.
  assert (Hnil : List.filter p (range mid hi) = []).
  { apply filter_none. intros k Hk. apply range_In in Hk. apply Hp. lia. }
  rewrite Hnil, app_nil_r. f_equal.
  unfold range. f_equal. f_equal. lia.
Qed.

Lemma has_header_count ws ur sc :
  Excel.UsedRange ws = Some ur ->
  has_header ws ur sc = true <->
  (2 <= length (numbers_beneath_by Excel.is_nonzero_number ws
                  (Excel.sc_row sc) (Excel.sc_col sc)))%nat.
Proof.
  intros Hur. unfold has_header, numbers_in, numbers_beneath_by, window.
  rewrite length_map, filter_range_min.
  - rewrite Z.leb_le. lia.
  - intros k Hk. now rewrite (value_at_below ws ur k _ Hur Hk).
Qed.

Lemma numbers_in_length ws ur sc :
  Excel.UsedRange ws = Some ur ->
  length (numbers_in ws (Excel.sc_col sc) (window ur sc))
  = length (numbers_beneath_by Excel.is_nonzero_number ws
              (Excel.sc_row sc) (Excel.sc_col sc)).
Proof.
  intros Hur. unfold numbers_in, numbers_beneath_by, window.
  rewrite length_map, filter_range_min; [reflexivity|].
  intros k Hk. now rewrite (value_at_below ws ur k _ Hur Hk).
Qed.

Lemma patterns_of_by_test ws :
  on_sheet ws -> reports_by Excel.is_nonzero_number ws (patterns_of ws).
Proof.
  intros Hon. unfold reports_by, patterns_of.
  cbn [Excel.horizontal_pairs Excel.table_headers].
  split; [|split; [|split; [|split; [|split]]]].
  - (* pairs: which cells *)
    intros r c. rewrite map_map. cbn [pair_of Excel.hp_label_address].
    rewrite in_map_iff. split.
    + intros (sc & Ha & Hin). apply filter_In in Hin. destruct Hin as [Hin Hp].
      rewrite (has_pair_value ws sc Hon Hin) in Hp.
      destruct (listed_cell_text ws sc Hin) as [Hadr Ht].
      rewrite Hadr in Ha. injection Ha as <- <-. split; [|exact Hp].
      destruct Ht as [Ht|He]; [exact Ht|].
      rewrite He in Hp by (right; lia). discriminate.
    + intros [Ht Hn].
      destruct (text_cell_listed ws r c Ht) as (sc & Hin & <- & <- & Ha).
      exists sc. split; [exact Ha|]. apply filter_In. split; [exact Hin|].
      now rewrite (has_pair_value ws sc Hon Hin).
  - rewrite map_map. cbn [pair_of Excel.hp_label_address].
    apply NoDup_map_filter, string_cells_NoDup.
  - (* headers: which cells *)
    intros r c. unfold headers_of.
    destruct (Excel.UsedRange ws) as [ur|] eqn:Hur.
    + rewrite map_map. cbn [header_of Excel.th_header_address].
      rewrite in_map_iff. split.
      * intros (sc & Ha & Hin). apply filter_In in Hin. destruct Hin as [Hin Hh].
        apply (has_header_count ws ur sc Hur) in Hh.
        destruct (listed_cell_text ws sc Hin) as [Hadr Ht].
        rewrite Hadr in Ha. injection Ha as <- <-. split; [|exact Hh].
        destruct Ht as [Ht|He]; [exact Ht|].
        unfold numbers_beneath_by in Hh.
        assert (E : List.filter
                      (fun k => Excel.is_nonzero_number
                                  (Excel.value_at ws k (Excel.sc_col sc)))
                      (range (Excel.sc_row sc + 1) (Excel.sc_row sc + 20)) = []).
        { apply filter_none. intros k Hk. apply range_In in Hk.
          now rewrite He by (left; lia). }
        rewrite E in Hh. cbn in Hh. lia.
      * intros [Ht Hn].
        destruct (text_cell_listed ws r c Ht) as (sc & Hin & <- & <- & Ha).
        exists sc. split; [exact Ha|]. apply filter_In. split; [exact Hin|].
        now apply (has_header_count ws ur sc Hur).
    + cbn. split; [tauto|]. intros [Ht _].
      unfold Excel.value_at in Ht. rewrite Hur in Ht. discriminate.
  - unfold headers_of. destruct (Excel.UsedRange ws) as [ur|]; [|constructor].
    rewrite map_map. cbn [header_of Excel.th_header_address].
    apply NoDup_map_filter, string_cells_NoDup.
  - (* pairs: what is recorded *)
    intros hp Hhp. apply in_map_iff in Hhp. destruct Hhp as (sc & <- & Hin).
    apply filter_In in Hin. destruct Hin as [Hin _].
    destruct (listed_cell_text ws sc Hin) as [Hadr _].
    exists (Excel.sc_row sc), (Excel.sc_col sc). cbn. auto.
  - (* headers: what is recorded *)
    intros th Hth. unfold headers_of in Hth.
    destruct (Excel.UsedRange ws) as [ur|] eqn:Hur; [|contradiction].
    apply in_map_iff in Hth. destruct Hth as (sc & <- & Hin).
    apply filter_In in Hin. destruct Hin as [Hin _].
    destruct (listed_cell_text ws sc Hin) as [Hadr _].
    exists (Excel.sc_row sc), (Excel.sc_col sc). cbn. split; [exact Hadr|].
    now rewrite (numbers_in_length ws ur sc Hur).
Qed.

(** The test of the code is the reading of a number that counts. *)
Lemma is_nonzero_number_counts (v : Excel.CellValue) :
  Excel.is_nonzero_number v = counts_as_number v.
Proof.
  destruct v as [| |n|x|b|x|]; try reflexivity.
  cbn. f_equal. now destruct x as [[]|[]| |[] m e].
Qed.

Lemma reports_by_ext (number number' : Excel.CellValue -> bool) ws p :
  (forall v, number v = number' v) ->
  reports_by number ws p -> reports_by number' ws p.
Proof.
  intros Hn (H1 & H2 & H3 & H4 & H5 & H6).
  assert (Hb : forall r c, numbers_beneath_by number ws r c
                           = numbers_beneath_by number' ws r c).
  { intros r c. unfold numbers_beneath_by. apply List.filter_ext.
    intros k. apply Hn. }
  split; [|split; [|split; [|split; [|split]]]]; auto.
  - intros r c. rewrite <- Hn. apply H1.
  - intros r c. rewrite <- Hb. apply H3.
  - intros th Hth. destruct (H6 th Hth) as (r & c & Ha & Hc).
    exists r, c. now rewrite <- Hb.
Qed.

Lemma patterns_of_exact ws : on_sheet ws -> reports_exactly ws (patterns_of ws).
Proof.
  intros Hon. apply (reports_by_ext Excel.is_nonzero_number).
  - exact is_nonzero_number_counts.
  - now apply patterns_of_by_test.
Qed.

(** C6 (as amended).  With the application connected, the worksheet
    resolved and its used range on the sheet, [analyze_label_value_patterns]
    returns a report and leaves the editor as it was.  Its horizontal pairs
    name, each once, exactly the cells that hold non-blank text and whose
    right neighbour holds a number that counts; its table headers name, each
    once, exactly the cells that hold non-blank text and have at least two
    numbers that count in their column among the 19 rows beneath them.  Each
    pair records the neighbour's value and address, each header the count of
    those numbers.  A number that counts is a Python [int] other than 0 or a
    [float] other than zero: [True] counts, a [Decimal] amount does not. *)
Theorem label_value_patterns_exact
  (s : Excel.St) (a : Excel.Application) (v : string)
  (identifier sheet_identifier : int_or_str) (ws : Excel.Worksheet) :
  app s = Some a -> Excel.Version a = Some v ->
  Excel.get_worksheet identifier sheet_identifier s = (Return (Some ws), s) ->
  on_sheet ws ->
  exists p,
    Excel.analyze_label_value_patterns identifier sheet_identifier s
    = (Return p, s)
    /\ reports_exactly ws p.
Proof.
  intros Ha Hv Hws Hon. exists (patterns_of ws). split.
  - apply (analyze_run s a v _ _ ws Ha Hv); [|exact Hon].
    rewrite (excel_get_worksheet_run s a v _ _ Ha Hv) in Hws. congruence.
  - now apply patterns_of_exact.
Qed.

Lemma sheet_costs_on_sheet : on_sheet sheet_costs.
Proof.
  unfold on_sheet, sheet_costs, Excel.UsedRange, Excel.values, Excel.Row,
    Excel.Column.
  repeat split; try (cbv; discriminate).
  repeat (constructor; [cbv; discriminate|]). constructor.
Defined.

Lemma label_value_patterns_witness :
  exists p,
    Excel.analyze_label_value_patterns (Str "Budget.xlsx") (Str "Costs")
                                       excel_editor
    = (Return p, excel_editor)
    /\ reports_exactly sheet_costs p.
Proof.
  exact (label_value_patterns_exact excel_editor excel_running "16.0"
           (Str "Budget.xlsx") (Str "Costs") sheet_costs
           eq_refl eq_refl eq_refl sheet_costs_on_sheet).
Defined.

(** A label beside a currency amount makes no pair, and a label beside a
    truth value makes one: the detector does not go by what is a nonzero
    numeric value. *)
Lemma currency_amount_is_no_pair :
  exists p,
    Excel.analyze_label_value_patterns (Str "Fees.xlsx") (Str "Fees") fees_editor
    = (Return p, fees_editor)
    /\ map Excel.hp_label_address (Excel.horizontal_pairs p)
       = [Excel.CellAt 2 1]
    /\ is_text (Excel.value_at sheet_fees 1 1) = true
    /\ nonzero_numeric_value (Excel.value_at sheet_fees 1 2) = true
    /\ is_text (Excel.value_at sheet_fees 2 1) = true
    /\ nonzero_numeric_value (Excel.value_at sheet_fees 2 2) = false.
Proof. eexists. repeat split; vm_compute; reflexivity. Qed.

Example analyze_costs :
  exists p,
    Excel.analyze_label_value_patterns (Str "Budget.xlsx") (Str "Costs")
                                       excel_editor
    = (Return p, excel_editor)
    /\ map Excel.hp_label_address (Excel.horizontal_pairs p)
       = [Excel.CellAt 2 1; Excel.CellAt 3 1]
    /\ map Excel.th_header_address (Excel.table_headers p)
       = [Excel.CellAt 1 2].
Proof. eexists. split; [reflexivity|]. split; reflexivity. Qed.

(** *** Settings around the performance block *)

Lemma pure_ret {St A} (s : St) (x : A) : pure_at s (ret x).
Proof. reflexivity. Qed.

Lemma pure_raise {St A} (s : St) e : pure_at s (@raise St A e).
Proof. reflexivity. Qed.

Lemma pure_lift {St A} (s : St) (o : outcome A) : pure_at s (lift o).
Proof. reflexivity. Qed.

Lemma pure_bind {St A B} (s : St) (c : M St A) (k : A -> M St B) :
  pure_at s c -> (forall x, pure_at s (k x)) -> pure_at s (bind c k).
Proof.
  unfold pure_at, bind. intros Hc Hk.
  destruct (c s) as [[x|e] s']; cbn in Hc; subst s'; [apply Hk|reflexivity].
Qed.

Lemma pure_try_except {St A} (s : St) (c : M St A) h :
  pure_at s c -> (forall e, pure_at s (h e)) -> pure_at s (try_except c h).
Proof.
  unfold pure_at, try_except. intros Hc Hh.
  destruct (c s) as [[x|e] s']; cbn in Hc; subst s'; [reflexivity|apply Hh].
Qed.

Lemma pure_for_loop {St A B} (s : St) (l : list A) (acc : B) body :
  (forall acc x, pure_at s (body acc x)) -> pure_at s (for_loop l acc body).
Proof.
  intros H. revert acc. induction l as [|x l IH]; intros acc; [reflexivity|].
  cbn [for_loop]. apply pure_bind; [apply H|].
  intros [b|b]; [apply IH|reflexivity].
Qed.

Lemma try_reraise {St A} (c : M St A) (s : St) :
  try_except c (fun e => raise e) s = c s.
Proof. unfold try_except, raise. now destruct (c s) as [[x|e] s']. Qed.

Ltac pure_steps :=
  repeat first
    [ apply pure_ret | apply pure_raise | apply pure_lift
    | apply pure_bind | apply pure_try_except | apply pure_for_loop
    | progress intros
    | match goal with
      | |- pure_at _ (match ?x with _ => _ end) => destruct x
      | |- pure_at _ (if ?x then _ else _) => destruct x
      | |- pure_at _ (let (_, _) := ?x in _) => destruct x
      end ].

Lemma pure_guard (s : Excel.St) a v :
  app s = Some a -> Excel.Version a = Some v ->
  pure_at s Excel._ensure_connection.
Proof. intros Ha Hv. unfold pure_at. now rewrite (excel_guard_live s a v Ha Hv). Qed.

Lemma pure_get_worksheet (s : Excel.St) a v identifier sheet_identifier :
  app s = Some a -> Excel.Version a = Some v ->
  pure_at s (Excel.get_worksheet identifier sheet_identifier).
Proof.
  intros Ha Hv. unfold pure_at.
  now rewrite (excel_get_worksheet_run s a v _ _ Ha Hv).
Qed.

Lemma pure_extract_string_cells (s : Excel.St) a v identifier sheet_identifier :
  app s = Some a -> Excel.Version a = Some v ->
  pure_at s (Excel.extract_string_cells identifier sheet_identifier).
Proof.
  intros Ha Hv. unfold Excel.extract_string_cells.
  apply pure_bind; [now apply pure_guard with a v|]. intros _.
  apply pure_bind; [now apply pure_get_worksheet with a v|]. intros ws.
  pure_steps.
Qed.

Lemma pure_find_used_ranges (s : Excel.St) a v identifier sheet_identifier :
  app s = Some a -> Excel.Version a = Some v ->
  pure_at s (Excel.find_used_ranges identifier sheet_identifier).
Proof.
  intros Ha Hv. unfold Excel.find_used_ranges.
  apply pure_bind; [now apply pure_guard with a v|]. intros _.
  apply pure_bind; [now apply pure_get_worksheet with a v|]. intros ws.
  pure_steps.
Qed.

(** The analysis leaves a connected editor as it found it, whatever the
    sheet holds and whether it returns or raises. *)
Lemma pure_analyze (s : Excel.St) a v identifier sheet_identifier :
  app s = Some a -> Excel.Version a = Some v ->
  pure_at s (Excel.analyze_label_value_patterns identifier sheet_identifier).
Proof.
  intros Ha Hv. unfold Excel.analyze_label_value_patterns.
  apply pure_bind; [now apply pure_guard with a v|]. intros _.
  apply pure_bind; [now apply pure_get_worksheet with a v|]. intros [ws|];
    [|apply pure_raise].
  apply pure_try_except; [|intros; apply pure_raise].
  apply pure_bind.
  - set (a_off := Excel.with_DisplayAlerts false
                    (Excel.with_ScreenUpdating false a)).
    assert (Hin : app (performance_mode_entered s a) = Some a_off) by reflexivity.
    match goal with
    | |- pure_at s (Excel._performance_mode ?body) =>
        assert (Hb : pure_at (performance_mode_entered s a) body)
    end.
    { apply pure_bind; [now apply pure_extract_string_cells with a_off v|].
      intros cells.
      apply pure_bind; [now apply pure_find_used_ranges with a_off v|].
      intros ranges. apply pure_ret. }
    unfold pure_at in *.
    match goal with
    | |- snd (Excel._performance_mode ?body s) = s =>
        destruct (body (performance_mode_entered s a)) as [rb sb] eqn:Eb
    end.
    cbn [snd] in Hb. subst sb.
    rewrite (performance_mode_run _ s _ a a_off rb Ha Eb Hin). cbn [snd].
    destruct s as [o d n], a. cbn in Ha. subst o. reflexivity.
  - intros scanned. pure_steps.
    all: unfold Excel.UsedRange_of; pure_steps.
Qed.

Lemma keeps_handle_ret {A} (x : A) : keeps_handle (ret x).
Proof. intros s a Ha. eauto. Qed.

Lemma keeps_handle_raise {A} e : keeps_handle (@raise Excel.St A e).
Proof. intros s a Ha. eauto. Qed.

Lemma keeps_handle_lift {A} (o : outcome A) : keeps_handle (lift o).
Proof. intros s a Ha. eauto. Qed.

Lemma keeps_handle_call {A} (f : Excel.Application -> outcome A * Excel.Application) :
  keeps_handle (Excel.call f).
Proof.
  intros s a Ha. unfold Excel.call, bind, self_app, get, put, lift.
  rewrite Ha. cbn. destruct (fst (f a)); cbn; eauto.
Qed.

Lemma keeps_handle_bind {A B} (c : M Excel.St A) (k : A -> M Excel.St B) :
  keeps_handle c -> (forall x, keeps_handle (k x)) -> keeps_handle (bind c k).
Proof.
  intros Hc Hk s a Ha. unfold bind. destruct (Hc s a Ha) as [a' Ha'].
  destruct (c s) as [[x|e] s']; cbn in Ha'; [exact (Hk x s' a' Ha')|eauto].
Qed.

Lemma keeps_handle_try_except {A} (c : M Excel.St A) h :
  keeps_handle c -> (forall e, keeps_handle (h e)) -> keeps_handle (try_except c h).
Proof.
  intros Hc Hh s a Ha. unfold try_except. destruct (Hc s a Ha) as [a' Ha'].
  destruct (c s) as [[x|e] s']; cbn in Ha'; [eauto|exact (Hh e s' a' Ha')].
Qed.

Ltac handle_steps :=
  repeat first
    [ apply keeps_handle_ret | apply keeps_handle_raise | apply keeps_handle_lift
    | apply keeps_handle_call
    | apply keeps_handle_bind | apply keeps_handle_try_except
    | progress intros
    | match goal with
      | |- keeps_handle (match ?x with _ => _ end) => destruct x
      | |- keeps_handle (if ?x then _ else _) => destruct x
      end ].

(** A block whose body keeps the handle ends with the settings it began
    with. *)
Lemma performance_mode_settings {A} (body : M Excel.St A) (s : Excel.St) a :
  keeps_handle body -> app s = Some a ->
  settings_as a (snd (Excel._performance_mode body s)).
Proof.
  intros Hk Ha.
  destruct (Hk (performance_mode_entered s a) _ eq_refl) as [ab Hab].
  destruct (body (performance_mode_entered s a)) as [rb sb] eqn:Eb.
  cbn [snd] in Hab.
  rewrite (performance_mode_run body s sb a ab rb Ha Eb Hab).
  eexists. split; [reflexivity|]. cbn. auto.
Qed.

Lemma settings_as_self (s : Excel.St) a : app s = Some a -> settings_as a s.
Proof. intros Ha. exists a. auto. Qed.

Lemma save_workbook_settings ext identifier save_path (s : Excel.St) a v :
  app s = Some a -> Excel.Version a = Some v ->
  settings_as a (snd (Excel.save_workbook ext identifier save_path s)).
Proof.
  intros Ha Hv. unfold Excel.save_workbook, bind at 1 2.
  rewrite (excel_guard_live s a v Ha Hv), (excel_get_workbook_run s a v _ Ha Hv).
  destruct (resolve _ _ _) as [[wb|]|e]; [|now apply settings_as_self..].
  rewrite try_reraise. apply performance_mode_settings; [|exact Ha].
  handle_steps.
Qed.

Lemma add_worksheet_settings ext identifier sheet_name (s : Excel.St) a v :
  app s = Some a -> Excel.Version a = Some v ->
  settings_as a (snd (Excel.add_worksheet ext identifier sheet_name s)).
Proof.
  intros Ha Hv. unfold Excel.add_worksheet, bind at 1 2.
  rewrite (excel_guard_live s a v Ha Hv), (excel_get_workbook_run s a v _ Ha Hv).
  destruct (resolve _ _ _) as [[wb|]|e]; [|now apply settings_as_self..].
  rewrite try_reraise. apply performance_mode_settings; [|exact Ha].
  handle_steps.
Qed.

Lemma set_range_values_settings ext identifier sheet_identifier start_cell values
  (s : Excel.St) a v :
  app s = Some a -> Excel.Version a = Some v ->
  settings_as a (snd (Excel.set_range_values ext identifier sheet_identifier
                        start_cell values s)).
Proof.
  intros Ha Hv. unfold Excel.set_range_values, bind at 1 2.
  rewrite (excel_guard_live s a v Ha Hv),
    (excel_get_worksheet_run s a v _ _ Ha Hv).
  destruct (worksheet_of _ _ _) as [[ws|]|e]; [|now apply settings_as_self..].
  destruct values as [|first_row rest]; [now apply settings_as_self|].
  rewrite try_reraise. apply performance_mode_settings; [|exact Ha].
  handle_steps.
Qed.

(** C8.  [_performance_mode] around any body: when the editor holds an
    application before the block and still holds one when the body is over,
    the block ends with the body's own outcome, returned or raised, and the
    application's [ScreenUpdating] and [DisplayAlerts] are what they were
    before the block; nothing else of what the body left is touched.  So it
    is for the four operations that use the block, called on a connected
    editor, whatever their calls into Excel return, raise or change:
    [save_workbook], [add_worksheet] and [set_range_values] end with the two
    settings as they were, and [analyze_label_value_patterns] with the whole
    editor as it was. *)
Theorem performance_mode_restores_settings (s : Excel.St) (a : Excel.Application) :
  app s = Some a ->
  (forall A (body : M Excel.St A) rb sb ab,
     body (performance_mode_entered s a) = (rb, sb) ->
     app sb = Some ab ->
     exists a',
       Excel._performance_mode body s = (rb, set_app (Some a') sb)
       /\ Excel.ScreenUpdating a' = Excel.ScreenUpdating a
       /\ Excel.DisplayAlerts a' = Excel.DisplayAlerts a
       /\ Excel.Version a' = Excel.Version ab
       /\ Excel.Visible a' = Excel.Visible ab
       /\ Excel.Workbooks a' = Excel.Workbooks ab)
  /\ (forall v ext identifier sheet_identifier save_path sheet_name start_cell values,
        Excel.Version a = Some v ->
        settings_as a (snd (Excel.save_workbook ext identifier save_path s))
        /\ settings_as a (snd (Excel.add_worksheet ext identifier sheet_name s))
        /\ settings_as a (snd (Excel.set_range_values ext identifier
                                 sheet_identifier start_cell values s))
        /\ snd (Excel.analyze_label_value_patterns identifier sheet_identifier s)
           = s).
Proof.
  intros Ha. split.
  - intros A body rb sb ab Hb Hab. eexists. split.
    + exact (performance_mode_run body s sb a ab rb Ha Hb Hab).
    + cbn. repeat split.
  - intros v ext identifier sheet_identifier save_path sheet_name start_cell
      values Hv.
    split; [now apply save_workbook_settings with v|].
    split; [now apply add_worksheet_settings with v|].
    split; [now apply set_range_values_settings with v|].
    now apply pure_analyze with a v.
Qed.

Lemma performance_mode_witness :
  (forall A (body : M Excel.St A) rb sb ab,
     body (performance_mode_entered excel_editor excel_running) = (rb, sb) ->
     app sb = Some ab ->
     exists a',
       Excel._performance_mode body excel_editor = (rb, set_app (Some a') sb)
       /\ Excel.ScreenUpdating a' = Excel.ScreenUpdating excel_running
       /\ Excel.DisplayAlerts a' = Excel.DisplayAlerts excel_running
       /\ Excel.Version a' = Excel.Version ab
       /\ Excel.Visible a' = Excel.Visible ab
       /\ Excel.Workbooks a' = Excel.Workbooks ab)
  /\ (forall v ext identifier sheet_identifier save_path sheet_name start_cell values,
        Excel.Version excel_running = Some v ->
        settings_as excel_running
          (snd (Excel.save_workbook ext identifier save_path excel_editor))
        /\ settings_as excel_running
             (snd (Excel.add_worksheet ext identifier sheet_name excel_editor))
        /\ settings_as excel_running
             (snd (Excel.set_range_values ext identifier sheet_identifier
                     start_cell values excel_editor))
        /\ snd (Excel.analyze_label_value_patterns identifier sheet_identifier
                  excel_editor)
           = excel_editor).
Proof.
  exact (performance_mode_restores_settings excel_editor excel_running eq_refl).
Defined.

(** A save without a path of a workbook that was never saved raises inside
    the block; the settings are back as they were. *)
Example save_new_workbook_raises :
  Excel.save_workbook quiet_calls (Str "Book1") None excel_editor
  = (Raise (ValueError
       "save_path is required for a new workbook that hasn't been saved before."),
     excel_editor).
Proof. reflexivity. Qed.

End Analysis.


(** ** Tools *)

Section Tools.

(** Every tool of the Excel server answers with a payload, and with an
    error payload when the editor's method raised. *)
Lemma excel_tool_answers {A} (tool_name key : string) (method : M Excel.St A)
  (editor : Excel.Server) :
  exists p, fst (Excel.tool tool_name key method editor) = Return p
            /\ (forall ed e, editor = Some ed -> fst (method ed) = Raise e ->
                  exists msg, p = Error msg).
Proof.
  unfold Excel.tool. destruct editor as [ed|]; cbn [fst].
  - unfold try_except, bind, ret. destruct (method ed) as [[x|e] ed'] eqn:E.
    + eexists. split; [reflexivity|]. intros ed0 e [= <-]. rewrite E. discriminate.
    + eexists. split; [reflexivity|]. intros ed0 e0 _ _.
      unfold Excel._handle_excel_tool_error.
      destruct (_ || _); [eauto|]. destruct e; eauto.
  - eexists. split; [reflexivity|]. discriminate.
Qed.

(** C1.  A call of the PowerPoint tool [find_shape_by_text] while PowerPoint
    cannot be reached: the editor raises [ConnectionError], the tool's
    handler calls [_handle_tool_error], which the module does not define,
    and the call ends with an uncaught [NameError] instead of an error
    payload.  [list_shapes], a tool of the same file that formats the error
    itself, answers the same call with an error payload. *)
Theorem find_shape_by_text_tool_raises_name_error :
  fst (PowerPoint.find_shape_by_text (Int 1) (Int 1) "results" true
         powerpoint_unreachable)
  = Raise (ConnectionError "Could not connect to or launch PowerPoint.")
  /\ fst (PowerPoint.find_shape_by_text_tool (Int 1) (Int 1) "results" true
            powerpoint_unreachable)
     = Raise (NameError "_handle_tool_error")
  /\ exists msg,
       fst (PowerPoint.list_shapes_tool (Int 1) (Int 1) powerpoint_unreachable)
       = Return (Error msg).
Proof. split; [reflexivity|]. split; [reflexivity|]. eexists. reflexivity. Qed.

End Tools.

(** ** The document cache and the element registry *)

Section Cache.

Lemma get_presentation_cached path (c : Pptx.Context) r :
  Pptx.presentations c !! Pptx.path_str_of (Pptx.workspace_dir c) path = Some r ->
  Pptx.get_presentation path c
  = (Return r,
     Pptx.set_current_presentation
       (Some (Pptx.path_str_of (Pptx.workspace_dir c) path)) c).
Proof.
  intros H. unfold Pptx.get_presentation, bind, get, ret, Pptx.modify.
  rewrite H. cbn. rewrite H. reflexivity.
Qed.

Lemma get_presentation_first path (c : Pptx.Context) tree :
  let key := Pptx.path_str_of (Pptx.workspace_dir c) path in
  Pptx.presentations c !! key = None ->
  tree_at (Pptx.disk c key) = Some tree ->
  Pptx.get_presentation path c
  = (Return (length (Pptx.objects c)),
     {| Pptx.workspace_dir := Pptx.workspace_dir c;
        Pptx.presentations := <[key := length (Pptx.objects c)]> (Pptx.presentations c);
        Pptx.current_presentation := Some key;
        Pptx.element_ids := Pptx.element_ids c;
        Pptx.objects := Pptx.objects c ++ [tree];
        Pptx.disk := Pptx.disk c;
        Pptx.disk_reads := Pptx.disk_reads c ++ read_of key (Pptx.disk c key);
        Pptx.uuid4 := Pptx.uuid4 c;
        Pptx.uuids_drawn := Pptx.uuids_drawn c |}).
Proof.
  intros key H Ht. unfold Pptx.get_presentation, bind, get, ret, Pptx.modify.
  fold key. rewrite H.
  unfold lift.
  destruct (Pptx.disk c key) as [[[file|e]|]|e] eqn:Hd; cbn in Ht;
    [injection Ht as <-|discriminate|injection Ht as <-|discriminate]; cbn;
    unfold Pptx.new_object, bind, get, ret, Pptx.modify; cbn;
    rewrite lookup_insert_eq, ?app_nil_r; reflexivity.
Qed.

(** What is at the path is no deck: the call raises what
    [Presentation(path)] raises, and stores nothing. *)
Lemma get_presentation_fails path (c : Pptx.Context) e :
  let key := Pptx.path_str_of (Pptx.workspace_dir c) path in
  Pptx.presentations c !! key = None ->
  Pptx.disk c key = Return (Some (Pptx.NoDeck e)) ->
  Pptx.get_presentation path c
  = (Raise e, Pptx.set_disk_reads (Pptx.disk_reads c ++ [key]) c).
Proof.
  intros key H Hd.
  unfold Pptx.get_presentation, bind, get, ret, Pptx.modify, lift.
  fold key. rewrite H, Hd. reflexivity.
Qed.

(** [exists] raises: the call raises the same, and nothing changes. *)
Lemma get_presentation_unreachable path (c : Pptx.Context) e :
  let key := Pptx.path_str_of (Pptx.workspace_dir c) path in
  Pptx.presentations c !! key = None ->
  Pptx.disk c key = Raise e ->
  Pptx.get_presentation path c = (Raise e, c).
Proof.
  intros key H Hd.
  unfold Pptx.get_presentation, bind, get, ret, Pptx.modify, lift.
  fold key. rewrite H, Hd. reflexivity.
Qed.

Lemma keeps_entries_refl c : keeps_entries c c.
Proof. split; auto. Qed.

Lemma keeps_entries_trans c1 c2 c3 :
  keeps_entries c1 c2 -> keeps_entries c2 c3 -> keeps_entries c1 c3.
Proof. intros [H1 H2] [H3 H4]. split; [congruence|auto]. Qed.

(** The four ways a call goes. *)
Lemma get_presentation_cases path (c : Pptx.Context) :
  let key := Pptx.path_str_of (Pptx.workspace_dir c) path in
  (exists r, Pptx.presentations c !! key = Some r
             /\ Pptx.get_presentation path c
                = (Return r, Pptx.set_current_presentation (Some key) c))
  \/ (exists tree, Pptx.presentations c !! key = None
                   /\ tree_at (Pptx.disk c key) = Some tree
                   /\ fst (Pptx.get_presentation path c)
                      = Return (length (Pptx.objects c))
                   /\ Pptx.presentations (snd (Pptx.get_presentation path c))
                      = <[key := length (Pptx.objects c)]> (Pptx.presentations c)
                   /\ Pptx.workspace_dir (snd (Pptx.get_presentation path c))
                      = Pptx.workspace_dir c)
  \/ (exists e, Pptx.presentations c !! key = None
                /\ Pptx.disk c key = Return (Some (Pptx.NoDeck e))
                /\ Pptx.get_presentation path c
                   = (Raise e, Pptx.set_disk_reads (Pptx.disk_reads c ++ [key]) c))
  \/ (exists e, Pptx.presentations c !! key = None
                /\ Pptx.disk c key = Raise e
                /\ Pptx.get_presentation path c = (Raise e, c)).
Proof.
  intros key.
  destruct (Pptx.presentations c !! key) as [r|] eqn:H.
  - left. exists r. split; [reflexivity|]. now apply get_presentation_cached.
  - destruct (tree_at (Pptx.disk c key)) as [tree|] eqn:Ht.
    + right. left. exists tree. split; [reflexivity|]. split; [reflexivity|].
      rewrite (get_presentation_first path c tree H Ht). cbn. auto.
    + right. right. destruct (Pptx.disk c key) as [[[file|e]|]|e] eqn:Hd;
        try discriminate.
      * left. exists e. split; [reflexivity|]. split; [reflexivity|].
        now apply get_presentation_fails.
      * right. exists e. split; [reflexivity|]. split; [reflexivity|].
        now apply get_presentation_unreachable.
Qed.

Lemma get_presentation_keeps path (c : Pptx.Context) :
  keeps_entries c (snd (Pptx.get_presentation path c)).
Proof.
  destruct (get_presentation_cases path c)
    as [(r & H & ->)|[(tree & H & _ & _ & Hp & Hw)
                     |[(e & H & _ & ->)|(e & H & _ & ->)]]].
  - split; [reflexivity|auto].
  - split; [exact Hw|]. rewrite Hp. intros k r Hk.
    rewrite lookup_insert_ne; [exact Hk|congruence].
  - split; [reflexivity|auto].
  - split; [reflexivity|auto].
Qed.

Lemma get_presentation_stores path (c c1 : Pptx.Context) r :
  Pptx.get_presentation path c = (Return r, c1) ->
  Pptx.presentations c1 !! Pptx.path_str_of (Pptx.workspace_dir c) path = Some r.
Proof.
  intros Hget.
  destruct (get_presentation_cases path c)
    as [(r' & H & E)|[(tree & H & _ & Hf & Hp & _)
                      |[(e & _ & _ & E)|(e & _ & _ & E)]]].
  - rewrite E in Hget. injection Hget as <- <-. exact H.
  - rewrite Hget in Hf, Hp. cbn in Hf, Hp. injection Hf as ->.
    rewrite Hp. apply lookup_insert_eq.
  - rewrite E in Hget. discriminate.
  - rewrite E in Hget. discriminate.
Qed.

Lemma for_return_pure {St A B} (l : list A) (body : A -> M St (option B)) (s : St) :
  (forall x, snd (body x s) = s) -> snd (for_return l body s) = s.
Proof.
  intros H. induction l as [|x l IH]; [reflexivity|].
  cbn [for_return]. unfold bind. specialize (H x).
  destruct (body x s) as [[[b|]|e] s']; cbn in H; subst s'; auto.
Qed.

Lemma get_shape_by_id_pure p i e (c : Pptx.Context) :
  snd (Pptx.get_shape_by_id p i e c) = c.
Proof.
  unfold Pptx.get_shape_by_id, try_except, Pptx.deref, bind, get, ret, lift, raise.
  destruct (Pptx.objects c !! p) as [pres|]; [|reflexivity].
  destruct (_ <=? i); [reflexivity|].
  destruct (getitem (Pptx.slides pres) i) as [slide|]; [|reflexivity].
  destruct (Pptx.current_presentation c) as [pp|]; [|reflexivity].
  destruct (negb (truthy pp)); [reflexivity|].
  destruct (Pptx.element_ids c !! pp) as [bs|]; [|reflexivity].
  destruct (bs !! i) as [bsh|]; [|reflexivity].
  match goal with
  | |- snd (let (_, _) := ?f c in _) = c =>
      assert (Hp : snd (f c) = c);
      [|destruct (f c) as [[?|?] c']; cbn in Hp; subst c'; reflexivity]
  end.
  apply for_return_pure. intros sh.
  destruct (bsh !! Pptx.shape_id sh) as [e'|]; [|reflexivity].
  destruct (String.eqb e' e); reflexivity.
Qed.

Lemma register_element_keeps p i sh (c : Pptx.Context) :
  keeps_entries c (snd (Pptx.register_element p i sh c)).
Proof.
  unfold Pptx.register_element, Pptx.generate_element_id, bind, get, ret, raise,
    Pptx.modify.
  repeat (match goal with
          | |- context [match ?x with _ => _ end] =>
              match x with
              | context [match _ with _ => _ end] => fail 1
              | _ => destruct x eqn:?
              end
          end; cbn [snd fst Pptx.element_ids Pptx.set_element_ids
                    Pptx.set_uuids_drawn] in *);
    split; reflexivity || auto.
Qed.

Lemma save_presentation_keeps path (c : Pptx.Context) :
  keeps_entries c (snd (Pptx.save_presentation path c)).
Proof.
  unfold Pptx.save_presentation, Pptx.deref, bind, get, ret, raise, Pptx.modify.
  repeat (match goal with
          | |- context [match ?x with _ => _ end] =>
              match x with
              | context [match _ with _ => _ end] => fail 1
              | _ => destruct x eqn:?
              end
          | |- context [if ?x then _ else _] =>
              match x with
              | context [match _ with _ => _ end] => fail 1
              | _ => destruct x eqn:?
              end
          end; cbn [snd fst] in *);
    split; reflexivity || auto.
Qed.

Lemma perform_keeps op (c : Pptx.Context) : keeps_entries c (perform op c).
Proof.
  destruct op as [path|path|p i sh|p i e|path|path i]; cbn [perform].
  - apply get_presentation_keeps.
  - apply save_presentation_keeps.
  - apply register_element_keeps.
  - rewrite get_shape_by_id_pure. apply keeps_entries_refl.
  - unfold Pptx.get_slide_count, bind.
    pose proof (get_presentation_keeps path c) as H.
    destruct (Pptx.get_presentation path c) as [[r|ex] c1]; cbn [snd] in *;
      [|exact H].
    unfold Pptx.deref, bind, get, ret, raise.
    destruct (Pptx.objects c1 !! r); exact H.
  - unfold Pptx.delete_slide, bind.
    pose proof (get_presentation_keeps path c) as H.
    destruct (Pptx.get_presentation path c) as [[r|ex] c1]; cbn [snd] in *;
      [|exact H].
    unfold Pptx.deref, bind, get, ret, raise, lift, Pptx.modify.
    destruct (Pptx.objects c1 !! r) as [pres|]; [|exact H].
    destruct (_ && _); [|exact H].
    destruct (getitem (Pptx.slides pres) i); exact H.
Qed.

Lemma perform_all_keeps ops (c : Pptx.Context) :
  keeps_entries c (perform_all ops c).
Proof.
  revert c. induction ops as [|op ops IH]; intros c; cbn.
  - apply keeps_entries_refl.
  - eapply keeps_entries_trans; [apply perform_keeps|apply IH].
Qed.

(** C7 (as amended).  The mapping of open presentations is keyed by the
    text that [str] makes of the [pathlib] path the code forms: of the path
    itself when it is absolute, else of the workspace directory joined with
    it; [pathlib] drops repeated slashes and [.] components, and the key is
    neither made absolute nor resolved.  The first [get_presentation] for a
    key reads what is at the path when there is something: a deck is put in
    memory as a new object and stored under the key; when what is there is
    no deck (a directory, say) the call raises what [Presentation] raises
    and stores nothing, and so it does with what [exists] raises (for a
    name that is too long, say).  When there is nothing at the path a new,
    empty presentation is made and stored, and nothing is read.  Once a call has
    returned an object, whatever operations follow, a later call with the
    same path returns that same object: it reads nothing from disk, makes
    no object and leaves the mapping alone.  No sequence of operations
    removes or replaces an entry of the mapping. *)
Theorem presentation_cache (path : string) (c : Pptx.Context) :
  let key := Pptx.path_str_of (Pptx.workspace_dir c) path in
  key = Pptx.str (if Pptx.is_absolute (Pptx.Path path) then Pptx.Path path
                  else Pptx.joinpath (Pptx.workspace_dir c) (Pptx.Path path))
  /\ (Pptx.presentations c !! key = None ->
      match tree_at (Pptx.disk c key) with
      | Some tree =>
          exists c1,
            Pptx.get_presentation path c
            = (Return (length (Pptx.objects c)), c1)
            /\ Pptx.presentations c1
               = <[key := length (Pptx.objects c)]> (Pptx.presentations c)
            /\ Pptx.objects c1 = Pptx.objects c ++ [tree]
            /\ Pptx.disk_reads c1
               = Pptx.disk_reads c ++ read_of key (Pptx.disk c key)
      | None =>
          exists e c1,
            (Pptx.disk c key = Return (Some (Pptx.NoDeck e))
             \/ Pptx.disk c key = Raise e)
            /\ Pptx.get_presentation path c = (Raise e, c1)
            /\ Pptx.presentations c1 = Pptx.presentations c
            /\ Pptx.objects c1 = Pptx.objects c
            /\ Pptx.current_presentation c1 = Pptx.current_presentation c
      end)
  /\ (forall r c1 ops,
        Pptx.get_presentation path c = (Return r, c1) ->
        let c2 := perform_all ops c1 in
        let c3 := snd (Pptx.get_presentation path c2) in
        fst (Pptx.get_presentation path c2) = Return r
        /\ Pptx.presentations c1 !! key = Some r
        /\ Pptx.objects c3 = Pptx.objects c2
        /\ Pptx.disk_reads c3 = Pptx.disk_reads c2
        /\ Pptx.presentations c3 = Pptx.presentations c2)
  /\ (forall ops k r,
        Pptx.presentations c !! k = Some r ->
        Pptx.presentations (perform_all ops c) !! k = Some r).
Proof.
  intros key. split; [reflexivity|]. split; [|split].
  - intros H. destruct (tree_at (Pptx.disk c key)) as [tree|] eqn:Ht.
    + rewrite (get_presentation_first path c tree H Ht). fold key.
      eexists. split; [reflexivity|]. cbn. auto.
    + destruct (Pptx.disk c key) as [[[file|e]|]|e] eqn:Hd; try discriminate.
      * rewrite (get_presentation_fails path c e H Hd).
        do 2 eexists. split; [now left|]. split; [reflexivity|]. cbn. auto.
      * rewrite (get_presentation_unreachable path c e H Hd).
        do 2 eexists. split; [now right|]. split; [reflexivity|]. auto.
  - intros r c1 ops Hget c2 c3.
    pose proof (get_presentation_stores path c c1 r Hget) as Hr.
    pose proof (get_presentation_keeps path c) as [Hw1 _].
    rewrite Hget in Hw1. cbn [snd] in Hw1.
    destruct (perform_all_keeps ops c1) as [Hw Hkeep]. fold c2 in Hw, Hkeep.
    assert (Hc2 : Pptx.presentations c2
                  !! Pptx.path_str_of (Pptx.workspace_dir c2) path = Some r).
    { rewrite Hw, Hw1. apply Hkeep. exact Hr. }
    unfold c3. rewrite (get_presentation_cached path c2 r Hc2). cbn.
    repeat split; eauto.
  - intros ops k r. apply perform_all_keeps.
Qed.

(** The key under which a fresh server stores [deck.pptx] is the workspace
    directory joined with the name: a relative path, not an absolute one. *)
Lemma cache_key_not_absolute :
  Pptx.presentations (snd (Pptx.get_presentation "deck.pptx" fresh_context))
  = {[ "presentations/deck.pptx" := 0%nat ]}
  /\ Pptx.is_absolute (Pptx.Path "presentations/deck.pptx") = false.
Proof. split; reflexivity. Qed.

(** The paths of a fresh server: a doubled slash at the front stays, other
    repeated slashes and [.] components go, [..] stays; the empty path,
    [templates] and [..] name directories, which are no decks, and opening
    them raises and stores nothing; through a directory that is not there
    no path leads anywhere, and a name that is too long is refused before
    anything is opened. *)
Example fresh_server_paths :
  Pptx.path_str_of (Pptx.Path "presentations") "//srv/decks/deck.pptx"
  = "//srv/decks/deck.pptx"
  /\ Pptx.path_str_of (Pptx.Path "presentations") "/srv//decks/./deck.pptx"
     = "/srv/decks/deck.pptx"
  /\ Pptx.path_str_of (Pptx.Path "presentations") "" = "presentations"
  /\ Pptx.path_str_of (Pptx.Path "presentations") ".." = "presentations/.."
  /\ fst (Pptx.get_presentation "" fresh_context) = Raise not_a_package
  /\ fst (Pptx.get_presentation "templates" fresh_context) = Raise not_a_package
  /\ fst (Pptx.get_presentation ".." fresh_context) = Raise not_a_package
  /\ Pptx.presentations (snd (Pptx.get_presentation "templates" fresh_context))
     = ∅
  /\ Pptx.disk fresh_context "presentations/templates/../deck.pptx"
     = Return (Some (Pptx.Deck deck_file))
  /\ Pptx.disk fresh_context "presentations/none/../deck.pptx" = Return None
  /\ (let too_long :=
        OSError 36 "File name too long" ("presentations/" +:+ long_name) in
      Pptx.get_presentation long_name fresh_context
      = (Raise too_long, fresh_context)
      /\ Pptx.get_slide_count_tool long_name fresh_context
         = (Return (Error (str_exn too_long)), fresh_context)).
Proof. repeat split; vm_compute; reflexivity. Qed.

(** Registering a shape that is registered returns its identifier and
    changes nothing. *)
Ltac registry_step :=
  cbn [default from_option id Pptx.element_ids Pptx.set_element_ids
       Pptx.set_uuids_drawn Pptx.uuids_drawn Pptx.uuid4 fst snd];
  rewrite ?lookup_insert_eq, ?lookup_empty.

Lemma register_element_registered p i sh (c : Pptx.Context) bs bsh e :
  Pptx.element_ids c !! p = Some bs -> bs !! i = Some bsh ->
  bsh !! Pptx.shape_id sh = Some e ->
  Pptx.register_element p i sh c = (Return e, c).
Proof.
  intros H1 H2 H3.
  unfold Pptx.register_element, bind, get, ret, raise, Pptx.modify.
  repeat (registry_step; rewrite ?H1, ?H2, ?H3). reflexivity.
Qed.

(** Registering a shape leaves it registered. *)
Lemma register_element_registers p i sh (c : Pptx.Context) :
  exists e c1 bs bsh,
    Pptx.register_element p i sh c = (Return e, c1)
    /\ Pptx.element_ids c1 !! p = Some bs /\ bs !! i = Some bsh
    /\ bsh !! Pptx.shape_id sh = Some e.
Proof.
  unfold Pptx.register_element, Pptx.generate_element_id, bind, get, ret, raise,
    Pptx.modify.
  destruct (Pptx.element_ids c !! p) as [bs|] eqn:H1.
  - repeat (registry_step; rewrite ?H1).
    destruct (bs !! i) as [bsh|] eqn:H2.
    + repeat (registry_step; rewrite ?H1, ?H2).
      destruct (bsh !! Pptx.shape_id sh) as [e|] eqn:H3.
      * repeat (registry_step; rewrite ?H1, ?H2, ?H3). do 4 eexists. eauto.
      * repeat (registry_step; rewrite ?H1, ?H2, ?H3). do 4 eexists.
        split; [reflexivity|]. repeat registry_step. eauto using lookup_insert_eq.
    + repeat (registry_step; rewrite ?H1, ?H2). do 4 eexists.
      split; [reflexivity|]. repeat registry_step. eauto using lookup_insert_eq.
  - repeat (registry_step; rewrite ?H1). do 4 eexists.
    split; [reflexivity|]. repeat registry_step. eauto using lookup_insert_eq.
Qed.

(** The first half of the stability of element identifiers: registering
    the same shape again, any number of times, returns the identifier of
    the first registration. *)
Lemma register_element_stable p i sh (c : Pptx.Context) :
  exists e c1,
    Pptx.register_element p i sh c = (Return e, c1)
    /\ forall n, Nat.iter n (fun c => snd (Pptx.register_element p i sh c)) c1 = c1
                 /\ Pptx.register_element p i sh c1 = (Return e, c1).
Proof.
  destruct (register_element_registers p i sh c)
    as (e & c1 & bs & bsh & Hreg & H1 & H2 & H3).
  exists e, c1. split; [exact Hreg|].
  pose proof (register_element_registered p i sh c1 bs bsh e H1 H2 H3) as Hagain.
  intros n. split; [|exact Hagain].
  induction n as [|n IH]; [reflexivity|].
  rewrite Nat.iter_succ, IH, Hagain. reflexivity.
Qed.

(** C9.  A shape registered under the path a client uses for a file of the
    workspace, [deck.pptx], is not found by the identifier its registration
    returned: the registry files it under the path as given, the lookup
    searches under [current_presentation], which [get_presentation] sets to
    the workspace directory joined with the path.  The shape is on the slide
    and the presentation is the current one; the lookup returns [None].
    Under a path that is its own key the same steps find the shape. *)
Theorem registered_shape_not_found_by_its_id :
  fst (register_then_look_up "deck.pptx" 0 title_box fresh_context)
  = Return ("uuid-0", None)
  /\ Pptx.current_presentation
       (snd (register_then_look_up "deck.pptx" 0 title_box fresh_context))
     = Some "presentations/deck.pptx"
  /\ fst (register_then_look_up "/srv/decks/deck.pptx" 0 title_box fresh_context)
     = Return ("uuid-0", Some title_box).
Proof. repeat split; vm_compute; reflexivity. Qed.

End Cache.

(** ** Slides *)

Section Slides.

(** Removing the entry at a position, found by its identity, leaves the
    entries before and after it. *)
Lemma remove_at (l : list Pptx.Slide) (i : nat) (x : Pptx.Slide) :
  NoDup (map Pptx.sld_id l) -> nth_error l i = Some x ->
  Pptx.remove x l = firstn i l ++ skipn (S i) l.
Proof.
  revert i. induction l as [|y l IH]; intros i Hnd Hi.
  - destruct i; discriminate.
  - cbn [map] in Hnd. apply NoDup_cons in Hnd. destruct Hnd as [Hy Hnd].
    destruct i as [|i]; cbn in Hi.
    + injection Hi as ->. cbn. now rewrite Z.eqb_refl.
    + cbn [Pptx.remove firstn skipn app].
      destruct (Z.eqb_spec (Pptx.sld_id y) (Pptx.sld_id x)) as [E|_].
      * exfalso. apply Hy. rewrite E. apply list_elem_of_In, in_map.
        eapply nth_error_In; eauto.
      * rewrite <- app_comm_cons. f_equal. now apply IH.
Qed.

(** C10.  [delete_slide] on the presentation that [get_presentation] yields
    for the path, whose slide entries are distinct objects: for
    [0 <= slide_index < slide count] it returns [True] and the presentation
    is left with the slides before and after that index, one fewer than
    before; for any other index it returns [False] and nothing but what
    [get_presentation] did has changed, the slide list included. *)
Theorem delete_slide_removes_the_indexed_slide
  (presentation_path : string) (slide_index : Z) (c c1 : Pptx.Context)
  (r : nat) (pres : Pptx.Presentation) :
  Pptx.get_presentation presentation_path c = (Return r, c1) ->
  Pptx.objects c1 !! r = Some pres ->
  NoDup (map Pptx.sld_id (Pptx.slides pres)) ->
  let n := Z.to_nat slide_index in
  let rest := firstn n (Pptx.slides pres) ++ skipn (S n) (Pptx.slides pres) in
  (0 <= slide_index < Z.of_nat (length (Pptx.slides pres)) ->
     Pptx.delete_slide presentation_path slide_index c
     = (Return true,
        Pptx.set_objects (<[r := {| Pptx.slides := rest |}]> (Pptx.objects c1)) c1)
     /\ S (length rest) = length (Pptx.slides pres))
  /\ (~ (0 <= slide_index < Z.of_nat (length (Pptx.slides pres))) ->
        Pptx.delete_slide presentation_path slide_index c = (Return false, c1)).
Proof.
  intros Hget Hobj Hnd n rest.
  unfold Pptx.delete_slide, bind. rewrite Hget.
  unfold Pptx.deref, bind, get, ret, lift, Pptx.modify. rewrite Hobj.
  split.
  - intros [H0 Hlt].
    assert (E1 : (0 <=? slide_index) = true) by (apply Z.leb_le; lia).
    assert (E2 : (slide_index <? Z.of_nat (length (Pptx.slides pres))) = true)
      by (apply Z.ltb_lt; lia).
    unfold getitem. repeat (rewrite ?E1, ?E2; cbn [andb]). fold n.
    destruct (nth_error (Pptx.slides pres) n) as [x|] eqn:Hx.
    2:{ apply nth_error_None in Hx. lia. }
    rewrite (remove_at _ n x Hnd Hx). split; [reflexivity|].
    unfold rest. rewrite length_app, length_firstn, length_skipn. lia.
  - intros Hout.
    destruct (Z.leb_spec 0 slide_index);
      destruct (Z.ltb_spec slide_index (Z.of_nat (length (Pptx.slides pres))));
      cbn [andb]; try reflexivity. lia.
Qed.

Lemma deck_file_distinct_slides : NoDup (map Pptx.sld_id (Pptx.slides deck_file)).
Proof.
  cbn. apply NoDup_cons_2; [|apply NoDup_singleton].
  rewrite list_elem_of_singleton. discriminate.
Qed.

Lemma delete_slide_witness :
  let c1 := snd (Pptx.get_presentation "deck.pptx" fresh_context) in
  let rest := [ {| Pptx.sld_id := 257; Pptx.shapes := [] |} ] in
  (0 <= 0 < Z.of_nat (length (Pptx.slides deck_file)) ->
     Pptx.delete_slide "deck.pptx" 0 fresh_context
     = (Return true,
        Pptx.set_objects (<[0%nat := {| Pptx.slides := rest |}]> (Pptx.objects c1)) c1)
     /\ S (length rest) = length (Pptx.slides deck_file))
  /\ (~ (0 <= 0 < Z.of_nat (length (Pptx.slides deck_file))) ->
        Pptx.delete_slide "deck.pptx" 0 fresh_context = (Return false, c1)).
Proof.
  exact (delete_slide_removes_the_indexed_slide "deck.pptx" 0 fresh_context
           (snd (Pptx.get_presentation "deck.pptx" fresh_context)) 0%nat deck_file
           eq_refl eq_refl deck_file_distinct_slides).
Defined.

Example delete_slide_out_of_range :
  fst (Pptx.delete_slide "deck.pptx" 2 fresh_context) = Return false
  /\ fst (Pptx.delete_slide "deck.pptx" (-1) fresh_context) = Return false
  /\ fst (Pptx.delete_slide "deck.pptx" 1 fresh_context) = Return true.
Proof. repeat split. Qed.

End Slides.

(** ** Listing what is open *)

Section Listings.

Lemma nth_error_combine_seq {A} (c : list A) (start k : nat) :
  nth_error (combine (map Z.of_nat (seq start (length c))) c) k
  = option_map (fun x => (Z.of_nat (start + k), x)) (nth_error c k).
Proof.
  revert start k. induction c as [|x c IH]; intros start k; cbn.
  - now destruct k.
  - destruct k as [|k]; cbn.
    + now rewrite Nat.add_0_r.
    + rewrite IH. now replace (S start + k)%nat with (start + S k)%nat by lia.
Qed.

Lemma nth_error_enumerate {A} (c : list A) (k : nat) :
  nth_error (enumerate c) k
  = option_map (fun x => (Z.of_nat k, x)) (nth_error c k).
Proof. unfold enumerate. now rewrite nth_error_combine_seq. Qed.

Lemma length_enumerate {A} (c : list A) : length (enumerate c) = length c.
Proof.
  unfold enumerate. rewrite length_combine, length_map, length_seq. lia.
Qed.

(** A loop over the positions of a collection that appends one entry for
    each item is a map over the items and their positions. *)
Lemma for_loop_items {St A B} (c : list A) (g : Z -> A -> B) (lo : Z)
  (body : list B -> Z -> M St (flow (list B))) (s : St) :
  (forall i x acc, nth_error c i = Some x ->
     body acc (lo + Z.of_nat i) s
     = (Return (Continue (acc ++ [g (lo + Z.of_nat i) x])), s)) ->
  forall acc,
    for_loop (range lo (lo + Count c)) acc body s
    = (Return (acc ++ map (fun ix => g (lo + fst ix) (snd ix)) (enumerate c)), s).
Proof.
  unfold Count, enumerate. rewrite range_seq.
  enough (forall start acc,
    (forall i x acc, nth_error c i = Some x ->
       body acc (lo + Z.of_nat (start + i)) s
       = (Return (Continue (acc ++ [g (lo + Z.of_nat (start + i)) x])), s)) ->
    for_loop (map (fun k => lo + Z.of_nat k) (seq start (length c))) acc body s
    = (Return (acc ++ map (fun ix => g (lo + fst ix) (snd ix))
                 (combine (map Z.of_nat (seq start (length c))) c)), s)) as G.
  { intros H acc. apply (G 0%nat). exact H. }
  induction c as [|x c IH]; intros start acc H;
    cbn [length seq map for_loop combine].
  - now rewrite app_nil_r.
  - unfold bind. specialize (H 0%nat x acc eq_refl) as H0.
    rewrite Nat.add_0_r in H0. rewrite H0.
    rewrite IH.
    + cbn [fst snd]. now rewrite <- app_assoc.
    + intros i y acc' Hy.
      replace (S start + i)%nat with (start + S i)%nat by lia.
      apply H. exact Hy.
Qed.

Lemma for_loop_enumerate {St A B} (l : list A) (g : nat -> A -> B)
  (body : list B -> Z * A -> M St (flow (list B))) (s : St) :
  (forall i x acc, nth_error l i = Some x ->
     body acc (Z.of_nat i, x) s = (Return (Continue (acc ++ [g i x])), s)) ->
  forall acc, for_loop (enumerate l) acc body s = (Return (acc ++ imap g l), s).
Proof.
  unfold enumerate.
  enough (forall start (g : nat -> A -> B) acc,
    (forall i x acc, nth_error l i = Some x ->
       body acc (Z.of_nat (start + i), x) s
       = (Return (Continue (acc ++ [g i x])), s)) ->
    for_loop (combine (map Z.of_nat (seq start (length l))) l) acc body s
    = (Return (acc ++ imap g l), s)) as G.
  { intros H acc. apply (G 0%nat). exact H. }
  induction l as [|x l IH]; intros start g' acc H;
    cbn [length seq map for_loop combine imap].
  - now rewrite app_nil_r.
  - unfold bind. specialize (H 0%nat x acc eq_refl) as H0.
    rewrite Nat.add_0_r in H0. rewrite H0.
    rewrite (IH (S start) (g' ∘ S)).
    + now rewrite <- app_assoc.
    + intros i y acc' Hy.
      replace (S start + i)%nat with (start + S i)%nat by lia.
      apply H. exact Hy.
Qed.

Lemma imap_zip_with {A B C} (f : A -> B -> C) (l : list A) (k : list B)
  (d : nat -> A -> C) :
  (forall i x y, nth_error l i = Some x -> nth_error k i = Some y ->
     d i x = f x y) ->
  length l = length k -> imap d l = zip_with f l k.
Proof.
  revert k d. induction l as [|x l IH]; intros [|y k] d H Hlen;
    try discriminate; [reflexivity|].
  cbn [imap zip_with]. f_equal.
  - exact (H 0%nat x y eq_refl eq_refl).
  - apply IH; [|now injection Hlen].
    intros i x' y' Hx' Hy'. exact (H (S i) x' y' Hx' Hy').
Qed.

Lemma Forall2_nth_error {A B} (P : A -> B -> Prop) (l : list A) (k : list B)
  (i : nat) (x : A) (y : B) :
  Forall2 P l k -> nth_error l i = Some x -> nth_error k i = Some y -> P x y.
Proof.
  intros H. revert i. induction H as [|x' y' l k Hxy _ IH]; intros [|i] Hx Hy;
    try discriminate.
  - cbn in Hx, Hy. congruence.
  - exact (IH i Hx Hy).
Qed.

Lemma getitem_nat {A} (l : list A) (i : nat) (x : A) :
  nth_error l i = Some x -> getitem l (Z.of_nat i) = Return x.
Proof.
  intros H. unfold getitem.
  assert (i < length l)%nat by (apply nth_error_Some; congruence).
  replace (0 <=? Z.of_nat i) with true by (symmetry; apply Z.leb_le; lia).
  replace (Z.of_nat i <? Z.of_nat (length l)) with true
    by (symmetry; apply Z.ltb_lt; lia).
  cbn [andb]. rewrite Nat2Z.id, H.
  now destruct (Z.leb_spec 0 (Z.of_nat i)); [|lia].
Qed.

Lemma subscript_tuple (items : list PyValue) (i : nat) (x : PyValue) :
  nth_error items i = Some x -> subscript (PTuple items) (Z.of_nat i) = Return x.
Proof. intros H. cbn [subscript]. now rewrite (getitem_nat items i x H). Qed.

Lemma subscript_first (x : PyValue) (items : list PyValue) :
  subscript (PTuple (x :: items)) 0 = Return x.
Proof.
  cbn [subscript]. unfold getitem. cbn [length].
  replace (0 <=? 0) with true by reflexivity.
  replace (0 <? Z.of_nat (S (length items))) with true
    by (symmetry; apply Z.ltb_lt; lia).
  reflexivity.
Qed.

(** X1.  [list_open_workbooks] on a connected editor lists every open
    workbook once, in the order of the collection, and leaves the editor as
    it was; the index it gives for a workbook is the workbook's 1-based
    position, and [get_workbook] of that index returns the workbook of the
    listed name, sheet count and saved flag.  The listed path is the full
    name, followed by [" (ReadOnly)"] for a read-only workbook. *)
Theorem list_open_workbooks_indexes_resolve (ext : Excel.Reads)
  (s : Excel.St) (a : Excel.Application) (v : string) :
  app s = Some a -> Excel.Version a = Some v ->
  exists infos,
    Excel.list_open_workbooks ext s = (Return infos, s)
    /\ length infos = length (Excel.Workbooks a)
    /\ forall k info, nth_error infos k = Some info ->
         exists wb,
           nth_error (Excel.Workbooks a) k = Some wb
           /\ Excel.wi_index info = Z.of_nat k + 1
           /\ Excel.get_workbook (Int (Excel.wi_index info)) s
              = (Return (Some wb), s)
           /\ Excel.wi_name info = Excel.wb_Name wb
           /\ Excel.wi_sheets_count info = Count (Excel.Worksheets wb)
           /\ Excel.wi_saved info = Excel.Saved ext wb
           /\ Excel.wi_path info
              = if Excel.ReadOnly ext wb
                then Excel.wb_FullName wb +:+ " (ReadOnly)"
                else Excel.wb_FullName wb.
Proof.
  intros Ha Hv.
  set (g := fun (i : Z) (wb : Excel.Workbook) =>
    {| Excel.wi_name := Excel.wb_Name wb;
       Excel.wi_path := if negb (Excel.ReadOnly ext wb) then Excel.wb_FullName wb
                        else Excel.wb_FullName wb +:+ " (ReadOnly)";
       Excel.wi_sheets_count := Count (Excel.Worksheets wb);
       Excel.wi_saved := Excel.Saved ext wb;
       Excel.wi_index := i |}).
  exists (map (fun ix => g (1 + fst ix) (snd ix)) (enumerate (Excel.Workbooks a))).
  split; [|split].
  - unfold Excel.list_open_workbooks, bind at 1.
    rewrite (excel_guard_live s a v Ha Hv). unfold try_except, bind at 1.
    rewrite (self_app_live s a Ha).
    destruct (Z.eqb_spec (Count (Excel.Workbooks a)) 0) as [E|E].
    + unfold Count in E. destruct (Excel.Workbooks a); [reflexivity|].
      cbn in E. lia.
    + unfold bind at 1. rewrite (self_app_live s a Ha).
      replace (Count (Excel.Workbooks a) + 1)
        with (1 + Count (Excel.Workbooks a)) by lia.
      rewrite (for_loop_items (Excel.Workbooks a) g 1); [reflexivity|].
      intros i x acc Hx. unfold bind. rewrite (self_app_live s a Ha).
      unfold lift, Item. destruct (Z.leb_spec 1 (1 + Z.of_nat i)); [|lia].
      replace (Z.to_nat (1 + Z.of_nat i - 1)) with i by lia. now rewrite Hx.
  - now rewrite length_map, length_enumerate.
  - intros k info Hk. rewrite nth_error_map, nth_error_enumerate in Hk.
    destruct (nth_error (Excel.Workbooks a) k) as [wb|] eqn:Ewb; [|discriminate].
    cbn in Hk. injection Hk as <-. exists wb. cbn [g Excel.wi_index
      Excel.wi_name Excel.wi_sheets_count Excel.wi_saved Excel.wi_path].
    split; [reflexivity|]. split; [lia|]. split.
    + rewrite (excel_get_workbook_run s a v _ Ha Hv). cbn [resolve].
      unfold at_position.
      assert (k < length (Excel.Workbooks a))%nat
        by (apply nth_error_Some; congruence).
      unfold Count.
      destruct (Z.leb_spec 1 (1 + Z.of_nat k)); [|lia].
      destruct (Z.leb_spec (1 + Z.of_nat k) (Z.of_nat (length (Excel.Workbooks a))));
        [|lia].
      cbn [andb]. replace (Z.to_nat (1 + Z.of_nat k - 1)) with k by lia.
      now rewrite Ewb.
    + repeat split. now destruct (Excel.ReadOnly ext wb).
Qed.

Lemma list_open_workbooks_witness :
  exists infos,
    Excel.list_open_workbooks quiet_reads excel_editor = (Return infos, excel_editor)
    /\ length infos = length (Excel.Workbooks excel_running)
    /\ forall k info, nth_error infos k = Some info ->
         exists wb,
           nth_error (Excel.Workbooks excel_running) k = Some wb
           /\ Excel.wi_index info = Z.of_nat k + 1
           /\ Excel.get_workbook (Int (Excel.wi_index info)) excel_editor
              = (Return (Some wb), excel_editor)
           /\ Excel.wi_name info = Excel.wb_Name wb
           /\ Excel.wi_sheets_count info = Count (Excel.Worksheets wb)
           /\ Excel.wi_saved info = Excel.Saved quiet_reads wb
           /\ Excel.wi_path info
              = if Excel.ReadOnly quiet_reads wb
                then Excel.wb_FullName wb +:+ " (ReadOnly)"
                else Excel.wb_FullName wb.
Proof.
  exact (list_open_workbooks_indexes_resolve quiet_reads excel_editor
           excel_running "16.0" eq_refl eq_refl).
Defined.

(** X2.  [list_worksheets] on a connected editor: for a workbook that does
    not resolve it returns the empty list and raises nothing; for one that
    resolves it lists every worksheet once, in order, with its name, its
    [Index] and whether it is visible ([Visible = -1]), and [get_worksheet]
    of a listed sheet's position returns that sheet; for an identifier on
    which the lookup of the workbook raises it raises the same.  The editor
    is left as it was. *)
Theorem list_worksheets_lists_every_sheet (ext : Excel.Reads)
  (s : Excel.St) (a : Excel.Application) (v : string)
  (identifier : int_or_str) :
  app s = Some a -> Excel.Version a = Some v ->
  match resolve Excel.workbook_matches (Excel.Workbooks a) identifier with
  | Raise e => Excel.list_worksheets ext identifier s = (Raise e, s)
  | Return None => Excel.list_worksheets ext identifier s = (Return [], s)
  | Return (Some wb) =>
      exists infos,
        Excel.list_worksheets ext identifier s = (Return infos, s)
        /\ length infos = length (Excel.Worksheets wb)
        /\ forall k info, nth_error infos k = Some info ->
             exists ws,
               nth_error (Excel.Worksheets wb) k = Some ws
               /\ Excel.get_worksheet identifier (Int (Z.of_nat k + 1)) s
                  = (Return (Some ws), s)
               /\ Excel.wsi_name info = Excel.ws_Name ws
               /\ Excel.wsi_index info = Excel.ws_Index ws
               /\ Excel.wsi_visible info = (Excel.ws_Visible ext ws =? -1)
  end.
Proof.
  intros Ha Hv.
  destruct (resolve Excel.workbook_matches (Excel.Workbooks a) identifier)
    as [[wb|]|e] eqn:Ewb.
  - set (g := fun (i : Z) (ws : Excel.Worksheet) =>
      {| Excel.wsi_name := Excel.ws_Name ws;
         Excel.wsi_index := Excel.ws_Index ws;
         Excel.wsi_visible := Excel.ws_Visible ext ws =? -1 |}).
    exists (map (fun ix => g (1 + fst ix) (snd ix)) (enumerate (Excel.Worksheets wb))).
    split; [|split].
    + unfold Excel.list_worksheets, bind at 1 2.
      rewrite (excel_guard_live s a v Ha Hv),
        (excel_get_workbook_run s a v _ Ha Hv), Ewb.
      unfold try_except.
      replace (Count (Excel.Worksheets wb) + 1)
        with (1 + Count (Excel.Worksheets wb)) by lia.
      rewrite (for_loop_items (Excel.Worksheets wb) g 1); [reflexivity|].
      intros i x acc Hx. unfold bind, lift, Item.
      destruct (Z.leb_spec 1 (1 + Z.of_nat i)); [|lia].
      replace (Z.to_nat (1 + Z.of_nat i - 1)) with i by lia. now rewrite Hx.
    + now rewrite length_map, length_enumerate.
    + intros k info Hk. rewrite nth_error_map, nth_error_enumerate in Hk.
      destruct (nth_error (Excel.Worksheets wb) k) as [ws|] eqn:Ews;
        [|discriminate].
      cbn in Hk. injection Hk as <-. exists ws.
      split; [reflexivity|]. split; [|now cbn].
      rewrite (excel_get_worksheet_run s a v _ _ Ha Hv).
      unfold worksheet_of. rewrite Ewb. cbn [subsection]. unfold at_position.
      assert (k < length (Excel.Worksheets wb))%nat
        by (apply nth_error_Some; congruence).
      unfold Count.
      destruct (Z.leb_spec 1 (Z.of_nat k + 1)); [|lia].
      destruct (Z.leb_spec (Z.of_nat k + 1)
                  (Z.of_nat (length (Excel.Worksheets wb)))); [|lia].
      cbn [andb]. replace (Z.to_nat (Z.of_nat k + 1 - 1)) with k by lia.
      now rewrite Ews.
  - unfold Excel.list_worksheets, bind at 1 2.
    now rewrite (excel_guard_live s a v Ha Hv),
      (excel_get_workbook_run s a v _ Ha Hv), Ewb.
  - unfold Excel.list_worksheets, bind at 1 2.
    now rewrite (excel_guard_live s a v Ha Hv),
      (excel_get_workbook_run s a v _ Ha Hv), Ewb.
Qed.

Lemma list_worksheets_witness :
  (exists infos,
     Excel.list_worksheets quiet_reads (Str "budget.xlsx") excel_editor
     = (Return infos, excel_editor)
     /\ length infos = length (Excel.Worksheets book_budget)
     /\ forall k info, nth_error infos k = Some info ->
          exists ws,
            nth_error (Excel.Worksheets book_budget) k = Some ws
            /\ Excel.get_worksheet (Str "budget.xlsx") (Int (Z.of_nat k + 1))
                 excel_editor = (Return (Some ws), excel_editor)
            /\ Excel.wsi_name info = Excel.ws_Name ws
            /\ Excel.wsi_index info = Excel.ws_Index ws
            /\ Excel.wsi_visible info = (Excel.ws_Visible quiet_reads ws =? -1))
  /\ Excel.list_worksheets quiet_reads (Str "missing.xlsx") excel_editor
     = (Return [], excel_editor).
Proof.
  split.
  - exact (list_worksheets_lists_every_sheet quiet_reads excel_editor
             excel_running "16.0" (Str "budget.xlsx") eq_refl eq_refl).
  - exact (list_worksheets_lists_every_sheet quiet_reads excel_editor
             excel_running "16.0" (Str "missing.xlsx") eq_refl eq_refl).
Defined.

End Listings.

(** ** Reading and writing cells *)

Section Cells.

Context (ext : Excel.Reads) (calls : Excel.Calls).
Context (s : Excel.St) (a : Excel.Application) (v : string).
Context (identifier sheet_identifier : int_or_str).
Hypothesis Ha : app s = Some a.
Hypothesis Hv : Excel.Version a = Some v.

Ltac to_sheet :=
  unfold bind at 1 2;
  rewrite (excel_guard_live s a v Ha Hv);
  match goal with
  | H : Excel.get_worksheet _ _ s = _ |- _ => rewrite H
  end;
  unfold try_except.

(** X3.  Every operation on a worksheet, called on a connected editor with a
    worksheet that does not resolve, raises
    [ValueError("Worksheet '<sheet_identifier>' not found.")] before it
    reads or writes anything: the editor is left as it was, whatever the
    calls into Excel would have done.  Each of the eight tools built on
    these operations then answers with that message as its ["error"]; when
    the message holds the text by which the handler tells a lost connection
    (the name asked for can hold it), the tool answers
    ["Could not connect to Excel. Please ensure it is running."]
    instead. *)
Theorem worksheet_not_found_raises_value_error :
  Excel.get_worksheet identifier sheet_identifier s = (Return None, s) ->
  (forall cell_address,
     Excel.get_cell_value ext identifier sheet_identifier cell_address s
     = (Raise (Excel.sheet_not_found sheet_identifier), s))
  /\ (forall cell_address value,
        Excel.set_cell_value ext identifier sheet_identifier cell_address value s
        = (Raise (Excel.sheet_not_found sheet_identifier), s))
  /\ (forall range_address,
        Excel.get_range_values ext identifier sheet_identifier range_address s
        = (Raise (Excel.sheet_not_found sheet_identifier), s))
  /\ (forall start_cell values,
        Excel.set_range_values calls identifier sheet_identifier start_cell values s
        = (Raise (Excel.sheet_not_found sheet_identifier), s))
  /\ (forall range_address,
        Excel.get_cell_types_in_range ext identifier sheet_identifier
          range_address s
        = (Raise (Excel.sheet_not_found sheet_identifier), s))
  /\ Excel.find_used_ranges identifier sheet_identifier s
     = (Raise (Excel.sheet_not_found sheet_identifier), s)
  /\ Excel.extract_string_cells identifier sheet_identifier s
     = (Raise (Excel.sheet_not_found sheet_identifier), s)
  /\ Excel.analyze_label_value_patterns identifier sheet_identifier s
     = (Raise (Excel.sheet_not_found sheet_identifier), s)
  /\ (let message :=
        "Worksheet '" +:+ show sheet_identifier +:+ "' not found." in
      let answer {A} : outcome (payload A) * Excel.Server :=
        (Return (Error
           (if contains "RPC server is unavailable" message
            then "Could not connect to Excel. Please ensure it is running."
            else message)), Some s) in
      (forall str_of cell_address,
         Excel.get_cell_value_tool ext str_of identifier sheet_identifier
           cell_address (Some s) = answer)
      /\ (forall str_of cell_address value,
            Excel.set_cell_value_tool ext str_of identifier sheet_identifier
              cell_address value (Some s) = answer)
      /\ (forall range_address,
            Excel.get_range_values_tool ext identifier sheet_identifier
              range_address (Some s) = answer)
      /\ (forall start_cell values,
            Excel.set_range_values_tool calls identifier sheet_identifier
              start_cell values (Some s) = answer)
      /\ (forall range_address,
            Excel.get_cell_types_in_range_tool ext identifier sheet_identifier
              range_address (Some s) = answer)
      /\ Excel.find_used_ranges_tool identifier sheet_identifier (Some s)
         = answer
      /\ Excel.extract_string_cells_tool identifier sheet_identifier (Some s)
         = answer
      /\ Excel.analyze_label_value_patterns_tool identifier sheet_identifier
           (Some s) = answer).
Proof.
  intros Hws.
  assert (F : Excel.find_used_ranges identifier sheet_identifier s
              = (Raise (Excel.sheet_not_found sheet_identifier), s))
    by (unfold Excel.find_used_ranges; now to_sheet).
  assert (E : Excel.extract_string_cells identifier sheet_identifier s
              = (Raise (Excel.sheet_not_found sheet_identifier), s))
    by (unfold Excel.extract_string_cells; now to_sheet).
  assert (P : Excel.analyze_label_value_patterns identifier sheet_identifier s
              = (Raise (Excel.sheet_not_found sheet_identifier), s))
    by (unfold Excel.analyze_label_value_patterns; now to_sheet).
  assert (GC : forall cell_address,
            Excel.get_cell_value ext identifier sheet_identifier cell_address s
            = (Raise (Excel.sheet_not_found sheet_identifier), s))
    by (intros; unfold Excel.get_cell_value; now to_sheet).
  assert (SC : forall cell_address value,
            Excel.set_cell_value ext identifier sheet_identifier cell_address
              value s
            = (Raise (Excel.sheet_not_found sheet_identifier), s))
    by (intros; unfold Excel.set_cell_value; now to_sheet).
  assert (GR : forall range_address,
            Excel.get_range_values ext identifier sheet_identifier
              range_address s
            = (Raise (Excel.sheet_not_found sheet_identifier), s))
    by (intros; unfold Excel.get_range_values; now to_sheet).
  assert (SR : forall start_cell values,
            Excel.set_range_values calls identifier sheet_identifier start_cell
              values s
            = (Raise (Excel.sheet_not_found sheet_identifier), s))
    by (intros; unfold Excel.set_range_values; now to_sheet).
  assert (CT : forall range_address,
            Excel.get_cell_types_in_range ext identifier sheet_identifier
              range_address s
            = (Raise (Excel.sheet_not_found sheet_identifier), s))
    by (intros; unfold Excel.get_cell_types_in_range; now to_sheet).
  repeat match goal with |- _ /\ _ => split end; try assumption.
  intros message answer. subst answer message.
  assert (T : forall A (m : M Excel.St A) name key,
            m s = (Raise (Excel.sheet_not_found sheet_identifier), s) ->
            Excel.tool name key m (Some s)
            = (Return (Error
                 (if contains "RPC server is unavailable"
                       ("Worksheet '" +:+ show sheet_identifier +:+ "' not found.")
                  then "Could not connect to Excel. Please ensure it is running."
                  else "Worksheet '" +:+ show sheet_identifier
                       +:+ "' not found.")), Some s)).
  { intros A m name key Hm.
    unfold Excel.tool, try_except, bind. rewrite Hm. cbn [fst snd ret].
    unfold Excel._handle_excel_tool_error, Excel.sheet_not_found.
    cbn [orb str_exn].
    now destruct (contains "RPC server is unavailable" _). }
  assert (B : forall A B (m : M Excel.St A) (k : A -> M Excel.St B),
            m s = (Raise (Excel.sheet_not_found sheet_identifier), s) ->
            bind m k s = (Raise (Excel.sheet_not_found sheet_identifier), s)).
  { intros A B m k Hm. unfold bind. now rewrite Hm. }
  repeat match goal with |- _ /\ _ => split end; intros;
    apply T; first [solve [auto] | apply B; solve [auto]].
Qed.

(** X4.  [get_cell_value] on a connected editor, for an address the sheet
    accepts.  A float strictly between 1 and 300000 is not returned as a
    number: what comes back is the time object [pywintypes.Time] makes of
    its integer part (so two such floats with the same integer part give
    the same answer), and the float itself only when [Time] rejects it with
    a [ValueError].  A float outside that window is returned as it is, a
    [Decimal] as the float it converts to, and every other value (an [int],
    a [str], [None], a [bool], a tuple) unchanged.  The editor is left as it
    was. *)
Theorem get_cell_value_turns_floats_into_times
  (ws : Excel.Worksheet) (cell_address : string) (cell : Excel.RangeObj) :
  Excel.get_worksheet identifier sheet_identifier s = (Return (Some ws), s) ->
  Excel.Range_ ext ws cell_address = Return cell ->
  let result := Excel.get_cell_value ext identifier sheet_identifier
                  cell_address s in
  (forall x, Excel.ro_Value cell = PFloat x ->
     SFltb (float_of 1 0) x = true -> SFltb x (float_of 300000 0) = true ->
     (forall t, Excel.Time ext (int_of_float x) = Return t ->
        result = (Return t, s))
     /\ (forall m, Excel.Time ext (int_of_float x) = Raise (ValueError m) ->
           result = (Return (PFloat x), s)))
  /\ (forall x, Excel.ro_Value cell = PFloat x ->
        SFltb (float_of 1 0) x = false \/ SFltb x (float_of 300000 0) = false ->
        result = (Return (PFloat x), s))
  /\ (forall x, Excel.ro_Value cell = PDecimal x ->
        result = (Return (PFloat x), s))
  /\ (match Excel.ro_Value cell with
      | PFloat _ | PDecimal _ => True
      | value => result = (Return value, s)
      end).
Proof.
  intros Hws Hr result.
  assert (E : result =
    match Excel.ro_Value cell with
    | PFloat x =>
        if SFltb (float_of 1 0) x && SFltb x (float_of 300000 0)
        then match Excel.Time ext (int_of_float x) with
             | Return t => (Return t, s)
             | Raise (ValueError _) => (Return (PFloat x), s)
             | Raise e => (Raise e, s)
             end
        else (Return (PFloat x), s)
    | PDecimal x => (Return (PFloat x), s)
    | value => (Return value, s)
    end).
  { subst result. unfold Excel.get_cell_value. to_sheet.
    unfold bind, lift, try_except. rewrite Hr.
    destruct (Excel.ro_Value cell) as [| | |x| | | |]; try reflexivity.
    destruct (SFltb (float_of 1 0) x && SFltb x (float_of 300000 0));
      [|reflexivity].
    destruct (Excel.Time ext (int_of_float x)) as [t|[]]; reflexivity. }
  rewrite E. clear E result.
  repeat match goal with |- _ /\ _ => split end.
  - intros x Hx H1 H2. rewrite Hx, H1, H2. cbn [andb].
    split; intros ? Ht; now rewrite Ht.
  - intros x Hx H. rewrite Hx.
    destruct H as [H|H]; rewrite H; rewrite ?andb_false_r; reflexivity.
  - intros x Hx. now rewrite Hx.
  - destruct (Excel.ro_Value cell); try exact I; reflexivity.
Qed.

(** X5.  [get_range_values] on a connected editor always returns a tuple of
    row tuples with the cells of the range, also for a range of one cell,
    whose bare [Value] it wraps; no cell of a sheet is itself a tuple.  The
    editor is left as it was. *)
Theorem get_range_values_returns_the_grid
  (ws : Excel.Worksheet) (range_address : string) (data_range : Excel.RangeObj)
  (grid : list (list PyValue)) :
  Excel.get_worksheet identifier sheet_identifier s = (Return (Some ws), s) ->
  Excel.Range_ ext ws range_address = Return data_range ->
  Excel.ro_Value data_range = Value_of_grid grid ->
  Forall (Forall (fun cell => is_tuple cell = false)) grid ->
  Excel.get_range_values ext identifier sheet_identifier range_address s
  = (Return (PTuple (map PTuple grid)), s).
Proof.
  intros Hws Hr Hval Hcells.
  unfold Excel.get_range_values. to_sheet. unfold bind, lift.
  rewrite Hr, Hval. unfold Value_of_grid.
  destruct grid as [|[|x [|y row]] [|row' rows]]; try reflexivity.
  apply Forall_cons_iff in Hcells as [Hrow _].
  apply Forall_cons_iff in Hrow as [Hx _].
  destruct x; try reflexivity; discriminate.
Qed.

(** X6.  When Excel rejects the address with the error code of an invalid
    range address (-2146827284), [get_range_values] raises
    [ValueError("Invalid range address '<address>'.")], which the tools'
    error handler reports by that message (unless the address holds the text
    by which the handler tells a lost connection); any other COM error it
    raises again as it came.  [get_cell_value] and
    [get_cell_types_in_range] raise the COM error of a rejected address as
    it came.  In each case the editor is left as it was. *)
Theorem invalid_range_address_is_a_value_error
  (ws : Excel.Worksheet) (range_address : string) (hresult : Z) (msg : string) :
  Excel.get_worksheet identifier sheet_identifier s = (Return (Some ws), s) ->
  Excel.Range_ ext ws range_address = Raise (com_error hresult msg) ->
  Excel.get_range_values ext identifier sheet_identifier range_address s
  = (Raise (if hresult =? -2146827284
            then ValueError ("Invalid range address '" +:+ range_address +:+ "'.")
            else com_error hresult msg), s)
  /\ (contains "RPC server is unavailable"
        ("Invalid range address '" +:+ range_address +:+ "'.") = false ->
      forall A, @Excel._handle_excel_tool_error A "get_range_values"
                  (ValueError ("Invalid range address '" +:+ range_address
                               +:+ "'."))
                = Error ("Invalid range address '" +:+ range_address +:+ "'."))
  /\ Excel.get_cell_value ext identifier sheet_identifier range_address s
     = (Raise (com_error hresult msg), s)
  /\ Excel.get_cell_types_in_range ext identifier sheet_identifier
       range_address s
     = (Raise (com_error hresult msg), s).
Proof.
  intros Hws Hr. repeat match goal with |- _ /\ _ => split end.
  - unfold Excel.get_range_values. to_sheet. unfold bind, lift. rewrite Hr.
    unfold Excel.invalid_range_address. now destruct (hresult =? -2146827284).
  - intros Hc A. unfold Excel._handle_excel_tool_error.
    cbn [str_exn orb]. now rewrite Hc.
  - unfold Excel.get_cell_value. to_sheet. unfold bind, lift. now rewrite Hr.
  - unfold Excel.get_cell_types_in_range. to_sheet. unfold bind, lift.
    now rewrite Hr.
Qed.

(** X7.  [get_cell_types_in_range] on a connected editor, for an address the
    sheet accepts.  For a range of one cell (a [Value] that is no tuple) it
    returns the one-by-one grid with the type of that cell; for a range
    whose values and formulas are tuples of row tuples of the same shape it
    returns a grid of that shape, in which every entry is the type of the
    cell at that place, determined from the cell's own value and formula.
    The editor is left as it was. *)
Theorem get_cell_types_in_range_types_each_cell
  (ws : Excel.Worksheet) (range_address : string) (data_range : Excel.RangeObj) :
  Excel.get_worksheet identifier sheet_identifier s = (Return (Some ws), s) ->
  Excel.Range_ ext ws range_address = Return data_range ->
  let result := Excel.get_cell_types_in_range ext identifier sheet_identifier
                  range_address s in
  (is_tuple (Excel.ro_Value data_range) = false ->
   result = (Return [[Excel._determine_cell_type (Excel.ro_Value data_range)
                        (Excel.ro_Formula data_range)]], s))
  /\ (forall values formulas : list (list PyValue),
        Excel.ro_Value data_range = PTuple (map PTuple values) ->
        Excel.ro_Formula data_range = PTuple (map PTuple formulas) ->
        Forall2 (fun row formula_row => length row = length formula_row)
                values formulas ->
        result = (Return (cell_types_of values formulas), s)
        /\ length (cell_types_of values formulas) = length values
        /\ Forall2 (fun row types => length types = length row)
                   values (cell_types_of values formulas)).
Proof.
  intros Hws Hr result.
  assert (E : result =
    (let values := Excel.ro_Value data_range in
     let formulas := Excel.ro_Formula data_range in
     match values with
     | PTuple rows =>
         for_loop (enumerate rows) [] (fun cell_types '(row_idx, row) =>
           row_types <-
             match row with
             | PTuple cells =>
                 for_loop (enumerate cells) []
                   (fun row_types '(col_idx, cell_value) =>
                      first <- lift (subscript formulas 0) ;;
                      formula_value <-
                        match first with
                        | PTuple _ =>
                            formula_row <- lift (subscript formulas row_idx) ;;
                            lift (subscript formula_row col_idx)
                        | _ => ret formulas
                        end ;;
                      let cell_type :=
                        Excel._determine_cell_type cell_value formula_value in
                      ret (Continue (row_types ++ [cell_type])))
             | _ =>
                 formula_value <-
                   match formulas with
                   | PTuple _ => lift (subscript formulas row_idx)
                   | _ => ret formulas
                   end ;;
                 let cell_type := Excel._determine_cell_type row formula_value in
                 ret [cell_type]
             end ;;
           ret (Continue (cell_types ++ [row_types])))
     | _ => ret [[Excel._determine_cell_type values formulas]]
     end) s).
  { subst result. unfold Excel.get_cell_types_in_range. to_sheet.
    unfold bind at 1, lift at 1. rewrite Hr. cbv zeta.
    match goal with
    | |- (let (o, s') := ?c s in _) = _ => destruct (c s) as [[r|e] s']
    end; reflexivity. }
  rewrite E. clear E result. cbv zeta. split.
  - intros Ht. destruct (Excel.ro_Value data_range); try reflexivity.
    discriminate.
  - intros values formulas Hval Hform Hshape. rewrite Hval, Hform.
    assert (Hlen : length values = length formulas)
      by (eapply Forall2_length; eassumption).
    split; [|split].
    + rewrite (for_loop_enumerate (map PTuple values)
        (fun i row => match row with
                      | PTuple cells =>
                          zip_with Excel._determine_cell_type cells
                                   (nth i formulas [])
                      | _ => []
                      end)).
      * cbn [app]. unfold cell_types_of. f_equal. f_equal.
        rewrite imap_fmap. apply imap_zip_with; [|exact Hlen].
        intros i row frow Hrow Hfrow. cbn.
        now rewrite (nth_error_nth _ _ _ Hfrow).
      * intros i row acc Hrow. rewrite nth_error_map in Hrow.
        destruct (nth_error values i) as [cells|] eqn:Ecells; [|discriminate].
        cbn in Hrow. injection Hrow as <-.
        assert (Hi : (i < length formulas)%nat)
          by (rewrite <- Hlen; apply nth_error_Some; congruence).
        destruct (nth_error formulas i) as [frow|] eqn:Efrow;
          [|apply nth_error_None in Efrow; lia].
        assert (Hcells : length cells = length frow).
        { exact (Forall2_nth_error _ _ _ _ _ _ Hshape Ecells Efrow). }
        destruct formulas as [|f0 formulas']; [cbn in Hi; lia|].
        unfold bind at 1.
        rewrite (for_loop_enumerate cells
          (fun j cell_value =>
             Excel._determine_cell_type cell_value (nth j frow PNone))).
        -- unfold ret. cbn [app]. rewrite (nth_error_nth _ _ _ Efrow).
           do 5 f_equal.
           apply imap_zip_with; [|exact Hcells].
           intros j x y Hx Hy. now rewrite (nth_error_nth _ _ _ Hy).
        -- intros j x acc' Hx.
           assert (Hj : (j < length frow)%nat)
             by (rewrite <- Hcells; apply nth_error_Some; congruence).
           destruct (nth_error frow j) as [y|] eqn:Ey;
             [|apply nth_error_None in Ey; lia].
           unfold bind, lift. cbn [map]. rewrite subscript_first.
           rewrite (subscript_tuple (PTuple f0 :: map PTuple formulas') i
                      (PTuple frow)).
           ++ rewrite (subscript_tuple frow j y Ey).
              now rewrite (nth_error_nth _ _ _ Ey).
           ++ change (PTuple f0 :: map PTuple formulas')
                with (map PTuple (f0 :: formulas')).
              rewrite nth_error_map. now rewrite Efrow.
    + unfold cell_types_of. rewrite length_zip_with. lia.
    + unfold cell_types_of. revert Hshape. clear.
      induction 1 as [|row frow values formulas Hrow _ IH]; cbn [zip_with];
        constructor; [|exact IH].
      rewrite length_zip_with. lia.
Qed.

End Cells.

Lemma worksheet_not_found_witness :
  Excel.set_cell_value quiet_reads (Str "Budget.xlsx") (Str "Summary") "A1"
    (PInt 1) excel_editor
  = (Raise (ValueError "Worksheet 'Summary' not found."), excel_editor)
  /\ Excel.extract_string_cells_tool (Str "Budget.xlsx") (Str "Summary")
       (Some excel_editor)
     = (Return (Error "Worksheet 'Summary' not found."), Some excel_editor).
Proof.
  pose proof (worksheet_not_found_raises_value_error quiet_reads quiet_calls
                excel_editor excel_running "16.0" (Str "Budget.xlsx")
                (Str "Summary") eq_refl eq_refl eq_refl)
    as (_ & Hset & _ & _ & _ & _ & _ & _ & Htools).
  split; [exact (Hset "A1" (PInt 1))|].
  destruct Htools as (_ & _ & _ & _ & _ & _ & Hextract & _).
  exact Hextract.
Defined.

Lemma get_cell_value_witness :
  Excel.get_cell_value (reads_value (PFloat (float_of 85 (-1))))
    (Str "Budget.xlsx") (Int 1) "B2" excel_editor
  = (Return (PTime 42), excel_editor).
Proof.
  pose proof (get_cell_value_turns_floats_into_times
                (reads_value (PFloat (float_of 85 (-1))))
                excel_editor excel_running "16.0" (Str "Budget.xlsx") (Int 1)
                eq_refl eq_refl sheet_costs "B2" _ eq_refl eq_refl)
    as (H & _).
  exact (proj1 (H _ eq_refl eq_refl eq_refl) (PTime 42) eq_refl).
Defined.

Lemma get_range_values_witness :
  Excel.get_range_values (reads_value (PStr "Rent"))
    (Str "Budget.xlsx") (Int 1) "A2" excel_editor
  = (Return (PTuple [PTuple [PStr "Rent"]]), excel_editor).
Proof.
  apply (get_range_values_returns_the_grid (reads_value (PStr "Rent"))
           excel_editor excel_running "16.0" (Str "Budget.xlsx") (Int 1)
           eq_refl eq_refl sheet_costs "A2" _ [[PStr "Rent"]]
           eq_refl eq_refl eq_refl).
  repeat constructor.
Defined.

Lemma invalid_range_address_witness :
  Excel.get_range_values reads_nothing (Str "Budget.xlsx") (Int 1) "A1:"
    excel_editor
  = (Raise (ValueError "Invalid range address 'A1:'."), excel_editor)
  /\ Excel.get_cell_value reads_nothing (Str "Budget.xlsx") (Int 1) "A1:"
       excel_editor
     = (Raise (com_error (-2146827284) "Exception occurred."), excel_editor).
Proof.
  pose proof (invalid_range_address_is_a_value_error reads_nothing
                excel_editor excel_running "16.0" (Str "Budget.xlsx") (Int 1)
                eq_refl eq_refl sheet_costs "A1:" _ _ eq_refl eq_refl)
    as (H1 & _ & H3 & _).
  split; [exact H1 | exact H3].
Defined.

Lemma get_cell_types_in_range_witness :
  Excel.get_cell_types_in_range
    (reads_range (PTuple [PTuple [PStr "Rent"; PFloat (float_of 1200 0)];
                          PTuple [PStr "Total"; PFloat (float_of 1290 0)]])
                 (PTuple [PTuple [PStr "Rent"; PStr "1200"];
                          PTuple [PStr "Total"; PStr "=SUM(B2:B3)"]]))
    (Str "Budget.xlsx") (Int 1) "A2:B3" excel_editor
  = (Return [["text"; "number"]; ["text"; "formula"]], excel_editor).
Proof.
  pose proof (get_cell_types_in_range_types_each_cell
                (reads_range (PTuple [PTuple [PStr "Rent"; PFloat (float_of 1200 0)];
                                      PTuple [PStr "Total"; PFloat (float_of 1290 0)]])
                             (PTuple [PTuple [PStr "Rent"; PStr "1200"];
                                      PTuple [PStr "Total"; PStr "=SUM(B2:B3)"]]))
                excel_editor excel_running "16.0" (Str "Budget.xlsx") (Int 1)
                eq_refl eq_refl sheet_costs "A2:B3" _ eq_refl eq_refl)
    as (_ & H).
  apply (H [[PStr "Rent"; PFloat (float_of 1200 0)];
            [PStr "Total"; PFloat (float_of 1290 0)]]
           [[PStr "Rent"; PStr "1200"]; [PStr "Total"; PStr "=SUM(B2:B3)"]]
           eq_refl eq_refl).
  repeat constructor.
Defined.

(** ** Saving *)

Section Saving.

Lemma string_app_cons (c : ascii) (x y : string) :
  String c x +:+ y = String c (x +:+ y).
Proof. reflexivity. Qed.

Lemma string_app_nil (y : string) : "" +:+ y = y.
Proof. reflexivity. Qed.

Lemma string_map_app (f : ascii -> ascii) (x y : string) :
  string_map f (x +:+ y) = string_map f x +:+ string_map f y.
Proof.
  induction x as [|c x IH]; [reflexivity|].
  rewrite string_app_cons. cbn [string_map].
  now rewrite string_app_cons, IH.
Qed.

Lemma string_app_assoc (x y z : string) : (x +:+ y) +:+ z = x +:+ (y +:+ z).
Proof.
  induction x as [|c x IH]; [reflexivity|].
  now rewrite !string_app_cons, IH.
Qed.

Lemma string_rev_onto_acc (x acc : string) :
  string_rev_onto acc x = string_rev_onto "" x +:+ acc.
Proof.
  revert acc. induction x as [|c x IH]; intros acc; cbn [string_rev_onto];
    [reflexivity|].
  rewrite (IH (String c acc)), (IH (String c "")), string_app_assoc.
  reflexivity.
Qed.

Lemma string_rev_app (x y : string) :
  string_rev (x +:+ y) = string_rev y +:+ string_rev x.
Proof.
  unfold string_rev. generalize "" at 1 3 as acc.
  induction x as [|c x IH]; intros acc.
  - rewrite string_app_nil. apply string_rev_onto_acc.
  - rewrite string_app_cons. cbn [string_rev_onto]. apply IH.
Qed.

Lemma prefix_empty (x : string) : String.prefix "" x = true.
Proof. now destruct x. Qed.

Lemma endswith_app (suffix x : string) : endswith suffix (x +:+ suffix) = true.
Proof.
  unfold endswith. rewrite string_rev_app.
  induction (string_rev suffix) as [|c r IH]; [apply prefix_empty|].
  rewrite string_app_cons. cbn [String.prefix].
  destruct (ascii_dec c c); [exact IH|congruence].
Qed.

(** X8.  The file format [save_workbook] passes to [SaveAs] follows the
    extension of the path without regard to case, whatever comes before the
    extension: 51 for [.xlsx], 52 for [.xlsm], 50 for [.xlsb] and 56 for
    [.xls]; the test for [.xls] does not catch the three longer
    extensions. *)
Theorem file_format_follows_the_extension (stem extension : string) :
  (lower extension = ".xlsx" ->
   Excel.file_format_of (stem +:+ extension) = Some Excel.xlOpenXMLWorkbook)
  /\ (lower extension = ".xlsm" ->
      Excel.file_format_of (stem +:+ extension) = Some 52)
  /\ (lower extension = ".xlsb" ->
      Excel.file_format_of (stem +:+ extension) = Some 50)
  /\ (lower extension = ".xls" ->
      Excel.file_format_of (stem +:+ extension) = Some 56).
Proof.
  unfold Excel.file_format_of, lower. rewrite string_map_app.
  repeat split; intros ->.
  - now rewrite endswith_app.
  - rewrite (endswith_app ".xlsm"). unfold endswith. rewrite string_rev_app.
    reflexivity.
  - rewrite (endswith_app ".xlsb"). unfold endswith. rewrite !string_rev_app.
    reflexivity.
  - rewrite (endswith_app ".xls"). unfold endswith. rewrite !string_rev_app.
    reflexivity.
Qed.

Lemma performance_mode_pure {A} (body : M Excel.St A) (s : Excel.St) a rb :
  app s = Some a ->
  body (performance_mode_entered s a) = (rb, performance_mode_entered s a) ->
  Excel._performance_mode body s = (rb, s).
Proof.
  intros Ha Hb.
  rewrite (performance_mode_run body s _ a _ rb Ha Hb eq_refl).
  destruct s as [o d n], a. cbn in Ha. subst o. reflexivity.
Qed.

Lemma bind_ext {St A B} (c : M St A) (k k' : A -> M St B) (s : St) :
  (forall x s0, k x s0 = k' x s0) -> bind c k s = bind c k' s.
Proof. intros H. unfold bind. destruct (c s) as [[x|e] s0]; [apply H|reflexivity]. Qed.

Lemma try_finally_ext {St A} (c c' : M St A) (f : M St unit) (s : St) :
  (forall s0, c s0 = c' s0) -> try_finally c f s = try_finally c' f s.
Proof. intros H. unfold try_finally. now rewrite H. Qed.

Lemma performance_mode_ext {A} (body body' : M Excel.St A) (s : Excel.St) :
  (forall s0, body s0 = body' s0) ->
  Excel._performance_mode body s = Excel._performance_mode body' s.
Proof.
  intros H.
  assert (E : forall (c : M Excel.St A),
    Excel._performance_mode c s
    = match app s with
      | Some a =>
          try_finally
            (Excel.set_property (Excel.with_ScreenUpdating false) ;;
             Excel.set_property (Excel.with_DisplayAlerts false) ;; c)
            (Excel.set_property
               (Excel.with_ScreenUpdating (Excel.ScreenUpdating a)) ;;
             Excel.set_property
               (Excel.with_DisplayAlerts (Excel.DisplayAlerts a))) s
      | None => c s
      end).
  { intros c. unfold Excel._performance_mode, bind at 1, get.
    now destruct (app s). }
  rewrite !E. destruct (app s); [|apply H].
  apply try_finally_ext. intros s0.
  apply bind_ext. intros _ s1. apply bind_ext. intros _ s2. apply H.
Qed.

Lemma call_run {A} (f : Excel.Application -> outcome A * Excel.Application)
  (s : Excel.St) a :
  app s = Some a ->
  Excel.call f s = (fst (f a), set_app (Some (snd (f a))) s).
Proof.
  intros Ha. unfold Excel.call, bind, self_app, get, put, lift. now rewrite Ha.
Qed.

Lemma performance_mode_call {A}
  (f : Excel.Application -> outcome A * Excel.Application) (s : Excel.St) a :
  app s = Some a ->
  Excel._performance_mode (Excel.call f) s
  = (fst (f (settings_off a)),
     set_app (Some (settings_restored a (snd (f (settings_off a))))) s).
Proof.
  intros Ha.
  rewrite (performance_mode_run (Excel.call f) s
             (set_app (Some (snd (f (settings_off a))))
                      (performance_mode_entered s a))
             a (snd (f (settings_off a))) (fst (f (settings_off a))) Ha).
  - destruct s as [o d n]. reflexivity.
  - now rewrite (call_run f (performance_mode_entered s a) (settings_off a)).
  - reflexivity.
Qed.

(** X9.  [save_workbook] on a connected editor.  A workbook that does not
    resolve gives [ValueError("Workbook '<identifier>' not found.")], and an
    identifier on which the lookup raises gives that exception.  With
    a non-empty [save_path] the directory of the absolute path is created
    and the workbook is saved there with [SaveAs], in the format of the
    path's extension; when creating the directory fails, that exception is
    raised and [SaveAs] is not called.  Without one ([None] or the empty
    string) a workbook that has a path is saved with [Save], and a workbook
    that has none gives
    [ValueError("save_path is required for a new workbook that hasn't been
    saved before.")].  The one call made acts on the application with
    screen updating and alerts off; the exception of a failing call is
    raised again; in the error cases nothing is called and the editor is
    left as it was. *)
Theorem save_workbook_saves_once (calls : Excel.Calls)
  (s : Excel.St) (a : Excel.Application) (v : string)
  (identifier : int_or_str) (save_path : option string) :
  app s = Some a -> Excel.Version a = Some v ->
  let result := Excel.save_workbook calls identifier save_path s in
  let after {A} (r : outcome A * Excel.Application) :=
    (fst r, set_app (Some (settings_restored a (snd r))) s) in
  match resolve Excel.workbook_matches (Excel.Workbooks a) identifier with
  | Raise e => result = (Raise e, s)
  | Return None => result = (Raise (Excel.workbook_not_found identifier), s)
  | Return (Some wb) =>
      if truthy (default "" save_path) then
        let abs_path := Excel.abspath calls (default "" save_path) in
        match Excel.makedirs calls (Excel.dirname calls abs_path) with
        | Return _ =>
            result = after (Excel.SaveAs calls wb abs_path
                              (Excel.file_format_of abs_path) (settings_off a))
        | Raise e => result = (Raise e, s)
        end
      else if truthy (Excel.wb_Path wb) then
        result = after (Excel.Save calls wb (settings_off a))
      else
        result = (Raise (ValueError
          "save_path is required for a new workbook that hasn't been saved before."),
          s)
  end.
Proof.
  intros Ha Hv result after.
  assert (E : result =
    match resolve Excel.workbook_matches (Excel.Workbooks a) identifier with
    | Raise e => (Raise e, s)
    | Return None => (Raise (Excel.workbook_not_found identifier), s)
    | Return (Some wb) =>
        Excel._performance_mode
          (if truthy (default "" save_path) then
             let abs_path := Excel.abspath calls (default "" save_path) in
             lift (Excel.makedirs calls (Excel.dirname calls abs_path)) ;;
             Excel.call (Excel.SaveAs calls wb abs_path
                           (Excel.file_format_of abs_path))
           else if truthy (Excel.wb_Path wb) then Excel.call (Excel.Save calls wb)
           else raise (ValueError
             "save_path is required for a new workbook that hasn't been saved before."))
          s
    end).
  { subst result. unfold Excel.save_workbook, bind at 1 2.
    rewrite (excel_guard_live s a v Ha Hv),
      (excel_get_workbook_run s a v _ Ha Hv).
    destruct (resolve _ _ _) as [[wb|]|e]; [|reflexivity..].
    now rewrite try_reraise. }
  rewrite E. clear E result. subst after.
  destruct (resolve _ _ _) as [[wb|]|e]; [|reflexivity..].
  destruct (truthy (default "" save_path)).
  - cbv zeta.
    destruct (Excel.makedirs calls _) as [[]|e] eqn:Em.
    + rewrite <- (performance_mode_call _ s a Ha).
      apply performance_mode_ext. intros s0. reflexivity.
    + now apply performance_mode_pure with a.
  - destruct (truthy (Excel.wb_Path wb)).
    + apply (performance_mode_call _ s a Ha).
    + now apply performance_mode_pure with a.
Qed.

Lemma save_workbook_witness :
  Excel.save_workbook quiet_calls (Str "Book1") None excel_editor
  = (Raise (ValueError
       "save_path is required for a new workbook that hasn't been saved before."),
     excel_editor)
  /\ Excel.save_workbook quiet_calls (Int 1) (Some "C:\Out\Budget.XLSX")
       excel_editor
     = (Return tt, excel_editor).
Proof.
  split.
  - exact (save_workbook_saves_once quiet_calls excel_editor excel_running
             "16.0" (Str "Book1") None eq_refl eq_refl).
  - exact (save_workbook_saves_once quiet_calls excel_editor excel_running
             "16.0" (Int 1) (Some "C:\Out\Budget.XLSX") eq_refl eq_refl).
Defined.

(** X29.  [set_range_values] on a connected editor and a worksheet that
    resolves.  An empty list of rows raises
    [ValueError("Input 'values' must be a non-empty list of lists.")] before
    anything is written, and the editor is left as it was.  Otherwise the
    values are written by one assignment to the block that starts at the
    start cell, with as many rows as the list has and as many columns as
    its first row has, whatever the lengths of the other rows.  The
    assignment acts on the application with screen updating and alerts off,
    the two settings are put back after it, and its exception, if any, is
    raised again. *)
Theorem set_range_values_writes_one_block (calls : Excel.Calls)
  (s : Excel.St) (a : Excel.Application) (v : string)
  (identifier sheet_identifier : int_or_str) (ws : Excel.Worksheet)
  (start_cell : string) :
  app s = Some a -> Excel.Version a = Some v ->
  Excel.get_worksheet identifier sheet_identifier s = (Return (Some ws), s) ->
  Excel.set_range_values calls identifier sheet_identifier start_cell [] s
  = (Raise (ValueError "Input 'values' must be a non-empty list of lists."), s)
  /\ forall first_row rest,
       let values := first_row :: rest in
       let written :=
         Excel.set_Value calls ws start_cell
           (Z.of_nat (length values)) (Z.of_nat (length first_row)) values
           (settings_off a) in
       Excel.set_range_values calls identifier sheet_identifier start_cell
         values s
       = (fst written, set_app (Some (settings_restored a (snd written))) s).
Proof.
  intros Ha Hv Hws. split.
  - unfold Excel.set_range_values, bind at 1 2.
    now rewrite (excel_guard_live s a v Ha Hv), Hws.
  - intros first_row rest values written.
    unfold Excel.set_range_values, bind at 1 2.
    rewrite (excel_guard_live s a v Ha Hv), Hws. subst values. cbv iota beta.
    rewrite try_reraise. cbv zeta.
    now rewrite (performance_mode_call _ s a Ha).
Qed.

Lemma set_range_values_witness :
  Excel.set_range_values quiet_calls (Str "Budget.xlsx") (Int 1) "A1" []
    excel_editor
  = (Raise (ValueError "Input 'values' must be a non-empty list of lists."),
     excel_editor)
  /\ Excel.set_range_values quiet_calls (Str "Budget.xlsx") (Int 1) "A1"
       [[Excel.VInt 1; Excel.VInt 2]; [Excel.VInt 3]] excel_editor
     = (Return tt, excel_editor).
Proof.
  pose proof (set_range_values_writes_one_block quiet_calls excel_editor
                excel_running "16.0" (Str "Budget.xlsx") (Int 1) sheet_costs
                "A1" eq_refl eq_refl eq_refl) as [Hempty Hblock].
  split; [exact Hempty|].
  exact (Hblock [Excel.VInt 1; Excel.VInt 2] [[Excel.VInt 3]]).
Defined.

(** X30.  [add_worksheet] on a connected editor adds the sheet after the
    last sheet of the workbook and answers with the name and the index of
    the new sheet.  When a name is asked for and Excel refuses it, no error
    is raised: the answer carries the name Excel gave the sheet.  Without a
    name, or with the empty one, nothing is renamed.  When adding the sheet
    fails, that exception is raised and nothing is renamed.  In each case
    screen updating and alerts are put back as they were. *)
Theorem add_worksheet_survives_a_refused_name (calls : Excel.Calls)
  (s : Excel.St) (a : Excel.Application) (v : string)
  (identifier : int_or_str) (sheet_name : option string)
  (wb : Excel.Workbook) (last_sheet : Excel.Worksheet) :
  app s = Some a -> Excel.Version a = Some v ->
  resolve Excel.workbook_matches (Excel.Workbooks a) identifier = Return (Some wb) ->
  Item (Excel.Worksheets wb) (Count (Excel.Worksheets wb)) = Return last_sheet ->
  let result := Excel.add_worksheet calls identifier sheet_name s in
  let added := Excel.Worksheets_Add calls wb last_sheet (settings_off a) in
  let answer (sheet : Excel.Worksheet) (ab : Excel.Application) :=
    (Return {| Excel.si_name := Excel.ws_Name sheet;
               Excel.si_index := Excel.ws_Index sheet |},
     set_app (Some (settings_restored a ab)) s) in
  match fst added with
  | Raise e => result = (Raise e, set_app (Some (settings_restored a (snd added))) s)
  | Return new_sheet =>
      if truthy (default "" sheet_name) then
        let renamed :=
          Excel.set_Name calls new_sheet (default "" sheet_name) (snd added) in
        match fst renamed with
        | Return sheet => result = answer sheet (snd renamed)
        | Raise _ => result = answer new_sheet (snd renamed)
        end
      else result = answer new_sheet (snd added)
  end.
Proof.
  intros Ha Hv Hwb Hlast result added answer.
  assert (E : forall rb sb ab,
            (last_sheet <- lift (Item (Excel.Worksheets wb)
                                   (Count (Excel.Worksheets wb))) ;;
             new_sheet <- Excel.call (Excel.Worksheets_Add calls wb last_sheet) ;;
             new_sheet <-
               (if truthy (default "" sheet_name) then
                  try_except
                    (Excel.call (Excel.set_Name calls new_sheet
                                   (default "" sheet_name)))
                    (fun _ => ret new_sheet)
                else ret new_sheet) ;;
             ret {| Excel.si_name := Excel.ws_Name new_sheet;
                    Excel.si_index := Excel.ws_Index new_sheet |})
              (performance_mode_entered s a) = (rb, sb) ->
            app sb = Some ab ->
            result = (rb, set_app (Some (settings_restored a ab)) sb)).
  { intros rb sb ab Hb Hab. subst result.
    unfold Excel.add_worksheet, bind at 1 2.
    rewrite (excel_guard_live s a v Ha Hv),
      (excel_get_workbook_run s a v _ Ha Hv), Hwb.
    rewrite try_reraise.
    now rewrite (performance_mode_run _ s sb a ab rb Ha Hb Hab). }
  assert (Hentered : app (performance_mode_entered s a) = Some (settings_off a))
    by (now destruct s).
  unfold bind at 1, lift at 1 in E. rewrite Hlast in E.
  unfold bind at 1 in E.
  rewrite (call_run _ _ _ Hentered) in E. fold added in E.
  destruct added as [[new_sheet|e] a1]; cbn [fst snd] in *.
  - destruct (truthy (default "" sheet_name)).
    + unfold bind at 1, try_except in E.
      rewrite (call_run _ (set_app (Some a1) (performance_mode_entered s a)) a1)
        in E by (now destruct s).
      destruct (Excel.set_Name calls new_sheet (default "" sheet_name) a1)
        as [[sheet|e] a2]; cbn [fst snd] in *.
      * rewrite (E _ _ a2 eq_refl) by (now destruct s).
        subst answer. destruct s. reflexivity.
      * rewrite (E _ _ a2 eq_refl) by (now destruct s).
        subst answer. destruct s. reflexivity.
    + rewrite (E _ _ a1 eq_refl) by (now destruct s).
      subst answer. destruct s. reflexivity.
  - rewrite (E _ _ a1 eq_refl) by (now destruct s). destruct s. reflexivity.
Qed.

Lemma add_worksheet_witness :
  Excel.add_worksheet refusing_calls (Str "Budget.xlsx") (Some "Costs")
    excel_editor
  = (Return {| Excel.si_name := "Sheet3"; Excel.si_index := 3 |}, excel_editor).
Proof.
  exact (add_worksheet_survives_a_refused_name refusing_calls excel_editor
           excel_running "16.0" (Str "Budget.xlsx") (Some "Costs") book_budget
           sheet_blank eq_refl eq_refl eq_refl eq_refl).
Defined.

End Saving.

(** ** The text cells of a sheet *)

Section TextCells.

Lemma single_cell_true ws ur x :
  Excel.UsedRange ws = Some ur -> Excel.values ur = [[x]] ->
  single_cell ws = true.
Proof. intros Hur Hv. unfold single_cell. now rewrite Hur, Hv. Qed.

Lemma single_cell_false ws ur :
  Excel.UsedRange ws = Some ur -> (forall x, Excel.values ur <> [[x]]) ->
  single_cell ws = false.
Proof.
  intros Hur Hv. unfold single_cell. rewrite Hur.
  destruct (Excel.values ur) as [|[|x [|y row]] [|row' rows]] eqn:E;
    try reflexivity.
  now destruct (Hv x).
Qed.

Lemma string_cells_entry ws sc :
  In sc (string_cells_of ws) ->
  exists str,
    Excel.value_at ws (Excel.sc_row sc) (Excel.sc_col sc) = Excel.VStr str
    /\ Excel.sc_address sc = Excel.CellAt (Excel.sc_row sc) (Excel.sc_col sc)
    /\ Excel.sc_sheet sc = Excel.ws_Name ws
    /\ if single_cell ws then Excel.sc_value sc = str
       else Excel.sc_value sc = strip str /\ truthy (strip str) = true.
Proof.
  intros Hin.
  destruct (Excel.UsedRange ws) as [ur|] eqn:Hur.
  2:{ unfold string_cells_of in Hin. rewrite Hur in Hin. contradiction. }
  destruct (string_cells_cases ws ur Hur) as [(x & Hx & Heq)|[Hx Heq]];
    rewrite Heq in Hin.
  - rewrite (single_cell_true ws ur x Hur Hx).
    destruct x as [|str| | | | |]; try contradiction.
    destruct Hin as [<-|[]]. exists str. cbn.
    replace (Excel.Row ur) with (Excel.Row ur + Z.of_nat 0) at 1 by (cbn; lia).
    replace (Excel.Column ur) with (Excel.Column ur + Z.of_nat 0) at 1
      by (cbn; lia).
    rewrite (value_at_used ws ur 0 0 [Excel.VStr str] (Excel.VStr str) Hur);
      [auto| now rewrite Hx | reflexivity].
  - rewrite (single_cell_false ws ur Hur Hx).
    apply grid_cells_coords in Hin.
    destruct Hin as (k & j & row & str & Hk & Hj & Ht & ->).
    exists str. cbn.
    rewrite (value_at_used ws ur k j row (Excel.VStr str) Hur Hk Hj). auto.
Qed.

(** X10.  [extract_string_cells] on a connected editor, for a worksheet that
    resolves and whose used range lies on the sheet, returns a list that
    names every cell holding non-blank text, and every cell at most once;
    each entry carries the cell's address, row and column and the sheet's
    name, and its value is the cell's text with the white space around it
    stripped.  One case differs: when the used range is a single cell, the
    text of that cell is listed as it is, unstripped, and also when it is
    blank.  The editor is left as it was. *)
Theorem extract_string_cells_lists_the_text_cells
  (s : Excel.St) (a : Excel.Application) (v : string)
  (identifier sheet_identifier : int_or_str) (ws : Excel.Worksheet) :
  app s = Some a -> Excel.Version a = Some v ->
  Excel.get_worksheet identifier sheet_identifier s = (Return (Some ws), s) ->
  on_sheet ws ->
  exists cells,
    Excel.extract_string_cells identifier sheet_identifier s = (Return cells, s)
    /\ NoDup (map Excel.sc_address cells)
    /\ (forall r c, is_text (Excel.value_at ws r c) = true ->
          exists sc, In sc cells
                     /\ Excel.sc_row sc = r /\ Excel.sc_col sc = c)
    /\ (forall sc, In sc cells ->
          exists str,
            Excel.value_at ws (Excel.sc_row sc) (Excel.sc_col sc)
            = Excel.VStr str
            /\ Excel.sc_address sc
               = Excel.CellAt (Excel.sc_row sc) (Excel.sc_col sc)
            /\ Excel.sc_sheet sc = Excel.ws_Name ws
            /\ if single_cell ws then Excel.sc_value sc = str
               else Excel.sc_value sc = strip str
                    /\ truthy (strip str) = true).
Proof.
  intros Ha Hv Hws Hon. exists (string_cells_of ws).
  split; [exact (extract_string_cells_run s a v _ _ ws Ha Hv Hws Hon)|].
  split; [apply string_cells_NoDup|]. split.
  - intros r c Ht. destruct (text_cell_listed ws r c Ht) as (sc & ? & ? & ? & _).
    eauto.
  - intros sc Hin. exact (string_cells_entry ws sc Hin).
Qed.

Lemma extract_string_cells_witness :
  exists cells,
    Excel.extract_string_cells (Str "Budget.xlsx") (Str "costs") excel_editor
    = (Return cells, excel_editor)
    /\ NoDup (map Excel.sc_address cells)
    /\ (forall r c, is_text (Excel.value_at sheet_costs r c) = true ->
          exists sc, In sc cells
                     /\ Excel.sc_row sc = r /\ Excel.sc_col sc = c)
    /\ (forall sc, In sc cells ->
          exists str,
            Excel.value_at sheet_costs (Excel.sc_row sc) (Excel.sc_col sc)
            = Excel.VStr str
            /\ Excel.sc_address sc
               = Excel.CellAt (Excel.sc_row sc) (Excel.sc_col sc)
            /\ Excel.sc_sheet sc = Excel.ws_Name sheet_costs
            /\ if single_cell sheet_costs then Excel.sc_value sc = str
               else Excel.sc_value sc = strip str
                    /\ truthy (strip str) = true).
Proof.
  apply (extract_string_cells_lists_the_text_cells excel_editor excel_running
           "16.0" (Str "Budget.xlsx") (Str "costs") sheet_costs
           eq_refl eq_refl eq_refl).
  exact sheet_costs_on_sheet.
Defined.

End TextCells.

(** ** An application that cannot be reached *)

Section Unreachable.

Lemma excel_connect_fails (s : Excel.St) :
  cannot_connect s ->
  Excel._connect_or_launch_excel s = (Return tt, after_failed_attempt s).
Proof.
  unfold cannot_connect, Excel._connect_or_launch_excel, after_failed_attempt.
  intros H. run.
  destruct (GetActiveObject (desktop s (connects s))); [contradiction| |];
    [rewrite H|]; reflexivity.
Qed.

Lemma excel_guard_fails (s : Excel.St) :
  app s = None -> cannot_connect s ->
  Excel._ensure_connection s
  = (Raise (ConnectionError "Could not connect to or launch Excel."),
     after_failed_attempt s).
Proof.
  intros Ha Hc. rewrite excel_guard_unfold. unfold guard_direct.
  rewrite Ha, (excel_connect_fails s Hc). reflexivity.
Qed.

Ltac guard_fails H :=
  unfold bind at 1; rewrite H; reflexivity.

(** X11.  When the editor has no application handle and the one connection
    attempt a call makes yields none (Excel does not run and cannot be
    launched, or the lookup fails otherwise), every method of the editor
    raises [ConnectionError("Could not connect to or launch Excel.")] after
    that single attempt, without doing anything else, and every one of the
    twelve tools answers with the error
    ["Could not connect to Excel. Please ensure it is running."]. *)
Theorem unreachable_excel_is_reported (ext : Excel.Reads) (calls : Excel.Calls)
  (s : Excel.St) :
  app s = None -> cannot_connect s ->
  let failed {A} : outcome A * Excel.St :=
    (Raise (ConnectionError "Could not connect to or launch Excel."),
     after_failed_attempt s) in
  let answer {A} : outcome (payload A) * Excel.Server :=
    (Return (Error "Could not connect to Excel. Please ensure it is running."),
     Some (after_failed_attempt s)) in
  (Excel.list_open_workbooks ext s = failed
   /\ (forall identifier,
         Excel.get_workbook identifier s = failed
         /\ Excel.list_worksheets ext identifier s = failed
         /\ (forall save_path,
               Excel.save_workbook calls identifier save_path s = failed)
         /\ (forall sheet_name,
               Excel.add_worksheet calls identifier sheet_name s = failed)
         /\ (forall sheet_identifier,
               Excel.get_worksheet identifier sheet_identifier s = failed
               /\ Excel.find_used_ranges identifier sheet_identifier s = failed
               /\ Excel.extract_string_cells identifier sheet_identifier s
                  = failed
               /\ Excel.analyze_label_value_patterns identifier
                    sheet_identifier s = failed
               /\ (forall address,
                     Excel.get_cell_value ext identifier sheet_identifier
                       address s = failed
                     /\ Excel.get_range_values ext identifier sheet_identifier
                          address s = failed
                     /\ Excel.get_cell_types_in_range ext identifier
                          sheet_identifier address s = failed
                     /\ (forall value,
                           Excel.set_cell_value ext identifier sheet_identifier
                             address value s = failed)
                     /\ (forall values,
                           Excel.set_range_values calls identifier
                             sheet_identifier address values s = failed)))))
  /\ (Excel.list_open_workbooks_tool ext (Some s) = answer
      /\ (forall identifier,
            Excel.list_worksheets_tool ext identifier (Some s) = answer
            /\ (forall save_path,
                  Excel.save_workbook_tool calls identifier save_path (Some s)
                  = answer)
            /\ (forall sheet_name,
                  Excel.add_worksheet_tool calls identifier sheet_name (Some s)
                  = answer)
            /\ (forall sheet_identifier,
                  Excel.find_used_ranges_tool identifier sheet_identifier
                    (Some s) = answer
                  /\ Excel.extract_string_cells_tool identifier
                       sheet_identifier (Some s) = answer
                  /\ Excel.analyze_label_value_patterns_tool identifier
                       sheet_identifier (Some s) = answer
                  /\ (forall address,
                        Excel.get_cell_types_in_range_tool ext identifier
                          sheet_identifier address (Some s) = answer
                        /\ Excel.get_range_values_tool ext identifier
                             sheet_identifier address (Some s) = answer
                        /\ (forall values,
                              Excel.set_range_values_tool calls identifier
                                sheet_identifier address values (Some s)
                              = answer)
                        /\ (forall str_of,
                              Excel.get_cell_value_tool ext str_of identifier
                                sheet_identifier address (Some s) = answer
                              /\ (forall value,
                                    Excel.set_cell_value_tool ext str_of
                                      identifier sheet_identifier address
                                      value (Some s) = answer)))))).
Proof.
  intros Ha Hc failed answer. subst failed answer.
  pose proof (excel_guard_fails s Ha Hc) as G.
  assert (T : forall A (m : M Excel.St A) name key,
    m s = (Raise (ConnectionError "Could not connect to or launch Excel."),
           after_failed_attempt s) ->
    Excel.tool name key m (Some s)
    = (Return (Error "Could not connect to Excel. Please ensure it is running."),
       Some (after_failed_attempt s))).
  { intros A m name key Hm. unfold Excel.tool, try_except, bind. now rewrite Hm. }
  assert (B : forall A (k : unit -> M Excel.St A),
    bind Excel._ensure_connection k s
    = (Raise (ConnectionError "Could not connect to or launch Excel."),
       after_failed_attempt s)).
  { intros A k. unfold bind. now rewrite G. }
  split.
  - split; [apply B|]. intros identifier.
    split; [apply B|]. split; [apply B|].
    split; [intros; apply B|]. split; [intros; apply B|].
    intros sheet_identifier.
    split; [apply B|]. split; [apply B|]. split; [apply B|].
    split; [apply B|]. intros address.
    split; [apply B|]. split; [apply B|]. split; [apply B|].
    split; intros; apply B.
  - assert (B2 : forall A C (m : M Excel.St A) (k : A -> M Excel.St C),
      m s = (Raise (ConnectionError "Could not connect to or launch Excel."),
             after_failed_attempt s) ->
      bind m k s
      = (Raise (ConnectionError "Could not connect to or launch Excel."),
         after_failed_attempt s)).
    { intros A C m k Hm. unfold bind. now rewrite Hm. }
    split; [apply T, B|]. intros identifier.
    split; [apply T, B|]. split; [|split].
    + intros save_path. apply T, B2, B.
    + intros sheet_name. unfold Excel.add_worksheet_tool, try_except.
      rewrite (B2 _ _ (Excel.add_worksheet calls identifier sheet_name) _
                 (B _ _)).
      reflexivity.
    + intros sheet_identifier.
      split; [apply T, B|]. split; [apply T, B|]. split; [apply T, B|].
      intros address. split; [apply T, B|]. split; [apply T, B2, B|].
      split; [intros values; apply T, B2, B|].
      intros str_of. split; [apply T, B2, B|].
      intros value. apply T, B2, B.
Qed.

Lemma unreachable_excel_witness :
  Excel.set_cell_value quiet_reads (Int 1) (Int 1) "A1" (PInt 7)
    excel_unreachable
  = (Raise (ConnectionError "Could not connect to or launch Excel."),
     after_failed_attempt excel_unreachable)
  /\ Excel.list_open_workbooks_tool quiet_reads (Some excel_unreachable)
     = (Return (Error "Could not connect to Excel. Please ensure it is running."),
        Some (after_failed_attempt excel_unreachable)).
Proof.
  pose proof (unreachable_excel_is_reported quiet_reads quiet_calls
                excel_unreachable eq_refl eq_refl) as [[_ Hm] [Ht _]].
  destruct (Hm (Int 1)) as (_ & _ & _ & _ & Hs).
  destruct (Hs (Int 1)) as (_ & _ & _ & _ & Hadr).
  destruct (Hadr "A1") as (_ & _ & _ & Hset & _).
  split; [exact (Hset (PInt 7)) | exact Ht].
Defined.

End Unreachable.

(** ** The live PowerPoint: presentations, slides and shapes *)

Section Shapes.

Lemma powerpoint_connect_fails (s : PowerPoint.St) :
  cannot_connect s ->
  PowerPoint._connect_or_launch_powerpoint s
  = (Return tt, after_failed_attempt s).
Proof.
  unfold cannot_connect, PowerPoint._connect_or_launch_powerpoint,
    after_failed_attempt.
  intros H. run.
  destruct (GetActiveObject (desktop s (connects s))); [contradiction| |];
    [rewrite H|]; reflexivity.
Qed.

Lemma powerpoint_guard_fails (s : PowerPoint.St) :
  app s = None -> cannot_connect s ->
  PowerPoint._ensure_connection s
  = (Raise (ConnectionError "Could not connect to or launch PowerPoint."),
     after_failed_attempt s).
Proof.
  intros Ha Hc. rewrite powerpoint_guard_unfold. unfold guard_direct.
  rewrite Ha, (powerpoint_connect_fails s Hc). reflexivity.
Qed.

Lemma powerpoint_get_slide_run (s : PowerPoint.St) a v identifier n :
  app s = Some a -> PowerPoint.Version a = Some v ->
  PowerPoint.get_slide identifier (Int n) s = (slide_of a identifier n, s).
Proof.
  intros Ha Hv. unfold PowerPoint.get_slide, bind at 1 2.
  rewrite (powerpoint_guard_live s a v Ha Hv),
    (powerpoint_get_presentation_run s a v _ Ha Hv).
  unfold slide_of.
  destruct (resolve _ _ _) as [[pres|]|e]; [|reflexivity..].
  unfold try_except. now rewrite item_at_position.
Qed.

(** A loop over the positions of a collection that returns what it makes of
    the first item passing a test. *)
Lemma for_return_scan_map {St A B} (c : list A) (p : A -> bool) (g : A -> B)
  (lo : Z) (body : Z -> M St (option B)) (s : St) :
  (forall i x, nth_error c i = Some x ->
     body (lo + Z.of_nat i) s = (Return (if p x then Some (g x) else None), s)) ->
  for_return (range lo (lo + Count c)) body s
  = (Return (option_map g (find p c)), s).
Proof.
  unfold Count. rewrite range_seq.
  enough (forall start,
    (forall i x, nth_error c i = Some x ->
       body (lo + Z.of_nat (start + i)) s
       = (Return (if p x then Some (g x) else None), s)) ->
    for_return (map (fun k => lo + Z.of_nat k) (seq start (length c))) body s
    = (Return (option_map g (find p c)), s)) as G.
  { intros H. apply (G 0%nat). exact H. }
  induction c as [|x c IH]; intros start H; cbn [length seq map for_return find].
  - reflexivity.
  - unfold bind. specialize (H 0%nat x eq_refl) as H0.
    rewrite Nat.add_0_r in H0. rewrite H0.
    destruct (p x); [reflexivity|].
    apply IH. intros i y Hy. replace (S start + i)%nat with (start + S i)%nat by lia.
    apply H. exact Hy.
Qed.

(** A loop over the positions of a collection that appends an entry for the
    items passing a test. *)
Lemma for_loop_items_filter {St A B} (c : list A) (p : A -> bool) (g : A -> B)
  (lo : Z) (body : list B -> Z -> M St (flow (list B))) (s : St) :
  (forall i x acc, nth_error c i = Some x ->
     body acc (lo + Z.of_nat i) s
     = (Return (Continue (if p x then acc ++ [g x] else acc)), s)) ->
  forall acc,
    for_loop (range lo (lo + Count c)) acc body s
    = (Return (acc ++ map g (List.filter p c)), s).
Proof.
  unfold Count. rewrite range_seq.
  enough (forall start acc,
    (forall i x acc, nth_error c i = Some x ->
       body acc (lo + Z.of_nat (start + i)) s
       = (Return (Continue (if p x then acc ++ [g x] else acc)), s)) ->
    for_loop (map (fun k => lo + Z.of_nat k) (seq start (length c))) acc body s
    = (Return (acc ++ map g (List.filter p c)), s)) as G.
  { intros H acc. apply (G 0%nat). exact H. }
  induction c as [|x c IH]; intros start acc H;
    cbn [length seq map for_loop List.filter].
  - now rewrite app_nil_r.
  - unfold bind. specialize (H 0%nat x acc eq_refl) as H0.
    rewrite Nat.add_0_r in H0. rewrite H0.
    rewrite IH.
    + destruct (p x); [|reflexivity]. cbn [map]. now rewrite <- app_assoc.
    + intros i y acc' Hy.
      replace (S start + i)%nat with (start + S i)%nat by lia.
      apply H. exact Hy.
Qed.

Lemma map_enumerate_snd {A B} (g : A -> B) (c : list A) :
  map (fun ix => g (snd ix)) (enumerate c) = map g c.
Proof.
  unfold enumerate. generalize 0%nat as start.
  induction c as [|x c IH]; intros start; [reflexivity|].
  cbn [length seq map combine snd]. now rewrite IH.
Qed.

Lemma Item_nat {A} (c : list A) (i : nat) (x : A) :
  nth_error c i = Some x -> Item c (1 + Z.of_nat i) = Return x.
Proof.
  intros H. unfold Item. destruct (Z.leb_spec 1 (1 + Z.of_nat i)); [|lia].
  replace (Z.to_nat (1 + Z.of_nat i - 1)) with i by lia. now rewrite H.
Qed.

Lemma count_succ {A} (c : list A) : Count c + 1 = 1 + Count c.
Proof. lia. Qed.

(** X12.  [list_open_presentations] on a connected editor lists every open
    presentation once, in the order of the collection, and leaves the
    editor as it was; the index it gives is the presentation's 1-based
    position, and [get_presentation] of that index returns the presentation
    of the listed name, slide count and saved flag.  The listed path is the
    full name, and [None] for a presentation that has no path yet. *)
Theorem list_open_presentations_indexes_resolve (ext : PowerPoint.Calls)
  (s : PowerPoint.St) (a : PowerPoint.Application) (v : string) :
  app s = Some a -> PowerPoint.Version a = Some v ->
  exists infos,
    PowerPoint.list_open_presentations ext s = (Return infos, s)
    /\ length infos = length (PowerPoint.Presentations a)
    /\ forall k info, nth_error infos k = Some info ->
         exists pres,
           nth_error (PowerPoint.Presentations a) k = Some pres
           /\ PowerPoint.pi_index info = Z.of_nat k + 1
           /\ PowerPoint.get_presentation (Int (PowerPoint.pi_index info)) s
              = (Return (Some pres), s)
           /\ PowerPoint.pi_name info = PowerPoint.pr_Name pres
           /\ PowerPoint.pi_slides info = Count (PowerPoint.Slides pres)
           /\ PowerPoint.pi_saved info = PowerPoint.Saved ext pres
           /\ PowerPoint.pi_path info
              = if truthy (PowerPoint.pr_Path pres)
                then Some (PowerPoint.pr_FullName pres) else None.
Proof.
  intros Ha Hv.
  set (g := fun (i : Z) (pres : PowerPoint.Presentation) =>
    {| PowerPoint.pi_name := PowerPoint.pr_Name pres;
       PowerPoint.pi_path := if truthy (PowerPoint.pr_Path pres)
                             then Some (PowerPoint.pr_FullName pres) else None;
       PowerPoint.pi_slides := Count (PowerPoint.Slides pres);
       PowerPoint.pi_saved := PowerPoint.Saved ext pres;
       PowerPoint.pi_index := i |}).
  exists (map (fun ix => g (1 + fst ix) (snd ix))
              (enumerate (PowerPoint.Presentations a))).
  split; [|split].
  - unfold PowerPoint.list_open_presentations, bind at 1.
    rewrite (powerpoint_guard_live s a v Ha Hv). unfold try_except, bind at 1.
    rewrite (self_app_live s a Ha), count_succ.
    rewrite (for_loop_items (PowerPoint.Presentations a) g 1); [reflexivity|].
    intros i x acc Hx. unfold bind. rewrite (self_app_live s a Ha).
    unfold lift. now rewrite (Item_nat _ i x Hx).
  - now rewrite length_map, length_enumerate.
  - intros k info Hk. rewrite nth_error_map, nth_error_enumerate in Hk.
    destruct (nth_error (PowerPoint.Presentations a) k) as [pres|] eqn:Epres;
      [|discriminate].
    cbn in Hk. injection Hk as <-. exists pres.
    split; [reflexivity|]. split; [cbn; lia|]. split; [|now cbn].
    rewrite (powerpoint_get_presentation_run s a v _ Ha Hv). cbn [resolve g
      PowerPoint.pi_index fst snd].
    unfold at_position.
    assert (k < length (PowerPoint.Presentations a))%nat
      by (apply nth_error_Some; congruence).
    unfold Count.
    destruct (Z.leb_spec 1 (1 + Z.of_nat k)); [|lia].
    destruct (Z.leb_spec (1 + Z.of_nat k)
                (Z.of_nat (length (PowerPoint.Presentations a)))); [|lia].
    cbn [andb]. replace (Z.to_nat (1 + Z.of_nat k - 1)) with k by lia.
    now rewrite Epres.
Qed.

Lemma list_open_presentations_witness :
  exists infos,
    PowerPoint.list_open_presentations quiet_powerpoint powerpoint_editor
    = (Return infos, powerpoint_editor)
    /\ length infos = length (PowerPoint.Presentations powerpoint_running)
    /\ forall k info, nth_error infos k = Some info ->
         exists pres,
           nth_error (PowerPoint.Presentations powerpoint_running) k = Some pres
           /\ PowerPoint.pi_index info = Z.of_nat k + 1
           /\ PowerPoint.get_presentation (Int (PowerPoint.pi_index info))
                powerpoint_editor = (Return (Some pres), powerpoint_editor)
           /\ PowerPoint.pi_name info = PowerPoint.pr_Name pres
           /\ PowerPoint.pi_slides info = Count (PowerPoint.Slides pres)
           /\ PowerPoint.pi_saved info = PowerPoint.Saved quiet_powerpoint pres
           /\ PowerPoint.pi_path info
              = if truthy (PowerPoint.pr_Path pres)
                then Some (PowerPoint.pr_FullName pres) else None.
Proof.
  exact (list_open_presentations_indexes_resolve quiet_powerpoint
           powerpoint_editor powerpoint_running "16.0" eq_refl eq_refl).
Defined.

(** X13.  On a connected editor, for a slide that resolves, [list_shapes]
    lists every shape of the slide once, in order, and [get_shape_by_id]
    returns the first shape of the slide with the asked [Id], and [None]
    when the slide has none.  So every shape that [list_shapes] lists is
    found again by [get_shape_by_id] under its listed id, as a shape of
    that id; it is the listed shape itself when the ids on the slide are
    distinct.  Neither changes the editor. *)
Theorem listed_shapes_are_found_by_id
  (s : PowerPoint.St) (a : PowerPoint.Application) (v : string)
  (identifier : int_or_str) (n : Z) (slide : PowerPoint.Slide) :
  app s = Some a -> PowerPoint.Version a = Some v ->
  PowerPoint.get_slide identifier (Int n) s = (Return (Some slide), s) ->
  PowerPoint.list_shapes identifier (Int n) s
  = (Return (map PowerPoint._get_shape_basic_info (PowerPoint.Shapes slide)), s)
  /\ (forall shape_id,
        PowerPoint.get_shape_by_id identifier (Int n) shape_id s
        = (Return (shape_with_id slide shape_id), s))
  /\ (forall shape_id,
        shape_with_id slide shape_id = None
        <-> ~ In shape_id (map PowerPoint.sh_Id (PowerPoint.Shapes slide)))
  /\ (forall shape, In shape (PowerPoint.Shapes slide) ->
        exists found,
          shape_with_id slide (PowerPoint.sh_Id shape) = Some found
          /\ In found (PowerPoint.Shapes slide)
          /\ PowerPoint.sh_Id found = PowerPoint.sh_Id shape
          /\ (NoDup (map PowerPoint.sh_Id (PowerPoint.Shapes slide)) ->
              found = shape)).
Proof.
  intros Ha Hv Hslide. split; [|split; [|split]].
  - unfold PowerPoint.list_shapes, bind at 1 2.
    rewrite (powerpoint_guard_live s a v Ha Hv), Hslide, count_succ.
    rewrite (for_loop_items (PowerPoint.Shapes slide)
               (fun _ => PowerPoint._get_shape_basic_info) 1).
    + cbn [app]. now rewrite map_enumerate_snd.
    + intros i x acc Hx. unfold try_except, bind, lift.
      now rewrite (Item_nat _ i x Hx).
  - intros shape_id. unfold PowerPoint.get_shape_by_id, bind at 1 2.
    rewrite (powerpoint_guard_live s a v Ha Hv), Hslide, count_succ.
    unfold try_except, shape_with_id.
    rewrite (for_return_scan (PowerPoint.Shapes slide)
               (fun shape => PowerPoint.sh_Id shape =? shape_id)); [reflexivity|].
    intros i x Hx. unfold bind, lift. rewrite (Item_nat _ i x Hx).
    now destruct (PowerPoint.sh_Id x =? shape_id).
  - intros shape_id. unfold shape_with_id. split.
    + intros Hnone Hin. apply in_map_iff in Hin as (shape & Hid & Hin).
      apply (find_none _ _ Hnone) in Hin. cbn in Hin. lia.
    + intros Hnot.
      destruct (find _ _) as [shape|] eqn:E; [|reflexivity].
      apply find_some in E as [Hin Hid]. destruct Hnot.
      apply in_map_iff. exists shape. split; [lia|exact Hin].
  - intros shape Hin. unfold shape_with_id.
    destruct (find (fun sh => PowerPoint.sh_Id sh =? PowerPoint.sh_Id shape)
                (PowerPoint.Shapes slide)) as [found|] eqn:E.
    + exists found. apply find_some in E as E'. destruct E' as [Hf Hid].
      apply Z.eqb_eq in Hid. repeat split; auto.
      intros Hnodup. clear -Hin Hf Hid Hnodup.
      induction (PowerPoint.Shapes slide) as [|x l IH]; [contradiction|].
      cbn in Hnodup. apply NoDup_cons in Hnodup as [Hx Hl].
      rewrite list_elem_of_In in Hx.
      destruct Hin as [->|Hin], Hf as [->|Hf]; auto.
      * destruct Hx. apply in_map_iff. exists found. auto.
      * destruct Hx. apply in_map_iff. exists shape. auto.
    + apply (find_none _ _ E) in Hin. cbn in Hin. lia.
Qed.

Lemma listed_shapes_witness :
  PowerPoint.list_shapes (Str "Results.pptx") (Int 1) powerpoint_editor
  = (Return [PowerPoint._get_shape_basic_info title_shape], powerpoint_editor)
  /\ PowerPoint.get_shape_by_id (Str "Results.pptx") (Int 1) 2 powerpoint_editor
     = (Return (Some title_shape), powerpoint_editor)
  /\ PowerPoint.get_shape_by_id (Str "Results.pptx") (Int 1) 3 powerpoint_editor
     = (Return None, powerpoint_editor).
Proof.
  pose proof (listed_shapes_are_found_by_id powerpoint_editor
                powerpoint_running "16.0" (Str "Results.pptx") 1
                {| PowerPoint.Shapes := [title_shape] |}
                eq_refl eq_refl eq_refl) as (H1 & H2 & _).
  split; [exact H1|]. split; [exact (H2 2) | exact (H2 3)].
Defined.

Lemma dict_get_none_existsb {V} (d : list (string * V)) (k : string) :
  PowerPoint.dict_get d k = None ->
  existsb (String.eqb k) (PowerPoint.keys d) = false.
Proof.
  unfold PowerPoint.dict_get, PowerPoint.keys.
  induction d as [|[k' x] d IH]; cbn; [reflexivity|].
  rewrite (String.eqb_sym k k').
  destruct (String.eqb k' k); [discriminate|]. exact IH.
Qed.

Lemma dict_get_some_existsb {V} (d : list (string * V)) (k : string) (x : V) :
  PowerPoint.dict_get d k = Some x ->
  existsb (String.eqb k) (PowerPoint.keys d) = true.
Proof.
  unfold PowerPoint.dict_get, PowerPoint.keys.
  induction d as [|[k' y] d IH]; cbn; [discriminate|].
  rewrite (String.eqb_sym k k').
  destruct (String.eqb k' k); [reflexivity|]. exact IH.
Qed.

Section OnSlide.

Context (s : PowerPoint.St) (a : PowerPoint.Application) (v : string).
Context (identifier : int_or_str) (n : Z) (slide : PowerPoint.Slide).
Hypothesis Ha : app s = Some a.
Hypothesis Hv : PowerPoint.Version a = Some v.
Hypothesis Hslide :
  PowerPoint.get_slide identifier (Int n) s = (Return (Some slide), s).

Lemma find_shapes_by_type_run shape_type_name target :
  PowerPoint.dict_get PowerPoint.SHAPE_TYPE_NAME_MAP (lower shape_type_name)
  = Some target ->
  PowerPoint.find_shapes_by_type identifier (Int n) shape_type_name s
  = (Return (map PowerPoint._get_shape_basic_info
               (List.filter (shape_of_type target) (PowerPoint.Shapes slide))), s).
Proof.
  intros Ht. unfold PowerPoint.find_shapes_by_type, bind at 1 2.
  rewrite (powerpoint_guard_live s a v Ha Hv), Hslide. cbv zeta.
  rewrite Ht, count_succ.
  rewrite (for_loop_items_filter (PowerPoint.Shapes slide) (shape_of_type target)
             PowerPoint._get_shape_basic_info 1); [reflexivity|].
  intros i x acc Hx. unfold try_except, bind, lift.
  rewrite (Item_nat _ i x Hx). cbn [PowerPoint.dict_item PowerPoint.dict_get
    PowerPoint.SHAPE_TYPE_NAME_MAP find fst snd String.eqb Ascii.eqb Bool.eqb
    option_map].
  unfold shape_of_type.
  destruct (target =? 17); [|now destruct (PowerPoint.sh_Type x =? target)].
  destruct (PowerPoint.sh_Type x =? 17); [reflexivity|]. cbn [orb].
  destruct (PowerPoint.sh_Type x =? 1); [|reflexivity]. cbn [andb].
  now destruct (PowerPoint.HasTextFrame x && PowerPoint.HasText x).
Qed.

(** X14.  [find_shapes_by_type] on a connected editor, for a slide that
    resolves.  For a type name of the map [SHAPE_TYPE_NAME_MAP], case
    ignored, it returns the entries of the shapes of that type id, in slide
    order; for ["textbox"] these are the text boxes and also every auto
    shape (type 1) that has text, so such a shape is returned for
    ["textbox"] and for ["rectangle"] alike.  For any other name it returns
    the empty list, and the tool refuses the name with an error before it
    calls the editor at all: in whatever state the editor is, no connection
    is attempted. *)
Theorem find_shapes_by_type_filters_by_type :
  (forall shape_type_name target,
     PowerPoint.dict_get PowerPoint.SHAPE_TYPE_NAME_MAP (lower shape_type_name)
     = Some target ->
     PowerPoint.find_shapes_by_type identifier (Int n) shape_type_name s
     = (Return (map PowerPoint._get_shape_basic_info
                  (List.filter (shape_of_type target) (PowerPoint.Shapes slide))),
        s))
  /\ (forall shape,
        In shape (PowerPoint.Shapes slide) ->
        PowerPoint.sh_Type shape = 1 ->
        PowerPoint.HasTextFrame shape && PowerPoint.HasText shape = true ->
        forall shape_type_name,
          lower shape_type_name = "textbox" \/ lower shape_type_name = "rectangle" ->
          exists matches,
            PowerPoint.find_shapes_by_type identifier (Int n) shape_type_name s
            = (Return matches, s)
            /\ In (PowerPoint._get_shape_basic_info shape) matches)
  /\ (forall shape_type_name,
        PowerPoint.dict_get PowerPoint.SHAPE_TYPE_NAME_MAP
          (lower shape_type_name) = None ->
        PowerPoint.find_shapes_by_type identifier (Int n) shape_type_name s
        = (Return [], s)
        /\ forall slide_index (s0 : PowerPoint.St),
             PowerPoint.find_shapes_by_type_tool identifier slide_index
               shape_type_name s0
             = (Return (Error ("Unsupported shape type name '" +:+ shape_type_name
                  +:+ "'. Try one of: ['rectangle', 'textbox', 'oval', 'table', 'chart', 'picture', 'line', 'connector', 'placeholder']")),
                s0)).
Proof.
  split; [exact find_shapes_by_type_run|]. split.
  - intros shape Hin Hty Htext name Hname.
    destruct Hname as [Hname|Hname].
    + eexists. split.
      * apply (find_shapes_by_type_run name 17). now rewrite Hname.
      * apply in_map. apply filter_In. split; [exact Hin|].
        unfold shape_of_type. now rewrite Hty, Htext.
    + eexists. split.
      * apply (find_shapes_by_type_run name 1). now rewrite Hname.
      * apply in_map. apply filter_In. split; [exact Hin|].
        unfold shape_of_type. now rewrite Hty.
  - intros name Hnone. split.
    + unfold PowerPoint.find_shapes_by_type, bind at 1 2.
      rewrite (powerpoint_guard_live s a v Ha Hv), Hslide. cbv zeta.
      now rewrite Hnone.
    + intros slide_index s0. unfold PowerPoint.find_shapes_by_type_tool.
      cbv zeta. now rewrite (dict_get_none_existsb _ _ Hnone).
Qed.

Lemma placeholder_name_listed (k : string) (target : Z) :
  PowerPoint.dict_get PowerPoint.PLACEHOLDER_NAME_MAP k = Some target ->
  exists listed,
    option_map fst (find (fun kv => snd kv =? target)
                         PowerPoint.PLACEHOLDER_NAME_MAP) = Some listed
    /\ PowerPoint.dict_get PowerPoint.PLACEHOLDER_NAME_MAP listed = Some target.
Proof.
  unfold PowerPoint.dict_get, PowerPoint.PLACEHOLDER_NAME_MAP.
  cbn [find fst snd].
  repeat (destruct (String.eqb _ k);
          [intros [= <-]; eexists; split; reflexivity|]).
  discriminate.
Qed.

Lemma get_placeholder_shape_run placeholder_name target :
  PowerPoint.dict_get PowerPoint.PLACEHOLDER_NAME_MAP (lower placeholder_name)
  = Some target ->
  PowerPoint.get_placeholder_shape identifier (Int n) placeholder_name s
  = (Return (option_map PowerPoint._get_shape_basic_info
               (find (placeholder_of target) (PowerPoint.Shapes slide))), s).
Proof.
  intros Ht. unfold PowerPoint.get_placeholder_shape, bind at 1 2.
  rewrite (powerpoint_guard_live s a v Ha Hv), Hslide. cbv zeta.
  rewrite Ht, count_succ. unfold try_except at 1.
  rewrite (for_return_scan_map (PowerPoint.Shapes slide) (placeholder_of target)
             PowerPoint._get_shape_basic_info 1); [reflexivity|].
  intros i x Hx. unfold try_except, bind, lift.
  rewrite (Item_nat _ i x Hx). unfold placeholder_of.
  destruct (PowerPoint.sh_Type x =? PowerPoint.msoPlaceholder); [|reflexivity].
  cbn [andb]. destruct (PowerPoint.PlaceholderType x) as [t|]; [|reflexivity].
  now destruct (t =? target).
Qed.

(** X15.  [get_placeholder_shape] on a connected editor, for a slide that
    resolves and a placeholder name of the map [PLACEHOLDER_NAME_MAP], case
    ignored: it returns the entry of the first shape of the slide that is a
    placeholder ([Type] 14) of the asked placeholder type, and [None] when
    there is none; a shape whose placeholder format cannot be read is
    passed over.  The entry says so: it is a placeholder of that type id.
    The type name in the entry is a name of the map for that id, though not
    always the one asked for: ["content"] and ["object"] name the same id,
    find the same shape, and the entry calls it ["object"].  The editor is
    left as it was. *)
Theorem get_placeholder_shape_finds_the_first :
  (forall placeholder_name target,
     PowerPoint.dict_get PowerPoint.PLACEHOLDER_NAME_MAP (lower placeholder_name)
     = Some target ->
     PowerPoint.get_placeholder_shape identifier (Int n) placeholder_name s
     = (Return (option_map PowerPoint._get_shape_basic_info
                  (find (placeholder_of target) (PowerPoint.Shapes slide))), s)
     /\ forall info,
          option_map PowerPoint._get_shape_basic_info
            (find (placeholder_of target) (PowerPoint.Shapes slide)) = Some info ->
          PowerPoint.is_placeholder info = true
          /\ PowerPoint.placeholder_type_id info = Some target
          /\ exists listed,
               PowerPoint.placeholder_type_name info = Some listed
               /\ PowerPoint.dict_get PowerPoint.PLACEHOLDER_NAME_MAP listed
                  = Some target)
  /\ PowerPoint.get_placeholder_shape identifier (Int n) "content" s
     = PowerPoint.get_placeholder_shape identifier (Int n) "object" s
  /\ (forall info,
        PowerPoint.get_placeholder_shape identifier (Int n) "content" s
        = (Return (Some info), s) ->
        PowerPoint.placeholder_type_name info = Some "object").
Proof.
  split; [|split].
  - intros name target Ht. split; [now apply get_placeholder_shape_run|].
    intros info Hinfo.
    destruct (find _ _) as [shape|] eqn:Ef; [|discriminate].
    cbn in Hinfo. injection Hinfo as <-.
    apply find_some in Ef as [_ Hp]. unfold placeholder_of in Hp.
    apply andb_prop in Hp as [Hty Hph].
    destruct (PowerPoint.PlaceholderType shape) as [t|] eqn:Et; [|discriminate].
    apply Z.eqb_eq in Hph. subst t.
    unfold PowerPoint._get_shape_basic_info.
    cbn [PowerPoint.is_placeholder PowerPoint.placeholder_type_id
         PowerPoint.placeholder_type_name].
    rewrite Hty, Et. split; [reflexivity|]. split; [reflexivity|].
    exact (placeholder_name_listed _ _ Ht).
  - now rewrite (get_placeholder_shape_run "content" 7),
      (get_placeholder_shape_run "object" 7).
  - intros info. rewrite (get_placeholder_shape_run "content" 7) by reflexivity.
    intros [= Hinfo].
    destruct (find _ _) as [shape|] eqn:Ef; [|discriminate].
    cbn in Hinfo. injection Hinfo as <-.
    apply find_some in Ef as [_ Hp]. unfold placeholder_of in Hp.
    apply andb_prop in Hp as [Hty Hph].
    destruct (PowerPoint.PlaceholderType shape) as [t|] eqn:Et; [|discriminate].
    apply Z.eqb_eq in Hph. subst t.
    unfold PowerPoint._get_shape_basic_info.
    cbn [PowerPoint.placeholder_type_name]. now rewrite Hty, Et.
Qed.

Lemma string_length_app (x y : string) :
  String.length (x +:+ y) = (String.length x + String.length y)%nat.
Proof.
  induction x as [|c x IH]; [reflexivity|].
  rewrite string_app_cons. cbn [String.length]. now rewrite IH.
Qed.

Lemma substring_length_le (k : nat) (x : string) :
  (String.length (substring 0 k x) <= k)%nat.
Proof.
  revert x. induction k as [|k IH]; intros [|c x]; cbn; try lia.
  specialize (IH x). lia.
Qed.

Lemma contains_empty (x : string) : contains "" x = true.
Proof. now destruct x. Qed.

Lemma find_shape_by_text_run search_text partial_match :
  PowerPoint.find_shape_by_text identifier (Int n) search_text partial_match s
  = (Return (map match_info
               (List.filter (text_matches search_text partial_match)
                            (PowerPoint.Shapes slide))), s).
Proof.
  unfold PowerPoint.find_shape_by_text, bind at 1 2.
  rewrite (powerpoint_guard_live s a v Ha Hv), Hslide. cbv zeta.
  rewrite count_succ.
  rewrite (for_loop_items_filter (PowerPoint.Shapes slide)
             (text_matches search_text partial_match) match_info 1);
    [reflexivity|].
  intros i x acc Hx. unfold try_except, bind, lift.
  rewrite (Item_nat _ i x Hx). unfold text_matches, match_info, preview_of.
  destruct (PowerPoint.HasTextFrame x && PowerPoint.HasText x); [|reflexivity].
  cbn [andb].
  destruct partial_match.
  - now destruct (contains _ _).
  - now destruct (String.eqb _ _).
Qed.

(** X16.  [find_shape_by_text] on a connected editor, for a slide that
    resolves, returns the entries of exactly the shapes that have text
    matching the search text, in slide order: with [partial_match] the
    shapes whose text contains the search text, without it the shapes whose
    text equals it, in both cases with the case of either ignored.  So two
    search texts that differ only in case give the same answer, and the
    empty search text with [partial_match] finds every shape that has
    text.  Each entry says that the shape has text and carries a preview
    of at most 103 characters: the text itself, or its first 100
    characters followed by ["..."].  The editor is left as it was. *)
Theorem find_shape_by_text_finds_the_matching_shapes
  (search_text : string) (partial_match : bool) :
  PowerPoint.find_shape_by_text identifier (Int n) search_text partial_match s
  = (Return (map match_info
               (List.filter (text_matches search_text partial_match)
                            (PowerPoint.Shapes slide))), s)
  /\ (forall other, lower other = lower search_text ->
        PowerPoint.find_shape_by_text identifier (Int n) other partial_match s
        = PowerPoint.find_shape_by_text identifier (Int n) search_text
            partial_match s)
  /\ (forall shape, In shape (PowerPoint.Shapes slide) ->
        PowerPoint.HasTextFrame shape && PowerPoint.HasText shape = true ->
        exists matches,
          PowerPoint.find_shape_by_text identifier (Int n) "" true s
          = (Return matches, s)
          /\ In (match_info shape) matches)
  /\ (forall shape,
        In shape (List.filter (text_matches search_text partial_match)
                              (PowerPoint.Shapes slide)) ->
        PowerPoint.id (match_info shape) = PowerPoint.sh_Id shape
        /\ PowerPoint.has_text (match_info shape) = true
        /\ exists preview,
             PowerPoint.text_preview (match_info shape) = Some preview
             /\ (String.length preview <= 103)%nat
             /\ (preview = PowerPoint.sh_Text shape
                 \/ preview = substring 0 100 (PowerPoint.sh_Text shape)
                              +:+ "...")).
Proof.
  split; [apply find_shape_by_text_run|]. split; [|split].
  - intros other Hl. rewrite !find_shape_by_text_run.
    do 3 f_equal. unfold text_matches. now rewrite Hl.
  - intros shape Hin Htext. eexists. split; [apply find_shape_by_text_run|].
    apply in_map. apply filter_In. split; [exact Hin|].
    unfold text_matches. rewrite Htext. cbn [andb lower string_map].
    apply contains_empty.
  - intros shape Hin. apply filter_In in Hin as [_ Hm].
    unfold text_matches in Hm. apply andb_prop in Hm as [Htext _].
    split; [reflexivity|]. split; [exact Htext|].
    exists (preview_of shape). split; [reflexivity|].
    unfold preview_of.
    destruct (Z.ltb_spec 100 (Z.of_nat (String.length (PowerPoint.sh_Text shape)))).
    + split; [|now right]. rewrite string_length_app.
      pose proof (substring_length_le 100 (PowerPoint.sh_Text shape)).
      cbn [String.length]. lia.
    + split; [lia|now left].
Qed.

Lemma get_shape_run shape_identifier :
  match shape_identifier with
  | Int shape_id => PowerPoint.get_shape_by_id identifier (Int n) shape_id
  | Str shape_name => PowerPoint.get_shape_by_name identifier (Int n) shape_name
  end s
  = (Return (shape_for slide shape_identifier), s).
Proof.
  destruct shape_identifier as [shape_id|shape_name]; cbn [shape_for].
  - unfold PowerPoint.get_shape_by_id, bind at 1 2.
    rewrite (powerpoint_guard_live s a v Ha Hv), Hslide, count_succ.
    unfold try_except, shape_with_id.
    rewrite (for_return_scan (PowerPoint.Shapes slide)
               (fun shape => PowerPoint.sh_Id shape =? shape_id)); [reflexivity|].
    intros i x Hx. unfold bind, lift. rewrite (Item_nat _ i x Hx).
    now destruct (PowerPoint.sh_Id x =? shape_id).
  - unfold PowerPoint.get_shape_by_name, bind at 1 2.
    rewrite (powerpoint_guard_live s a v Ha Hv), Hslide.
    unfold try_except, bind, lift, ItemByName.
    now destruct (find _ _).
Qed.

Lemma try_except_flag {St A} (c : M St A) (d : A) (s0 : St) :
  exists b, fst (try_except c (fun _ => ret d) s0) = Return b.
Proof.
  unfold try_except, ret. destruct (c s0) as [[x|e] s1]; cbn; eauto.
Qed.

(** X17.  [edit_element] answers with a flag only past its connection
    guard and its shape lookup, which stand before its [try]: what these
    raise, [edit_element] raises.  On a connected editor, for an [int] slide
    position that resolves, it raises nothing: it answers [True] or
    [False].  When the slide has no shape of the given id (an [int]) or
    name (a [str]) it answers [False] without calling PowerPoint, the
    editor is left as it was, and the tool reports ["Failed to update
    element '<shape_identifier>'. See server logs for details."].  The text
    of a shape is set only when the shape has text already: for a shape
    without text a ["text"] among the properties is passed over, the other
    properties are set and the answer is the same as without it.  For a
    [str] slide position on the same presentation the lookup's [TypeError]
    is raised, and the tool reports ["Failed to edit element
    '<shape_identifier>' on slide <slide_index>: "] followed by its text.
    On an editor without a handle whose connection attempt yields no
    application, [ConnectionError("Could not connect to or launch
    PowerPoint.")] is raised whatever the arguments are, and the tool
    reports it in the same way. *)
Theorem edit_element_answers_with_a_flag (ext : PowerPoint.Calls)
  (shape_identifier : int_or_str) (properties : PowerPoint.Properties) :
  (exists flag,
     fst (PowerPoint.edit_element ext identifier (Int n) shape_identifier
            properties s) = Return flag)
  /\ (shape_for slide shape_identifier = None ->
      PowerPoint.edit_element ext identifier (Int n) shape_identifier
        properties s = (Return false, s)
      /\ PowerPoint.edit_element_tool ext identifier (Int n) shape_identifier
           properties s
         = (Return (Error ("Failed to update element '"
                           +:+ show shape_identifier
                           +:+ "'. See server logs for details.")), s))
  /\ (forall shape,
        shape_for slide shape_identifier = Some shape ->
        PowerPoint.HasTextFrame shape && PowerPoint.HasText shape = false ->
        PowerPoint.edit_element ext identifier (Int n) shape_identifier
          properties s
        = PowerPoint.edit_element ext identifier (Int n) shape_identifier
            (without_text properties) s)
  /\ (forall position,
        let e := TypeError
          "'<=' not supported between instances of 'int' and 'str'" in
        PowerPoint.edit_element ext identifier (Str position) shape_identifier
          properties s = (Raise e, s)
        /\ PowerPoint.edit_element_tool ext identifier (Str position)
             shape_identifier properties s
           = (Return (Error ("Failed to edit element '"
                             +:+ show shape_identifier +:+ "' on slide "
                             +:+ position +:+ ": " +:+ str_exn e)), s))
  /\ (forall (s0 : PowerPoint.St) other slide_index,
        app s0 = None -> cannot_connect s0 ->
        let e := ConnectionError "Could not connect to or launch PowerPoint." in
        PowerPoint.edit_element ext other slide_index shape_identifier
          properties s0 = (Raise e, after_failed_attempt s0)
        /\ PowerPoint.edit_element_tool ext other slide_index shape_identifier
             properties s0
           = (Return (Error ("Failed to edit element '"
                             +:+ show shape_identifier +:+ "' on slide "
                             +:+ show slide_index +:+ ": " +:+ str_exn e)),
              after_failed_attempt s0)).
Proof.
  assert (E : forall props,
    PowerPoint.edit_element ext identifier (Int n) shape_identifier props s
    = match shape_for slide shape_identifier with
      | None => (Return false, s)
      | Some shape =>
          try_except
            (PowerPoint.when_given (PowerPoint.p_text props) (fun text =>
               if PowerPoint.HasTextFrame shape && PowerPoint.HasText shape
               then PowerPoint.call (PowerPoint.set_Text ext shape text)
               else ret tt) ;;
             PowerPoint.when_given (PowerPoint.p_left props)
               (fun x => PowerPoint.call (PowerPoint.set_Left ext shape x)) ;;
             PowerPoint.when_given (PowerPoint.p_top props)
               (fun x => PowerPoint.call (PowerPoint.set_Top ext shape x)) ;;
             PowerPoint.when_given (PowerPoint.p_width props)
               (fun x => PowerPoint.call (PowerPoint.set_Width ext shape x)) ;;
             PowerPoint.when_given (PowerPoint.p_height props)
               (fun x => PowerPoint.call (PowerPoint.set_Height ext shape x)) ;;
             PowerPoint.when_given (PowerPoint.p_name props)
               (fun nm => PowerPoint.call (PowerPoint.set_Name ext shape nm)) ;;
             ret true)
            (fun _ => ret false) s
      end).
  { intros props. unfold PowerPoint.edit_element, bind at 1 2.
    rewrite (powerpoint_guard_live s a v Ha Hv), get_shape_run.
    now destruct (shape_for slide shape_identifier). }
  split; [|split; [|split; [|split]]].
  - rewrite E. destruct (shape_for slide shape_identifier) as [shape|].
    + apply try_except_flag.
    + now exists false.
  - intros Hnone. split.
    + now rewrite E, Hnone.
    + unfold PowerPoint.edit_element_tool, try_except, bind at 1.
      now rewrite E, Hnone.
  - intros shape Hshape Htext. rewrite !E, Hshape.
    cbn [without_text PowerPoint.p_text PowerPoint.p_left PowerPoint.p_top
         PowerPoint.p_width PowerPoint.p_height PowerPoint.p_name].
    rewrite Htext. unfold try_except, bind at 1 7.
    now destruct (PowerPoint.p_text properties).
  - intros position e.
    assert (S : PowerPoint.get_slide identifier (Str position) s
                = (Raise e, s)).
    { pose proof Hslide as H.
      rewrite (powerpoint_get_slide_run s a v identifier n Ha Hv) in H.
      unfold slide_of in H.
      pose proof (powerpoint_get_presentation_run s a v identifier Ha Hv) as P.
      destruct (resolve _ _ _) as [[pres|]|x]; [|discriminate..].
      unfold PowerPoint.get_slide, bind at 1 2.
      now rewrite (powerpoint_guard_live s a v Ha Hv), P. }
    assert (R : PowerPoint.edit_element ext identifier (Str position)
                  shape_identifier properties s = (Raise e, s)).
    { unfold PowerPoint.edit_element, bind at 1 2.
      rewrite (powerpoint_guard_live s a v Ha Hv).
      destruct shape_identifier as [shape_id|shape_name];
        [unfold PowerPoint.get_shape_by_id|unfold PowerPoint.get_shape_by_name];
        unfold bind at 1 2;
        now rewrite (powerpoint_guard_live s a v Ha Hv), S. }
    split; [exact R|].
    unfold PowerPoint.edit_element_tool, try_except, bind at 1.
    now rewrite R.
  - intros s0 other slide_index H0 Hc e.
    assert (R : PowerPoint.edit_element ext other slide_index
                  shape_identifier properties s0
                = (Raise e, after_failed_attempt s0)).
    { unfold PowerPoint.edit_element, bind at 1.
      now rewrite (powerpoint_guard_fails s0 H0 Hc). }
    split; [exact R|].
    unfold PowerPoint.edit_element_tool, try_except, bind at 1.
    now rewrite R.
Qed.

End OnSlide.

Section OnPresentation.

Context (ext : PowerPoint.Calls).
Context (s : PowerPoint.St) (a : PowerPoint.Application) (v : string).
Context (identifier : int_or_str).
Hypothesis Ha : app s = Some a.
Hypothesis Hv : PowerPoint.Version a = Some v.

Lemma powerpoint_call_run {A}
  (f : PowerPoint.Application -> outcome A * PowerPoint.Application) :
  PowerPoint.call f s = called s (f a).
Proof.
  unfold PowerPoint.call, called, bind, self_app, get, put, lift.
  now rewrite Ha.
Qed.

(** X18.  [add_slide] on a connected editor, for a presentation that
    resolves, adds the slide at the end (at position [Slides.Count + 1])
    with the layout of the given index, and returns the [SlideIndex] of the
    new slide; a layout index outside [1..CustomLayouts.Count] is replaced
    by 1, so such a call does what the call with layout index 1 does.  When
    the layout cannot be fetched the exception is raised, nothing is added
    and the editor is left as it was; for a presentation that does not
    resolve the call raises
    [ValueError("Presentation '<identifier>' not found.")], and for an
    identifier on which the lookup raises, that exception. *)
Theorem add_slide_appends_with_a_valid_layout (layout_index : Z) :
  match resolve PowerPoint.presentation_matches (PowerPoint.Presentations a)
          identifier with
  | Raise e => PowerPoint.add_slide ext identifier layout_index s = (Raise e, s)
  | Return None =>
      PowerPoint.add_slide ext identifier layout_index s
      = (Raise (PowerPoint.presentation_not_found identifier), s)
  | Return (Some pres) =>
      let used :=
        if (1 <=? layout_index)
           && (layout_index <=? PowerPoint.CustomLayouts_Count ext pres)
        then layout_index else 1 in
      PowerPoint.add_slide ext identifier layout_index s
      = match PowerPoint.CustomLayouts ext pres used with
        | Return layout =>
            called s (PowerPoint.AddSlide ext pres
                        (Count (PowerPoint.Slides pres) + 1) layout a)
        | Raise e => (Raise e, s)
        end
      /\ (~ 1 <= layout_index <= PowerPoint.CustomLayouts_Count ext pres ->
          PowerPoint.add_slide ext identifier layout_index s
          = PowerPoint.add_slide ext identifier 1 s)
  end.
Proof.
  assert (E : forall li,
    PowerPoint.add_slide ext identifier li s
    = match resolve PowerPoint.presentation_matches (PowerPoint.Presentations a)
              identifier with
      | Raise e => (Raise e, s)
      | Return None => (Raise (PowerPoint.presentation_not_found identifier), s)
      | Return (Some pres) =>
          match PowerPoint.CustomLayouts ext pres
                  (if (1 <=? li) && (li <=? PowerPoint.CustomLayouts_Count ext pres)
                   then li else 1) with
          | Return layout =>
              called s (PowerPoint.AddSlide ext pres
                          (Count (PowerPoint.Slides pres) + 1) layout a)
          | Raise e => (Raise e, s)
          end
      end).
  { intros li. unfold PowerPoint.add_slide, bind at 1 2.
    rewrite (powerpoint_guard_live s a v Ha Hv),
      (powerpoint_get_presentation_run s a v _ Ha Hv).
    destruct (resolve _ _ _) as [[pres|]|e]; [|reflexivity..].
    rewrite try_reraise. cbv zeta. unfold bind, lift.
    destruct ((1 <=? li) && (li <=? PowerPoint.CustomLayouts_Count ext pres));
      cbn [negb];
      (destruct (PowerPoint.CustomLayouts ext pres _);
       [apply powerpoint_call_run|reflexivity]). }
  destruct (resolve _ _ _) as [[pres|]|e] eqn:R; [|now rewrite E..].
  - cbv zeta. split.
    + rewrite E. reflexivity.
    + intros Hout. rewrite !E.
      replace ((1 <=? layout_index)
               && (layout_index <=? PowerPoint.CustomLayouts_Count ext pres))
        with false.
      * now destruct ((1 <=? 1) && (1 <=? PowerPoint.CustomLayouts_Count ext pres)).
      * symmetry. apply andb_false_iff.
        destruct (Z.leb_spec 1 layout_index); [|now left].
        destruct (Z.leb_spec layout_index (PowerPoint.CustomLayouts_Count ext pres));
          [lia|now right].
Qed.

(** X19.  [save_presentation] on a connected editor.  A presentation that
    does not resolve gives
    [ValueError("Presentation '<identifier>' not found.")], and an
    identifier on which the lookup raises gives that exception.  With a
    non-empty [save_path] the directory of the absolute path is created and
    the presentation is saved there with [SaveAs] in the [.pptx] format
    (24); when creating the directory fails, that exception is raised and
    [SaveAs] is not called.  Without one ([None] or the empty string) a
    presentation that has a path is saved with [Save], and one that has
    none gives [ValueError("save_path is required for a new
    presentation.")].  In the error cases nothing is called and the editor
    is left as it was. *)
Theorem save_presentation_saves_once (save_path : option string) :
  let result := PowerPoint.save_presentation ext identifier save_path s in
  match resolve PowerPoint.presentation_matches (PowerPoint.Presentations a)
          identifier with
  | Raise e => result = (Raise e, s)
  | Return None =>
      result = (Raise (PowerPoint.presentation_not_found identifier), s)
  | Return (Some pres) =>
      if truthy (default "" save_path) then
        let abs_path := PowerPoint.abspath ext (default "" save_path) in
        match PowerPoint.makedirs ext (PowerPoint.dirname ext abs_path) with
        | Return _ =>
            result = called s (PowerPoint.SaveAs ext pres abs_path
                                 PowerPoint.ppSaveAsOpenXMLPresentation a)
        | Raise e => result = (Raise e, s)
        end
      else if truthy (PowerPoint.pr_Path pres) then
        result = called s (PowerPoint.Save ext pres a)
      else
        result = (Raise (ValueError
                    "save_path is required for a new presentation."), s)
  end.
Proof.
  intros result.
  assert (E : result =
    match resolve PowerPoint.presentation_matches (PowerPoint.Presentations a)
            identifier with
    | Raise e => (Raise e, s)
    | Return None => (Raise (PowerPoint.presentation_not_found identifier), s)
    | Return (Some pres) =>
        (if truthy (default "" save_path) then
           let abs_path := PowerPoint.abspath ext (default "" save_path) in
           lift (PowerPoint.makedirs ext (PowerPoint.dirname ext abs_path)) ;;
           PowerPoint.call (PowerPoint.SaveAs ext pres abs_path
                              PowerPoint.ppSaveAsOpenXMLPresentation)
         else if truthy (PowerPoint.pr_Path pres)
              then PowerPoint.call (PowerPoint.Save ext pres)
              else raise (ValueError
                     "save_path is required for a new presentation.")) s
    end).
  { subst result. unfold PowerPoint.save_presentation, bind at 1 2.
    rewrite (powerpoint_guard_live s a v Ha Hv),
      (powerpoint_get_presentation_run s a v _ Ha Hv).
    destruct (resolve _ _ _) as [[pres|]|e]; [|reflexivity..].
    now rewrite try_reraise. }
  rewrite E. clear E result.
  destruct (resolve _ _ _) as [[pres|]|e]; [|reflexivity..].
  destruct (truthy (default "" save_path)).
  - cbv zeta. unfold bind, lift.
    destruct (PowerPoint.makedirs ext _) as [[]|e]; [|reflexivity].
    apply powerpoint_call_run.
  - destruct (truthy (PowerPoint.pr_Path pres)); [|reflexivity].
    apply powerpoint_call_run.
Qed.

End OnPresentation.

(** X20.  On a connected editor, for a slide that does not resolve (no such
    presentation, or a slide position out of range), the methods that look
    shapes up answer with nothing and raise nothing: [list_shapes],
    [find_shape_by_text] and [find_shapes_by_type] return the empty list,
    [get_shape_by_id], [get_shape_by_name] and [get_placeholder_shape]
    return [None], [edit_element] returns [False], and the tool
    [list_shapes] answers with an empty list of shapes, not with an error.
    The methods that add a shape raise
    [ValueError("Slide <n> not found in presentation '<identifier>'.")]
    without calling PowerPoint.  The editor is left as it was. *)
Theorem missing_slide_gives_nothing (ext : PowerPoint.Calls)
  (s : PowerPoint.St) (a : PowerPoint.Application) (v : string)
  (identifier : int_or_str) (n : Z) :
  app s = Some a -> PowerPoint.Version a = Some v ->
  PowerPoint.get_slide identifier (Int n) s = (Return None, s) ->
  PowerPoint.list_shapes identifier (Int n) s = (Return [], s)
  /\ PowerPoint.list_shapes_tool identifier (Int n) s
     = (Return (Result "shapes" []), s)
  /\ (forall search_text partial_match,
        PowerPoint.find_shape_by_text identifier (Int n) search_text
          partial_match s = (Return [], s))
  /\ (forall shape_type_name,
        PowerPoint.find_shapes_by_type identifier (Int n) shape_type_name s
        = (Return [], s))
  /\ (forall placeholder_name,
        PowerPoint.get_placeholder_shape identifier (Int n) placeholder_name s
        = (Return None, s))
  /\ (forall shape_id,
        PowerPoint.get_shape_by_id identifier (Int n) shape_id s
        = (Return None, s))
  /\ (forall shape_name,
        PowerPoint.get_shape_by_name identifier (Int n) shape_name s
        = (Return None, s))
  /\ (forall shape_identifier properties,
        PowerPoint.edit_element ext identifier (Int n) shape_identifier
          properties s = (Return false, s))
  /\ (forall text left top width height,
        PowerPoint.add_text_box ext identifier (Int n) text left top width
          height s
        = (Raise (ValueError ("Slide " +:+ pretty n
                              +:+ " not found in presentation '"
                              +:+ show identifier +:+ "'.")), s))
  /\ (forall shape_type left top width height,
        PowerPoint.add_shape ext identifier (Int n) shape_type left top width
          height s
        = (Raise (ValueError ("Slide " +:+ pretty n
                              +:+ " not found in presentation '"
                              +:+ show identifier +:+ "'.")), s)).
Proof.
  intros Ha Hv Hslide.
  pose proof (powerpoint_guard_live s a v Ha Hv) as G.
  assert (L : PowerPoint.list_shapes identifier (Int n) s = (Return [], s)).
  { unfold PowerPoint.list_shapes, bind at 1 2. now rewrite G, Hslide. }
  assert (I : forall shape_id,
            PowerPoint.get_shape_by_id identifier (Int n) shape_id s
            = (Return None, s)).
  { intros. unfold PowerPoint.get_shape_by_id, bind at 1 2.
    now rewrite G, Hslide. }
  assert (N : forall shape_name,
            PowerPoint.get_shape_by_name identifier (Int n) shape_name s
            = (Return None, s)).
  { intros. unfold PowerPoint.get_shape_by_name, bind at 1 2.
    now rewrite G, Hslide. }
  repeat match goal with |- _ /\ _ => split end; try assumption.
  - unfold PowerPoint.list_shapes_tool, try_except, bind at 1. now rewrite L.
  - intros. unfold PowerPoint.find_shape_by_text, bind at 1 2.
    now rewrite G, Hslide.
  - intros. unfold PowerPoint.find_shapes_by_type, bind at 1 2.
    now rewrite G, Hslide.
  - intros. unfold PowerPoint.get_placeholder_shape, bind at 1 2.
    now rewrite G, Hslide.
  - intros [shape_id|shape_name] properties;
      unfold PowerPoint.edit_element, bind at 1 2; rewrite G, ?I, ?N;
      reflexivity.
  - intros. unfold PowerPoint.add_text_box, bind at 1 2.
    now rewrite G, Hslide.
  - intros. unfold PowerPoint.add_shape, bind at 1 2.
    now rewrite G, Hslide.
Qed.

Lemma missing_slide_witness :
  PowerPoint.list_shapes_tool (Str "Results.pptx") (Int 3) powerpoint_editor
  = (Return (Result "shapes" []), powerpoint_editor)
  /\ PowerPoint.add_text_box quiet_powerpoint (Str "Results.pptx") (Int 3)
       "Summary" (float_of 72 0) (float_of 72 0) (float_of 288 0)
       (float_of 72 0) powerpoint_editor
     = (Raise (ValueError
                 "Slide 3 not found in presentation 'Results.pptx'."),
        powerpoint_editor).
Proof.
  pose proof (missing_slide_gives_nothing quiet_powerpoint powerpoint_editor
                powerpoint_running "16.0" (Str "Results.pptx") 3
                eq_refl eq_refl eq_refl)
    as (_ & Htool & _ & _ & _ & _ & _ & _ & Hadd & _).
  split; [exact Htool|].
  exact (Hadd "Summary" (float_of 72 0) (float_of 72 0) (float_of 288 0)
              (float_of 72 0)).
Defined.

Lemma find_shapes_by_type_witness :
  PowerPoint.find_shapes_by_type (Str "Results.pptx") (Int 1) "Placeholder"
    powerpoint_editor
  = (Return [PowerPoint._get_shape_basic_info title_shape], powerpoint_editor)
  /\ PowerPoint.find_shapes_by_type_tool (Str "Results.pptx") (Int 1) "star"
       editor_without_handle
     = (Return (Error "Unsupported shape type name 'star'. Try one of: ['rectangle', 'textbox', 'oval', 'table', 'chart', 'picture', 'line', 'connector', 'placeholder']"),
        editor_without_handle).
Proof.
  pose proof (find_shapes_by_type_filters_by_type powerpoint_editor
                powerpoint_running "16.0" (Str "Results.pptx") 1
                {| PowerPoint.Shapes := [title_shape] |}
                eq_refl eq_refl eq_refl) as (H1 & _ & H3).
  split.
  - exact (H1 "Placeholder" 14 eq_refl).
  - exact (proj2 (H3 "star" eq_refl) (Int 1) editor_without_handle).
Defined.

Lemma get_placeholder_shape_witness :
  PowerPoint.get_placeholder_shape (Str "Results.pptx") (Int 1) "Title"
    powerpoint_editor
  = (Return (Some (PowerPoint._get_shape_basic_info title_shape)),
     powerpoint_editor)
  /\ PowerPoint.get_placeholder_shape (Str "Results.pptx") (Int 1) "content"
       powerpoint_editor
     = PowerPoint.get_placeholder_shape (Str "Results.pptx") (Int 1) "object"
         powerpoint_editor.
Proof.
  pose proof (get_placeholder_shape_finds_the_first powerpoint_editor
                powerpoint_running "16.0" (Str "Results.pptx") 1
                {| PowerPoint.Shapes := [title_shape] |}
                eq_refl eq_refl eq_refl) as (H1 & H2 & _).
  split; [exact (proj1 (H1 "Title" 1 eq_refl)) | exact H2].
Defined.

Lemma find_shape_by_text_witness :
  PowerPoint.find_shape_by_text (Str "Results.pptx") (Int 1) "RESULTS" true
    powerpoint_editor
  = (Return [match_info title_shape], powerpoint_editor).
Proof.
  exact (proj1 (find_shape_by_text_finds_the_matching_shapes powerpoint_editor
                  powerpoint_running "16.0" (Str "Results.pptx") 1
                  {| PowerPoint.Shapes := [title_shape] |}
                  eq_refl eq_refl eq_refl "RESULTS" true)).
Defined.

Lemma edit_element_witness :
  PowerPoint.edit_element quiet_powerpoint (Str "Results.pptx") (Int 1)
    (Str "Subtitle 2") text_only powerpoint_editor
  = (Return false, powerpoint_editor)
  /\ PowerPoint.edit_element quiet_powerpoint (Str "Results.pptx") (Str "1")
       (Str "Subtitle 2") text_only powerpoint_editor
     = (Raise (TypeError
                 "'<=' not supported between instances of 'int' and 'str'"),
        powerpoint_editor)
  /\ PowerPoint.edit_element quiet_powerpoint (Str "Results.pptx") (Int 1)
       (Str "Subtitle 2") text_only powerpoint_unreachable
     = (Raise (ConnectionError "Could not connect to or launch PowerPoint."),
        after_failed_attempt powerpoint_unreachable).
Proof.
  pose proof (edit_element_answers_with_a_flag powerpoint_editor
                powerpoint_running "16.0" (Str "Results.pptx") 1
                {| PowerPoint.Shapes := [title_shape] |}
                eq_refl eq_refl eq_refl quiet_powerpoint (Str "Subtitle 2")
                text_only) as (_ & Hnone & _ & Hstr & Hdown).
  split; [exact (proj1 (Hnone eq_refl))|].
  split; [exact (proj1 (Hstr "1"))|].
  exact (proj1 (Hdown powerpoint_unreachable (Str "Results.pptx") (Int 1)
                  eq_refl eq_refl)).
Defined.

Lemma add_slide_witness :
  PowerPoint.add_slide quiet_powerpoint (Int 1) 99 powerpoint_editor
  = (Return 3, powerpoint_editor)
  /\ PowerPoint.add_slide quiet_powerpoint (Int 1) 99 powerpoint_editor
     = PowerPoint.add_slide quiet_powerpoint (Int 1) 1 powerpoint_editor.
Proof.
  pose proof (add_slide_appends_with_a_valid_layout quiet_powerpoint
                powerpoint_editor powerpoint_running "16.0" (Int 1)
                eq_refl eq_refl 99) as [H1 H2].
  split; [exact H1|]. apply H2. cbn. lia.
Defined.

Lemma save_presentation_witness :
  PowerPoint.save_presentation quiet_powerpoint (Str "Results.pptx") None
    powerpoint_editor
  = (Return tt, powerpoint_editor)
  /\ PowerPoint.save_presentation quiet_powerpoint (Str "Draft") None
       powerpoint_editor
     = (Raise (ValueError "Presentation 'Draft' not found."), powerpoint_editor).
Proof.
  split.
  - exact (save_presentation_saves_once quiet_powerpoint powerpoint_editor
             powerpoint_running "16.0" (Str "Results.pptx") eq_refl eq_refl None).
  - exact (save_presentation_saves_once quiet_powerpoint powerpoint_editor
             powerpoint_running "16.0" (Str "Draft") eq_refl eq_refl None).
Defined.

End Shapes.

(** ** Documents on disk and in memory *)

Section Documents.

Lemma get_presentation_post path (c c1 : Pptx.Context) r :
  Pptx.get_presentation path c = (Return r, c1) ->
  Pptx.workspace_dir c1 = Pptx.workspace_dir c
  /\ Pptx.presentations c1 !! key_of c path = Some r
  /\ Pptx.current_presentation c1 = Some (key_of c path)
  /\ Pptx.disk c1 = Pptx.disk c
  /\ Pptx.element_ids c1 = Pptx.element_ids c.
Proof.
  unfold key_of.
  destruct (Pptx.presentations c !! Pptx.path_str_of (Pptx.workspace_dir c) path)
    as [r0|] eqn:H.
  - rewrite (get_presentation_cached path c r0 H). intros [= <- <-]. cbn. auto.
  - destruct (tree_at (Pptx.disk c
                       (Pptx.path_str_of (Pptx.workspace_dir c) path)))
      as [tree|] eqn:Ht.
    + rewrite (get_presentation_first path c tree H Ht). intros [= <- <-]. cbn.
      rewrite lookup_insert_eq. auto.
    + destruct (Pptx.disk c (Pptx.path_str_of (Pptx.workspace_dir c) path))
        as [[[file|e]|]|e] eqn:Hd; try discriminate.
      * rewrite (get_presentation_fails path c e H Hd). discriminate.
      * rewrite (get_presentation_unreachable path c e H Hd). discriminate.
Qed.

(** A context in which the path is cached and current answers
    [get_presentation] without changing. *)
Lemma get_presentation_settled path (c : Pptx.Context) r :
  Pptx.presentations c !! key_of c path = Some r ->
  Pptx.current_presentation c = Some (key_of c path) ->
  Pptx.get_presentation path c = (Return r, c).
Proof.
  intros Hp Hc. rewrite (get_presentation_cached path c r Hp).
  f_equal. destruct c. cbn in *. unfold Pptx.set_current_presentation. cbn.
  now rewrite Hc.
Qed.

Lemma join_slash_truthy (l : list string) :
  l <> [] -> Forall (fun x => truthy x = true) l -> truthy (Pptx.join_slash l) = true.
Proof.
  intros Hne Hall. destruct l as [|x l]; [contradiction|].
  apply Forall_cons_iff in Hall as [Hx _].
  destruct x as [|ch x]; [discriminate|].
  destruct l; reflexivity.
Qed.

Lemma Path_parts_truthy (p : string) :
  Forall (fun x => truthy x = true) (Pptx.parts (Pptx.Path p)).
Proof.
  unfold Pptx.Path. cbn [Pptx.parts]. apply List.Forall_forall. intros x Hx.
  apply filter_In in Hx as [_ Hx]. now destruct x.
Qed.

Lemma str_truthy (p : Pptx.PurePath) :
  Forall (fun x => truthy x = true) (Pptx.parts p) -> truthy (Pptx.str p) = true.
Proof.
  intros Hall. unfold Pptx.str.
  destruct (Pptx.parts p) as [|x l] eqn:E.
  - now destruct (truthy (Pptx.root p)) eqn:Hr.
  - destruct (Pptx.root p) as [|ch rt]; [|reflexivity].
    apply join_slash_truthy; [discriminate|exact Hall].
Qed.

Lemma path_str_truthy (w path : string) :
  truthy (Pptx.path_str_of (Pptx.Path w) path) = true.
Proof.
  unfold Pptx.path_str_of. apply str_truthy.
  destruct (Pptx.is_absolute (Pptx.Path path)); [apply Path_parts_truthy|].
  unfold Pptx.joinpath.
  destruct (truthy (Pptx.root (Pptx.Path path))); [apply Path_parts_truthy|].
  cbn [Pptx.parts]. apply Forall_app. split; apply Path_parts_truthy.
Qed.

(** X21.  [save_presentation] saves the presentation that the mapping
    holds for the key of the path (the path itself when absolute, else the
    workspace directory joined with it), as it is in memory, to the file of
    that key, and the current presentation when no path is given; no other
    file changes.  Writing the file is taken to succeed.  After
    [get_presentation(path)] both forms of the call write the same file,
    and that file is the one a server started on the resulting disk reads,
    once, when it opens the same path. *)
Theorem save_presentation_writes_what_is_cached (w path : string)
  (c c1 : Pptx.Context) (r : nat) (pres : Pptx.Presentation) :
  Pptx.workspace_dir c = Pptx.Path w ->
  truthy path = true ->
  Pptx.get_presentation path c = (Return r, c1) ->
  Pptx.objects c1 !! r = Some pres ->
  let key := Pptx.path_str_of (Pptx.Path w) path in
  let c2 := Pptx.set_disk (Pptx.save pres key (Pptx.disk c1)) c1 in
  Pptx.save_presentation (Some path) c1 = (Return tt, c2)
  /\ Pptx.save_presentation None c1 = (Return tt, c2)
  /\ (forall c',
        Pptx.workspace_dir c' = Pptx.Path w ->
        Pptx.presentations c' !! key = None ->
        Pptx.disk c' = Pptx.disk c2 ->
        exists r' c'',
          Pptx.get_presentation path c' = (Return r', c'')
          /\ Pptx.objects c'' !! r' = Some pres
          /\ Pptx.disk_reads c'' = Pptx.disk_reads c' ++ [key]).
Proof.
  intros Hw Hpath Hget Hobj key c2.
  destruct (get_presentation_post path c c1 r Hget) as (Hw1 & Hp1 & Hc1 & _).
  unfold key_of in Hp1, Hc1. rewrite Hw in Hw1, Hp1, Hc1. fold key in Hp1, Hc1.
  pose proof (path_str_truthy w path) as Hkey. fold key in Hkey.
  split; [|split].
  - unfold Pptx.save_presentation, bind at 1, get. rewrite Hpath, Hw1.
    fold key. rewrite Hkey, Hp1.
    unfold Pptx.deref, bind, get, ret, Pptx.modify. now rewrite Hobj.
  - unfold Pptx.save_presentation, bind at 1, get. rewrite Hc1, Hkey, Hp1.
    unfold Pptx.deref, bind, get, ret, Pptx.modify. now rewrite Hobj.
  - intros c' Hw' Hp' Hd'.
    assert (Hp'' : Pptx.presentations c'
                   !! Pptx.path_str_of (Pptx.workspace_dir c') path = None)
      by (now rewrite Hw').
    assert (Hd : Pptx.disk c' (Pptx.path_str_of (Pptx.workspace_dir c') path)
                 = Return (Some (Pptx.Deck pres))).
    { rewrite Hw', Hd'. subst c2. cbn. unfold Pptx.save.
      now rewrite String.eqb_refl. }
    rewrite (get_presentation_first path c' pres Hp'')
      by (now rewrite Hd).
    rewrite Hd, Hw'. fold key.
    do 2 eexists. split; [reflexivity|]. cbn.
    split; [|reflexivity].
    rewrite lookup_app_r by lia. now rewrite Nat.sub_diag.
Qed.

Lemma save_presentation_witness_pptx :
  let c1 := snd (Pptx.get_presentation "deck.pptx" fresh_context) in
  let c2 := Pptx.set_disk (Pptx.save deck_file "presentations/deck.pptx"
                             (Pptx.disk c1)) c1 in
  Pptx.save_presentation (Some "deck.pptx") c1 = (Return tt, c2)
  /\ Pptx.save_presentation None c1 = (Return tt, c2).
Proof.
  pose proof (save_presentation_writes_what_is_cached "presentations"
                "deck.pptx" fresh_context _ 0%nat deck_file
                eq_refl eq_refl eq_refl eq_refl) as (H1 & H2 & _).
  split; [exact H1 | exact H2].
Defined.

(** X22.  [save_presentation] with the path of a presentation that the
    server has not opened saves nothing and raises nothing: no file is
    written, the context is left as it was, and the tool reports
    ["Presentation saved successfully"].  So a presentation cannot be
    saved under a new name.  The same holds without a path before any
    presentation was opened. *)
Theorem save_presentation_of_an_unopened_path_saves_nothing
  (c : Pptx.Context) :
  (forall path,
     truthy path = true ->
     Pptx.presentations c !! key_of c path = None ->
     Pptx.save_presentation (Some path) c = (Return tt, c)
     /\ Pptx.save_presentation_tool (Some path) c
        = (Return (Result "message" "Presentation saved successfully"), c))
  /\ (Pptx.current_presentation c = None ->
      Pptx.save_presentation None c = (Return tt, c)
      /\ Pptx.save_presentation (Some "") c = (Return tt, c)).
Proof.
  split.
  - intros path Hpath Hnone.
    assert (E : Pptx.save_presentation (Some path) c = (Return tt, c)).
    { unfold Pptx.save_presentation, bind, get. rewrite Hpath.
      unfold key_of in Hnone. rewrite Hnone.
      now destruct (truthy (Pptx.path_str_of _ _)). }
    split; [exact E|].
    unfold Pptx.save_presentation_tool, try_except, bind. now rewrite E.
  - intros Hcur. unfold Pptx.save_presentation, bind, get. cbn [truthy].
    now rewrite Hcur.
Qed.

(** ** Counting and deleting slides *)

Lemma remove_length (x : Pptx.Slide) (l : list Pptx.Slide) :
  In x l -> S (length (Pptx.remove x l)) = length l.
Proof.
  induction l as [|y l IH]; [contradiction|]. intros Hin. cbn [Pptx.remove].
  destruct (Z.eqb_spec (Pptx.sld_id y) (Pptx.sld_id x)) as [_|Hne]; [reflexivity|].
  destruct Hin as [->|Hin]; [contradiction|].
  cbn [length]. now rewrite IH.
Qed.

Lemma get_slide_count_inv path (c c1 : Pptx.Context) (n : Z) :
  Pptx.get_slide_count path c = (Return n, c1) ->
  exists r pres,
    Pptx.get_presentation path c = (Return r, c1)
    /\ Pptx.objects c1 !! r = Some pres
    /\ n = Z.of_nat (length (Pptx.slides pres)).
Proof.
  unfold Pptx.get_slide_count, bind at 1.
  destruct (Pptx.get_presentation path c) as [[r|e] c'] eqn:Hget; [|discriminate].
  unfold Pptx.deref, bind, get, ret, raise.
  destruct (Pptx.objects c' !! r) as [pres|] eqn:Hobj; [|discriminate].
  intros [= <- <-]. now exists r, pres.
Qed.

Lemma get_slide_count_run path (c c1 : Pptx.Context) r pres :
  Pptx.get_presentation path c = (Return r, c1) ->
  Pptx.objects c1 !! r = Some pres ->
  Pptx.get_slide_count path c
  = (Return (Z.of_nat (length (Pptx.slides pres))), c1).
Proof.
  intros Hget Hobj. unfold Pptx.get_slide_count, bind at 1. rewrite Hget.
  unfold Pptx.deref, bind, get, ret. now rewrite Hobj.
Qed.

(** After [get_presentation] the same call answers at once. *)
Lemma get_presentation_again path (c c1 : Pptx.Context) r :
  Pptx.get_presentation path c = (Return r, c1) ->
  Pptx.get_presentation path c1 = (Return r, c1).
Proof.
  intros Hget.
  destruct (get_presentation_post path c c1 r Hget) as (Hw & Hp & Hc & _).
  apply get_presentation_settled; unfold key_of in *; now rewrite Hw.
Qed.

(** X23.  [get_slide_count] and [delete_slide] go together: when the count
    of a presentation is [n], the tool [delete_slide] with an index from 0
    to [n - 1] answers success with ["Slide deleted successfully"] and the
    count is [n - 1] afterwards; with any other index, a negative one
    included, it answers failure with ["Failed to delete slide"], raises
    nothing and leaves the presentation and its count as they were. *)
Theorem delete_slide_lowers_the_slide_count
  (presentation_path : string) (c c1 : Pptx.Context) (n : Z) :
  Pptx.get_slide_count presentation_path c = (Return n, c1) ->
  (forall slide_index, 0 <= slide_index < n ->
     exists c2,
       Pptx.delete_slide_tool presentation_path slide_index c1
       = (Return (Pptx.delete_answer true "Slide deleted successfully"), c2)
       /\ Pptx.get_slide_count presentation_path c2 = (Return (n - 1), c2))
  /\ (forall slide_index, ~ (0 <= slide_index < n) ->
        Pptx.delete_slide_tool presentation_path slide_index c1
        = (Return (Pptx.delete_answer false "Failed to delete slide"), c1))
  /\ Pptx.get_slide_count presentation_path c1 = (Return n, c1).
Proof.
  intros Hcount.
  destruct (get_slide_count_inv _ _ _ _ Hcount) as (r & pres & Hget & Hobj & ->).
  pose proof (get_presentation_again _ _ _ _ Hget) as Hagain.
  split; [|split].
  - intros slide_index [H0 Hlt].
    destruct (nth_error (Pptx.slides pres) (Z.to_nat slide_index)) as [x|] eqn:Hx.
    2:{ apply nth_error_None in Hx. lia. }
    pose proof (getitem_nat _ _ _ Hx) as Hitem. rewrite Z2Nat.id in Hitem by lia.
    set (c2 := Pptx.set_objects
                 (<[r := {| Pptx.slides := Pptx.remove x (Pptx.slides pres) |}]>
                    (Pptx.objects c1)) c1).
    assert (Hdel : Pptx.delete_slide presentation_path slide_index c1
                   = (Return true, c2)).
    { unfold Pptx.delete_slide, bind at 1. rewrite Hagain.
      unfold Pptx.deref, bind, get, ret, lift, Pptx.modify. rewrite Hobj.
      replace (0 <=? slide_index) with true by (symmetry; apply Z.leb_le; lia).
      replace (slide_index <? Z.of_nat (length (Pptx.slides pres))) with true
        by (symmetry; apply Z.ltb_lt; lia).
      cbn [andb]. now rewrite Hitem. }
    exists c2. split.
    + unfold Pptx.delete_slide_tool, try_except, bind at 1. now rewrite Hdel.
    + assert (Hget2 : Pptx.get_presentation presentation_path c2 = (Return r, c2)).
      { destruct (get_presentation_post _ _ _ _ Hget) as (Hw & Hp & Hc & _).
        apply get_presentation_settled; unfold key_of in *; cbn; now rewrite Hw. }
      rewrite (get_slide_count_run _ _ _ _ _ Hget2
                 (list_lookup_insert_eq _ _ _ (lookup_lt_Some _ _ _ Hobj))).
      do 2 f_equal. cbn [Pptx.slides].
      pose proof (remove_length x (Pptx.slides pres) (nth_error_In _ _ Hx)). lia.
  - intros slide_index Hout.
    assert (Hdel : Pptx.delete_slide presentation_path slide_index c1
                   = (Return false, c1)).
    { unfold Pptx.delete_slide, bind at 1. rewrite Hagain.
      unfold Pptx.deref, bind, get, ret, lift, Pptx.modify. rewrite Hobj.
      destruct (Z.leb_spec 0 slide_index);
        destruct (Z.ltb_spec slide_index (Z.of_nat (length (Pptx.slides pres))));
        cbn [andb]; try reflexivity. lia. }
    unfold Pptx.delete_slide_tool, try_except, bind at 1. now rewrite Hdel.
  - now apply get_slide_count_run with r.
Qed.

Lemma delete_slide_count_witness :
  let c1 := snd (Pptx.get_slide_count "deck.pptx" fresh_context) in
  (exists c2,
     Pptx.delete_slide_tool "deck.pptx" 1 c1
     = (Return (Pptx.delete_answer true "Slide deleted successfully"), c2)
     /\ Pptx.get_slide_count "deck.pptx" c2 = (Return 1, c2))
  /\ Pptx.delete_slide_tool "deck.pptx" (-1) c1
     = (Return (Pptx.delete_answer false "Failed to delete slide"), c1).
Proof.
  pose proof (delete_slide_lowers_the_slide_count "deck.pptx" fresh_context
                _ 2 eq_refl) as (H1 & H2 & _).
  split; [apply (H1 1); lia | apply (H2 (-1)); lia].
Defined.

(** X24.  A path at which there is nothing, and that the server has not
    opened, is opened as a new, empty presentation instead of being
    reported: [get_slide_count] answers 0, every [delete_slide] fails,
    [find_slide_by_content] finds nothing, nothing is read or written, and
    the path is the current presentation afterwards.  A path at which there
    is something that is no deck, such as the workspace directory, which the
    empty path names, is reported, and so is a path that [exists] refuses:
    the tools answer with the text of what [Presentation] or [exists]
    raises, [find_slide_by_content] raises it, and nothing is stored. *)
Theorem a_missing_file_counts_as_an_empty_presentation
  (presentation_path : string) (c : Pptx.Context) :
  Pptx.presentations c !! key_of c presentation_path = None ->
  (Pptx.disk c (key_of c presentation_path) = Return None ->
   exists c1,
     Pptx.get_slide_count_tool presentation_path c
     = (Return (Result "count" 0), c1)
     /\ (forall slide_index,
           Pptx.delete_slide_tool presentation_path slide_index c
           = (Return (Pptx.delete_answer false "Failed to delete slide"), c1))
     /\ (forall hasattr_text search_text,
           Pptx.find_slide_by_content hasattr_text presentation_path
             search_text c
           = (Return None, c1))
     /\ Pptx.current_presentation c1 = Some (key_of c presentation_path)
     /\ Pptx.disk c1 = Pptx.disk c
     /\ Pptx.disk_reads c1 = Pptx.disk_reads c)
  /\ (forall e,
        Pptx.disk c (key_of c presentation_path)
        = Return (Some (Pptx.NoDeck e))
        \/ Pptx.disk c (key_of c presentation_path) = Raise e ->
        exists c1,
          Pptx.get_slide_count_tool presentation_path c
          = (Return (Error (str_exn e)), c1)
          /\ (forall slide_index,
                Pptx.delete_slide_tool presentation_path slide_index c
                = (Return (Pptx.delete_error (str_exn e)), c1))
          /\ (forall hasattr_text search_text,
                Pptx.find_slide_by_content hasattr_text presentation_path
                  search_text c
                = (Raise e, c1))
          /\ Pptx.presentations c1 = Pptx.presentations c
          /\ Pptx.current_presentation c1 = Pptx.current_presentation c
          /\ Pptx.disk c1 = Pptx.disk c).
Proof.
  unfold key_of. intros Hp. split.
  - intros Hd.
    assert (Ht : tree_at (Pptx.disk c
                            (Pptx.path_str_of (Pptx.workspace_dir c)
                                              presentation_path))
                 = Some Pptx.new_presentation) by (now rewrite Hd).
    pose proof (get_presentation_first presentation_path c _ Hp Ht) as Hget.
    cbv zeta in Hget. rewrite Hd in Hget. cbn [read_of] in Hget.
    rewrite app_nil_r in Hget.
    eexists. split; [|split; [|split; [|split; [|split]]]].
    + unfold Pptx.get_slide_count_tool, Pptx.get_slide_count, try_except.
      unfold bind at 1 2. rewrite Hget.
      unfold Pptx.deref, bind, get, ret. cbn [Pptx.objects].
      rewrite lookup_app_r by lia. rewrite Nat.sub_diag. reflexivity.
    + intros slide_index.
      unfold Pptx.delete_slide_tool, Pptx.delete_slide, try_except.
      unfold bind at 1 2. rewrite Hget.
      unfold Pptx.deref, bind, get, ret. cbn [Pptx.objects].
      rewrite lookup_app_r by lia. rewrite Nat.sub_diag. cbn.
      destruct slide_index; reflexivity.
    + intros hasattr_text search_text.
      unfold Pptx.find_slide_by_content. unfold bind at 1. rewrite Hget.
      unfold Pptx.deref, bind, get, ret. cbn [Pptx.objects].
      rewrite lookup_app_r by lia. rewrite Nat.sub_diag. reflexivity.
    + reflexivity.
    + reflexivity.
    + reflexivity.
  - intros e Hd.
    assert (Hget : exists c1,
              Pptx.get_presentation presentation_path c = (Raise e, c1)
              /\ Pptx.presentations c1 = Pptx.presentations c
              /\ Pptx.current_presentation c1 = Pptx.current_presentation c
              /\ Pptx.disk c1 = Pptx.disk c).
    { destruct Hd as [Hd|Hd]; eexists.
      - rewrite (get_presentation_fails presentation_path c e Hp Hd).
        now repeat split.
      - rewrite (get_presentation_unreachable presentation_path c e Hp Hd).
        now repeat split. }
    destruct Hget as (c1 & Hget & H1 & H2 & H3).
    exists c1. split; [|split; [|split; [|split; [|split]]]].
    + unfold Pptx.get_slide_count_tool, Pptx.get_slide_count, try_except.
      unfold bind at 1 2. now rewrite Hget.
    + intros slide_index.
      unfold Pptx.delete_slide_tool, Pptx.delete_slide, try_except.
      unfold bind at 1 2. now rewrite Hget.
    + intros hasattr_text search_text.
      unfold Pptx.find_slide_by_content. unfold bind at 1. now rewrite Hget.
    + exact H1.
    + exact H2.
    + exact H3.
Qed.

Lemma missing_file_witness :
  (exists c1,
     Pptx.get_slide_count_tool "none.pptx" fresh_context
     = (Return (Result "count" 0), c1)
     /\ Pptx.disk c1 = Pptx.disk fresh_context)
  /\ (exists c1,
        Pptx.get_slide_count_tool "" fresh_context
        = (Return (Error (str_exn not_a_package)), c1)
        /\ Pptx.presentations c1 = ∅)
  /\ (exists c1,
        Pptx.get_slide_count_tool long_name fresh_context
        = (Return (Error (str_exn (OSError 36 "File name too long"
                                     ("presentations/" +:+ long_name)))), c1)
        /\ Pptx.presentations c1 = ∅).
Proof.
  split; [|split].
  - destruct (proj1 (a_missing_file_counts_as_an_empty_presentation
                       "none.pptx" fresh_context eq_refl) eq_refl)
      as (c1 & H1 & _ & _ & _ & H2 & _).
    exists c1. now split.
  - destruct (proj2 (a_missing_file_counts_as_an_empty_presentation
                       "" fresh_context eq_refl) not_a_package
                (or_introl eq_refl))
      as (c1 & H1 & _ & _ & H2 & _).
    exists c1. now split.
  - destruct (proj2 (a_missing_file_counts_as_an_empty_presentation
                       long_name fresh_context eq_refl)
                (OSError 36 "File name too long"
                         ("presentations/" +:+ long_name))
                (or_intror eq_refl))
      as (c1 & H1 & _ & _ & H2 & _).
    exists c1. now split.
Defined.

(** ** Searching the slides *)

Lemma for_return_first {St A B} (l : list A) (body : A -> M St (option B))
  (p : A -> bool) (g : A -> B) (s : St) :
  (forall x, body x s = (Return (if p x then Some (g x) else None), s)) ->
  for_return l body s = (Return (option_map g (find p l)), s).
Proof.
  intros H. induction l as [|x l IH]; [reflexivity|].
  cbn [for_return find]. unfold bind. rewrite H.
  destruct (p x); [reflexivity|exact IH].
Qed.

Lemma find_existsb {A B} (p : A -> bool) (b : B) (l : list A) :
  option_map (fun _ => b) (find p l) = if existsb p l then Some b else None.
Proof.
  induction l as [|x l IH]; [reflexivity|]. cbn. now destruct (p x).
Qed.

Lemma find_enumerate {A} (p : A -> bool) (l : list A) :
  match option_map fst (find (fun ix => p (snd ix)) (enumerate l)) with
  | Some idx =>
      exists k x, idx = Z.of_nat k /\ nth_error l k = Some x /\ p x = true
        /\ forall j y, (j < k)%nat -> nth_error l j = Some y -> p y = false
  | None => forall x, In x l -> p x = false
  end.
Proof.
  unfold enumerate.
  enough (forall start,
    match option_map fst (find (fun ix => p (snd ix))
            (combine (map Z.of_nat (seq start (length l))) l)) with
    | Some idx =>
        exists k x, idx = Z.of_nat (start + k) /\ nth_error l k = Some x
          /\ p x = true
          /\ forall j y, (j < k)%nat -> nth_error l j = Some y -> p y = false
    | None => forall x, In x l -> p x = false
    end) as G by apply (G 0%nat).
  induction l as [|x l IH]; intros start; cbn.
  - contradiction.
  - destruct (p x) eqn:Hx; cbn.
    + exists 0%nat, x. rewrite Nat.add_0_r. repeat split; auto. lia.
    + specialize (IH (S start)).
      destruct (option_map fst _) as [idx|].
      * destruct IH as (k & y & -> & Hk & Hy & Hmin).
        exists (S k), y. split; [f_equal; lia|]. split; [exact Hk|].
        split; [exact Hy|].
        intros [|j] z Hj Hz; cbn in Hz; [congruence|]. apply (Hmin j); auto. lia.
      * intros y [<-|Hy]; auto.
Qed.

(** X25.  [find_slide_by_content] answers with the index of the first
    slide that has a shape with a text in which the search text occurs,
    letter case ignored, and with [None] when no slide has one.  Shapes
    without a [text] attribute are passed over. *)
Theorem find_slide_by_content_finds_the_first_slide
  (hasattr_text : Pptx.Shape -> bool) (presentation_path search_text : string)
  (c c1 : Pptx.Context) (r : nat) (pres : Pptx.Presentation) :
  Pptx.get_presentation presentation_path c = (Return r, c1) ->
  Pptx.objects c1 !! r = Some pres ->
  exists answer,
    Pptx.find_slide_by_content hasattr_text presentation_path search_text c
    = (Return answer, c1)
    /\ match answer with
       | Some idx =>
           exists k slide,
             idx = Z.of_nat k
             /\ nth_error (Pptx.slides pres) k = Some slide
             /\ slide_mentions hasattr_text search_text slide = true
             /\ forall j earlier, (j < k)%nat ->
                  nth_error (Pptx.slides pres) j = Some earlier ->
                  slide_mentions hasattr_text search_text earlier = false
       | None =>
           forall slide, In slide (Pptx.slides pres) ->
             slide_mentions hasattr_text search_text slide = false
       end.
Proof.
  intros Hget Hobj.
  exists (option_map fst
            (find (fun ix => slide_mentions hasattr_text search_text (snd ix))
                  (enumerate (Pptx.slides pres)))).
  split; [|apply find_enumerate].
  unfold Pptx.find_slide_by_content, bind at 1. rewrite Hget.
  unfold Pptx.deref, bind at 1, get. unfold bind at 1. rewrite Hobj.
  unfold ret at 1. cbv beta iota.
  apply for_return_first. intros [idx slide]. cbn [fst snd].
  unfold slide_mentions. rewrite <- find_existsb.
  apply for_return_first. intros shape.
  now destruct (hasattr_text shape && _).
Qed.

Lemma find_slide_by_content_witness :
  exists answer,
    Pptx.find_slide_by_content (fun sh => negb (Pptx.shape_id sh =? 3))
      "deck.pptx" "RESULTS" fresh_context
    = (Return answer, snd (Pptx.get_presentation "deck.pptx" fresh_context))
    /\ answer = Some 0.
Proof.
  destruct (find_slide_by_content_finds_the_first_slide
              (fun sh => negb (Pptx.shape_id sh =? 3)) "deck.pptx" "RESULTS"
              fresh_context _ 0%nat deck_file eq_refl eq_refl)
    as (answer & Hrun & Hans).
  exists answer. split; [exact Hrun|].
  vm_compute in Hrun. now injection Hrun as <-.
Defined.

(** ** The element registry *)

Ltac registry_step :=
  cbn [default from_option id Pptx.element_ids Pptx.set_element_ids
       Pptx.set_uuids_drawn Pptx.uuids_drawn Pptx.uuid4 fst snd];
  rewrite ?lookup_insert_eq, ?lookup_empty.

Ltac lookups :=
  repeat first [ rewrite lookup_insert_eq
               | rewrite lookup_insert_ne by congruence
               | rewrite lookup_empty ].

Ltac new_entry :=
  unfold registered; cbn [Pptx.element_ids Pptx.set_element_ids];
  lookups; reflexivity.

Ltac other_entries H1 H2 p i sh :=
  let p' := fresh "p'" in let i' := fresh "i'" in let sid := fresh "sid" in
  let Hne := fresh "Hne" in
  intros p' i' sid Hne; unfold registered;
  cbn [Pptx.element_ids Pptx.set_element_ids];
  destruct (decide (p' = p)) as [->|];
    [|lookups; reflexivity];
  lookups; rewrite ?H1;
  destruct (decide (i' = i)) as [->|];
    [|lookups; rewrite ?H2; reflexivity];
  lookups; rewrite ?H2;
  destruct (decide (sid = Pptx.shape_id sh)) as [->|];
    [exfalso; apply Hne; reflexivity|lookups; reflexivity].

(** What [register_element] does to the registry. *)
Lemma register_element_run p i sh (c : Pptx.Context) :
  exists e c1,
    Pptx.register_element p i sh c = (Return e, c1)
    /\ registered c1 p i (Pptx.shape_id sh) = Some e
    /\ (forall p' i' sid, (p', i', sid) <> (p, i, Pptx.shape_id sh) ->
          registered c1 p' i' sid = registered c p' i' sid)
    /\ match registered c p i (Pptx.shape_id sh) with
       | Some e0 => e = e0 /\ Pptx.uuids_drawn c1 = Pptx.uuids_drawn c
       | None => e = Pptx.uuid4 c (Pptx.uuids_drawn c)
                 /\ Pptx.uuids_drawn c1 = S (Pptx.uuids_drawn c)
       end
    /\ Pptx.uuid4 c1 = Pptx.uuid4 c
    /\ Pptx.presentations c1 = Pptx.presentations c
    /\ Pptx.current_presentation c1 = Pptx.current_presentation c
    /\ Pptx.objects c1 = Pptx.objects c
    /\ Pptx.disk c1 = Pptx.disk c.
Proof.
  unfold Pptx.register_element, Pptx.generate_element_id, bind, get, ret, raise,
    Pptx.modify.
  destruct (Pptx.element_ids c !! p) as [bs|] eqn:H1.
  - repeat (registry_step; rewrite ?H1).
    destruct (bs !! i) as [bsh|] eqn:H2.
    + repeat (registry_step; rewrite ?H1, ?H2).
      destruct (bsh !! Pptx.shape_id sh) as [e|] eqn:H3.
      * repeat (registry_step; rewrite ?H1, ?H2, ?H3). do 2 eexists.
        split; [reflexivity|]. unfold registered. rewrite H1, H2, H3.
        repeat split; reflexivity.
      * repeat (registry_step; rewrite ?H1, ?H2, ?H3). do 2 eexists.
        split; [reflexivity|]. split; [new_entry|].
        split; [other_entries H1 H2 p i sh|].
        split; [|repeat split; reflexivity].
        unfold registered. rewrite H1, H2, H3. split; reflexivity.
    + repeat (registry_step; rewrite ?H1, ?H2). do 2 eexists.
      split; [reflexivity|]. split; [new_entry|].
      split; [other_entries H1 H2 p i sh|].
      split; [|repeat split; reflexivity].
      unfold registered. rewrite H1, H2. split; reflexivity.
  - repeat (registry_step; rewrite ?H1). do 2 eexists.
    split; [reflexivity|]. split; [new_entry|].
    split; [other_entries H1 H1 p i sh|].
    split; [|repeat split; reflexivity].
    unfold registered. rewrite H1. split; reflexivity.
Qed.

(** X26.  [register_element] never raises, and what it registers shows in
    the tool [debug_element_mappings]: for the same path and slide the tool
    answers with a mapping that sends the shape's id to the identifier the
    registration returned and keeps every identifier registered for the
    slide before.  The tool leaves the context alone, and reports a path
    without registrations and a slide without registrations of a known path
    by their two messages. *)
Theorem registered_shapes_show_in_the_mappings
  (presentation_path : string) (slide_index : Z) (shape : Pptx.Shape)
  (c : Pptx.Context) :
  (exists element_id c1 mappings,
     Pptx.register_element presentation_path slide_index shape c
     = (Return element_id, c1)
     /\ Pptx.debug_element_mappings presentation_path slide_index c1
        = (Return (Pptx.mappings_answer presentation_path slide_index mappings),
           c1)
     /\ mappings !! Pptx.shape_id shape = Some element_id
     /\ forall shape_id e,
          registered c presentation_path slide_index shape_id = Some e ->
          mappings !! shape_id = Some e)
  /\ (Pptx.element_ids c !! presentation_path = None ->
      Pptx.debug_element_mappings presentation_path slide_index c
      = (Return (Pptx.mappings_error
                   ("No elements registered for presentation: "
                    +:+ presentation_path)), c))
  /\ (forall by_slide,
        Pptx.element_ids c !! presentation_path = Some by_slide ->
        by_slide !! slide_index = None ->
        Pptx.debug_element_mappings presentation_path slide_index c
        = (Return (Pptx.mappings_error
                     ("No elements registered for slide "
                      +:+ pretty slide_index)), c)).
Proof.
  split; [|split].
  - destruct (register_element_run presentation_path slide_index shape c)
      as (e & c1 & Hrun & Hnew & Hother & Hold & _).
    unfold registered in Hnew.
    destruct (Pptx.element_ids c1 !! presentation_path) as [bs|] eqn:H1;
      [|discriminate].
    destruct (bs !! slide_index) as [bsh|] eqn:H2; [|discriminate].
    exists e, c1, bsh. split; [exact Hrun|]. split; [|split; [exact Hnew|]].
    + unfold Pptx.debug_element_mappings, try_except, bind, get, ret.
      now rewrite H1, H2.
    + intros sid e' Hreg.
      destruct (decide (sid = Pptx.shape_id shape)) as [->|Hne].
      * rewrite Hreg in Hold. destruct Hold as [-> _]. exact Hnew.
      * rewrite <- Hother in Hreg by congruence.
        unfold registered in Hreg. now rewrite H1, H2 in Hreg.
  - intros H1. unfold Pptx.debug_element_mappings, try_except, bind, get, ret.
    now rewrite H1.
  - intros bs H1 H2.
    unfold Pptx.debug_element_mappings, try_except, bind, get, ret.
    now rewrite H1, H2.
Qed.

Lemma find_all_false {A} (p : A -> bool) (l : list A) :
  (forall x, p x = false) -> find p l = None.
Proof.
  intros H. induction l as [|x l IH]; [reflexivity|]. cbn. now rewrite H.
Qed.

(** X27.  [get_shape_by_id] never raises and changes nothing.  A shape it
    returns is on the slide of that index, and the registry holds the
    identifier for the shape's id under the current presentation and that
    slide; and when some shape of the slide is registered so, the call
    returns a shape, the first of the slide that is. *)
Theorem get_shape_by_id_returns_a_registered_shape
  (presentation : nat) (slide_index : Z) (element_id : string)
  (c : Pptx.Context) :
  exists answer,
    Pptx.get_shape_by_id presentation slide_index element_id c
    = (Return answer, c)
    /\ (forall shape, answer = Some shape ->
          exists pres slide key,
            Pptx.objects c !! presentation = Some pres
            /\ slide_index < Z.of_nat (length (Pptx.slides pres))
            /\ getitem (Pptx.slides pres) slide_index = Return slide
            /\ In shape (Pptx.shapes slide)
            /\ Pptx.current_presentation c = Some key
            /\ registered c key slide_index (Pptx.shape_id shape)
               = Some element_id)
    /\ (forall pres slide key,
          Pptx.objects c !! presentation = Some pres ->
          slide_index < Z.of_nat (length (Pptx.slides pres)) ->
          getitem (Pptx.slides pres) slide_index = Return slide ->
          Pptx.current_presentation c = Some key ->
          truthy key = true ->
          answer
          = find (fun shape =>
                    bool_decide (registered c key slide_index
                                   (Pptx.shape_id shape) = Some element_id))
                 (Pptx.shapes slide)).
Proof.
  unfold Pptx.get_shape_by_id, try_except, Pptx.deref, bind at 1 2, get.
  destruct (Pptx.objects c !! presentation) as [pres|] eqn:Hobj.
  2:{ exists None. split; [reflexivity|]. split; [discriminate|discriminate]. }
  unfold ret at 1. cbv beta iota.
  destruct (Z.leb_spec (Z.of_nat (length (Pptx.slides pres))) slide_index)
    as [Hge|Hlt].
  { exists None. split; [reflexivity|]. split; [discriminate|].
    intros pres' slide key [= <-] H. lia. }
  unfold bind at 1, lift.
  destruct (getitem (Pptx.slides pres) slide_index) as [slide|ex] eqn:Hitem.
  2:{ exists None. split; [reflexivity|]. split; [discriminate|].
      intros pres' slide key [= <-] _ H. congruence. }
  unfold bind at 1.
  destruct (Pptx.current_presentation c) as [key|] eqn:Hcur.
  2:{ exists None. split; [reflexivity|]. split; [discriminate|].
      intros pres' slide' key [= <-] _ _ H. discriminate. }
  destruct (truthy key) eqn:Hkey; cbn [negb].
  2:{ exists None. split; [reflexivity|]. split; [discriminate|].
      intros pres' slide' key' [= <-] _ _ [= <-] H. congruence. }
  set (p := fun shape =>
              bool_decide (registered c key slide_index (Pptx.shape_id shape)
                           = Some element_id)).
  assert (Hsound : forall shape, find p (Pptx.shapes slide) = Some shape ->
            exists pres' slide' key',
              Some pres = Some pres'
              /\ slide_index < Z.of_nat (length (Pptx.slides pres'))
              /\ getitem (Pptx.slides pres') slide_index = Return slide'
              /\ In shape (Pptx.shapes slide')
              /\ Some key = Some key'
              /\ registered c key' slide_index (Pptx.shape_id shape)
                 = Some element_id).
  { intros shape Hfind. apply find_some in Hfind as [Hin Hp].
    apply bool_decide_eq_true in Hp. exists pres, slide, key. auto 10. }
  assert (Hcomplete : forall pres' slide' key',
            Some pres = Some pres' ->
            slide_index < Z.of_nat (length (Pptx.slides pres')) ->
            getitem (Pptx.slides pres') slide_index = Return slide' ->
            Some key = Some key' -> truthy key' = true ->
            find p (Pptx.shapes slide)
            = find (fun shape =>
                      bool_decide (registered c key' slide_index
                                     (Pptx.shape_id shape) = Some element_id))
                   (Pptx.shapes slide')).
  { intros pres' slide' key' [= <-] _ Hitem' [= <-] _.
    rewrite Hitem in Hitem'. now injection Hitem' as <-. }
  destruct (Pptx.element_ids c !! key) as [bs|] eqn:H1.
  2:{ exists (find p (Pptx.shapes slide)).
      assert (E : find p (Pptx.shapes slide) = None).
      { apply find_all_false. intros shape. unfold p, registered.
        rewrite H1. now apply bool_decide_eq_false. }
      rewrite E in *. auto. }
  destruct (bs !! slide_index) as [bsh|] eqn:H2.
  2:{ exists (find p (Pptx.shapes slide)).
      assert (E : find p (Pptx.shapes slide) = None).
      { apply find_all_false. intros shape. unfold p, registered.
        rewrite H1, H2. now apply bool_decide_eq_false. }
      rewrite E in *. auto. }
  exists (find p (Pptx.shapes slide)). split; [|auto].
  replace (find p (Pptx.shapes slide))
    with (option_map (fun x : Pptx.Shape => x) (find p (Pptx.shapes slide)))
    by (now destruct (find p _)).
  match goal with
  | |- (let (_, _) := ?f c in _) = _ =>
      assert (E : f c = (Return (option_map (fun x => x)
                                   (find p (Pptx.shapes slide))), c));
      [|rewrite E; reflexivity]
  end.
  apply for_return_first. intros shape. unfold p, registered. rewrite H1, H2.
  destruct (bsh !! Pptx.shape_id shape) as [e|] eqn:H3.
  - destruct (String.eqb_spec e element_id) as [->|Hne].
    + now rewrite bool_decide_eq_true_2.
    + rewrite bool_decide_eq_false_2; [reflexivity|congruence].
  - now rewrite bool_decide_eq_false_2.
Qed.

Lemma get_presentation_same_registry path (c : Pptx.Context) :
  same_registry c (snd (Pptx.get_presentation path c)).
Proof.
  destruct (Pptx.presentations c !! Pptx.path_str_of (Pptx.workspace_dir c) path)
    as [r|] eqn:H.
  - rewrite (get_presentation_cached path c r H). now repeat split.
  - destruct (tree_at (Pptx.disk c
                       (Pptx.path_str_of (Pptx.workspace_dir c) path)))
      as [tree|] eqn:Ht.
    + rewrite (get_presentation_first path c tree H Ht). now repeat split.
    + destruct (Pptx.disk c (Pptx.path_str_of (Pptx.workspace_dir c) path))
        as [[[file|e]|]|e] eqn:Hd; try discriminate.
      * rewrite (get_presentation_fails path c e H Hd). now repeat split.
      * rewrite (get_presentation_unreachable path c e H Hd). now repeat split.
Qed.

Lemma perform_same_registry op (c : Pptx.Context) :
  match op with Register_element _ _ _ => True
           | _ => same_registry c (perform op c) end.
Proof.
  destruct op as [path|path|p i sh|p i e|path|path i]; cbn [perform].
  - apply get_presentation_same_registry.
  - unfold Pptx.save_presentation, Pptx.deref, bind, get, ret, raise, Pptx.modify.
    destruct path as [path|]; [destruct (truthy path)|];
      repeat (match goal with
              | |- context [match ?x with _ => _ end] =>
                  match x with
                  | context [match _ with _ => _ end] => fail 1
                  | _ => destruct x eqn:?
                  end
              end; cbn [snd fst] in *);
      now repeat split.
  - exact I.
  - rewrite get_shape_by_id_pure. now repeat split.
  - unfold Pptx.get_slide_count, bind.
    pose proof (get_presentation_same_registry path c) as H.
    destruct (Pptx.get_presentation path c) as [[r|ex] c1]; cbn [snd] in *;
      [|exact H].
    unfold Pptx.deref, bind, get, ret, raise.
    destruct (Pptx.objects c1 !! r); exact H.
  - unfold Pptx.delete_slide, bind.
    pose proof (get_presentation_same_registry path c) as H.
    destruct (Pptx.get_presentation path c) as [[r|ex] c1]; cbn [snd] in *;
      [|exact H].
    unfold Pptx.deref, bind, get, ret, raise, lift, Pptx.modify.
    destruct (Pptx.objects c1 !! r) as [pres|]; [|exact H].
    destruct (_ && _); [|exact H].
    destruct (getitem (Pptx.slides pres) i); exact H.
Qed.

Lemma same_registry_registered (c c' : Pptx.Context) p i sid :
  same_registry c c' -> registered c' p i sid = registered c p i sid.
Proof. intros (H & _). unfold registered. now rewrite H. Qed.

(** The three facts that every operation keeps. *)
Lemma perform_registry op (c : Pptx.Context) :
  (forall j k, Pptx.uuid4 c j = Pptx.uuid4 c k -> j = k) ->
  registry_drawn c -> registry_unique c ->
  Pptx.uuid4 (perform op c) = Pptx.uuid4 c
  /\ registry_drawn (perform op c) /\ registry_unique (perform op c).
Proof.
  intros Hinj Hdrawn Hunique.
  assert (Hsame : forall c', same_registry c c' ->
            Pptx.uuid4 c' = Pptx.uuid4 c
            /\ registry_drawn c' /\ registry_unique c').
  { intros c' Hs. pose proof Hs as (_ & Hu & Hn). split; [exact Hu|]. split.
    - intros p i sid e H. rewrite (same_registry_registered c c') in H by exact Hs.
      rewrite Hu, Hn. eauto.
    - intros p1 i1 s1 p2 i2 s2 e H1 H2.
      rewrite (same_registry_registered c c') in H1, H2 by exact Hs. eauto. }
  pose proof (perform_same_registry op c) as Hop.
  destruct op as [path|path|p i sh|p i e|path|path i]; try (apply Hsame, Hop).
  clear Hop. cbn [perform].
  destruct (register_element_run p i sh c)
    as (e & c1 & Hrun & Hnew & Hother & Hold & Hu & _).
  rewrite Hrun. cbn [snd]. split; [exact Hu|].
  assert (Hcases : forall p' i' sid e',
            registered c1 p' i' sid = Some e' ->
            ((p', i', sid) = (p, i, Pptx.shape_id sh) /\ e' = e)
            \/ ((p', i', sid) <> (p, i, Pptx.shape_id sh)
                /\ registered c p' i' sid = Some e')).
  { intros p' i' sid e' H.
    destruct (decide ((p', i', sid) = (p, i, Pptx.shape_id sh))) as [E|E].
    - left. split; [exact E|]. injection E as -> -> ->. congruence.
    - right. split; [exact E|]. now rewrite <- Hother. }
  destruct (registered c p i (Pptx.shape_id sh)) as [e0|] eqn:Hreg.
  - destruct Hold as [-> Hn].
    assert (Hall : forall p' i' sid,
              registered c1 p' i' sid = registered c p' i' sid).
    { intros p' i' sid.
      destruct (decide ((p', i', sid) = (p, i, Pptx.shape_id sh))) as [E|E].
      - injection E as -> -> ->. congruence.
      - now apply Hother. }
    split.
    + intros p' i' sid e' H. rewrite Hall in H. rewrite Hu, Hn. eauto.
    + intros p1 i1 s1 p2 i2 s2 e' H1 H2. rewrite Hall in H1, H2. eauto.
  - destruct Hold as [-> Hn]. split.
    + intros p' i' sid e' H. rewrite Hu, Hn.
      destruct (Hcases _ _ _ _ H) as [[_ ->]|[_ H']].
      * exists (Pptx.uuids_drawn c). split; [lia|reflexivity].
      * destruct (Hdrawn _ _ _ _ H') as (k & Hk & ->). exists k. split; [lia|auto].
    + intros p1 i1 s1 p2 i2 s2 e' H1 H2.
      destruct (Hcases _ _ _ _ H1) as [[E1 ->]|[_ H1']];
        destruct (Hcases _ _ _ _ H2) as [[E2 E]|[_ H2']].
      * congruence.
      * destruct (Hdrawn _ _ _ _ H2') as (k & Hk & E). apply Hinj in E. lia.
      * subst e'. destruct (Hdrawn _ _ _ _ H1') as (k & Hk & E).
        apply Hinj in E. lia.
      * eauto.
Qed.

(** X28.  Element identifiers are unique.  When [uuid4] never repeats
    itself, every identifier in the registry is one it has handed out and
    no two entries share one, then the same holds after any sequence of the
    operations of the context: each (path, slide, shape id) that is
    registered has an identifier of its own.  This is so in particular
    from the empty registry a server starts with. *)
Theorem element_ids_stay_unique (ops : list operation) (c : Pptx.Context) :
  (forall j k, Pptx.uuid4 c j = Pptx.uuid4 c k -> j = k) ->
  registry_drawn c -> registry_unique c ->
  registry_drawn (perform_all ops c) /\ registry_unique (perform_all ops c).
Proof.
  revert c. induction ops as [|op ops IH]; intros c Hinj Hdrawn Hunique.
  - now split.
  - cbn. destruct (perform_registry op c Hinj Hdrawn Hunique) as (Hu & Hd & Hq).
    apply IH; [|exact Hd|exact Hq]. rewrite Hu. exact Hinj.
Qed.

Lemma fresh_uuid4_never_repeats j k :
  Pptx.uuid4 fresh_context j = Pptx.uuid4 fresh_context k -> j = k.
Proof.
  cbn [Pptx.uuid4 fresh_context]. intros H.
  apply (inj (String.append "uuid-")) in H. now apply (inj pretty) in H.
Qed.

Lemma empty_registry (c : Pptx.Context) :
  Pptx.element_ids c = ∅ -> registry_drawn c /\ registry_unique c.
Proof.
  intros H.
  assert (E : forall p i sid, registered c p i sid = None)
    by (intros; unfold registered; now rewrite H, lookup_empty).
  split.
  - intros p i sid e Hr. now rewrite E in Hr.
  - intros p1 i1 s1 p2 i2 s2 e Hr. now rewrite E in Hr.
Qed.

Lemma element_ids_witness :
  let c := perform_all [ Get_presentation "deck.pptx";
                         Register_element "deck.pptx" 0 title_box;
                         Register_element "deck.pptx" 0 logo;
                         Register_element "deck.pptx" 0 title_box ]
                       fresh_context in
  registry_unique c
  /\ registered c "deck.pptx" 0 2 = Some "uuid-0"
  /\ registered c "deck.pptx" 0 3 = Some "uuid-1".
Proof.
  split; [|split; reflexivity].
  apply (element_ids_stay_unique _ fresh_context fresh_uuid4_never_repeats
           (proj1 (empty_registry fresh_context eq_refl))
           (proj2 (empty_registry fresh_context eq_refl))).
Defined.

End Documents.
